(** * Bootstrap of the CernVM-FS client (cvmfs/mountpoint.cc)

    A shallow embedding of [FileSystem] and [MountPoint]: the two
    factories [FileSystem::Create] and [MountPoint::Create] and the
    helper methods they call.  Member variables become record fields and
    every method is a function from the object to its return value and
    the updated object.  Calls that leave mountpoint.cc (file system,
    locks, cache back ends, download, signature, catalog) are answered
    by an environment [Env]; each such call is also appended to the
    object's [trace_], so that the order and number of external effects
    can be stated. *)

From Stdlib Require Import ZArith Ascii String List Lia Bool.
From stdpp Require Import base strings gmap list.

Local Open Scope string_scope.
Local Open Scope Z_scope.

(** ** Outcomes, machine integers, failure codes *)

(** A call either returns, or one of the source's [assert]s fails and the
    process terminates ([Abort]), or the recursion budget of the model is
    used up ([OutOfFuel]; shown below never to happen for the budget that
    [TriageCacheMgr] hands out). *)
Inductive outcome (A : Type) : Type :=
| Ret (a : A)
| Abort
| OutOfFuel.
Arguments Ret {A} a.
Arguments Abort {A}.
Arguments OutOfFuel {A}.

#[global] Instance outcome_ret : MRet outcome := fun A a => Ret a.
#[global] Instance outcome_bind : MBind outcome := fun A B k m =>
  match m with
  | Ret a => k a
  | Abort => Abort
  | OutOfFuel => OutOfFuel
  end.

Definition wrap_uint32 (z : Z) : Z := z mod 2 ^ 32.
Definition wrap_uint64 (z : Z) : Z := z mod 2 ^ 64.
Definition wrap_int64 (z : Z) : Z := (z + 2 ^ 63) mod 2 ^ 64 - 2 ^ 63.

(** [static_cast<double>] of an integer.  A double holds 53 significant
    bits: an integer of at most 53 bits is converted exactly, a longer one
    is rounded to the nearest multiple of its unit in the last place, a
    tie to the even multiple.  The result is an integer again, so that the
    doubles of the model are kept by their value. *)
Definition static_cast_double (z : Z) : Z :=
  let a := Z.abs z in
  if a <? 2 ^ 53 then z
  else
    let ulp := 2 ^ (Z.log2 a - 52) in
    let q := a / ulp in
    let r := a mod ulp in
    let q :=
      if 2 * r <? ulp then q
      else if ulp <? 2 * r then q + 1
      else if Z.even q then q else q + 1 in
    Z.sgn z * (q * ulp).

Module loader.
(** The codes of loader::Failures that mountpoint.cc assigns, and
    [kFailUnknown], the value a context holds before any stage has
    written to it. *)
Inductive Failures : Set :=
| kFailOk
| kFailUnknown
| kFailOptions
| kFailCacheDir
| kFailNfsMaps
| kFailQuota
| kFailSignature
| kFailCatalog
| kFailHistory
| kFailWpad
| kFailLockWorkspace.

#[global] Instance Failures_eq_dec : EqDecision Failures.
Proof. solve_decision. Defined.

(** The failure codes of the closed taxonomy: everything except
    success and the not-yet-written default. *)
Definition is_failure_code (c : Failures) : bool :=
  match c with
  | kFailOk | kFailUnknown => false
  | _ => true
  end.
End loader.
Import loader.

(** ** Data of the cache layer *)

Inductive FsType : Set := kFsFuse | kFsLibrary.

#[global] Instance FsType_eq_dec : EqDecision FsType.
Proof. solve_decision. Defined.

Inductive MemoryAllocator : Set := kMallocLibc | kMallocHeap.

(** The constructed cache manager.  A tiered manager holds (owns) its
    upper and its lower manager. *)
Inductive CacheManager : Type :=
| PosixCacheManager (cache_path : string) (alien_cache avoid_rename has_quota : bool)
| RamCacheManager (sz_cache_bytes nfiles : Z) (alloc : MemoryAllocator)
| TieredCacheManager (upper lower : CacheManager)
| ExternalCacheManager (fd_connection nfiles : Z) (ident : string).

Inductive CacheManagerType : Set :=
| kPosixCacheManager | kRamCacheManager | kTieredCacheManager | kExternalCacheManager.

(** [CacheManager::id()] *)
Definition cache_mgr_id (m : CacheManager) : CacheManagerType :=
  match m with
  | PosixCacheManager _ _ _ _ => kPosixCacheManager
  | RamCacheManager _ _ _ => kRamCacheManager
  | TieredCacheManager _ _ => kTieredCacheManager
  | ExternalCacheManager _ _ _ => kExternalCacheManager
  end.

Record PosixCacheSettings : Type := mkPosixCacheSettings {
  is_shared : bool;
  is_alien : bool;
  is_managed : bool;
  avoid_rename : bool;
  cache_base_defined : bool;
  cache_dir_defined : bool;
  quota_limit : Z;
  cache_path : string
}.

(** What the bootstrap reads from a posix quota manager: GetSize(),
    GetCapacity() and the result of Cleanup(leave_size). *)
Record PosixQuotaManager : Type := mkPosixQuotaManager {
  GetSize : Z;
  GetCapacity : Z;
  Cleanup : Z -> bool
}.

Record PluginHandle : Type := mkPluginHandle {
  IsValid : bool;
  fd_connection : Z;
  error_msg : string
}.

Record FileSystemInfo : Type := mkFileSystemInfo {
  info_name : string;
  info_exe_path : string;
  info_type : FsType;
  info_options_mgr : gmap string string;
  info_wait_workspace : bool;
  info_foreground : bool
}.

(** ** External effects *)

Inductive IoEvent : Type :=
| IoSetLog (what value : string)
| IoStatisticsCreate
| IoSqliteShutdown
| IoSqliteConfig
| IoSqliteTempDirectory (dir : string)
| IoMkdirDeep (path : string) (mode : Z)
| IoTryLockFile (path : string)
| IoLockFile (path : string)
| IoChdir (path : string)
| IoStat (path : string)
| IoOpenCreat (path : string)
| IoCreateFile (path : string) (ignore_failure : bool)
| IoFileExists (path : string)
| IoPosixCacheCreate (cache_path : string) (alien avoid_rename : bool)
| IoQuotaCreateShared (exe_path cache_path : string) (limit threshold : Z) (foreground : bool)
| IoQuotaCreate (cache_path : string) (limit threshold : Z) (rebuild : bool)
| IoQuotaCleanup (leave_size : Z)
| IoQuotaDelete
| IoAcquireQuotaManager
| IoRamCacheCreate (sz_cache_bytes nfiles : Z) (alloc : MemoryAllocator)
| IoCreatePlugin (locator : string) (cmd_line : list string)
| IoExternalCacheCreate (fd nfiles : Z) (ident : string)
| IoTieredCacheCreate
| IoUuidCreate (path : string)
| IoNfsMapsInit (dir : string) (root_inode : Z) (rebuild shared : bool)
| IoRegisterVfsRdOnly
| IoClientCtx.

(** True for the events that construct a cache manager object. *)
Definition is_cache_construction (e : IoEvent) : bool :=
  match e with
  | IoPosixCacheCreate _ _ _ | IoRamCacheCreate _ _ _
  | IoExternalCacheCreate _ _ _ | IoTieredCacheCreate => true
  | _ => false
  end.

Definition is_cleanup (e : IoEvent) : bool :=
  match e with IoQuotaCleanup _ => true | _ => false end.

(** ** The environment

    Everything mountpoint.cc calls but does not define.  The first group
    is code and constants of the repository that are not part of the
    translated file (options.cc, util/string.cc, util/posix.cc,
    mountpoint.h); they are taken as parameters.  The second group is
    the answer of the operating system and of the collaborators. *)
Record Env : Type := mkEnv {
  IsOn : string -> bool;
  String2Int64 : string -> Z;
  String2Uint64 : string -> Z;
  StringifyInt : Z -> string;
  MakeCanonicalPath : string -> string;
  SplitString : string -> ascii -> list string;
  kDefaultQuotaLimit : Z;
  kDefaultNfiles : Z;
  kInodeOffset : Z;
  CVMFS_NFS_SUPPORT : bool;

  errno : Z;
  strerror : Z -> string;
  platform_memsize : Z;
  sqlite3_config_ok : bool;
  MkdirDeep : string -> Z -> bool;
  TryLockFile : string -> Z;
  LockFile : string -> Z;
  chdir : string -> Z;
  platform_stat : string -> Z;
  open_creat : string -> Z;
  CreateFile_creates : string -> Z -> bool;
  FileExists : string -> bool;
  PosixCacheManager_Create : string -> bool -> bool -> bool;
  PosixQuotaManager_CreateShared :
    string -> string -> Z -> Z -> bool -> option PosixQuotaManager;
  PosixQuotaManager_Create :
    string -> Z -> Z -> bool -> option PosixQuotaManager;
  AcquireQuotaManager : bool;
  ExternalCacheManager_CreatePlugin : string -> list string -> PluginHandle;
  ExternalCacheManager_Create : Z -> Z -> string -> bool;
  TieredCacheManager_Create : CacheManager -> CacheManager -> bool;
  Uuid_Create : string -> bool;
  nfs_maps_Init : string -> Z -> bool -> bool -> bool;
  RegisterVfsRdOnly : bool
}.

(** ** The FileSystem object *)

Record FileSystem : Type := mkFileSystem {
  name_ : string;
  exe_path_ : string;
  type_ : FsType;
  options_mgr_ : gmap string string;
  wait_workspace_ : bool;
  foreground_ : bool;
  statistics_ : bool;
  workspace_ : string;
  workspace_fullpath_ : string;
  path_workspace_lock_ : string;
  fd_workspace_lock_ : Z;
  path_crash_guard_ : string;
  found_previous_crash_ : bool;
  nfs_mode_ : Z;
  nfs_maps_dir_ : string;
  cache_mgr_instance_ : string;
  constructed_instances_ : gset string;
  cache_mgr_ : option CacheManager;
  uuid_cache_ : option string;
  has_nfs_maps_ : bool;
  has_custom_sqlitevfs_ : bool;
  boot_status_ : Failures;
  boot_error_ : string;
  trace_ : list IoEvent
}.

Definition kDefaultCacheBase : string := "/var/lib/cvmfs".
Definition kDefaultCacheMgrInstance : string := "default".

(** Flags of [nfs_mode_] (an enum of the class declaration). *)
Definition kNfsNone : Z := 0.
Definition kNfsMaps : Z := 1.
Definition kNfsMapsHa : Z := 2.

Definition IsNfsSource (fs : FileSystem) : bool :=
  negb (Z.land (nfs_mode_ fs) kNfsMaps =? 0).
Definition IsHaNfsSource (fs : FileSystem) : bool :=
  negb (Z.land (nfs_mode_ fs) kNfsMapsHa =? 0).

(** Assignments to single members. *)
Definition set_statistics_ (v : bool) (fs : FileSystem) : FileSystem :=
  let 'mkFileSystem a b c d e f _ h i j k l m n o p q r s t u v0 w x := fs in
  mkFileSystem a b c d e f v h i j k l m n o p q r s t u v0 w x.
Definition set_workspace_ (v : string) (fs : FileSystem) : FileSystem :=
  let 'mkFileSystem a b c d e f g _ i j k l m n o p q r s t u v0 w x := fs in
  mkFileSystem a b c d e f g v i j k l m n o p q r s t u v0 w x.
Definition set_workspace_fullpath_ (v : string) (fs : FileSystem) : FileSystem :=
  let 'mkFileSystem a b c d e f g h _ j k l m n o p q r s t u v0 w x := fs in
  mkFileSystem a b c d e f g h v j k l m n o p q r s t u v0 w x.
Definition set_path_workspace_lock_ (v : string) (fs : FileSystem) : FileSystem :=
  let 'mkFileSystem a b c d e f g h i _ k l m n o p q r s t u v0 w x := fs in
  mkFileSystem a b c d e f g h i v k l m n o p q r s t u v0 w x.
Definition set_fd_workspace_lock_ (v : Z) (fs : FileSystem) : FileSystem :=
  let 'mkFileSystem a b c d e f g h i j _ l m n o p q r s t u v0 w x := fs in
  mkFileSystem a b c d e f g h i j v l m n o p q r s t u v0 w x.
Definition set_path_crash_guard_ (v : string) (fs : FileSystem) : FileSystem :=
  let 'mkFileSystem a b c d e f g h i j k _ m n o p q r s t u v0 w x := fs in
  mkFileSystem a b c d e f g h i j k v m n o p q r s t u v0 w x.
Definition set_found_previous_crash_ (v : bool) (fs : FileSystem) : FileSystem :=
  let 'mkFileSystem a b c d e f g h i j k l _ n o p q r s t u v0 w x := fs in
  mkFileSystem a b c d e f g h i j k l v n o p q r s t u v0 w x.
Definition set_nfs_mode_ (v : Z) (fs : FileSystem) : FileSystem :=
  let 'mkFileSystem a b c d e f g h i j k l m _ o p q r s t u v0 w x := fs in
  mkFileSystem a b c d e f g h i j k l m v o p q r s t u v0 w x.
Definition set_nfs_maps_dir_ (v : string) (fs : FileSystem) : FileSystem :=
  let 'mkFileSystem a b c d e f g h i j k l m n _ p q r s t u v0 w x := fs in
  mkFileSystem a b c d e f g h i j k l m n v p q r s t u v0 w x.
Definition set_cache_mgr_instance_ (v : string) (fs : FileSystem) : FileSystem :=
  let 'mkFileSystem a b c d e f g h i j k l m n o _ q r s t u v0 w x := fs in
  mkFileSystem a b c d e f g h i j k l m n o v q r s t u v0 w x.
Definition set_constructed_instances_ (v : gset string) (fs : FileSystem) : FileSystem :=
  let 'mkFileSystem a b c d e f g h i j k l m n o p _ r s t u v0 w x := fs in
  mkFileSystem a b c d e f g h i j k l m n o p v r s t u v0 w x.
Definition set_cache_mgr_ (v : option CacheManager) (fs : FileSystem) : FileSystem :=
  let 'mkFileSystem a b c d e f g h i j k l m n o p q _ s t u v0 w x := fs in
  mkFileSystem a b c d e f g h i j k l m n o p q v s t u v0 w x.
Definition set_uuid_cache_ (v : option string) (fs : FileSystem) : FileSystem :=
  let 'mkFileSystem a b c d e f g h i j k l m n o p q r _ t u v0 w x := fs in
  mkFileSystem a b c d e f g h i j k l m n o p q r v t u v0 w x.
Definition set_has_nfs_maps_ (v : bool) (fs : FileSystem) : FileSystem :=
  let 'mkFileSystem a b c d e f g h i j k l m n o p q r s _ u v0 w x := fs in
  mkFileSystem a b c d e f g h i j k l m n o p q r s v u v0 w x.
Definition set_has_custom_sqlitevfs_ (v : bool) (fs : FileSystem) : FileSystem :=
  let 'mkFileSystem a b c d e f g h i j k l m n o p q r s t _ v0 w x := fs in
  mkFileSystem a b c d e f g h i j k l m n o p q r s t v v0 w x.
Definition set_boot_status_ (v : Failures) (fs : FileSystem) : FileSystem :=
  let 'mkFileSystem a b c d e f g h i j k l m n o p q r s t u _ w x := fs in
  mkFileSystem a b c d e f g h i j k l m n o p q r s t u v w x.
Definition set_boot_error_ (v : string) (fs : FileSystem) : FileSystem :=
  let 'mkFileSystem a b c d e f g h i j k l m n o p q r s t u v0 _ x := fs in
  mkFileSystem a b c d e f g h i j k l m n o p q r s t u v0 v x.
(** An external call is recorded at the end of the trace. *)
Definition io (ev : IoEvent) (fs : FileSystem) : FileSystem :=
  let 'mkFileSystem a b c d e f g h i j k l m n o p q r s t u v0 w x := fs in
  mkFileSystem a b c d e f g h i j k l m n o p q r s t u v0 w (x ++ [ev]).

(** [boot_error_ = msg; boot_status_ = code;] *)
Definition fail (code : Failures) (msg : string) (fs : FileSystem) : FileSystem :=
  set_boot_status_ code (set_boot_error_ msg fs).

(** Modelled from the spec: sanitizer::CacheInstanceSanitizer is declared
    outside mountpoint.cc; an instance name is valid when it consists of
    letters, digits and the underscore only. *)
Definition instance_char_ok (c : ascii) : bool :=
  let n := Z.of_nat (nat_of_ascii c) in
  ((97 <=? n) && (n <=? 122)) || ((65 <=? n) && (n <=? 90)) ||
  ((48 <=? n) && (n <=? 57)) || (n =? 95).

Definition CacheInstanceSanitizer_IsValid (instance : string) : bool :=
  forallb instance_char_ok (list_ascii_of_string instance).

(** [HasSuffix(str, "%", false)] of util/string. *)
Fixpoint ends_with_percent (s : string) : bool :=
  match s with
  | EmptyString => false
  | String c EmptyString => Ascii.eqb c "%"%char
  | String _ rest => ends_with_percent rest
  end.

(** Modelled from the spec: RoundUp8 of the utility headers rounds up to
    a multiple of 8 (in 64 bit unsigned arithmetic). *)
Definition RoundUp8 (size : Z) : Z := wrap_uint64 ((size + 7) / 8 * 8).

Section FileSystemMethods.

Variable E : Env.

(** Modelled from the spec: CreateFile of the posix utilities is not part
    of mountpoint.cc.  A failure to write the file is tolerated only when
    [ignore_failure] is set; otherwise it is unrecoverable. *)
Definition CreateFile (path : string) (mode : Z) (ignore_failure : bool)
  : outcome unit :=
  if CreateFile_creates E path mode || ignore_failure then Ret tt else Abort.

Definition GetValue (fs : FileSystem) (key : string) : option string :=
  options_mgr_ fs !! key.

Definition IsDefined (fs : FileSystem) (key : string) : bool :=
  bool_decide (is_Some (options_mgr_ fs !! key)).

(** The constructor: members as in the initialiser list.  [g_alive] is
    the static flag; it is asserted to be clear. *)
Definition FileSystem_new (g_alive : bool) (fs_info : FileSystemInfo)
  : outcome FileSystem :=
  if g_alive then Abort
  else Ret {|
    name_ := info_name fs_info;
    exe_path_ := info_exe_path fs_info;
    type_ := info_type fs_info;
    options_mgr_ := info_options_mgr fs_info;
    wait_workspace_ := info_wait_workspace fs_info;
    foreground_ := info_foreground fs_info;
    statistics_ := false;
    workspace_ := "";
    workspace_fullpath_ := "";
    path_workspace_lock_ := "";
    fd_workspace_lock_ := -1;
    path_crash_guard_ := "";
    found_previous_crash_ := false;
    nfs_mode_ := kNfsNone;
    nfs_maps_dir_ := "";
    cache_mgr_instance_ := "";
    constructed_instances_ := ∅;
    cache_mgr_ := None;
    uuid_cache_ := None;
    has_nfs_maps_ := false;
    has_custom_sqlitevfs_ := false;
    boot_status_ := kFailUnknown;
    boot_error_ := "";
    trace_ := []
  |}.

Definition CheckInstanceName (instance : string) (fs : FileSystem)
  : bool * FileSystem :=
  if (24 <? String.length instance)%nat then (false, fs)
  else if negb (CacheInstanceSanitizer_IsValid instance) then
    (false,
     fail kFailCacheDir
       ("invalid instance name (" +:+ instance +:+ "), " +:+
        "only characters a-z, A-Z, 0-9, _ are allowed") fs)
  else (true, fs).

Definition CheckPosixCacheSettings (settings : PosixCacheSettings)
  (fs : FileSystem) : bool * FileSystem :=
  if is_alien settings && is_shared settings then
    (false,
     fail kFailOptions
       ("Failure: shared local disk cache and alien cache mutually " +:+
        "exclusive. Please turn off shared local disk cache.") fs)
  else if is_alien settings && is_managed settings then
    (false,
     fail kFailOptions
       ("Failure: quota management and alien cache mutually " +:+
        "exclusive. Please turn off quota limit.") fs)
  else if bool_decide (type_ fs = kFsLibrary) &&
          (is_shared settings || is_managed settings) then
    (false,
     fail kFailOptions
       ("Failure: libcvmfs supports only unmanaged exclusive cache " +:+
        "or alien cache.") fs)
  else if cache_base_defined settings && cache_dir_defined settings then
    (false,
     fail kFailOptions
       "'CVMFS_CACHE_BASE' and 'CVMFS_CACHE_DIR' are mutually exclusive" fs)
  else (true, fs).

Definition MkCacheParm (fs : FileSystem) (generic_parameter instance : string)
  : string :=
  if String.eqb instance kDefaultCacheMgrInstance then
    if String.eqb generic_parameter "CVMFS_CACHE_SHARED" &&
       negb (IsDefined fs generic_parameter) then "CVMFS_SHARED_CACHE"
    else if String.eqb generic_parameter "CVMFS_CACHE_ALIEN" &&
            negb (IsDefined fs generic_parameter) then "CVMFS_ALIEN_CACHE"
    else if String.eqb generic_parameter "CVMFS_CACHE_SERVER_MODE" &&
            negb (IsDefined fs generic_parameter) then "CVMFS_SERVER_CACHE_MODE"
    else if String.eqb generic_parameter "CVMFS_CACHE_QUOTA_LIMIT" &&
            negb (IsDefined fs generic_parameter) then "CVMFS_QUOTA_LIMIT"
    else generic_parameter
  else
    "CVMFS_CACHE_" +:+ instance +:+ "_" +:+
    substring 12 (String.length generic_parameter - 12) generic_parameter.

Definition DeterminePosixCacheSettings (instance : string) (fs : FileSystem)
  : PosixCacheSettings :=
  let is_shared :=
    match GetValue fs (MkCacheParm fs "CVMFS_CACHE_SHARED" instance) with
    | Some optarg => IsOn E optarg
    | None => false
    end in
  let avoid_rename :=
    match GetValue fs (MkCacheParm fs "CVMFS_CACHE_SERVER_MODE" instance) with
    | Some optarg => IsOn E optarg
    | None => false
    end in
  let quota_limit :=
    if bool_decide (type_ fs = kFsFuse) then kDefaultQuotaLimit E else 0 in
  let quota_limit :=
    match GetValue fs (MkCacheParm fs "CVMFS_CACHE_QUOTA_LIMIT" instance) with
    | Some optarg => wrap_int64 (String2Int64 E optarg * 1024 * 1024)
    | None => quota_limit
    end in
  let is_managed := 0 <? quota_limit in
  let cache_path := kDefaultCacheBase in
  let '(cache_path, cache_base_defined) :=
    match GetValue fs (MkCacheParm fs "CVMFS_CACHE_BASE" instance) with
    | Some optarg => (MakeCanonicalPath E optarg, true)
    | None => (cache_path, false)
    end in
  let cache_path :=
    if is_shared then cache_path +:+ "/shared"
    else cache_path +:+ "/" +:+ name_ fs in
  let '(cache_path, cache_dir_defined) :=
    match GetValue fs (MkCacheParm fs "CVMFS_CACHE_DIR" instance) with
    | Some optarg => (optarg, true)
    | None => (cache_path, false)
    end in
  let '(cache_path, is_alien) :=
    match GetValue fs (MkCacheParm fs "CVMFS_CACHE_ALIEN" instance) with
    | Some optarg => (optarg, true)
    | None => (cache_path, false)
    end in
  let cache_path :=
    if String.eqb cache_path (workspace_fullpath_ fs) then "." else cache_path in
  {| is_shared := is_shared; is_alien := is_alien; is_managed := is_managed;
     avoid_rename := avoid_rename; cache_base_defined := cache_base_defined;
     cache_dir_defined := cache_dir_defined; quota_limit := quota_limit;
     cache_path := cache_path |}.

Definition DetermineNfsMode (fs : FileSystem) : bool * FileSystem :=
  let fs :=
    match GetValue fs "CVMFS_NFS_SOURCE" with
    | Some optarg =>
        if IsOn E optarg then
          let fs := set_nfs_mode_ (Z.lor (nfs_mode_ fs) kNfsMaps) fs in
          match GetValue fs "CVMFS_NFS_SHARED" with
          | Some optarg =>
              set_nfs_maps_dir_ optarg
                (set_nfs_mode_ (Z.lor (nfs_mode_ fs) kNfsMapsHa) fs)
          | None => fs
          end
        else fs
    | None => fs
    end in
  if bool_decide (type_ fs = kFsLibrary) && negb (nfs_mode_ fs =? kNfsNone) then
    (false, fail kFailOptions "Failure: libcvmfs does not support NFS export." fs)
  else (true, fs).

Definition LockWorkspace (fs : FileSystem) : outcome (bool * FileSystem) :=
  let fs := set_path_workspace_lock_ (workspace_ fs +:+ "/lock." +:+ name_ fs) fs in
  let fs := io (IoTryLockFile (path_workspace_lock_ fs))
              (set_fd_workspace_lock_ (TryLockFile E (path_workspace_lock_ fs)) fs) in
  if 0 <=? fd_workspace_lock_ fs then Ret (true, fs)
  else if fd_workspace_lock_ fs =? -1 then
    Ret (false,
         fail kFailCacheDir
           ("could not acquire workspace lock (" +:+ StringifyInt E (errno E) +:+ ")")
           fs)
  else if negb (fd_workspace_lock_ fs =? -2) then Abort
  else if negb (wait_workspace_ fs) then
    Ret (false, set_boot_status_ kFailLockWorkspace fs)
  else
    let fs := io (IoLockFile (path_workspace_lock_ fs))
                (set_fd_workspace_lock_ (LockFile E (path_workspace_lock_ fs)) fs) in
    if fd_workspace_lock_ fs <? 0 then
      Ret (false,
           fail kFailCacheDir
             ("could not acquire workspace lock (" +:+ StringifyInt E (errno E) +:+ ")")
             fs)
    else Ret (true, fs).

Definition SetupPosixQuotaMgr (settings : PosixCacheSettings) (fs : FileSystem)
  : outcome (bool * FileSystem) :=
  if quota_limit settings <? 0 then Abort
  else
    let quota_threshold := Z.quot (quota_limit settings) 2 in
    created ←
      (if is_shared settings then
         let fs := io (IoQuotaCreateShared (exe_path_ fs) (cache_path settings)
                         (quota_limit settings) quota_threshold (foreground_ fs)) fs in
         match PosixQuotaManager_CreateShared E (exe_path_ fs) (cache_path settings)
                 (quota_limit settings) quota_threshold (foreground_ fs) with
         | None =>
             Ret (None, fail kFailQuota "Failed to initialize shared lru cache" fs)
         | Some quota_mgr => Ret (Some quota_mgr, fs)
         end
       else if negb (String.eqb (workspace_ fs) (cache_path settings)) then Abort
       else
         let fs := io (IoQuotaCreate (cache_path settings) (quota_limit settings)
                         quota_threshold (found_previous_crash_ fs)) fs in
         match PosixQuotaManager_Create E (cache_path settings)
                 (quota_limit settings) quota_threshold (found_previous_crash_ fs) with
         | None => Ret (None, fail kFailQuota "Failed to initialize lru cache" fs)
         | Some quota_mgr => Ret (Some quota_mgr, fs)
         end);
    match created with
    | (None, fs) => Ret (false, fs)
    | (Some quota_mgr, fs) =>
        cleaned ←
          (if GetCapacity quota_mgr <? GetSize quota_mgr then
             let fs := io (IoQuotaCleanup quota_threshold) fs in
             if negb (Cleanup quota_mgr quota_threshold) then
               Ret (false, fail kFailQuota "Failed to clean up cache" (io IoQuotaDelete fs))
             else Ret (true, fs)
           else Ret (true, fs));
        match cleaned with
        | (false, fs) => Ret (false, fs)
        | (true, fs) =>
            let fs := io IoAcquireQuotaManager fs in
            if negb (AcquireQuotaManager E) then Abort else Ret (true, fs)
        end
    end.

Definition SetupPosixCacheMgr (instance : string) (fs : FileSystem)
  : outcome (option CacheManager * FileSystem) :=
  let settings := DeterminePosixCacheSettings instance fs in
  let '(ok, fs) := CheckPosixCacheSettings settings fs in
  if negb ok then Ret (None, fs)
  else
    let fs := io (IoPosixCacheCreate (cache_path settings) (is_alien settings)
                    (avoid_rename settings)) fs in
    if negb (PosixCacheManager_Create E (cache_path settings) (is_alien settings)
               (avoid_rename settings)) then
      Ret (None,
           fail kFailCacheDir
             ("Failed to setup posix cache '" +:+ instance +:+ "' in " +:+
              cache_path settings +:+ ": " +:+ strerror E (errno E)) fs)
    else
      let ignore_failure := is_alien settings in
      let fs := io (IoCreateFile (cache_path settings +:+ "/.cvmfscache")
                      ignore_failure) fs in
      _ ← CreateFile (cache_path settings +:+ "/.cvmfscache") 384 ignore_failure;
      if is_managed settings then
        '(ok, fs) ← SetupPosixQuotaMgr settings fs;
        if negb ok then Ret (None, fs)
        else Ret (Some (PosixCacheManager (cache_path settings) (is_alien settings)
                          (avoid_rename settings) true), fs)
      else Ret (Some (PosixCacheManager (cache_path settings) (is_alien settings)
                        (avoid_rename settings) false), fs).

Definition SetupRamCacheMgr (instance : string) (fs : FileSystem)
  : outcome (option CacheManager * FileSystem) :=
  let nfiles :=
    match GetValue fs "CVMFS_NFILES" with
    | Some optarg => wrap_uint32 (String2Uint64 E optarg)
    | None => kDefaultNfiles E
    end in
  let sz_cache_bytes :=
    match GetValue fs (MkCacheParm fs "CVMFS_CACHE_SIZE" instance) with
    | Some optarg =>
        if ends_with_percent optarg then
          wrap_uint64 (platform_memsize E * String2Uint64 E optarg) / 100
        else wrap_uint64 (String2Uint64 E optarg * 1024 * 1024)
    | None => Z.shiftr (platform_memsize E) 5
    end in
  let alloc :=
    match GetValue fs (MkCacheParm fs "CVMFS_CACHE_MALLOC" instance) with
    | Some optarg =>
        if String.eqb optarg "libc" then inl kMallocLibc
        else if String.eqb optarg "heap" then inl kMallocHeap
        else inr ("Failure: unknown malloc " +:+
                  MkCacheParm fs "CVMFS_CACHE_MALLOC" instance +:+ "=" +:+ optarg)
    | None => inl kMallocHeap
    end in
  match alloc with
  | inr msg => Ret (None, fail kFailOptions msg fs)
  | inl alloc =>
      let sz_cache_bytes := RoundUp8 (Z.max (200 * 1024 * 1024) sz_cache_bytes) in
      let fs := io (IoRamCacheCreate sz_cache_bytes nfiles alloc) fs in
      Ret (Some (RamCacheManager sz_cache_bytes nfiles alloc), fs)
  end.

Definition SetupExternalCacheMgr (instance : string) (fs : FileSystem)
  : outcome (option CacheManager * FileSystem) :=
  let nfiles :=
    match GetValue fs "CVMFS_NFILES" with
    | Some optarg => wrap_uint32 (String2Uint64 E optarg)
    | None => kDefaultNfiles E
    end in
  let cmd_line :=
    match GetValue fs (MkCacheParm fs "CVMFS_CACHE_CMDLINE" instance) with
    | Some optarg => SplitString E optarg ","%char
    | None => []
    end in
  match GetValue fs (MkCacheParm fs "CVMFS_CACHE_LOCATOR" instance) with
  | None =>
      Ret (None,
           fail kFailCacheDir
             (MkCacheParm fs "CVMFS_CACHE_LOCATOR" instance +:+ " missing") fs)
  | Some optarg =>
      let fs := io (IoCreatePlugin optarg cmd_line) fs in
      let plugin_handle := ExternalCacheManager_CreatePlugin E optarg cmd_line in
      if negb (IsValid plugin_handle) then
        Ret (None, fail kFailCacheDir (error_msg plugin_handle) fs)
      else
        let ident := name_ fs +:+ ":" +:+ instance in
        let fs := io (IoExternalCacheCreate (fd_connection plugin_handle) nfiles ident) fs in
        if negb (ExternalCacheManager_Create E (fd_connection plugin_handle) nfiles ident)
        then
          Ret (None,
               fail kFailCacheDir
                 ("failed to create external cache manager for " +:+ instance) fs)
        else
          Ret (Some (ExternalCacheManager (fd_connection plugin_handle) nfiles ident), fs)
  end.

(** [SetupTieredCacheMgr] calls back into [SetupCacheMgr]; the callee is
    passed as [setup]. *)
Definition SetupTieredCacheMgr
  (setup : string -> FileSystem -> outcome (option CacheManager * FileSystem))
  (instance : string) (fs : FileSystem)
  : outcome (option CacheManager * FileSystem) :=
  match GetValue fs (MkCacheParm fs "CVMFS_CACHE_UPPER" instance) with
  | None =>
      Ret (None,
           fail kFailOptions
             (MkCacheParm fs "CVMFS_CACHE_UPPER" instance +:+ " missing") fs)
  | Some optarg =>
      '(upper, fs) ← setup optarg fs;
      match upper with
      | None => Ret (None, fs)
      | Some upper =>
          match GetValue fs (MkCacheParm fs "CVMFS_CACHE_LOWER" instance) with
          | None =>
              Ret (None,
                   fail kFailOptions
                     (MkCacheParm fs "CVMFS_CACHE_LOWER" instance +:+ " missing") fs)
          | Some optarg =>
              '(lower, fs) ← setup optarg fs;
              match lower with
              | None => Ret (None, fs)
              | Some lower =>
                  let fs := io IoTieredCacheCreate fs in
                  if negb (TieredCacheManager_Create E upper lower) then
                    Ret (None,
                         fail kFailCacheDir
                           ("Failed to setup tiered cache manager " +:+ instance) fs)
                  else Ret (Some (TieredCacheManager upper lower), fs)
              end
          end
      end
  end.

(** The type tag [SetupCacheMgr] dispatches on. *)
Definition instance_type (instance : string) (fs : FileSystem) : string :=
  if String.eqb instance kDefaultCacheMgrInstance then "posix"
  else
    match GetValue fs (MkCacheParm fs "CVMFS_CACHE_TYPE" instance) with
    | Some v => v
    | None => ""
    end.

(** Can be recursive for the tiered cache manager; [fuel] bounds the
    nesting depth. *)
Fixpoint SetupCacheMgr (fuel : nat) (instance : string) (fs : FileSystem)
  : outcome (option CacheManager * FileSystem) :=
  match fuel with
  | O => OutOfFuel
  | S fuel =>
      if bool_decide (instance ∈ constructed_instances_ fs) then
        Ret (None, fail kFailCacheDir ("circular cache definition: " +:+ instance) fs)
      else
        let fs := set_constructed_instances_
                    (constructed_instances_ fs ∪ {[ instance ]}) fs in
        let instance_type := instance_type instance fs in
        if String.eqb instance_type "posix" then SetupPosixCacheMgr instance fs
        else if String.eqb instance_type "ram" then SetupRamCacheMgr instance fs
        else if String.eqb instance_type "tiered" then
          SetupTieredCacheMgr (SetupCacheMgr fuel) instance fs
        else if String.eqb instance_type "external" then
          SetupExternalCacheMgr instance fs
        else
          Ret (None,
               fail kFailCacheDir
                 ("invalid cache manager type for '" +:+ instance +:+ "':" +:+
                  instance_type) fs)
  end.

Definition SetupCrashGuard (fs : FileSystem) : bool * FileSystem :=
  let fs := set_path_crash_guard_ (workspace_ fs +:+ "/running." +:+ name_ fs) fs in
  let fs := io (IoStat (path_crash_guard_ fs)) fs in
  let fs :=
    if platform_stat E (path_crash_guard_ fs) =? 0
    then set_found_previous_crash_ true fs else fs in
  let fs := io (IoOpenCreat (path_crash_guard_ fs)) fs in
  if open_creat E (path_crash_guard_ fs) <? 0 then
    (false,
     fail kFailCacheDir
       ("could not open running sentinel (" +:+ StringifyInt E (errno E) +:+ ")") fs)
  else (true, fs).

Definition SetupCwd (fs : FileSystem) : bool * FileSystem :=
  if bool_decide (type_ fs = kFsFuse) then
    let fs := io (IoChdir (workspace_ fs)) fs in
    if negb (chdir E (workspace_ fs) =? 0) then
      (false,
       fail kFailCacheDir ("workspace " +:+ workspace_ fs +:+ " is unavailable") fs)
    else (true, set_workspace_ "." fs)
  else (true, fs).

Definition SetupLogging (fs : FileSystem) : FileSystem :=
  let set (key what : string) (fs : FileSystem) :=
    match GetValue fs key with
    | Some optarg => io (IoSetLog what optarg) fs
    | None => fs
    end in
  let fs := set "CVMFS_SYSLOG_LEVEL" "SetLogSyslogLevel" fs in
  let fs := set "CVMFS_SYSLOG_FACILITY" "SetLogSyslogFacility" fs in
  let fs := set "CVMFS_USYSLOG" "SetLogMicroSyslog" fs in
  let fs := set "CVMFS_DEBUGLOG" "SetLogDebugFile" fs in
  match GetValue fs "CVMFS_SYSLOG_PREFIX" with
  | Some optarg => io (IoSetLog "SetLogSyslogPrefix" optarg) fs
  | None => io (IoSetLog "SetLogSyslogPrefix" (name_ fs)) fs
  end.

Definition CreateStatistics (fs : FileSystem) : FileSystem :=
  io IoStatisticsCreate (set_statistics_ true fs).

Definition SetupSqlite (fs : FileSystem) : outcome FileSystem :=
  let fs := io IoSqliteConfig (io IoSqliteShutdown fs) in
  if negb (sqlite3_config_ok E) then Abort else Ret fs.

Definition SetupNfsMaps (fs : FileSystem) : outcome (bool * FileSystem) :=
  if negb (CVMFS_NFS_SUPPORT E) then Ret (true, fs)
  else
    let fs := if negb (IsHaNfsSource fs)
              then set_nfs_maps_dir_ (workspace_ fs) fs else fs in
    match cache_mgr_ fs with
    | None => Abort
    | Some (PosixCacheManager posix_cache_path posix_alien_cache _ _) =>
        let no_nfs_sentinel := posix_cache_path +:+ "/no_nfs_maps." +:+ name_ fs in
        if negb (IsNfsSource fs) then
          let ignore_failure := posix_alien_cache in
          let fs := io (IoCreateFile no_nfs_sentinel ignore_failure) fs in
          _ ← CreateFile no_nfs_sentinel 384 ignore_failure;
          Ret (true, fs)
        else
          let fs := io (IoFileExists no_nfs_sentinel) fs in
          if negb (String.eqb no_nfs_sentinel "") && FileExists E no_nfs_sentinel then
            Ret (false,
                 fail kFailNfsMaps
                   ("Cache was used without NFS maps before. " +:+
                    "It has to be wiped out.") fs)
          else if negb (String.eqb posix_cache_path (workspace_ fs)) then Abort
          else
            let inode_cache_dir := nfs_maps_dir_ fs +:+ "/nfs_maps." +:+ name_ fs in
            let fs := io (IoMkdirDeep inode_cache_dir 448) fs in
            if negb (MkdirDeep E inode_cache_dir 448) then
              Ret (false, fail kFailNfsMaps "Failed to initialize NFS maps" fs)
            else
              let fs := io (IoNfsMapsInit inode_cache_dir (kInodeOffset E + 1)
                              (found_previous_crash_ fs) (IsHaNfsSource fs)) fs in
              if negb (nfs_maps_Init E inode_cache_dir (kInodeOffset E + 1)
                         (found_previous_crash_ fs) (IsHaNfsSource fs)) then
                Ret (false, fail kFailNfsMaps "Failed to initialize NFS maps" fs)
              else Ret (true, set_has_nfs_maps_ true fs)
    | Some _ =>
        if IsNfsSource fs then
          Ret (false,
               fail kFailNfsMaps "NFS source only works with POSIX cache manager." fs)
        else Ret (true, fs)
    end.

Definition SetupWorkspace (fs : FileSystem) : outcome (bool * FileSystem) :=
  let fs := set_workspace_ kDefaultCacheBase fs in
  let fs :=
    match GetValue fs "CVMFS_CACHE_BASE" with
    | Some optarg => set_workspace_ (MakeCanonicalPath E optarg) fs
    | None => fs
    end in
  let shared :=
    match GetValue fs "CVMFS_SHARED_CACHE" with
    | Some optarg => IsOn E optarg
    | None => false
    end in
  let fs :=
    if shared then set_workspace_ (workspace_ fs +:+ "/shared") fs
    else set_workspace_ (workspace_ fs +:+ "/" +:+ name_ fs) fs in
  let dir :=
    match GetValue fs "CVMFS_CACHE_DIR" with
    | Some optarg =>
        if IsDefined fs "CVMFS_CACHE_BASE" then
          (false,
           fail kFailOptions
             "'CVMFS_CACHE_BASE' and 'CVMFS_CACHE_DIR' are mutually exclusive" fs)
        else (true, set_workspace_ optarg fs)
    | None => (true, fs)
    end in
  match dir with
  | (false, fs) => Ret (false, fs)
  | (true, fs) =>
      let fs :=
        match GetValue fs "CVMFS_WORKSPACE" with
        | Some optarg => set_workspace_ optarg fs
        | None => fs
        end in
      let fs := set_workspace_fullpath_ (workspace_ fs) fs in
      let mode := 504 in
      let fs := io (IoMkdirDeep (workspace_ fs) mode) fs in
      if negb (MkdirDeep E (workspace_ fs) mode) then
        Ret (false,
             fail kFailCacheDir
               ("cannot create workspace directory " +:+ workspace_ fs) fs)
      else
        '(ok, fs) ← LockWorkspace fs;
        if negb ok then Ret (false, fs)
        else
          let '(ok, fs) := SetupCwd fs in
          if negb ok then Ret (false, fs)
          else
            let '(ok, fs) := SetupCrashGuard fs in
            if negb ok then Ret (false, fs) else Ret (true, fs)
  end.

Definition SetupUuid (fs : FileSystem) : outcome FileSystem :=
  let fs := io (IoUuidCreate (workspace_ fs +:+ "/uuid")) fs in
  if Uuid_Create E (workspace_ fs +:+ "/uuid") then
    Ret (set_uuid_cache_ (Some (workspace_ fs +:+ "/uuid")) fs)
  else
    let fs := io (IoUuidCreate "") fs in
    if negb (Uuid_Create E "") then Abort
    else Ret (set_uuid_cache_ (Some "") fs).

Definition TriageCacheMgr (fs : FileSystem) : outcome (bool * FileSystem) :=
  let fs := set_cache_mgr_instance_ kDefaultCacheMgrInstance fs in
  let checked :=
    match GetValue fs "CVMFS_CACHE_PRIMARY" with
    | Some instance =>
        if negb (String.eqb instance "") then
          let '(ok, fs) := CheckInstanceName instance fs in
          if negb ok then (false, fs)
          else (true, set_cache_mgr_instance_ instance fs)
        else (true, fs)
    | None => (true, fs)
    end in
  match checked with
  | (false, fs) => Ret (false, fs)
  | (true, fs) =>
      '(mgr, fs) ← SetupCacheMgr (S (size (options_mgr_ fs)))
                     (cache_mgr_instance_ fs) fs;
      Ret (bool_decide (is_Some mgr), set_cache_mgr_ mgr fs)
  end.

(** Creation of state and manager classes. *)
Definition FileSystem_Create (g_alive : bool) (fs_info : FileSystemInfo)
  : outcome FileSystem :=
  file_system ← FileSystem_new g_alive fs_info;
  let file_system := SetupLogging file_system in
  let file_system := CreateStatistics file_system in
  file_system ← SetupSqlite file_system;
  let '(ok, file_system) := DetermineNfsMode file_system in
  if negb ok then Ret file_system
  else
    '(ok, file_system) ← SetupWorkspace file_system;
    if negb ok then Ret file_system
    else
      let file_system :=
        io (IoSqliteTempDirectory (workspace_ file_system)) file_system in
      '(ok, file_system) ← TriageCacheMgr file_system;
      if negb ok then Ret file_system
      else
        file_system ← SetupUuid file_system;
        '(ok, file_system) ← SetupNfsMaps file_system;
        if negb ok then Ret file_system
        else
          let file_system := io IoRegisterVfsRdOnly file_system in
          if negb (RegisterVfsRdOnly E) then Abort
          else
            let file_system := set_has_custom_sqlitevfs_ true file_system in
            let file_system := io IoClientCtx file_system in
            Ret (set_boot_status_ kFailOk file_system).

End FileSystemMethods.

(** ** The MountPoint object *)

(** [FileSystem::statistics()] and [FileSystem::options_mgr()], named
    apart from the members of MountPoint. *)
Definition FileSystem_statistics (fs : FileSystem) : bool := statistics_ fs.
Definition FileSystem_options_mgr (fs : FileSystem) : gmap string string :=
  options_mgr_ fs.

Module MountPoint.

(** shash::Any as far as the bootstrap looks at it: the null hash, or a
    digest (kept in its hexadecimal form) with its suffix. *)
Inductive Any : Type :=
| NullHash
| Digest (hex : string) (suffix : ascii).

Definition IsNull (h : Any) : bool :=
  match h with NullHash => true | Digest _ _ => false end.

Definition kSuffixCatalog : ascii := "C"%char.

(** history::History::Tag *)
Record Tag : Type := mkTag {
  name : string;
  root_hash : Any;
  timestamp : Z
}.

(** Modelled from the spec: history::History::GetByName is defined in the
    history database code; it is an exact lookup by tag name. *)
Fixpoint GetByName (tag_db : list Tag) (tag_name : string) : option Tag :=
  match tag_db with
  | [] => None
  | tag :: rest =>
      if String.eqb (name tag) tag_name then Some tag else GetByName rest tag_name
  end.

(** Modelled from the spec: history::History::GetByDate is defined in the
    history database code; it finds the latest tag at or before the given
    instant. *)
Fixpoint GetByDate (tag_db : list Tag) (utctime : Z) : option Tag :=
  match tag_db with
  | [] => None
  | tag :: rest =>
      match GetByDate rest utctime with
      | Some later =>
          if (timestamp tag <=? utctime) && (timestamp later <? timestamp tag)
          then Some tag else Some later
      | None => if timestamp tag <=? utctime then Some tag else None
      end
  end.

Inductive Event : Type :=
| EvStatisticsFork
| EvRegisterInodeTracker
| EvAuthzCreate (authz_helper authz_search_path : string)
| EvAuthzSessionManagerCreate
| EvBackoffThrottle
| EvSignatureInit
| EvFindFiles (dir suffix : string)
| EvLoadPublicRsaKeys (public_keys : string)
| EvLoadTrustedCaCrl (path : string)
| EvFileExists (path : string)
| EvLoadBlacklist (path : string) (append : bool)
| EvDownloadInit (num_connections : Z)
| EvSetCredentialsAttachment
| EvSetHostChain (external : bool) (hosts : string)
| EvSetDnsParameters (retries timeout_ms : Z)
| EvSetDnsServer (server : string)
| EvSetIpPreference (family : Z)
| EvSetMaxIpaddrPerProxy (limit : Z)
| EvSetTimeout (external : bool) (timeout timeout_direct : Z)
| EvSetRetryParameters (max_retries backoff_init backoff_max : Z)
| EvSetLowSpeedLimit (limit : Z)
| EvSetProxyGroupResetDelay (seconds : Z)
| EvSetHostResetDelay (seconds : Z)
| EvEnableRedirects
| EvEnableInfoHeader
| EvSetProxyTemplates (uuid forced_template : string)
| EvResolveProxyDescription (external : bool) (description : string)
| EvSetProxyChain (external : bool) (proxies fallback_proxies : string)
| EvProbeGeo (external : bool)
| EvDownloadClone
| EvFetcherCreate (external : bool)
| EvCatalogMgrCreate
| EvInodeAnnotation (generation : option Z) (attached : bool)
| EvOwnerMapRead (path : string)
| EvSetOwnerMaps
| EvClaimOwnership
| EvManifestFetch
| EvFetch (hash : Any)
| EvHistoryOpen (path : string)
| EvUnlink (path : string)
| EvCatalogInit
| EvCatalogInitFixed (root_hash : Any) (alt_root_path : bool)
| EvTracerCreate
| EvTracerActivate (file : string)
| EvGetVOMSAuthz
| EvTablesLibrary
| EvTablesFuse (inode_cache path_cache md5path_cache : Z)
| EvInodeTracker.

(** Events of the fetch stage and of the catalog-client stage. *)
Definition is_fetch_or_catalog (e : Event) : bool :=
  match e with
  | EvFetcherCreate _ | EvCatalogMgrCreate | EvInodeAnnotation _ _
  | EvOwnerMapRead _ | EvSetOwnerMaps | EvClaimOwnership | EvManifestFetch
  | EvFetch _ | EvHistoryOpen _ | EvUnlink _ | EvCatalogInit
  | EvCatalogInitFixed _ _ => true
  | _ => false
  end.

(** Constants of the class declaration and the collaborators' answers. *)
Record Collaborators : Type := mkCollaborators {
  kDefaultMaxTtlSec : Z;
  kDefaultKCacheTtlSec : Z;
  kDefaultNumConnections : Z;
  kDefaultTimeoutSec : Z;
  kDefaultRetries : Z;
  kDefaultBackoffInitMs : Z;
  kDefaultBackoffMaxMs : Z;
  kDnsDefaultTimeoutMs : Z;
  kDnsDefaultRetries : Z;
  kDefaultMemcacheSize : Z;
  memcache_unit_size : Z;
  ReplaceAll : string -> string -> string -> string;
  IsoTimestamp2UtcTime : string -> Z;
  StringifyTime : Z -> bool -> string;
  MkFromHexPtr : string -> ascii -> Any;

  FindFiles : string -> string -> list string;
  LoadPublicRsaKeys : string -> bool;
  LoadTrustedCaCrl : string -> bool;
  LoadBlacklist : string -> bool -> bool;
  HasConfigRepository : string -> option string;
  ResolveProxyDescription : bool -> string -> string;
  GetTimeout : Z * Z;
  OwnerMap_Read : string -> bool;
  manifest_Fetch : string -> option Any;
  Fetcher_Fetch : Any -> Z;
  SqliteHistory_Open : string -> option (list Tag);
  catalog_Init : bool;
  catalog_InitFixed : Any -> bool -> bool;
  catalog_GetTTL : Z;
  catalog_GetVOMSAuthz : bool * string;
  pthread_mutex_init : Z;
  AuthzSessionManager_Create : bool
}.

Record t : Type := mk {
  fqrn_ : string;
  file_system_ : FileSystem;
  options_mgr_ : gmap string string;
  statistics_ : bool;
  authz_fetcher_ : bool;
  authz_session_mgr_ : bool;
  authz_attachment_ : bool;
  backoff_throttle_ : bool;
  signature_mgr_ : bool;
  download_mgr_ : bool;
  external_download_mgr_ : bool;
  fetcher_ : bool;
  external_fetcher_ : bool;
  inode_annotation_ : bool;
  catalog_mgr_ : bool;
  tables_ : bool;
  tracer_ : bool;
  max_ttl_sec_ : Z;
  kcache_timeout_sec_ : Z;
  fixed_catalog_ : bool;
  hide_magic_xattrs_ : bool;
  has_membership_req_ : bool;
  membership_req_ : string;
  repository_tag_ : string;
  boot_status_ : Failures;
  boot_error_ : string;
  trace_ : list Event
}.

Definition set_statistics_ (v : bool) (mp : t) : t :=
  let 'mk a b c _ e f g h i j k l m n o p q r s t0 u v0 w x y z tr := mp in
  mk a b c v e f g h i j k l m n o p q r s t0 u v0 w x y z tr.
Definition set_authz_fetcher_ (v : bool) (mp : t) : t :=
  let 'mk a b c d _ f g h i j k l m n o p q r s t0 u v0 w x y z tr := mp in
  mk a b c d v f g h i j k l m n o p q r s t0 u v0 w x y z tr.
Definition set_authz_session_mgr_ (v : bool) (mp : t) : t :=
  let 'mk a b c d e _ g h i j k l m n o p q r s t0 u v0 w x y z tr := mp in
  mk a b c d e v g h i j k l m n o p q r s t0 u v0 w x y z tr.
Definition set_authz_attachment_ (v : bool) (mp : t) : t :=
  let 'mk a b c d e f _ h i j k l m n o p q r s t0 u v0 w x y z tr := mp in
  mk a b c d e f v h i j k l m n o p q r s t0 u v0 w x y z tr.
Definition set_backoff_throttle_ (v : bool) (mp : t) : t :=
  let 'mk a b c d e f g _ i j k l m n o p q r s t0 u v0 w x y z tr := mp in
  mk a b c d e f g v i j k l m n o p q r s t0 u v0 w x y z tr.
Definition set_signature_mgr_ (v : bool) (mp : t) : t :=
  let 'mk a b c d e f g h _ j k l m n o p q r s t0 u v0 w x y z tr := mp in
  mk a b c d e f g h v j k l m n o p q r s t0 u v0 w x y z tr.
Definition set_download_mgr_ (v : bool) (mp : t) : t :=
  let 'mk a b c d e f g h i _ k l m n o p q r s t0 u v0 w x y z tr := mp in
  mk a b c d e f g h i v k l m n o p q r s t0 u v0 w x y z tr.
Definition set_external_download_mgr_ (v : bool) (mp : t) : t :=
  let 'mk a b c d e f g h i j _ l m n o p q r s t0 u v0 w x y z tr := mp in
  mk a b c d e f g h i j v l m n o p q r s t0 u v0 w x y z tr.
Definition set_fetcher_ (v : bool) (mp : t) : t :=
  let 'mk a b c d e f g h i j k _ m n o p q r s t0 u v0 w x y z tr := mp in
  mk a b c d e f g h i j k v m n o p q r s t0 u v0 w x y z tr.
Definition set_external_fetcher_ (v : bool) (mp : t) : t :=
  let 'mk a b c d e f g h i j k l _ n o p q r s t0 u v0 w x y z tr := mp in
  mk a b c d e f g h i j k l v n o p q r s t0 u v0 w x y z tr.
Definition set_inode_annotation_ (v : bool) (mp : t) : t :=
  let 'mk a b c d e f g h i j k l m _ o p q r s t0 u v0 w x y z tr := mp in
  mk a b c d e f g h i j k l m v o p q r s t0 u v0 w x y z tr.
Definition set_catalog_mgr_ (v : bool) (mp : t) : t :=
  let 'mk a b c d e f g h i j k l m n _ p q r s t0 u v0 w x y z tr := mp in
  mk a b c d e f g h i j k l m n v p q r s t0 u v0 w x y z tr.
Definition set_tables_ (v : bool) (mp : t) : t :=
  let 'mk a b c d e f g h i j k l m n o _ q r s t0 u v0 w x y z tr := mp in
  mk a b c d e f g h i j k l m n o v q r s t0 u v0 w x y z tr.
Definition set_tracer_ (v : bool) (mp : t) : t :=
  let 'mk a b c d e f g h i j k l m n o p _ r s t0 u v0 w x y z tr := mp in
  mk a b c d e f g h i j k l m n o p v r s t0 u v0 w x y z tr.
Definition set_max_ttl_sec_ (v : Z) (mp : t) : t :=
  let 'mk a b c d e f g h i j k l m n o p q _ s t0 u v0 w x y z tr := mp in
  mk a b c d e f g h i j k l m n o p q v s t0 u v0 w x y z tr.
Definition set_kcache_timeout_sec_ (v : Z) (mp : t) : t :=
  let 'mk a b c d e f g h i j k l m n o p q r _ t0 u v0 w x y z tr := mp in
  mk a b c d e f g h i j k l m n o p q r v t0 u v0 w x y z tr.
Definition set_fixed_catalog_ (v : bool) (mp : t) : t :=
  let 'mk a b c d e f g h i j k l m n o p q r s _ u v0 w x y z tr := mp in
  mk a b c d e f g h i j k l m n o p q r s v u v0 w x y z tr.
Definition set_hide_magic_xattrs_ (v : bool) (mp : t) : t :=
  let 'mk a b c d e f g h i j k l m n o p q r s t0 _ v0 w x y z tr := mp in
  mk a b c d e f g h i j k l m n o p q r s t0 v v0 w x y z tr.
Definition set_membership_ (has : bool) (req : string) (mp : t) : t :=
  let 'mk a b c d e f g h i j k l m n o p q r s t0 u _ _ x y z tr := mp in
  mk a b c d e f g h i j k l m n o p q r s t0 u has req x y z tr.
Definition set_repository_tag_ (v : string) (mp : t) : t :=
  let 'mk a b c d e f g h i j k l m n o p q r s t0 u v0 w _ y z tr := mp in
  mk a b c d e f g h i j k l m n o p q r s t0 u v0 w v y z tr.
Definition set_boot_status_ (v : Failures) (mp : t) : t :=
  let 'mk a b c d e f g h i j k l m n o p q r s t0 u v0 w x _ z tr := mp in
  mk a b c d e f g h i j k l m n o p q r s t0 u v0 w x v z tr.
Definition set_boot_error_ (v : string) (mp : t) : t :=
  let 'mk a b c d e f g h i j k l m n o p q r s t0 u v0 w x y _ tr := mp in
  mk a b c d e f g h i j k l m n o p q r s t0 u v0 w x y v tr.
Definition ev (e : Event) (mp : t) : t :=
  let 'mk a b c d e0 f g h i j k l m n o p q r s t0 u v0 w x y z tr := mp in
  mk a b c d e0 f g h i j k l m n o p q r s t0 u v0 w x y z (tr ++ [e]).

Definition fail (code : Failures) (msg : string) (mp : t) : t :=
  set_boot_status_ code (set_boot_error_ msg mp).

Section MountPointMethods.

Variable E : Env.
Variable M : Collaborators.

Definition GetValue (mp : t) (key : string) : option string :=
  options_mgr_ mp !! key.

Definition IsDefined (mp : t) (key : string) : bool :=
  bool_decide (is_Some (options_mgr_ mp !! key)).

Definition OptionIsOn (mp : t) (key : string) : bool :=
  match GetValue mp key with
  | Some optarg => IsOn E optarg
  | None => false
  end.

(** The constructor: the members as in the initialiser list, then the
    initialisation of the mutex [lock_max_ttl_], which is asserted to
    succeed.  The time the kernel caches entries for is a double. *)
Definition new (fqrn : string) (file_system : FileSystem)
  (options_mgr : gmap string string) : outcome t :=
  let retval := pthread_mutex_init M in
  if negb (retval =? 0) then Abort
  else Ret
  {| fqrn_ := fqrn;
     file_system_ := file_system;
     options_mgr_ := options_mgr;
     statistics_ := false;
     authz_fetcher_ := false;
     authz_session_mgr_ := false;
     authz_attachment_ := false;
     backoff_throttle_ := false;
     signature_mgr_ := false;
     download_mgr_ := false;
     external_download_mgr_ := false;
     fetcher_ := false;
     external_fetcher_ := false;
     inode_annotation_ := false;
     catalog_mgr_ := false;
     tables_ := false;
     tracer_ := false;
     max_ttl_sec_ := kDefaultMaxTtlSec M;
     kcache_timeout_sec_ := static_cast_double (kDefaultKCacheTtlSec M);
     fixed_catalog_ := false;
     hide_magic_xattrs_ := false;
     has_membership_req_ := false;
     membership_req_ := "";
     repository_tag_ := "";
     boot_status_ := kFailUnknown;
     boot_error_ := "";
     trace_ := [] |}.

Definition CheckBlacklists (mp : t) : bool * t :=
  let blacklist :=
    match GetValue mp "CVMFS_BLACKLIST" with
    | Some v => v
    | None => "/etc/cvmfs/blacklist"
    end in
  let mp := ev (EvFileExists blacklist) mp in
  let first :=
    if FileExists E blacklist then
      let mp := ev (EvLoadBlacklist blacklist false) mp in
      if negb (LoadBlacklist M blacklist false) then
        (false, fail kFailSignature ("failed to load blacklist " +:+ blacklist) mp)
      else (true, mp)
    else (true, mp) in
  match first with
  | (false, mp) => (false, mp)
  | (true, mp) =>
      match HasConfigRepository M (fqrn_ mp) with
      | Some config_repository_path =>
          let mp := ev (EvFileExists (config_repository_path +:+ "blacklist")) mp in
          if FileExists E (config_repository_path +:+ "blacklist") then
            let mp := ev (EvLoadBlacklist (config_repository_path +:+ "blacklist") true) mp in
            if negb (LoadBlacklist M (config_repository_path +:+ "blacklist") true) then
              (false,
               fail kFailSignature "failed to load blacklist from config repository" mp)
            else (true, mp)
          else (true, mp)
      | None => (true, mp)
      end
  end.

(** Each of the three objects is asserted to exist.  The fetcher and the
    attachment come from [new], which always yields an object; the session
    manager comes from [AuthzSessionManager::Create], which may yield
    NULL. *)
Definition CreateAuthz (mp : t) : outcome t :=
  let authz_helper :=
    match GetValue mp "CVMFS_AUTHZ_HELPER" with Some v => v | None => "" end in
  let authz_search_path :=
    match GetValue mp "CVMFS_AUTHZ_SEARCH_PATH" with
    | Some v => v
    | None => "/usr/libexec/cvmfs/authz"
    end in
  let mp :=
    set_authz_fetcher_ true (ev (EvAuthzCreate authz_helper authz_search_path) mp) in
  if negb (authz_fetcher_ mp) then Abort
  else
    let mp :=
      set_authz_session_mgr_ (AuthzSessionManager_Create M)
        (ev EvAuthzSessionManagerCreate mp) in
    if negb (authz_session_mgr_ mp) then Abort
    else
      let mp := set_authz_attachment_ true mp in
      if negb (authz_attachment_ mp) then Abort else Ret mp.

Definition ReplaceHosts (mp : t) (hosts : string) : string :=
  let tokens := SplitString E (fqrn_ mp) "."%char in
  let org := hd "" tokens in
  let hosts := ReplaceAll M hosts "@org@" org in
  ReplaceAll M hosts "@fqrn@" (fqrn_ mp).

Definition FetchHistory (mp : t) : bool * string * t :=
  let mp := ev EvManifestFetch mp in
  match manifest_Fetch M (fqrn_ mp) with
  | None => (false, "", fail kFailHistory "Failed to fetch manifest" mp)
  | Some history_hash =>
      if IsNull history_hash then (false, "", fail kFailHistory "No history" mp)
      else
        let mp := ev (EvFetch history_hash) mp in
        let fd := Fetcher_Fetch M history_hash in
        if fd <? 0 then
          (false, "",
           fail kFailHistory ("failed to download history: " +:+ StringifyInt E (- fd)) mp)
        else (true, "@" +:+ StringifyInt E fd, mp)
  end.

Definition DetermineRootHash (mp : t) : bool * Any * t :=
  match GetValue mp "CVMFS_ROOT_HASH" with
  | Some optarg => (true, MkFromHexPtr M optarg kSuffixCatalog, mp)
  | None =>
      if negb (IsDefined mp "CVMFS_REPOSITORY_TAG") &&
         negb (IsDefined mp "CVMFS_REPOSITORY_DATE") then (true, NullHash, mp)
      else
        let '(ok, history_path, mp) := FetchHistory mp in
        if negb ok then (false, NullHash, mp)
        else
          let mp := ev (EvHistoryOpen history_path) mp in
          match SqliteHistory_Open M history_path with
          | None =>
              (false, NullHash,
               ev (EvUnlink history_path)
                 (fail kFailHistory "failed to open history database" mp))
          | Some tag_db =>
              let '(found, mp) :=
                match GetValue mp "CVMFS_REPOSITORY_TAG" with
                | None =>
                    let mp := set_repository_tag_ "" mp in
                    let repository_date :=
                      match GetValue mp "CVMFS_REPOSITORY_DATE" with
                      | Some v => v
                      | None => ""
                      end in
                    let repository_utctime := IsoTimestamp2UtcTime M repository_date in
                    if repository_utctime =? 0 then
                      (None,
                       fail kFailHistory
                         ("invalid timestamp in CVMFS_REPOSITORY_DATE: " +:+
                          repository_date +:+ ". Use YYYY-MM-DDTHH:MM:SSZ") mp)
                    else
                      match GetByDate tag_db repository_utctime with
                      | None =>
                          (None,
                           fail kFailHistory
                             ("no repository state as early as utc timestamp " +:+
                              StringifyTime M repository_utctime true) mp)
                      | Some tag => (Some tag, set_repository_tag_ (name tag) mp)
                      end
                | Some tag_name =>
                    let mp := set_repository_tag_ tag_name mp in
                    match GetByName tag_db (repository_tag_ mp) with
                    | None =>
                        (None,
                         fail kFailHistory ("no such tag: " +:+ repository_tag_ mp) mp)
                    | Some tag => (Some tag, mp)
                    end
                end in
              let mp := ev (EvUnlink history_path) mp in
              match found with
              | None => (false, NullHash, mp)
              | Some tag => (true, root_hash tag, mp)
              end
          end
  end.

Definition SetupInodeAnnotation (mp : t) : t :=
  let generation :=
    match GetValue mp "CVMFS_INITIAL_GENERATION" with
    | Some optarg => Some (String2Uint64 E optarg)
    | None => None
    end in
  let attached :=
    bool_decide (type_ (file_system_ mp) = kFsFuse) &&
    negb (IsNfsSource (file_system_ mp)) in
  set_inode_annotation_ true (ev (EvInodeAnnotation generation attached) mp).

Definition SetupOwnerMaps (mp : t) : bool * t :=
  let uid :=
    match GetValue mp "CVMFS_UID_MAP" with
    | Some optarg =>
        let mp := ev (EvOwnerMapRead optarg) mp in
        if negb (OwnerMap_Read M optarg) then
          (false, fail kFailOptions ("failed to parse uid map " +:+ optarg) mp)
        else (true, mp)
    | None => (true, mp)
    end in
  match uid with
  | (false, mp) => (false, mp)
  | (true, mp) =>
      let gid :=
        match GetValue mp "CVMFS_GID_MAP" with
        | Some optarg =>
            let mp := ev (EvOwnerMapRead optarg) mp in
            if negb (OwnerMap_Read M optarg) then
              (false, fail kFailOptions ("failed to parse gid map " +:+ optarg) mp)
            else (true, mp)
        | None => (true, mp)
        end in
      match gid with
      | (false, mp) => (false, mp)
      | (true, mp) =>
          let mp := ev EvSetOwnerMaps mp in
          let mp := if OptionIsOn mp "CVMFS_CLAIM_OWNERSHIP"
                    then ev EvClaimOwnership mp else mp in
          (true, mp)
      end
  end.

Definition CreateCatalogManager (mp : t) : bool * t :=
  let mp := set_catalog_mgr_ true (ev EvCatalogMgrCreate mp) in
  let mp := SetupInodeAnnotation mp in
  let '(ok, mp) := SetupOwnerMaps mp in
  if negb ok then (false, mp)
  else
    let '(ok, root_hash, mp) := DetermineRootHash mp in
    if negb ok then (false, mp)
    else
      let '(retval, mp) :=
        if IsNull root_hash then (catalog_Init M, ev EvCatalogInit mp)
        else
          let mp := set_fixed_catalog_ true mp in
          let alt_root_path := OptionIsOn mp "CVMFS_ALT_ROOT_PATH" in
          (catalog_InitFixed M root_hash alt_root_path,
           ev (EvCatalogInitFixed root_hash alt_root_path) mp) in
      if negb retval then
        (false, fail kFailCatalog "Failed to initialize root file catalog" mp)
      else
        let mp :=
          match GetValue mp "CVMFS_AUTO_UPDATE" with
          | Some optarg => if negb (IsOn E optarg) then set_fixed_catalog_ true mp else mp
          | None => mp
          end in
        (true, mp).

Definition SetupDnsTuning (external : bool) (mp : t) : t :=
  let dns_timeout_ms :=
    match GetValue mp "CVMFS_DNS_TIMEOUT" with
    | Some optarg => wrap_uint32 (String2Uint64 E optarg * 1000)
    | None => kDnsDefaultTimeoutMs M
    end in
  let dns_retries :=
    match GetValue mp "CVMFS_DNS_RETRIES" with
    | Some optarg => wrap_uint32 (String2Uint64 E optarg)
    | None => kDnsDefaultRetries M
    end in
  let mp := ev (EvSetDnsParameters dns_retries dns_timeout_ms) mp in
  let mp :=
    match GetValue mp "CVMFS_DNS_SERVER" with
    | Some optarg => ev (EvSetDnsServer optarg) mp
    | None => mp
    end in
  let mp :=
    match GetValue mp "CVMFS_IPFAMILY_PREFER" with
    | Some optarg =>
        if String2Int64 E optarg =? 4 then ev (EvSetIpPreference 4) mp
        else if String2Int64 E optarg =? 6 then ev (EvSetIpPreference 6) mp
        else mp
    | None => mp
    end in
  match GetValue mp "CVMFS_MAX_IPADDR_PER_PROXY" with
  | Some optarg => ev (EvSetMaxIpaddrPerProxy (wrap_uint32 (String2Uint64 E optarg))) mp
  | None => mp
  end.

Definition SetupHttpTuning (mp : t) : t :=
  let uint (key : string) (default : Z) (scale : Z) :=
    match GetValue mp key with
    | Some optarg => wrap_uint32 (String2Uint64 E optarg * scale)
    | None => default
    end in
  let timeout := uint "CVMFS_TIMEOUT" (kDefaultTimeoutSec M) 1 in
  let timeout_direct := uint "CVMFS_TIMEOUT_DIRECT" (kDefaultTimeoutSec M) 1 in
  let mp := ev (EvSetTimeout false timeout timeout_direct) mp in
  let max_retries := uint "CVMFS_MAX_RETRIES" (kDefaultRetries M) 1 in
  let backoff_init := uint "CVMFS_BACKOFF_INIT" (kDefaultBackoffInitMs M) 1000 in
  let backoff_max := uint "CVMFS_BACKOFF_MAX" (kDefaultBackoffMaxMs M) 1000 in
  let mp := ev (EvSetRetryParameters max_retries backoff_init backoff_max) mp in
  let mp :=
    match GetValue mp "CVMFS_LOW_SPEED_LIMIT" with
    | Some optarg => ev (EvSetLowSpeedLimit (wrap_uint32 (String2Uint64 E optarg))) mp
    | None => mp
    end in
  let mp :=
    match GetValue mp "CVMFS_PROXY_RESET_AFTER" with
    | Some optarg =>
        ev (EvSetProxyGroupResetDelay (wrap_uint32 (String2Uint64 E optarg))) mp
    | None => mp
    end in
  let mp :=
    match GetValue mp "CVMFS_HOST_RESET_AFTER" with
    | Some optarg => ev (EvSetHostResetDelay (wrap_uint32 (String2Uint64 E optarg))) mp
    | None => mp
    end in
  let mp := if OptionIsOn mp "CVMFS_FOLLOW_REDIRECTS" then ev EvEnableRedirects mp else mp in
  if OptionIsOn mp "CVMFS_SEND_INFO_HEADER" then ev EvEnableInfoHeader mp else mp.

Definition SetupExternalDownloadMgr (mp : t) : bool * t :=
  let mp := set_external_download_mgr_ true (ev EvDownloadClone mp) in
  let '(timeout, timeout_direct) := GetTimeout M in
  let timeout :=
    match GetValue mp "CVMFS_EXTERNAL_TIMEOUT" with
    | Some optarg => wrap_uint32 (String2Uint64 E optarg)
    | None => timeout
    end in
  let timeout_direct :=
    match GetValue mp "CVMFS_EXTERNAL_TIMEOUT_DIRECT" with
    | Some optarg => wrap_uint32 (String2Uint64 E optarg)
    | None => timeout_direct
    end in
  let mp := ev (EvSetTimeout true timeout timeout_direct) mp in
  let mp :=
    match GetValue mp "CVMFS_EXTERNAL_URL" with
    | Some optarg =>
        ev (EvProbeGeo true) (ev (EvSetHostChain true (ReplaceHosts mp optarg)) mp)
    | None => mp
    end in
  let resolved :=
    match GetValue mp "CVMFS_EXTERNAL_HTTP_PROXY" with
    | Some optarg =>
        let mp := ev (EvResolveProxyDescription true optarg) mp in
        let proxies := ResolveProxyDescription M true optarg in
        if String.eqb proxies "" then
          (None,
           fail kFailWpad "failed to discover external HTTP proxy servers" mp)
        else (Some proxies, mp)
    | None => (Some "DIRECT", mp)
    end in
  match resolved with
  | (None, mp) => (false, mp)
  | (Some proxies, mp) =>
      let fallback_proxies :=
        match GetValue mp "CVMFS_EXTERNAL_FALLBACK_PROXY" with
        | Some v => v
        | None => ""
        end in
      (true, ev (EvSetProxyChain true proxies fallback_proxies) mp)
  end.

Definition CreateDownloadManagers (mp : t) : outcome (bool * t) :=
  let mp := set_download_mgr_ true (ev (EvDownloadInit (kDefaultNumConnections M)) mp) in
  let mp := ev EvSetCredentialsAttachment mp in
  let mp :=
    match GetValue mp "CVMFS_SERVER_URL" with
    | Some optarg => ev (EvSetHostChain false (ReplaceHosts mp optarg)) mp
    | None => mp
    end in
  let mp := SetupDnsTuning false mp in
  let mp := SetupHttpTuning mp in
  let forced_proxy_template :=
    match GetValue mp "CVMFS_PROXY_TEMPLATE" with Some v => v | None => "" end in
  match uuid_cache_ (file_system_ mp) with
  | None => Abort
  | Some uuid =>
      let mp := ev (EvSetProxyTemplates uuid forced_proxy_template) mp in
      let proxies :=
        match GetValue mp "CVMFS_HTTP_PROXY" with Some v => v | None => "" end in
      let mp := ev (EvResolveProxyDescription false proxies) mp in
      let proxies := ResolveProxyDescription M false proxies in
      if String.eqb proxies "" then
        Ret (false, fail kFailWpad "failed to discover HTTP proxy servers" mp)
      else
        let fallback_proxies :=
          match GetValue mp "CVMFS_FALLBACK_PROXY" with Some v => v | None => "" end in
        let mp := ev (EvSetProxyChain false proxies fallback_proxies) mp in
        let mp := if OptionIsOn mp "CVMFS_USE_GEOAPI" then ev (EvProbeGeo false) mp else mp in
        Ret (SetupExternalDownloadMgr mp)
  end.

Definition CreateFetchers (mp : t) : t :=
  let mp := set_fetcher_ true (ev (EvFetcherCreate false) mp) in
  set_external_fetcher_ true (ev (EvFetcherCreate true) mp).

Definition CreateSignatureManager (mp : t) : bool * t :=
  let mp := set_signature_mgr_ true (ev EvSignatureInit mp) in
  let '(public_keys, mp) :=
    match GetValue mp "CVMFS_PUBLIC_KEY" with
    | Some optarg => (optarg, mp)
    | None =>
        match GetValue mp "CVMFS_KEYS_DIR" with
        | Some optarg =>
            (String.concat ":" (FindFiles M optarg ".pub"),
             ev (EvFindFiles optarg ".pub") mp)
        | None =>
            (String.concat ":" (FindFiles M "/etc/cvmfs/keys" ".pub"),
             ev (EvFindFiles "/etc/cvmfs/keys" ".pub") mp)
        end
    end in
  let mp := ev (EvLoadPublicRsaKeys public_keys) mp in
  if negb (LoadPublicRsaKeys M public_keys) then
    (false, fail kFailSignature "failed to load public key(s)" mp)
  else
    match GetValue mp "CVMFS_TRUSTED_CERTS" with
    | Some optarg =>
        let mp := ev (EvLoadTrustedCaCrl optarg) mp in
        if negb (LoadTrustedCaCrl M optarg) then
          (false, fail kFailSignature "failed to load trusted certificates" mp)
        else (true, mp)
    | None => (true, mp)
    end.

Definition CreateStatistics (mp : t) : outcome t :=
  if negb (FileSystem_statistics (file_system_ mp)) then Abort
  else
    let mp := set_statistics_ true (ev EvStatisticsFork mp) in
    if negb (bool_decide (type_ (file_system_ mp) = kFsFuse)) then Ret mp
    else Ret (ev EvRegisterInodeTracker mp).

Definition CreateTables (mp : t) : t :=
  if negb (bool_decide (type_ (file_system_ mp) = kFsFuse)) then
    set_tables_ true (ev EvTablesLibrary mp)
  else
    let mem_cache_size :=
      match GetValue mp "CVMFS_MEMCACHE_SIZE" with
      | Some optarg => wrap_uint64 (String2Uint64 E optarg * 1024 * 1024)
      | None => kDefaultMemcacheSize M
      end in
    let memcache_num_units := wrap_uint32 (mem_cache_size / memcache_unit_size M) in
    let mask_64 := wrap_uint32 (Z.lnot (Z.shiftl 1 6 - 1)) in
    let mp :=
      ev (EvTablesFuse (Z.land memcache_num_units mask_64)
            (Z.land memcache_num_units mask_64)
            (Z.land (wrap_uint32 (memcache_num_units * 7)) mask_64)) mp in
    set_tables_ true (ev EvInodeTracker mp).

Definition CreateTracer (mp : t) : bool * t :=
  let mp := set_tracer_ true (ev EvTracerCreate mp) in
  match GetValue mp "CVMFS_TRACEFILE" with
  | Some optarg =>
      if negb (bool_decide (type_ (file_system_ mp) = kFsFuse)) then
        (false, fail kFailOptions "tracer is only supported in the fuse module" mp)
      else (true, ev (EvTracerActivate optarg) mp)
  | None => (true, mp)
  end.

Definition ReEvaluateAuthz (mp : t) : t :=
  let '(has, req) := catalog_GetVOMSAuthz M in
  set_membership_ has req (ev EvGetVOMSAuthz mp).

(** [unsigned] is 32 bits wide. *)
Definition SetMaxTtlMn (value_minutes : Z) (mp : t) : t :=
  set_max_ttl_sec_ (wrap_uint32 (value_minutes * 60)) mp.



Definition SetupBehavior (mp : t) : t :=
  let mp :=
    match GetValue mp "CVMFS_MAX_TTL" with
    | Some optarg => SetMaxTtlMn (wrap_uint32 (String2Uint64 E optarg)) mp
    | None => mp
    end in
  let mp :=
    match GetValue mp "CVMFS_KCACHE_TIMEOUT" with
    | Some optarg =>
        set_kcache_timeout_sec_
          (Z.max 0 (static_cast_double (wrap_int64 (String2Int64 E optarg)))) mp
    | None => mp
    end in
  if OptionIsOn mp "CVMFS_HIDE_MAGIC_XATTRS" then set_hide_magic_xattrs_ true mp else mp.

(** The option_mgr parameter can be NULL ([None]), in which case the
    options manager of the file system is used. *)
Definition Create (fqrn : string) (file_system : FileSystem)
  (options_mgr : option (gmap string string)) : outcome t :=
  let options_mgr :=
    match options_mgr with
    | None => FileSystem_options_mgr file_system
    | Some o => o
    end in
  mountpoint ← new fqrn file_system options_mgr;
  mountpoint ← CreateStatistics mountpoint;
  mountpoint ← CreateAuthz mountpoint;
  let mountpoint := set_backoff_throttle_ true (ev EvBackoffThrottle mountpoint) in
  let '(ok, mountpoint) := CreateSignatureManager mountpoint in
  if negb ok then Ret mountpoint
  else
    let '(ok, mountpoint) := CheckBlacklists mountpoint in
    if negb ok then Ret mountpoint
    else
      '(ok, mountpoint) ← CreateDownloadManagers mountpoint;
      if negb ok then Ret mountpoint
      else
        let mountpoint := CreateFetchers mountpoint in
        let '(ok, mountpoint) := CreateCatalogManager mountpoint in
        if negb ok then Ret mountpoint
        else
          let '(ok, mountpoint) := CreateTracer mountpoint in
          if negb ok then Ret mountpoint
          else
            let mountpoint := ReEvaluateAuthz mountpoint in
            let mountpoint := CreateTables mountpoint in
            let mountpoint := SetupBehavior mountpoint in
            Ret (set_boot_status_ kFailOk mountpoint).

End MountPointMethods.

End MountPoint.

(** ** The construction sequences as pipelines *)

Section Pipeline.

Context {S : Type}.

(** Runs named stages in order until one reports failure.  Returns the
    names of the stages that succeeded, the name of the stage that
    failed (if any) and the state the run stopped in. *)
Fixpoint run_stages (stages : list (string * (S -> outcome (bool * S)))) (s : S)
  : outcome (list string * option string * S) :=
  match stages with
  | [] => Ret ([], None, s)
  | (stage_name, stage) :: rest =>
      '(ok, s) ← stage s;
      if negb ok then Ret ([], Some stage_name, s)
      else
        '(done, failed, s) ← run_stages rest s;
        Ret (stage_name :: done, failed, s)
  end.

End Pipeline.

(** The stages of [FileSystem::Create], in the order of the source. *)
Definition FileSystem_stages (E : Env)
  : list (string * (FileSystem -> outcome (bool * FileSystem))) :=
  [ ("SetupLogging", fun fs => Ret (true, SetupLogging fs));
    ("CreateStatistics", fun fs => Ret (true, CreateStatistics fs));
    ("SetupSqlite", fun fs => fs ← SetupSqlite E fs; Ret (true, fs));
    ("DetermineNfsMode", fun fs => Ret (DetermineNfsMode E fs));
    ("SetupWorkspace", SetupWorkspace E);
    ("sqlite3_temp_directory",
      fun fs => Ret (true, io (IoSqliteTempDirectory (workspace_ fs)) fs));
    ("TriageCacheMgr", TriageCacheMgr E);
    ("SetupUuid", fun fs => fs ← SetupUuid E fs; Ret (true, fs));
    ("SetupNfsMaps", SetupNfsMaps E);
    ("RegisterVfsRdOnly",
      fun fs =>
        let fs := io IoRegisterVfsRdOnly fs in
        if negb (RegisterVfsRdOnly E) then Abort
        else Ret (true, set_has_custom_sqlitevfs_ true fs));
    ("ClientCtx", fun fs => Ret (true, io IoClientCtx fs)) ].

(** The stages of [MountPoint::Create], in the order of the source. *)
Definition MountPoint_stages (E : Env) (M : MountPoint.Collaborators)
  : list (string * (MountPoint.t -> outcome (bool * MountPoint.t))) :=
  [ ("CreateStatistics",
      fun mp => mp ← MountPoint.CreateStatistics mp; Ret (true, mp));
    ("CreateAuthz", fun mp => mp ← MountPoint.CreateAuthz M mp; Ret (true, mp));
    ("BackoffThrottle",
      fun mp =>
        Ret (true,
             MountPoint.set_backoff_throttle_ true
               (MountPoint.ev MountPoint.EvBackoffThrottle mp)));
    ("CreateSignatureManager", fun mp => Ret (MountPoint.CreateSignatureManager M mp));
    ("CheckBlacklists", fun mp => Ret (MountPoint.CheckBlacklists E M mp));
    ("CreateDownloadManagers", MountPoint.CreateDownloadManagers E M);
    ("CreateFetchers", fun mp => Ret (true, MountPoint.CreateFetchers mp));
    ("CreateCatalogManager", fun mp => Ret (MountPoint.CreateCatalogManager E M mp));
    ("CreateTracer", fun mp => Ret (MountPoint.CreateTracer mp));
    ("ReEvaluateAuthz", fun mp => Ret (true, MountPoint.ReEvaluateAuthz M mp));
    ("CreateTables", fun mp => Ret (true, MountPoint.CreateTables E M mp));
    ("SetupBehavior", fun mp => Ret (true, MountPoint.SetupBehavior E mp)) ].

(** ** Notions used to state the properties *)

Definition set_trace_ (v : list IoEvent) (fs : FileSystem) : FileSystem :=
  let 'mkFileSystem a b c d e f g h i j k l m n o p q r s t u v0 w _ := fs in
  mkFileSystem a b c d e f g h i j k l m n o p q r s t u v0 w v.

(** [fs'] differs from [fs] at most in the set of constructed instances,
    in the boot outcome and in the trace. *)
Definition same_context (fs fs' : FileSystem) : Prop :=
  fs' = set_trace_ (trace_ fs')
          (set_boot_error_ (boot_error_ fs')
             (set_boot_status_ (boot_status_ fs')
                (set_constructed_instances_ (constructed_instances_ fs') fs))).

Definition succeeded {A : Type} (r : option A) : bool :=
  match r with Some _ => true | None => false end.

Definition is_quota_delete (e : IoEvent) : bool :=
  match e with IoQuotaDelete => true | _ => false end.

(** What a call into the cache manager factory may change: the context
    stays, instances are only added, the trace is only extended; a
    successful call leaves the boot outcome alone and a failed call
    leaves a failure code; a quota manager is disposed of only on the
    way to a Quota failure. *)
Definition setup_post (fs : FileSystem) (ok : bool) (fs' : FileSystem) : Prop :=
  same_context fs fs' /\
  constructed_instances_ fs ⊆ constructed_instances_ fs' /\
  (exists evs,
     trace_ fs' = (trace_ fs ++ evs)%list /\
     (existsb is_quota_delete evs = true ->
      ok = false /\ boot_status_ fs' = kFailQuota)) /\
  if ok
  then boot_status_ fs' = boot_status_ fs /\ boot_error_ fs' = boot_error_ fs
  else is_failure_code (boot_status_ fs') = true.

(** The option that holds the type tag of a non-default instance. *)
Definition type_key (instance : string) : string :=
  "CVMFS_CACHE_" +:+ instance +:+ "_TYPE".

(** Type options with value "tiered" whose instance has not been entered
    yet: the measure that bounds the recursion of [SetupCacheMgr]. *)
Definition pending_tiers (fs : FileSystem) : gset string :=
  dom (filter (fun kv : string * string => kv.2 = "tiered") (options_mgr_ fs)) ∖
  set_map type_key (constructed_instances_ fs).

(** A tier configuration, unfolded from its root instance. *)
Inductive CacheConfig : Type :=
| Leaf (instance : string)
| Tier (instance : string) (upper lower : CacheConfig).

Definition root (c : CacheConfig) : string :=
  match c with Leaf i => i | Tier i _ _ => i end.

Fixpoint instances (c : CacheConfig) : list string :=
  match c with
  | Leaf i => [i]
  | Tier i u l => i :: (instances u ++ instances l)%list
  end.

Fixpoint leaves (c : CacheConfig) : list string :=
  match c with
  | Leaf i => [i]
  | Tier _ u l => (leaves u ++ leaves l)%list
  end.

Fixpoint depth (c : CacheConfig) : nat :=
  match c with
  | Leaf _ => 0%nat
  | Tier _ u l => S (Nat.max (depth u) (depth l))
  end.

(** The options of [fs] describe the configuration [c]: inner nodes are
    instances of type "tiered" whose upper and lower options name the
    roots of the subtrees, leaves are instances of any other type. *)
Fixpoint describes (fs : FileSystem) (c : CacheConfig) : Prop :=
  match c with
  | Leaf i => instance_type i fs <> "tiered"
  | Tier i u l =>
      instance_type i fs = "tiered" /\
      GetValue fs (MkCacheParm fs "CVMFS_CACHE_UPPER" i) = Some (root u) /\
      GetValue fs (MkCacheParm fs "CVMFS_CACHE_LOWER" i) = Some (root l) /\
      describes fs u /\ describes fs l
  end.

(** No instance is, directly or through other tiers, its own upper or
    lower tier. *)
Fixpoint acyclic_below (ancestors : list string) (c : CacheConfig) : Prop :=
  match c with
  | Leaf i => i ∉ ancestors
  | Tier i u l =>
      (i ∉ ancestors) /\
      acyclic_below (i :: ancestors) u /\ acyclic_below (i :: ancestors) l
  end.

Definition acyclic (c : CacheConfig) : Prop := acyclic_below [] c.

(** The manager has the nesting of the configuration: a tiered manager
    for every tier, holding the managers of its upper and lower subtree. *)
Fixpoint owns (m : CacheManager) (c : CacheConfig) : Prop :=
  match c, m with
  | Leaf _, TieredCacheManager _ _ => False
  | Leaf _, _ => True
  | Tier _ u l, TieredCacheManager mu ml => owns mu u /\ owns ml l
  | Tier _ _ _, _ => False
  end.

(** The quota manager that [SetupPosixQuotaMgr] obtains. *)
Definition created_quota_mgr (E : Env) (settings : PosixCacheSettings)
  (fs : FileSystem) : option PosixQuotaManager :=
  if is_shared settings then
    PosixQuotaManager_CreateShared E (exe_path_ fs) (cache_path settings)
      (quota_limit settings) (Z.quot (quota_limit settings) 2) (foreground_ fs)
  else
    PosixQuotaManager_Create E (cache_path settings) (quota_limit settings)
      (Z.quot (quota_limit settings) 2) (found_previous_crash_ fs).

(** The call of [SetupPosixQuotaMgr] that [TriageCacheMgr] makes for the
    primary cache instance: the settings it passes and the object at the
    call.  There is such a call when the instance name is accepted, the
    instance is a posix cache manager not constructed before, its
    settings pass the check, the cache manager and the file .cvmfscache
    are created and the cache is managed. *)
Definition primary_quota_call (E : Env) (fs : FileSystem)
  : option (PosixCacheSettings * FileSystem) :=
  let fs := set_cache_mgr_instance_ kDefaultCacheMgrInstance fs in
  let checked :=
    match GetValue fs "CVMFS_CACHE_PRIMARY" with
    | Some instance =>
        if negb (String.eqb instance "") then
          let '(ok, fs) := CheckInstanceName instance fs in
          if negb ok then (false, fs)
          else (true, set_cache_mgr_instance_ instance fs)
        else (true, fs)
    | None => (true, fs)
    end in
  match checked with
  | (false, _) => None
  | (true, fs) =>
      let instance := cache_mgr_instance_ fs in
      if bool_decide (instance ∈ constructed_instances_ fs) then None
      else
        let fs := set_constructed_instances_
                    (constructed_instances_ fs ∪ {[ instance ]}) fs in
        if negb (String.eqb (instance_type instance fs) "posix") then None
        else
          let settings := DeterminePosixCacheSettings E instance fs in
          let '(ok, fs) := CheckPosixCacheSettings settings fs in
          if negb ok then None
          else
            let fs := io (IoPosixCacheCreate (cache_path settings) (is_alien settings)
                            (avoid_rename settings)) fs in
            if negb (PosixCacheManager_Create E (cache_path settings)
                       (is_alien settings) (avoid_rename settings)) then None
            else
              let ignore_failure := is_alien settings in
              let fs := io (IoCreateFile (cache_path settings +:+ "/.cvmfscache")
                              ignore_failure) fs in
              if negb (CreateFile_creates E (cache_path settings +:+ "/.cvmfscache") 384
                       || ignore_failure) then None
              else if is_managed settings then Some (settings, fs) else None
  end.

(** What a stage outside the cache manager factory does to the object:
    it only appends events, none of them the disposal of a quota manager;
    when it succeeds it leaves the boot outcome alone and when it fails
    it leaves a failure code. *)
Definition stage_post (fs : FileSystem) (ok : bool) (fs' : FileSystem) : Prop :=
  (exists evs,
     trace_ fs' = (trace_ fs ++ evs)%list /\
     existsb is_quota_delete evs = false) /\
  if ok
  then boot_status_ fs' = boot_status_ fs /\ boot_error_ fs' = boot_error_ fs
  else is_failure_code (boot_status_ fs') = true.

Definition not_tiered (m : CacheManager) : Prop :=
  match m with TieredCacheManager _ _ => False | _ => True end.

(** The primary instance name is refused for its length: the one failure
    of the sequence that writes no code. *)
Definition primary_name_too_long (fs : FileSystem) : Prop :=
  exists instance,
    GetValue fs "CVMFS_CACHE_PRIMARY" = Some instance /\
    (24 < String.length instance)%nat.

(** A run of [stages] from [s] went through all of them and ended in [s']. *)
Definition completed {S : Type} (stages : list (string * (S -> outcome (bool * S))))
  (s s' : S) : Prop :=
  run_stages stages s = Ret (map fst stages, None, s').

(** A run of [stages] from [s] halted at the stage named [n]: the stages
    in front of it succeeded one after the other and left the state
    [before]; stage [n], run on [before], reported failure and left [s'].
    The stages behind [n] were not run. *)
Definition halted_at {S : Type} (stages : list (string * (S -> outcome (bool * S))))
  (s : S) (n : string) (before s' : S) : Prop :=
  exists front stage behind,
    stages = (front ++ (n, stage) :: behind)%list /\
    run_stages front s = Ret (map fst front, None, before) /\
    stage before = Ret (false, s').

(** What a stage of [MountPoint::Create] does to the object: it only
    appends events; when it succeeds it leaves the boot outcome alone and
    when it fails it leaves a failure code; the file system and the options
    stay.  For the stages in front of
    the fetchers ([early]) in addition: no event of the fetch or catalog
    stage, and the fetchers and the catalog manager are left as they are. *)
Definition mount_post (early : bool) (mp : MountPoint.t) (ok : bool)
  (mp' : MountPoint.t) : Prop :=
  (MountPoint.file_system_ mp' = MountPoint.file_system_ mp /\
   MountPoint.options_mgr_ mp' = MountPoint.options_mgr_ mp) /\
  (exists evs,
     MountPoint.trace_ mp' = (MountPoint.trace_ mp ++ evs)%list /\
     (early = true -> existsb MountPoint.is_fetch_or_catalog evs = false)) /\
  (early = true ->
   MountPoint.fetcher_ mp' = MountPoint.fetcher_ mp /\
   MountPoint.external_fetcher_ mp' = MountPoint.external_fetcher_ mp /\
   MountPoint.catalog_mgr_ mp' = MountPoint.catalog_mgr_ mp) /\
  if ok
  then MountPoint.boot_status_ mp' = MountPoint.boot_status_ mp /\
       MountPoint.boot_error_ mp' = MountPoint.boot_error_ mp
  else is_failure_code (MountPoint.boot_status_ mp') = true.

(** A walk through stages that each satisfy [step]: all succeeded
    ([None]) or the walk ended with the failure of a stage ([Some n]). *)
Inductive walked {S : Type} (step : string -> S -> bool -> S -> Prop)
  : S -> option string -> S -> Prop :=
| walked_done (s : S) : walked step s None s
| walked_halt (n : string) (s s' : S) :
    step n s false s' -> walked step s (Some n) s'
| walked_on (n : string) (s s1 : S) (failed : option string) (s' : S) :
    step n s true s1 -> walked step s1 failed s' -> walked step s failed s'.

(** Every stage of the list satisfies [step] whenever it returns. *)
Definition stages_satisfy {S : Type} (step : string -> S -> bool -> S -> Prop)
  (stages : list (string * (S -> outcome (bool * S)))) : Prop :=
  Forall (fun st => forall s ok s', st.2 s = Ret (ok, s') -> step st.1 s ok s') stages.

(** What any stage of [FileSystem::Create] does to the object. *)
Definition fs_step (n : string) (fs : FileSystem) (ok : bool) (fs' : FileSystem)
  : Prop :=
  (exists evs,
     trace_ fs' = (trace_ fs ++ evs)%list /\
     (existsb is_quota_delete evs = true ->
      ok = false /\ boot_status_ fs' = kFailQuota)) /\
  if ok
  then boot_status_ fs' = boot_status_ fs /\ boot_error_ fs' = boot_error_ fs
  else is_failure_code (boot_status_ fs') = true \/
       (n = "TriageCacheMgr" /\ primary_name_too_long fs /\
        boot_status_ fs' = boot_status_ fs /\ boot_error_ fs' = boot_error_ fs /\
        trace_ fs' = trace_ fs).

Definition mount_step (n : string) (mp : MountPoint.t) (ok : bool)
  (mp' : MountPoint.t) : Prop :=
  mount_post false mp ok mp'.

(** The proxy description handed to the resolver for the primary download
    manager, and the one for the external download manager (if any). *)
Definition http_proxy_option (options : gmap string string) : string :=
  match options !! "CVMFS_HTTP_PROXY" with Some v => v | None => "" end.

(** The call failed with the proxy discovery code and the given message. *)
Definition wpad_failure (msg : string) (r : outcome (bool * MountPoint.t)) : Prop :=
  exists mp',
    r = Ret (false, mp') /\
    MountPoint.boot_status_ mp' = kFailWpad /\
    MountPoint.boot_error_ mp' = msg.

(** The same for the result of [SetupExternalDownloadMgr]. *)
Definition wpad_result (msg : string) (r : bool * MountPoint.t) : Prop :=
  exists mp',
    r = (false, mp') /\
    MountPoint.boot_status_ mp' = kFailWpad /\
    MountPoint.boot_error_ mp' = msg.

(** The resolution of a proxy chain returns the empty string: for the
    primary download manager, or else for the external one, which resolves
    only a configured CVMFS_EXTERNAL_HTTP_PROXY.  The result is the message
    the source records. *)
Definition proxy_discovery_fails (M : MountPoint.Collaborators)
  (options : gmap string string) : option string :=
  if String.eqb (MountPoint.ResolveProxyDescription M false (http_proxy_option options)) ""
  then Some "failed to discover HTTP proxy servers"
  else
    match options !! "CVMFS_EXTERNAL_HTTP_PROXY" with
    | Some optarg =>
        if String.eqb (MountPoint.ResolveProxyDescription M true optarg) ""
        then Some "failed to discover external HTTP proxy servers"
        else None
    | None => None
    end.

(** CVMFS_AUTO_UPDATE is configured and is not on. *)
Definition auto_update_off (E : Env) (options : gmap string string) : bool :=
  match options !! "CVMFS_AUTO_UPDATE" with
  | Some optarg => negb (IsOn E optarg)
  | None => false
  end.

(** The object on which [CreateCatalogManager] calls [SetupOwnerMaps]. *)
Definition catalog_mgr_created (E : Env) (mp : MountPoint.t) : MountPoint.t :=
  MountPoint.SetupInodeAnnotation E
    (MountPoint.set_catalog_mgr_ true (MountPoint.ev MountPoint.EvCatalogMgrCreate mp)).

(** The root hash that [CreateCatalogManager] gets from
    [DetermineRootHash]. *)
Definition resolved_root_hash (E : Env) (M : MountPoint.Collaborators)
  (mp : MountPoint.t) : MountPoint.Any :=
  snd (fst (MountPoint.DetermineRootHash E M
              (snd (MountPoint.SetupOwnerMaps E M (catalog_mgr_created E mp))))).

(** ** Concrete environments and configurations

    Used to run the definitions above on examples. *)

Module Examples.

Definition is_on (s : string) : bool :=
  String.eqb s "YES" || String.eqb s "yes" || String.eqb s "ON" ||
  String.eqb s "on" || String.eqb s "1".

Definition digit (c : ascii) : option Z :=
  let n := Z.of_nat (nat_of_ascii c) in
  if (48 <=? n) && (n <=? 57) then Some (n - 48) else None.

Fixpoint parse_digits (acc : Z) (s : string) : Z :=
  match s with
  | EmptyString => acc
  | String c rest =>
      match digit c with
      | Some d => parse_digits (acc * 10 + d) rest
      | None => acc
      end
  end.

Definition quota_mgr (size capacity : Z) (cleanup_ok : bool) : PosixQuotaManager :=
  {| GetSize := size; GetCapacity := capacity; Cleanup := fun _ => cleanup_ok |}.

(** An environment in which every external call succeeds: the workspace
    lock is free, directories and caches can be created, and a quota
    manager reports the given size and capacity. *)
Definition env_with (size capacity : Z) (cleanup_ok : bool) (try_lock lock : Z) : Env :=
  {| IsOn := is_on;
     String2Int64 := parse_digits 0;
     String2Uint64 := parse_digits 0;
     StringifyInt := fun _ => "n";
     MakeCanonicalPath := fun p => p;
     SplitString := fun s _ => [s];
     kDefaultQuotaLimit := 1024 * 1024 * 1024;
     kDefaultNfiles := 8192;
     kInodeOffset := 255;
     CVMFS_NFS_SUPPORT := true;
     errno := 0;
     strerror := fun _ => "error";
     platform_memsize := 8 * 1024 * 1024 * 1024;
     sqlite3_config_ok := true;
     MkdirDeep := fun _ _ => true;
     TryLockFile := fun _ => try_lock;
     LockFile := fun _ => lock;
     chdir := fun _ => 0;
     platform_stat := fun _ => -1;
     open_creat := fun _ => 4;
     CreateFile_creates := fun _ _ => true;
     FileExists := fun _ => false;
     PosixCacheManager_Create := fun _ _ _ => true;
     PosixQuotaManager_CreateShared :=
       fun _ _ _ _ _ => Some (quota_mgr size capacity cleanup_ok);
     PosixQuotaManager_Create :=
       fun _ _ _ _ => Some (quota_mgr size capacity cleanup_ok);
     AcquireQuotaManager := true;
     ExternalCacheManager_CreatePlugin :=
       fun _ _ => {| IsValid := true; fd_connection := 5; error_msg := "" |};
     ExternalCacheManager_Create := fun _ _ _ => true;
     TieredCacheManager_Create := fun _ _ => true;
     Uuid_Create := fun _ => true;
     nfs_maps_Init := fun _ _ _ _ => true;
     RegisterVfsRdOnly := true |}.

Definition env : Env := env_with 0 1000 true 3 3.

(** A file system object as the constructor leaves it. *)
Definition file_system (fs_type : FsType) (options : gmap string string)
  (wait_workspace : bool) : FileSystem :=
  {| name_ := "repo.example.org";
     exe_path_ := "/usr/bin/cvmfs2";
     type_ := fs_type;
     options_mgr_ := options;
     wait_workspace_ := wait_workspace;
     foreground_ := false;
     statistics_ := false;
     workspace_ := "";
     workspace_fullpath_ := "";
     path_workspace_lock_ := "";
     fd_workspace_lock_ := -1;
     path_crash_guard_ := "";
     found_previous_crash_ := false;
     nfs_mode_ := kNfsNone;
     nfs_maps_dir_ := "";
     cache_mgr_instance_ := "";
     constructed_instances_ := ∅;
     cache_mgr_ := None;
     uuid_cache_ := None;
     has_nfs_maps_ := false;
     has_custom_sqlitevfs_ := false;
     boot_status_ := kFailUnknown;
     boot_error_ := "";
     trace_ := [] |}.

Definition fs_info (fs_type : FsType) (options : gmap string string)
  (wait_workspace : bool) : FileSystemInfo :=
  {| info_name := "repo.example.org";
     info_exe_path := "/usr/bin/cvmfs2";
     info_type := fs_type;
     info_options_mgr := options;
     info_wait_workspace := wait_workspace;
     info_foreground := false |}.

Definition collaborators (proxies : string) : MountPoint.Collaborators :=
  {| MountPoint.kDefaultMaxTtlSec := 0;
     MountPoint.kDefaultKCacheTtlSec := 60;
     MountPoint.kDefaultNumConnections := 16;
     MountPoint.kDefaultTimeoutSec := 5;
     MountPoint.kDefaultRetries := 1;
     MountPoint.kDefaultBackoffInitMs := 2000;
     MountPoint.kDefaultBackoffMaxMs := 10000;
     MountPoint.kDnsDefaultTimeoutMs := 3000;
     MountPoint.kDnsDefaultRetries := 1;
     MountPoint.kDefaultMemcacheSize := 16 * 1024 * 1024;
     MountPoint.memcache_unit_size := 1024;
     MountPoint.ReplaceAll := fun s _ _ => s;
     MountPoint.IsoTimestamp2UtcTime := parse_digits 0;
     MountPoint.StringifyTime := fun _ _ => "t";
     MountPoint.MkFromHexPtr :=
       fun hex suffix =>
         if String.eqb hex "" then MountPoint.NullHash
         else MountPoint.Digest hex suffix;
     MountPoint.FindFiles := fun _ _ => ["/etc/cvmfs/keys/example.pub"];
     MountPoint.LoadPublicRsaKeys := fun _ => true;
     MountPoint.LoadTrustedCaCrl := fun _ => true;
     MountPoint.LoadBlacklist := fun _ _ => true;
     MountPoint.HasConfigRepository := fun _ => None;
     MountPoint.ResolveProxyDescription := fun _ _ => proxies;
     MountPoint.GetTimeout := (5, 5);
     MountPoint.OwnerMap_Read := fun _ => true;
     MountPoint.manifest_Fetch := fun _ => Some (MountPoint.Digest "aa" "H"%char);
     MountPoint.Fetcher_Fetch := fun _ => 7;
     MountPoint.SqliteHistory_Open :=
       fun _ =>
         Some [ MountPoint.mkTag "v1" (MountPoint.Digest "11" "C"%char) 100;
                MountPoint.mkTag "v2" (MountPoint.Digest "22" "C"%char) 200 ];
     MountPoint.catalog_Init := true;
     MountPoint.catalog_InitFixed := fun _ _ => true;
     MountPoint.catalog_GetTTL := 240;
     MountPoint.catalog_GetVOMSAuthz := (false, "");
     MountPoint.pthread_mutex_init := 0;
     MountPoint.AuthzSessionManager_Create := true |}.

(** A three level chain A -> B -> C: A and B are tiered with a ram cache
    of their own as upper tier, C is a ram cache. *)
Definition chain_options : gmap string string :=
  {[ "CVMFS_CACHE_PRIMARY" := "A";
     "CVMFS_CACHE_A_TYPE" := "tiered";
     "CVMFS_CACHE_A_UPPER" := "RA";
     "CVMFS_CACHE_A_LOWER" := "B";
     "CVMFS_CACHE_RA_TYPE" := "ram";
     "CVMFS_CACHE_B_TYPE" := "tiered";
     "CVMFS_CACHE_B_UPPER" := "RB";
     "CVMFS_CACHE_B_LOWER" := "C";
     "CVMFS_CACHE_RB_TYPE" := "ram";
     "CVMFS_CACHE_C_TYPE" := "ram" ]}.

Definition chain_config : CacheConfig :=
  Tier "A" (Leaf "RA") (Tier "B" (Leaf "RB") (Leaf "C")).

(** The same chain, but A and B name the same ram cache R as their upper
    tier.  No instance is its own upper or lower tier. *)
Definition shared_upper_options : gmap string string :=
  {[ "CVMFS_CACHE_PRIMARY" := "A";
     "CVMFS_CACHE_A_TYPE" := "tiered";
     "CVMFS_CACHE_A_UPPER" := "R";
     "CVMFS_CACHE_A_LOWER" := "B";
     "CVMFS_CACHE_R_TYPE" := "ram";
     "CVMFS_CACHE_B_TYPE" := "tiered";
     "CVMFS_CACHE_B_UPPER" := "R";
     "CVMFS_CACHE_B_LOWER" := "C";
     "CVMFS_CACHE_C_TYPE" := "ram" ]}.

Definition shared_upper_config : CacheConfig :=
  Tier "A" (Leaf "R") (Tier "B" (Leaf "R") (Leaf "C")).

(** The file system object of a successful default bootstrap. *)
Definition booted_file_system : FileSystem :=
  match FileSystem_Create env false (fs_info kFsFuse ∅ false) with
  | Ret fs => fs
  | _ => file_system kFsFuse ∅ false
  end.

(** A mount point over the booted file system as the constructor leaves
    it. *)
Definition mount_point (proxies : string) (options : gmap string string)
  : MountPoint.t :=
  match MountPoint.new (collaborators proxies) "repo.example.org" booted_file_system
          options with
  | Ret mp => mp
  | _ =>
      MountPoint.mk "repo.example.org" booted_file_system options false false false
        false false false false false false false false false false false 0 0 false
        false false "" "" kFailUnknown "" []
  end.

End Examples.


(** ** Notions for further properties *)

(** The compatibility name that [MkCacheParm] falls back to for the
    default instance, for the four parameters that have one. *)
Definition legacy_name (generic_parameter : string) : option string :=
  if String.eqb generic_parameter "CVMFS_CACHE_SHARED" then Some "CVMFS_SHARED_CACHE"
  else if String.eqb generic_parameter "CVMFS_CACHE_ALIEN" then Some "CVMFS_ALIEN_CACHE"
  else if String.eqb generic_parameter "CVMFS_CACHE_SERVER_MODE"
       then Some "CVMFS_SERVER_CACHE_MODE"
  else if String.eqb generic_parameter "CVMFS_CACHE_QUOTA_LIMIT"
       then Some "CVMFS_QUOTA_LIMIT"
  else None.

(** The workspace directory as the options name it: CVMFS_WORKSPACE, else
    CVMFS_CACHE_DIR, else the cache base (CVMFS_CACHE_BASE or the default
    one) followed by /shared for a shared cache and by the name of the
    file system otherwise. *)
Definition workspace_path (E : Env) (fs : FileSystem) : string :=
  match GetValue fs "CVMFS_WORKSPACE" with
  | Some optarg => optarg
  | None =>
      match GetValue fs "CVMFS_CACHE_DIR" with
      | Some optarg => optarg
      | None =>
          match GetValue fs "CVMFS_CACHE_BASE" with
          | Some optarg => MakeCanonicalPath E optarg
          | None => kDefaultCacheBase
          end +:+
          (if match GetValue fs "CVMFS_SHARED_CACHE" with
              | Some optarg => IsOn E optarg
              | None => false
              end
           then "/shared" else "/" +:+ name_ fs)
      end
  end.

(** [fs'] differs from [fs] at most in the members that describe the
    workspace (its path, the lock, the crash guard), in the boot outcome
    and in the trace. *)
Definition workspace_frame (fs fs' : FileSystem) : Prop :=
  fs' =
  set_trace_ (trace_ fs')
    (set_boot_error_ (boot_error_ fs')
       (set_boot_status_ (boot_status_ fs')
          (set_found_previous_crash_ (found_previous_crash_ fs')
             (set_path_crash_guard_ (path_crash_guard_ fs')
                (set_fd_workspace_lock_ (fd_workspace_lock_ fs')
                   (set_path_workspace_lock_ (path_workspace_lock_ fs')
                      (set_workspace_fullpath_ (workspace_fullpath_ fs')
                         (set_workspace_ (workspace_ fs') fs)))))))).

(** ** The members of a mount point *)

(** The objects a mount point owns. *)
Inductive Member : Set :=
| MStatistics | MAuthzFetcher | MAuthzSessionMgr | MAuthzAttachment
| MBackoffThrottle | MSignatureMgr | MDownloadMgr | MExternalDownloadMgr
| MFetcher | MExternalFetcher | MCatalogMgr | MInodeAnnotation | MTracer
| MTables.

#[global] Instance Member_eq_dec : EqDecision Member.
Proof. solve_decision. Defined.

(** Whether the member has been constructed. *)
Definition constructed (m : Member) (mp : MountPoint.t) : bool :=
  match m with
  | MStatistics => MountPoint.statistics_ mp
  | MAuthzFetcher => MountPoint.authz_fetcher_ mp
  | MAuthzSessionMgr => MountPoint.authz_session_mgr_ mp
  | MAuthzAttachment => MountPoint.authz_attachment_ mp
  | MBackoffThrottle => MountPoint.backoff_throttle_ mp
  | MSignatureMgr => MountPoint.signature_mgr_ mp
  | MDownloadMgr => MountPoint.download_mgr_ mp
  | MExternalDownloadMgr => MountPoint.external_download_mgr_ mp
  | MFetcher => MountPoint.fetcher_ mp
  | MExternalFetcher => MountPoint.external_fetcher_ mp
  | MCatalogMgr => MountPoint.catalog_mgr_ mp
  | MInodeAnnotation => MountPoint.inode_annotation_ mp
  | MTracer => MountPoint.tracer_ mp
  | MTables => MountPoint.tables_ mp
  end.

(** The order in which [MountPoint::Create] and the methods it calls
    construct the members. *)
Definition construction_order : list Member :=
  [MStatistics; MAuthzFetcher; MAuthzSessionMgr; MAuthzAttachment;
   MBackoffThrottle; MSignatureMgr; MDownloadMgr; MExternalDownloadMgr;
   MFetcher; MExternalFetcher; MCatalogMgr; MInodeAnnotation; MTracer;
   MTables].

(** From [mp] to [mp'] the name stays and exactly the members of [added]
    are constructed in addition. *)
Definition members_added (added : list Member) (mp mp' : MountPoint.t) : Prop :=
  MountPoint.fqrn_ mp' = MountPoint.fqrn_ mp /\
  forall m, constructed m mp' = constructed m mp || bool_decide (m ∈ added).

(** ** The destructor of the file system *)

(** What [~FileSystem] does to the world, in the order of the source. *)
Inductive TeardownEvent : Type :=
| TdClientCtxCleanup
| TdUnregisterVfsRdOnly
| TdDeleteUuid (uuid : string)
| TdNfsMapsFini
| TdDeleteCacheMgr (cache_mgr : CacheManager)
| TdFreeTempDirectory
| TdUnlink (path : string)
| TdUnlockFile (fd : Z)
| TdSqliteShutdown
| TdSqliteMemoryCleanup
| TdDeleteStatistics
| TdSetLog (what value : string)
| TdShutdownProtobuf.

Definition is_temp_directory (e : IoEvent) : bool :=
  match e with IoSqliteTempDirectory _ => true | _ => false end.

(** The global [sqlite3_temp_directory] is not null once
    [FileSystem::Create] has assigned it. *)
Definition sqlite3_temp_directory (fs : FileSystem) : bool :=
  existsb is_temp_directory (trace_ fs).

(** [FileSystem::~FileSystem]: the teardown actions, and the static flag
    [g_alive] it leaves behind.  Deleting a null pointer does nothing. *)
Definition FileSystem_delete (E : Env) (fs : FileSystem)
  : list TeardownEvent * bool :=
  ([TdClientCtxCleanup] ++
   (if has_custom_sqlitevfs_ fs then [TdUnregisterVfsRdOnly] else []) ++
   (match uuid_cache_ fs with Some uuid => [TdDeleteUuid uuid] | None => [] end) ++
   (if CVMFS_NFS_SUPPORT E && has_nfs_maps_ fs then [TdNfsMapsFini] else []) ++
   (match cache_mgr_ fs with Some m => [TdDeleteCacheMgr m] | None => [] end) ++
   (if sqlite3_temp_directory fs then [TdFreeTempDirectory] else []) ++
   (if negb (String.eqb (path_crash_guard_ fs) "")
    then [TdUnlink (path_crash_guard_ fs)] else []) ++
   (if negb (String.eqb (path_workspace_lock_ fs) "")
    then [TdUnlink (path_workspace_lock_ fs)] else []) ++
   (if 0 <=? fd_workspace_lock_ fs
    then [TdUnlockFile (fd_workspace_lock_ fs)] else []) ++
   [TdSqliteShutdown; TdSqliteMemoryCleanup] ++
   (if statistics_ fs then [TdDeleteStatistics] else []) ++
   [TdSetLog "SetLogSyslogPrefix" ""; TdSetLog "SetLogMicroSyslog" "";
    TdSetLog "SetLogDebugFile" ""; TdShutdownProtobuf],
   false)%list.

(** ** The POSIX caches of a manager *)

(** [P] holds for every POSIX cache manager in [m], through all tiers. *)
Fixpoint every_posix (P : string -> bool -> bool -> bool -> Prop)
  (m : CacheManager) : Prop :=
  match m with
  | PosixCacheManager cache_path alien_cache avoid_rename has_quota =>
      P cache_path alien_cache avoid_rename has_quota
  | TieredCacheManager upper lower => every_posix P upper /\ every_posix P lower
  | _ => True
  end.

Set Warnings "-clear-no-such-hyp".

(** * Properties *)

(** ** Machine arithmetic and the TTL tunable *)






(** ** Checks on posix cache settings and instance names *)

Lemma is_managed_quota_limit (E : Env) (instance : string) (fs : FileSystem) :
  is_managed (DeterminePosixCacheSettings E instance fs) =
  (0 <? quota_limit (DeterminePosixCacheSettings E instance fs)).
Proof.
  unfold DeterminePosixCacheSettings.
  repeat match goal with
         | |- context [let '(_, _) := ?x in _] => destruct x
         end.
  reflexivity.
Qed.

Lemma CheckPosixCacheSettings_true (settings : PosixCacheSettings)
  (fs fs' : FileSystem) :
  CheckPosixCacheSettings settings fs = (true, fs') ->
  fs' = fs /\
  (is_alien settings = true -> is_shared settings = false) /\
  (is_alien settings = true -> is_managed settings = false) /\
  (type_ fs = kFsLibrary ->
   is_shared settings = false /\ is_managed settings = false) /\
  (cache_base_defined settings && cache_dir_defined settings = false).
Proof.
  unfold CheckPosixCacheSettings.
  destruct (is_alien settings), (is_shared settings), (is_managed settings),
    (cache_base_defined settings), (cache_dir_defined settings);
    simpl; try discriminate;
    destruct (bool_decide_reflect (type_ fs = kFsLibrary)); simpl;
    try discriminate; intros [= <-]; repeat split; intros; congruence.
Qed.

Lemma trace_fail code msg fs : trace_ (fail code msg fs) = trace_ fs.
Proof. destruct fs. reflexivity. Qed.

Lemma boot_status_fail code msg fs : boot_status_ (fail code msg fs) = code.
Proof. destruct fs. reflexivity. Qed.

Lemma boot_error_fail code msg fs : boot_error_ (fail code msg fs) = msg.
Proof. destruct fs. reflexivity. Qed.

Lemma type_io ev fs : type_ (io ev fs) = type_ fs.
Proof. destruct fs. reflexivity. Qed.

(** C4: a posix cache that is alien and also shared or managed (quota
    limit above zero) is refused with the Options code before anything is
    constructed, and a posix cache manager that was constructed has
    settings in which alien excludes shared and managed, base and explicit
    directory are not both set, and library mode is neither shared nor
    managed. *)
Theorem alien_cache_exclusions (E : Env) (instance : string) (fs : FileSystem) :
  let settings := DeterminePosixCacheSettings E instance fs in
  is_managed settings = (0 <? quota_limit settings) /\
  (is_alien settings = true ->
   is_shared settings = true \/ is_managed settings = true ->
   exists fs',
     SetupPosixCacheMgr E instance fs = Ret (None, fs') /\
     boot_status_ fs' = kFailOptions /\
     boot_error_ fs' <> "" /\
     trace_ fs' = trace_ fs) /\
  (forall mgr fs',
     SetupPosixCacheMgr E instance fs = Ret (Some mgr, fs') ->
     (is_alien settings = true -> is_shared settings = false) /\
     (is_alien settings = true -> is_managed settings = false) /\
     (type_ fs = kFsLibrary ->
      is_shared settings = false /\ is_managed settings = false) /\
     (cache_base_defined settings && cache_dir_defined settings = false)).
Proof.
  intros settings. split; [apply is_managed_quota_limit |]. split.
  - intros Ha Hsm.
    assert (Hmsg : exists msg, msg <> "" /\
              CheckPosixCacheSettings settings fs = (false, fail kFailOptions msg fs)).
    { unfold CheckPosixCacheSettings. rewrite Ha.
      destruct (is_shared settings); simpl.
      - eexists; split; [| reflexivity]. discriminate.
      - destruct Hsm as [? | ->]; [discriminate |].
        eexists; split; [| reflexivity]. discriminate. }
    destruct Hmsg as (msg & Hne & Hchk).
    exists (fail kFailOptions msg fs).
    unfold SetupPosixCacheMgr. fold settings. rewrite Hchk. simpl.
    rewrite boot_status_fail, boot_error_fail, trace_fail. auto.
  - intros mgr fs' Hrun. unfold SetupPosixCacheMgr in Hrun. fold settings in Hrun.
    destruct (CheckPosixCacheSettings settings fs) as [ok fs1] eqn:Hchk.
    destruct ok; simpl in Hrun; [| discriminate].
    apply CheckPosixCacheSettings_true in Hchk. tauto.
Qed.

Lemma alien_cache_exclusions_witness :
  let fs := Examples.file_system kFsFuse
              {[ "CVMFS_ALIEN_CACHE" := "/alien"; "CVMFS_SHARED_CACHE" := "YES" ]} false in
  let settings := DeterminePosixCacheSettings Examples.env "default" fs in
  is_alien settings = true /\ is_shared settings = true /\
  exists fs',
    SetupPosixCacheMgr Examples.env "default" fs = Ret (None, fs') /\
    boot_status_ fs' = kFailOptions /\ boot_error_ fs' <> "" /\
    trace_ fs' = trace_ fs.
Proof.
  intros fs settings.
  assert (Ha : is_alien settings = true) by (vm_compute; reflexivity).
  assert (Hs : is_shared settings = true) by (vm_compute; reflexivity).
  split; [exact Ha | split; [exact Hs |]].
  exact (proj1 (proj2 (alien_cache_exclusions Examples.env "default" fs)) Ha (or_introl Hs)).
Defined.

Lemma cache_mgr_instance_fail code msg fs :
  cache_mgr_instance_ (fail code msg fs) = cache_mgr_instance_ fs.
Proof. destruct fs. reflexivity. Qed.

(** C5: what [TriageCacheMgr] does with a primary instance name that
    [CheckInstanceName] refuses: a name with a character outside
    [A-Za-z0-9_] (and at most 24 characters) fails with the CacheDir code
    and a message, before any external call; a name of more than 24
    characters makes the stage fail as well, but neither a code nor a
    message is written. *)
Theorem primary_instance_name_validation (E : Env) (fs : FileSystem)
  (instance : string)
  (Hprimary : GetValue fs "CVMFS_CACHE_PRIMARY" = Some instance) :
  ((String.length instance <= 24)%nat ->
   CacheInstanceSanitizer_IsValid instance = false ->
   exists fs',
     TriageCacheMgr E fs = Ret (false, fs') /\
     boot_status_ fs' = kFailCacheDir /\
     boot_error_ fs' =
       "invalid instance name (" +:+ instance +:+ "), " +:+
       "only characters a-z, A-Z, 0-9, _ are allowed" /\
     trace_ fs' = trace_ fs /\ cache_mgr_ fs' = cache_mgr_ fs) /\
  ((24 < String.length instance)%nat ->
   exists fs',
     TriageCacheMgr E fs = Ret (false, fs') /\
     boot_status_ fs' = boot_status_ fs /\
     boot_error_ fs' = boot_error_ fs /\
     trace_ fs' = trace_ fs /\ cache_mgr_ fs' = cache_mgr_ fs).
Proof.
  assert (Hget : GetValue (set_cache_mgr_instance_ kDefaultCacheMgrInstance fs)
                   "CVMFS_CACHE_PRIMARY" = Some instance).
  { destruct fs. exact Hprimary. }
  split.
  - intros Hlen Hbad.
    assert (Hne : String.eqb instance "" = false).
    { destruct instance; [discriminate Hbad | reflexivity]. }
    unfold TriageCacheMgr. rewrite Hget, Hne. simpl.
    unfold CheckInstanceName.
    destruct (Nat.ltb_spec 24 (String.length instance)) as [Hgt | _]; [lia |].
    rewrite Hbad. simpl. eexists. split; [reflexivity |].
    destruct fs. simpl. auto.
  - intros Hlen.
    assert (Hne : String.eqb instance "" = false).
    { destruct instance; [simpl in Hlen; lia | reflexivity]. }
    unfold TriageCacheMgr. rewrite Hget, Hne. simpl.
    unfold CheckInstanceName.
    destruct (Nat.ltb_spec 24 (String.length instance)) as [_ | Hle]; [| lia].
    simpl. eexists. split; [reflexivity |].
    destruct fs. simpl. auto.
Qed.

Lemma primary_instance_name_validation_witness :
  let fs := Examples.file_system kFsFuse
              {[ "CVMFS_CACHE_PRIMARY" := "aaaaaaaaaaaaaaaaaaaaaaaaa" ]} false in
  GetValue fs "CVMFS_CACHE_PRIMARY" = Some "aaaaaaaaaaaaaaaaaaaaaaaaa" /\
  (24 < String.length "aaaaaaaaaaaaaaaaaaaaaaaaa")%nat /\
  exists fs',
    TriageCacheMgr Examples.env fs = Ret (false, fs') /\
    boot_status_ fs' = kFailUnknown /\ boot_error_ fs' = "" /\
    trace_ fs' = [] /\ cache_mgr_ fs' = None.
Proof.
  intros fs.
  assert (Hp : GetValue fs "CVMFS_CACHE_PRIMARY" = Some "aaaaaaaaaaaaaaaaaaaaaaaaa")
    by (vm_compute; reflexivity).
  assert (Hl : (24 < String.length "aaaaaaaaaaaaaaaaaaaaaaaaa")%nat) by (simpl; lia).
  split; [exact Hp | split; [exact Hl |]].
  exact (proj2 (primary_instance_name_validation Examples.env fs _ Hp) Hl).
Defined.

(** ** The workspace lock *)

(** C7: when TryLockFile obtains the lock (a descriptor >= 0) the call
    succeeds with that single external call; when the lock is held
    elsewhere (-2) and the caller does not wait, the call fails with the
    LockWorkspace code and the blocking LockFile is never called; when the
    caller waits, the blocking LockFile is called once and the call
    succeeds if it returns a descriptor and fails with the CacheDir code
    if it returns an error; an error of TryLockFile itself (-1) is a
    CacheDir failure. *)
Theorem LockWorkspace_outcomes (E : Env) (fs : FileSystem) :
  let path := workspace_ fs +:+ "/lock." +:+ name_ fs in
  (0 <= TryLockFile E path ->
   exists fs',
     LockWorkspace E fs = Ret (true, fs') /\
     fd_workspace_lock_ fs' = TryLockFile E path /\
     trace_ fs' = (trace_ fs ++ [IoTryLockFile path])%list /\
     boot_status_ fs' = boot_status_ fs) /\
  (TryLockFile E path = -2 -> wait_workspace_ fs = false ->
   exists fs',
     LockWorkspace E fs = Ret (false, fs') /\
     boot_status_ fs' = kFailLockWorkspace /\
     trace_ fs' = (trace_ fs ++ [IoTryLockFile path])%list) /\
  (TryLockFile E path = -2 -> wait_workspace_ fs = true ->
   exists fs',
     trace_ fs' = (trace_ fs ++ [IoTryLockFile path; IoLockFile path])%list /\
     fd_workspace_lock_ fs' = LockFile E path /\
     (0 <= LockFile E path ->
      LockWorkspace E fs = Ret (true, fs') /\ boot_status_ fs' = boot_status_ fs) /\
     (LockFile E path < 0 ->
      exists fs'', LockWorkspace E fs = Ret (false, fs'') /\
        boot_status_ fs'' = kFailCacheDir /\ trace_ fs'' = trace_ fs')) /\
  (TryLockFile E path = -1 ->
   exists fs',
     LockWorkspace E fs = Ret (false, fs') /\
     boot_status_ fs' = kFailCacheDir /\
     trace_ fs' = (trace_ fs ++ [IoTryLockFile path])%list).
Proof.
  intros path. unfold LockWorkspace.
  destruct fs as [nm ex ty op ww fg st ws wf pl fd pc fp nmode nd ci cs cm uu hn hs bs be tr].
  simpl in *. subst path.
  set (path := ws +:+ "/lock." +:+ nm).
  repeat split.
  - intros Hfd. destruct (Z.leb_spec 0 (TryLockFile E path)); [| lia].
    eexists. split; [reflexivity |]. simpl. auto.
  - intros Hfd ->. rewrite Hfd. simpl.
    eexists. split; [reflexivity |]. simpl. auto.
  - intros Hfd ->. rewrite Hfd. simpl.
    eexists (mkFileSystem nm ex ty op true fg st ws wf path (LockFile E path)
               pc fp nmode nd ci cs cm uu hn hs bs be
               ((tr ++ [IoTryLockFile path]) ++ [IoLockFile path])%list).
    simpl. split; [rewrite <- app_assoc; reflexivity |].
    split; [reflexivity |]. split.
    + intros Hl. destruct (Z.ltb_spec (LockFile E path) 0); [lia |].
      rewrite <- app_assoc. auto.
    + intros Hl. destruct (Z.ltb_spec (LockFile E path) 0); [| lia].
      eexists. split; [reflexivity |]. simpl. rewrite <- app_assoc. auto.
  - intros Hfd. rewrite Hfd. simpl.
    eexists. split; [reflexivity |]. simpl. auto.
Qed.

Lemma LockWorkspace_outcomes_witness :
  let E := Examples.env_with 0 1000 true (-2) 3 in
  let fs := Examples.file_system kFsFuse ∅ false in
  TryLockFile E (workspace_ fs +:+ "/lock." +:+ name_ fs) = -2 /\
  wait_workspace_ fs = false /\
  exists fs',
    LockWorkspace E fs = Ret (false, fs') /\
    boot_status_ fs' = kFailLockWorkspace /\
    trace_ fs' = (trace_ fs ++ [IoTryLockFile (workspace_ fs +:+ "/lock." +:+ name_ fs)])%list.
Proof.
  intros E fs. split; [reflexivity | split; [reflexivity |]].
  exact (proj1 (proj2 (LockWorkspace_outcomes E fs)) eq_refl eq_refl).
Defined.

(** ** The cache manager factory *)

Ltac inv_ret :=
  repeat match goal with
         | H : Ret _ = Ret _ |- _ => injection H as H
         | H : (_, _) = (_, _) |- _ => injection H as ? ?
         | H : Abort = Ret _ |- _ => discriminate H
         | H : OutOfFuel = Ret _ |- _ => discriminate H
         | H : mbind _ Abort = Ret _ |- _ => discriminate H
         | H : Some _ = None |- _ => discriminate H
         | H : None = Some _ |- _ => discriminate H
         end.

Lemma same_context_refl fs : same_context fs fs.
Proof. destruct fs. reflexivity. Qed.

Lemma same_context_trans fs1 fs2 fs3 :
  same_context fs1 fs2 -> same_context fs2 fs3 -> same_context fs1 fs3.
Proof.
  unfold same_context. destruct fs1, fs2, fs3. simpl.
  intros [= -> -> -> -> -> -> -> -> -> -> -> -> -> -> -> -> -> -> -> ->].
  intros [= -> -> -> -> -> -> -> -> -> -> -> -> -> -> -> -> -> -> -> ->].
  reflexivity.
Qed.

Lemma same_context_sym fs1 fs2 : same_context fs1 fs2 -> same_context fs2 fs1.
Proof.
  unfold same_context. destruct fs1, fs2. simpl.
  intros [= -> -> -> -> -> -> -> -> -> -> -> -> -> -> -> -> -> -> -> ->].
  reflexivity.
Qed.

Lemma same_context_options fs fs' :
  same_context fs fs' -> options_mgr_ fs' = options_mgr_ fs.
Proof. unfold same_context. destruct fs, fs'. simpl. intros [= -> -> -> -> -> -> -> -> -> -> -> -> -> -> -> -> -> -> -> ->]. reflexivity. Qed.

Lemma setup_post_trans fs1 fs2 ok fs3 :
  setup_post fs1 true fs2 -> setup_post fs2 ok fs3 -> setup_post fs1 ok fs3.
Proof.
  intros (Hc1 & Hs1 & (e1 & He1 & Hq1) & Hb1 & Hb1')
         (Hc2 & Hs2 & (e2 & He2 & Hq2) & Hb2).
  split; [eapply same_context_trans; eassumption |].
  split; [set_solver |].
  split.
  - exists (e1 ++ e2)%list. split; [rewrite He2, He1, app_assoc; reflexivity |].
    rewrite existsb_app. intros Hq. apply orb_true_iff in Hq as [Hq | Hq].
    + apply Hq1 in Hq as [? _]. discriminate.
    + apply Hq2. exact Hq.
  - destruct ok; [destruct Hb2; split; congruence | exact Hb2].
Qed.

Ltac case_split H :=
  match type of H with
  | context [match ?x with _ => _ end] =>
      lazymatch x with
      | context [match _ with _ => _ end] => fail
      | _ => destruct x eqn:?
      end
  end.

Ltac crunch H :=
  repeat (cbn beta iota delta [mbind outcome_bind negb fst snd] in H;
          first [ discriminate H
                | progress inv_ret
                | case_split H ]).

Ltac trace_done :=
  first
    [ eexists; split;
      [ rewrite <- ?app_assoc; reflexivity
      | cbn; intros Hq; first [discriminate Hq | split; reflexivity] ]
    | exists []; split;
      [ symmetry; apply app_nil_r | cbn; intros Hq; discriminate Hq ] ].

Ltac post_done :=
  subst; unfold setup_post, same_context, fail, succeeded; simpl;
  repeat split; try reflexivity;
  try match goal with
      | |- _ ⊆ _ => set_solver
      | |- exists _, _ => trace_done
      end.

Lemma SetupPosixQuotaMgr_post (E : Env) settings fs ok fs' :
  SetupPosixQuotaMgr E settings fs = Ret (ok, fs') ->
  constructed_instances_ fs' = constructed_instances_ fs /\ setup_post fs ok fs'.
Proof.
  unfold SetupPosixQuotaMgr. intros H. destruct fs. simpl in H.
  crunch H; post_done.
Qed.

Lemma CheckPosixCacheSettings_post settings fs ok fs' :
  CheckPosixCacheSettings settings fs = (ok, fs') ->
  constructed_instances_ fs' = constructed_instances_ fs /\ setup_post fs ok fs'.
Proof.
  unfold CheckPosixCacheSettings. intros H. destruct fs. simpl in H.
  crunch H; post_done.
Qed.

Lemma setup_post_io fs e :
  is_quota_delete e = false -> setup_post fs true (io e fs).
Proof.
  intros He. destruct fs. post_done.
  exists [e]. split; [reflexivity |]. cbn. rewrite He. discriminate.
Qed.

Lemma setup_post_fail fs code msg :
  is_failure_code code = true -> setup_post fs false (fail code msg fs).
Proof. intros H. destruct fs. post_done; exact H. Qed.

Lemma constructed_instances_io fs e :
  constructed_instances_ (io e fs) = constructed_instances_ fs.
Proof. destruct fs. reflexivity. Qed.

Lemma constructed_instances_fail fs code msg :
  constructed_instances_ (fail code msg fs) = constructed_instances_ fs.
Proof. destruct fs. reflexivity. Qed.

Lemma SetupPosixCacheMgr_post (E : Env) instance fs r fs' :
  SetupPosixCacheMgr E instance fs = Ret (r, fs') ->
  constructed_instances_ fs' = constructed_instances_ fs /\
  setup_post fs (succeeded r) fs'.
Proof.
  unfold SetupPosixCacheMgr. intros H.
  set (settings := DeterminePosixCacheSettings E instance fs) in *.
  clearbody settings.
  destruct (CheckPosixCacheSettings settings fs) as [ok fs1] eqn:Hchk.
  apply CheckPosixCacheSettings_post in Hchk as [Hc1 Hp1].
  destruct ok; simpl in H; [| inv_ret; subst; auto].
  destruct (PosixCacheManager_Create E _ _ _); simpl in H.
  2:{ inv_ret. subst.
      rewrite constructed_instances_fail, constructed_instances_io.
      split; [exact Hc1 |].
      eapply setup_post_trans; [exact Hp1 |].
      eapply setup_post_trans; [| apply setup_post_fail; reflexivity].
      apply setup_post_io; reflexivity. }
  destruct (CreateFile E _ _ _); simpl in H; try discriminate.
  match type of H with
  | context [SetupPosixQuotaMgr E settings ?s] => set (fs2 := s) in *
  end.
  assert (Hp2 : setup_post fs true fs2).
  { eapply setup_post_trans; [exact Hp1 |].
    eapply setup_post_trans; [| apply setup_post_io; reflexivity].
    apply setup_post_io; reflexivity. }
  assert (Hc2 : constructed_instances_ fs2 = constructed_instances_ fs).
  { subst fs2. rewrite !constructed_instances_io. exact Hc1. }
  clearbody fs2.
  destruct (is_managed settings).
  - destruct (SetupPosixQuotaMgr E settings fs2) as [[ok3 fs3] | |] eqn:Hq;
      simpl in H; try discriminate.
    apply SetupPosixQuotaMgr_post in Hq as [Hc3 Hp3].
    destruct ok3; simpl in H; inv_ret; subst; simpl;
      (split; [congruence | eapply setup_post_trans; eassumption]).
  - inv_ret. subst. auto.
Qed.

Lemma SetupRamCacheMgr_post (E : Env) instance fs r fs' :
  SetupRamCacheMgr E instance fs = Ret (r, fs') ->
  constructed_instances_ fs' = constructed_instances_ fs /\
  setup_post fs (succeeded r) fs'.
Proof.
  unfold SetupRamCacheMgr. intros H.
  match type of H with
  | match ?a with _ => _ end = _ => destruct a
  end; inv_ret; subst; destruct fs; post_done.
Qed.

Lemma SetupExternalCacheMgr_post (E : Env) instance fs r fs' :
  SetupExternalCacheMgr E instance fs = Ret (r, fs') ->
  constructed_instances_ fs' = constructed_instances_ fs /\
  setup_post fs (succeeded r) fs'.
Proof.
  unfold SetupExternalCacheMgr. intros H.
  destruct (GetValue fs (MkCacheParm fs "CVMFS_CACHE_LOCATOR" instance)).
  - destruct (IsValid _); simpl in H.
    + destruct (ExternalCacheManager_Create E _ _ _); simpl in H;
        inv_ret; subst; destruct fs; post_done.
    + inv_ret; subst; destruct fs; post_done.
  - inv_ret; subst; destruct fs; post_done.
Qed.

Lemma setup_post_constructed fs c :
  setup_post fs true
    (set_constructed_instances_ (constructed_instances_ fs ∪ c) fs).
Proof. destruct fs. post_done. Qed.

Lemma SetupTieredCacheMgr_post (E : Env) setup instance fs r fs' :
  (forall i s r' s', setup i s = Ret (r', s') -> setup_post s (succeeded r') s') ->
  SetupTieredCacheMgr E setup instance fs = Ret (r, fs') ->
  setup_post fs (succeeded r) fs'.
Proof.
  intros Hsetup. unfold SetupTieredCacheMgr. intros H.
  destruct (GetValue fs (MkCacheParm fs "CVMFS_CACHE_UPPER" instance)) as [up |].
  2:{ inv_ret. subst. apply setup_post_fail. reflexivity. }
  destruct (setup up fs) as [[upper fs1] | |] eqn:Hup; simpl in H; try discriminate.
  apply Hsetup in Hup.
  destruct upper as [upper |]; simpl in *; [| inv_ret; subst; exact Hup].
  destruct (GetValue fs1 (MkCacheParm fs1 "CVMFS_CACHE_LOWER" instance)) as [lo |].
  2:{ inv_ret. subst. eapply setup_post_trans; [exact Hup |].
      apply setup_post_fail. reflexivity. }
  destruct (setup lo fs1) as [[lower fs2] | |] eqn:Hlo; simpl in H; try discriminate.
  apply Hsetup in Hlo.
  destruct lower as [lower |]; simpl in *.
  2:{ inv_ret. subst. eapply setup_post_trans; eassumption. }
  assert (Hp2 : setup_post fs true fs2) by (eapply setup_post_trans; eassumption).
  destruct (TieredCacheManager_Create E upper lower); simpl in H; inv_ret; subst; simpl.
  - eapply setup_post_trans; [exact Hp2 | apply setup_post_io; reflexivity].
  - eapply setup_post_trans; [exact Hp2 |].
    eapply setup_post_trans; [| apply setup_post_fail; reflexivity].
    apply setup_post_io; reflexivity.
Qed.

(** Every returning call of [SetupCacheMgr] keeps the context, only adds
    instances and events, and leaves a failure code exactly when it
    returns NULL. *)
Lemma SetupCacheMgr_post (E : Env) fuel instance fs r fs' :
  SetupCacheMgr E fuel instance fs = Ret (r, fs') ->
  setup_post fs (succeeded r) fs'.
Proof.
  revert instance fs r fs'. induction fuel as [| fuel IH]; intros instance fs r fs' H;
    [discriminate |].
  simpl in H.
  destruct (bool_decide (instance ∈ constructed_instances_ fs)).
  { inv_ret. subst. apply setup_post_fail. reflexivity. }
  eapply setup_post_trans; [apply (setup_post_constructed fs {[ instance ]}) |].
  match type of H with
  | context [SetupPosixCacheMgr E instance ?s] => set (fs1 := s) in *
  end.
  clearbody fs1.
  destruct (String.eqb (instance_type instance fs1) "posix").
  { apply SetupPosixCacheMgr_post in H. tauto. }
  destruct (String.eqb (instance_type instance fs1) "ram").
  { apply SetupRamCacheMgr_post in H. tauto. }
  destruct (String.eqb (instance_type instance fs1) "tiered").
  { eapply SetupTieredCacheMgr_post; [| exact H]. intros. eapply IH. eassumption. }
  destruct (String.eqb (instance_type instance fs1) "external").
  { apply SetupExternalCacheMgr_post in H. tauto. }
  inv_ret. subst. apply setup_post_fail. reflexivity.
Qed.

(** With more fuel the result stays the same. *)
Lemma SetupCacheMgr_fuel_mono (E : Env) fuel fuel' instance fs x :
  (fuel <= fuel')%nat ->
  SetupCacheMgr E fuel instance fs = Ret x ->
  SetupCacheMgr E fuel' instance fs = Ret x.
Proof.
  revert fuel' instance fs x.
  induction fuel as [| fuel IH]; intros fuel' instance fs x Hle H; [discriminate |].
  destruct fuel' as [| fuel']; [lia |].
  simpl in *.
  destruct (bool_decide (instance ∈ constructed_instances_ fs)); [exact H |].
  match type of H with
  | context [SetupPosixCacheMgr E instance ?s] => set (fs1 := s) in *
  end.
  clearbody fs1.
  destruct (String.eqb (instance_type instance fs1) "posix"); [exact H |].
  destruct (String.eqb (instance_type instance fs1) "ram"); [exact H |].
  destruct (String.eqb (instance_type instance fs1) "tiered"); [| exact H].
  assert (Hsub : forall i s y, SetupCacheMgr E fuel i s = Ret y ->
                               SetupCacheMgr E fuel' i s = Ret y).
  { intros. eapply IH; [lia | eassumption]. }
  unfold SetupTieredCacheMgr in *.
  destruct (GetValue fs1 _); [| exact H].
  destruct (SetupCacheMgr E fuel s fs1) as [[upper fs2] | |] eqn:Hup;
    simpl in H; try discriminate.
  rewrite (Hsub _ _ _ Hup). simpl.
  destruct upper; [| exact H].
  destruct (GetValue fs2 _); [| exact H].
  destruct (SetupCacheMgr E fuel s0 fs2) as [[lower fs3] | |] eqn:Hlo;
    simpl in H; try discriminate.
  rewrite (Hsub _ _ _ Hlo). simpl. exact H.
Qed.

(** *** Termination of the recursion *)

Lemma string_app_length (s1 s2 : string) :
  String.length (s1 +:+ s2) = (String.length s1 + String.length s2)%nat.
Proof. induction s1 as [| c s1 IH]; simpl; [reflexivity | rewrite IH; reflexivity]. Qed.

Lemma string_app_inj_r (s1 s2 t : string) : s1 +:+ t = s2 +:+ t -> s1 = s2.
Proof.
  revert s2. induction s1 as [| c s1 IH]; intros [| d s2] H.
  - reflexivity.
  - apply (f_equal String.length) in H.
    rewrite !string_app_length in H. simpl in H. lia.
  - apply (f_equal String.length) in H.
    rewrite !string_app_length in H. simpl in H. lia.
  - change (String c (s1 +:+ t) = String d (s2 +:+ t)) in H.
    injection H as -> H. f_equal. apply IH. exact H.
Qed.

Lemma type_key_inj : Inj (=) (=) type_key.
Proof.
  intros i j H. unfold type_key in H.
  apply (inj (String.app "CVMFS_CACHE_")) in H.
  apply string_app_inj_r in H. exact H.
Qed.

Lemma instance_type_tiered instance fs :
  instance_type instance fs = "tiered" ->
  instance <> kDefaultCacheMgrInstance /\
  options_mgr_ fs !! type_key instance = Some "tiered".
Proof.
  unfold instance_type.
  destruct (String.eqb_spec instance kDefaultCacheMgrInstance) as [-> | Hne];
    [discriminate |].
  intros H. split; [exact Hne |].
  unfold GetValue, MkCacheParm in H.
  destruct (String.eqb_spec instance kDefaultCacheMgrInstance); [contradiction |].
  change ("CVMFS_CACHE_" +:+ instance +:+ "_" +:+
          substring 12 (String.length "CVMFS_CACHE_TYPE" - 12) "CVMFS_CACHE_TYPE")
    with (type_key instance) in H.
  destruct (options_mgr_ fs !! type_key instance); congruence.
Qed.

Lemma pending_tiers_enter instance fs :
  instance ∉ constructed_instances_ fs ->
  options_mgr_ fs !! type_key instance = Some "tiered" ->
  (size (pending_tiers
           (set_constructed_instances_
              (constructed_instances_ fs ∪ {[ instance ]}) fs)) <
   size (pending_tiers fs))%nat.
Proof.
  intros Hnew Hty. apply subset_size.
  unfold pending_tiers.
  assert (Ho : options_mgr_
                 (set_constructed_instances_
                    (constructed_instances_ fs ∪ {[ instance ]}) fs)
               = options_mgr_ fs) by (destruct fs; reflexivity).
  assert (Hc : constructed_instances_
                 (set_constructed_instances_
                    (constructed_instances_ fs ∪ {[ instance ]}) fs)
               = constructed_instances_ fs ∪ {[ instance ]})
    by (destruct fs; reflexivity).
  rewrite Ho, Hc. clear Ho Hc.
  set (opts := options_mgr_ fs) in *.
  set (built := constructed_instances_ fs) in *.
  assert (Hin : type_key instance ∈
                dom (filter (fun kv : string * string => kv.2 = "tiered") opts)).
  { apply elem_of_dom. exists "tiered". apply map_lookup_filter_Some. auto. }
  assert (Hout : type_key instance ∉
                 (set_map type_key built : gset string)).
  { intros Hc. apply elem_of_map in Hc as (j & Hj & Hjc).
    apply type_key_inj in Hj. subst j. contradiction. }
  split.
  - intros k Hk. apply elem_of_difference in Hk as [Hk1 Hk2].
    apply elem_of_difference. split; [exact Hk1 |].
    intros Hc. apply Hk2. apply elem_of_map in Hc as (j & -> & Hj).
    apply elem_of_map. exists j. split; [reflexivity | set_solver].
  - intros Hsub.
    assert (Hk : type_key instance ∈
                 dom (filter (fun kv : string * string => kv.2 = "tiered") opts) ∖
                 (set_map type_key (built ∪ {[ instance ]}) : gset string)).
    { apply Hsub. apply elem_of_difference. auto. }
    apply elem_of_difference in Hk as [_ Hk]. apply Hk.
    apply elem_of_map. exists instance. split; [reflexivity |].
    apply elem_of_union_r, elem_of_singleton. reflexivity.
Qed.

Lemma pending_tiers_mono fs fs' :
  same_context fs fs' ->
  constructed_instances_ fs ⊆ constructed_instances_ fs' ->
  (size (pending_tiers fs') <= size (pending_tiers fs))%nat.
Proof.
  intros Hctx Hsub. apply subseteq_size. unfold pending_tiers.
  rewrite (same_context_options _ _ Hctx).
  intros k Hk. apply elem_of_difference in Hk as [Hk1 Hk2].
  apply elem_of_difference. split; [exact Hk1 |].
  intros Hc. apply Hk2. apply elem_of_map in Hc as (j & -> & Hj).
  apply elem_of_map. exists j. split; [reflexivity | set_solver].
Qed.

Lemma pending_tiers_bound fs : (size (pending_tiers fs) <= size (options_mgr_ fs))%nat.
Proof.
  unfold pending_tiers.
  etransitivity; [apply subseteq_size; apply subseteq_difference_l; reflexivity |].
  rewrite size_dom. apply map_subseteq_size. apply map_filter_subseteq.
Qed.

Lemma SetupPosixQuotaMgr_fuel (E : Env) settings fs :
  SetupPosixQuotaMgr E settings fs <> OutOfFuel.
Proof.
  unfold SetupPosixQuotaMgr.
  repeat (cbn beta iota delta [mbind outcome_bind negb];
          match goal with
          | |- context [match ?x with _ => _ end] =>
              lazymatch x with
              | context [match _ with _ => _ end] => fail
              | _ => destruct x
              end
          end); discriminate.
Qed.

Lemma SetupPosixCacheMgr_fuel (E : Env) instance fs :
  SetupPosixCacheMgr E instance fs <> OutOfFuel.
Proof.
  unfold SetupPosixCacheMgr.
  set (settings := DeterminePosixCacheSettings E instance fs). clearbody settings.
  destruct (CheckPosixCacheSettings settings fs) as [[] fs1]; simpl; [| discriminate].
  destruct (PosixCacheManager_Create E _ _ _); simpl; [| discriminate].
  unfold CreateFile. destruct (_ || _); simpl; [| discriminate].
  destruct (is_managed settings); [| discriminate].
  match goal with
  | |- context [SetupPosixQuotaMgr E settings ?s] =>
      pose proof (SetupPosixQuotaMgr_fuel E settings s) as Hq;
      destruct (SetupPosixQuotaMgr E settings s) as [[[] ?] | |]
  end; simpl; congruence.
Qed.

Lemma SetupRamCacheMgr_fuel (E : Env) instance fs :
  SetupRamCacheMgr E instance fs <> OutOfFuel.
Proof.
  unfold SetupRamCacheMgr.
  match goal with |- match ?a with _ => _ end <> _ => destruct a end; discriminate.
Qed.

Lemma SetupExternalCacheMgr_fuel (E : Env) instance fs :
  SetupExternalCacheMgr E instance fs <> OutOfFuel.
Proof.
  unfold SetupExternalCacheMgr.
  destruct (GetValue fs _); [| discriminate].
  destruct (IsValid _); simpl; [| discriminate].
  destruct (ExternalCacheManager_Create E _ _ _); discriminate.
Qed.

(** The recursion of [SetupCacheMgr] ends: every tier that is entered
    uses up one of the finitely many type options with value "tiered". *)
Lemma SetupCacheMgr_enough_fuel (E : Env) fuel instance fs :
  (size (pending_tiers fs) < fuel)%nat ->
  SetupCacheMgr E fuel instance fs <> OutOfFuel.
Proof.
  revert instance fs. induction fuel as [| fuel IH]; intros instance fs Hfuel; [lia |].
  simpl.
  destruct (bool_decide_reflect (instance ∈ constructed_instances_ fs)) as [| Hnew];
    [discriminate |].
  match goal with
  | |- context [SetupPosixCacheMgr E instance ?s] => set (fs1 := s) in *
  end.
  destruct (String.eqb (instance_type instance fs1) "posix");
    [apply SetupPosixCacheMgr_fuel |].
  destruct (String.eqb (instance_type instance fs1) "ram");
    [apply SetupRamCacheMgr_fuel |].
  destruct (String.eqb_spec (instance_type instance fs1) "tiered") as [Hty |].
  2:{ destruct (String.eqb (instance_type instance fs1) "external");
        [apply SetupExternalCacheMgr_fuel | discriminate]. }
  apply instance_type_tiered in Hty as [_ Hty].
  assert (Hty' : options_mgr_ fs !! type_key instance = Some "tiered")
    by (destruct fs; exact Hty).
  pose proof (pending_tiers_enter instance fs Hnew Hty') as Hdec. fold fs1 in Hdec.
  assert (Hfuel1 : (size (pending_tiers fs1) < fuel)%nat) by lia.
  clearbody fs1.
  unfold SetupTieredCacheMgr.
  destruct (GetValue fs1 _); [| discriminate].
  destruct (SetupCacheMgr E fuel s fs1) as [[upper fs2] | |] eqn:Hup; simpl;
    [| discriminate | exfalso; eapply IH; eassumption].
  destruct upper; [| discriminate].
  destruct (GetValue fs2 _); [| discriminate].
  apply SetupCacheMgr_post in Hup as (Hctx & Hsub & _).
  pose proof (pending_tiers_mono _ _ Hctx Hsub) as Hmono.
  destruct (SetupCacheMgr E fuel s0 fs2) as [[lower fs3] | |] eqn:Hlo; simpl;
    [| discriminate | exfalso; eapply (IH s0 fs2); [lia | eassumption]].
  destruct lower; [| discriminate].
  destruct (TieredCacheManager_Create E _ _); discriminate.
Qed.

(** [TriageCacheMgr] hands out enough fuel: it never runs out. *)
Lemma TriageCacheMgr_fuel (E : Env) fs : TriageCacheMgr E fs <> OutOfFuel.
Proof.
  unfold TriageCacheMgr.
  match goal with
  | |- match ?c with _ => _ end <> _ => destruct c as [[] fs1]
  end; [| discriminate].
  pose proof (SetupCacheMgr_enough_fuel E (S (size (options_mgr_ fs1)))
                (cache_mgr_instance_ fs1) fs1) as H.
  pose proof (pending_tiers_bound fs1).
  destruct (SetupCacheMgr E _ _ fs1) as [[] | |]; simpl; try discriminate.
  exfalso. apply H; [lia | reflexivity].
Qed.

(** *** Dispatch on the type tag *)

Lemma instance_type_constructed instance c fs :
  instance_type instance (set_constructed_instances_ c fs) = instance_type instance fs.
Proof. destruct fs. reflexivity. Qed.

Lemma instance_type_same_context instance fs fs' :
  same_context fs fs' -> instance_type instance fs' = instance_type instance fs.
Proof. unfold same_context. intros ->. destruct fs. reflexivity. Qed.

Lemma instance_type_default fs : instance_type kDefaultCacheMgrInstance fs = "posix".
Proof. reflexivity. Qed.

Lemma instance_type_other instance fs :
  instance <> kDefaultCacheMgrInstance ->
  instance_type instance fs = default "" (options_mgr_ fs !! type_key instance).
Proof.
  intros Hne. unfold instance_type.
  destruct (String.eqb_spec instance kDefaultCacheMgrInstance); [contradiction |].
  unfold GetValue, MkCacheParm.
  destruct (String.eqb_spec instance kDefaultCacheMgrInstance); [contradiction |].
  change ("CVMFS_CACHE_" +:+ instance +:+ "_" +:+
          substring 12 (String.length "CVMFS_CACHE_TYPE" - 12) "CVMFS_CACHE_TYPE")
    with (type_key instance).
  destruct (options_mgr_ fs !! type_key instance); reflexivity.
Qed.

Lemma SetupCacheMgr_dispatch (E : Env) fuel instance fs :
  instance ∉ constructed_instances_ fs ->
  SetupCacheMgr E (S fuel) instance fs =
  let fs1 := set_constructed_instances_
               (constructed_instances_ fs ∪ {[ instance ]}) fs in
  let tag := instance_type instance fs in
  if String.eqb tag "posix" then SetupPosixCacheMgr E instance fs1
  else if String.eqb tag "ram" then SetupRamCacheMgr E instance fs1
  else if String.eqb tag "tiered"
       then SetupTieredCacheMgr E (SetupCacheMgr E fuel) instance fs1
  else if String.eqb tag "external" then SetupExternalCacheMgr E instance fs1
  else Ret (None,
            fail kFailCacheDir
              ("invalid cache manager type for '" +:+ instance +:+ "':" +:+ tag) fs1).
Proof.
  intros Hnew. simpl.
  destruct (bool_decide_reflect (instance ∈ constructed_instances_ fs));
    [contradiction |].
  rewrite instance_type_constructed. reflexivity.
Qed.

(** C9, as amended: the variant is chosen by a type tag.  The default
    instance is always typed posix, whatever type is configured; every
    other instance uses the tag configured under CVMFS_CACHE_<instance>_TYPE
    to select among posix, ram, tiered and external; any other tag, or
    none, fails with the CacheDir code and a message naming the tag,
    without any external call. *)
Theorem cache_type_dispatch (E : Env) (fuel : nat) (instance : string)
  (fs : FileSystem) (Hnew : instance ∉ constructed_instances_ fs) :
  let fs1 := set_constructed_instances_
               (constructed_instances_ fs ∪ {[ instance ]}) fs in
  let tag := default "" (options_mgr_ fs !! type_key instance) in
  (instance = kDefaultCacheMgrInstance ->
   SetupCacheMgr E (S fuel) instance fs = SetupPosixCacheMgr E instance fs1) /\
  (instance <> kDefaultCacheMgrInstance ->
   (tag = "posix" ->
    SetupCacheMgr E (S fuel) instance fs = SetupPosixCacheMgr E instance fs1) /\
   (tag = "ram" ->
    SetupCacheMgr E (S fuel) instance fs = SetupRamCacheMgr E instance fs1) /\
   (tag = "tiered" ->
    SetupCacheMgr E (S fuel) instance fs =
    SetupTieredCacheMgr E (SetupCacheMgr E fuel) instance fs1) /\
   (tag = "external" ->
    SetupCacheMgr E (S fuel) instance fs = SetupExternalCacheMgr E instance fs1) /\
   (tag <> "posix" -> tag <> "ram" -> tag <> "tiered" -> tag <> "external" ->
    exists fs',
      SetupCacheMgr E (S fuel) instance fs = Ret (None, fs') /\
      boot_status_ fs' = kFailCacheDir /\
      boot_error_ fs' =
        "invalid cache manager type for '" +:+ instance +:+ "':" +:+ tag /\
      trace_ fs' = trace_ fs)).
Proof.
  intros fs1 tag. rewrite (SetupCacheMgr_dispatch E fuel instance fs Hnew).
  fold fs1. cbv zeta. split.
  - intros ->. rewrite instance_type_default. reflexivity.
  - intros Hne. rewrite (instance_type_other instance fs Hne). fold tag.
    repeat split.
    + intros ->. reflexivity.
    + intros ->. reflexivity.
    + intros ->. reflexivity.
    + intros ->. reflexivity.
    + intros H1 H2 H3 H4.
      destruct (String.eqb_spec tag "posix"); [contradiction |].
      destruct (String.eqb_spec tag "ram"); [contradiction |].
      destruct (String.eqb_spec tag "tiered"); [contradiction |].
      destruct (String.eqb_spec tag "external"); [contradiction |].
      eexists. split; [reflexivity |].
      subst fs1. destruct fs. simpl. auto.
Qed.

Lemma cache_type_dispatch_witness :
  let fs := Examples.file_system kFsLibrary {[ "CVMFS_CACHE_mem_TYPE" := "rom" ]} false in
  ("mem" ∉ constructed_instances_ fs) /\
  "mem" <> kDefaultCacheMgrInstance /\
  exists fs',
    SetupCacheMgr Examples.env 1 "mem" fs = Ret (None, fs') /\
    boot_status_ fs' = kFailCacheDir /\
    boot_error_ fs' = "invalid cache manager type for 'mem':rom" /\
    trace_ fs' = trace_ fs.
Proof.
  intros fs.
  assert (Hnew : "mem" ∉ constructed_instances_ fs) by (apply not_elem_of_empty).
  assert (Hne : "mem" <> kDefaultCacheMgrInstance) by discriminate.
  split; [exact Hnew | split; [exact Hne |]].
  apply (cache_type_dispatch Examples.env 0 "mem" fs Hnew); try assumption;
    vm_compute; discriminate.
Defined.

(** C9, as stated, fails for the default instance: a configured type does
    not override its posix typing. *)
Lemma default_instance_type_not_overridable :
  let fs := Examples.file_system kFsLibrary {[ "CVMFS_CACHE_TYPE" := "ram" ]} false in
  GetValue fs (MkCacheParm fs "CVMFS_CACHE_TYPE" kDefaultCacheMgrInstance) = Some "ram" /\
  instance_type kDefaultCacheMgrInstance fs = "posix" /\
  exists fs',
    SetupCacheMgr Examples.env 1 kDefaultCacheMgrInstance fs =
      Ret (Some (PosixCacheManager "/var/lib/cvmfs/repo.example.org" false false false),
           fs').
Proof.
  intros fs. split; [vm_compute; reflexivity |]. split; [reflexivity |].
  eexists. vm_compute. reflexivity.
Qed.

(** *** Cycles and nested tiers *)

Lemma GetValue_same_context fs fs' key :
  same_context fs fs' -> GetValue fs' key = GetValue fs key.
Proof. unfold same_context. intros ->. destruct fs. reflexivity. Qed.

Lemma MkCacheParm_same_context fs fs' generic instance :
  same_context fs fs' -> MkCacheParm fs' generic instance = MkCacheParm fs generic instance.
Proof. unfold same_context. intros ->. destruct fs. reflexivity. Qed.

Lemma describes_same_context fs fs' c :
  same_context fs fs' -> describes fs c -> describes fs' c.
Proof.
  intros Hctx. induction c as [i | i u IHu l IHl]; simpl.
  - rewrite (instance_type_same_context _ _ _ Hctx). auto.
  - rewrite (instance_type_same_context _ _ _ Hctx),
      !(MkCacheParm_same_context _ _ _ _ Hctx), !(GetValue_same_context _ _ _ Hctx).
    tauto.
Qed.

Lemma SetupPosixCacheMgr_manager (E : Env) instance fs m fs' :
  SetupPosixCacheMgr E instance fs = Ret (Some m, fs') -> not_tiered m.
Proof.
  unfold SetupPosixCacheMgr. intros H.
  destruct (CheckPosixCacheSettings _ fs) as [[] fs1]; simpl in H; [| discriminate].
  destruct (PosixCacheManager_Create E _ _ _); simpl in H; [| discriminate].
  destruct (CreateFile E _ _ _); simpl in H; try discriminate.
  destruct (is_managed _).
  - destruct (SetupPosixQuotaMgr E _ _) as [[[] ?] | |]; simpl in H;
      try discriminate.
    injection H as <- _. exact I.
  - injection H as <- _. exact I.
Qed.

Lemma SetupRamCacheMgr_manager (E : Env) instance fs m fs' :
  SetupRamCacheMgr E instance fs = Ret (Some m, fs') -> not_tiered m.
Proof.
  unfold SetupRamCacheMgr. intros H.
  match type of H with
  | match ?a with _ => _ end = _ => destruct a
  end; [| discriminate].
  injection H as <- _. exact I.
Qed.

Lemma SetupExternalCacheMgr_manager (E : Env) instance fs m fs' :
  SetupExternalCacheMgr E instance fs = Ret (Some m, fs') -> not_tiered m.
Proof.
  unfold SetupExternalCacheMgr. intros H.
  destruct (GetValue fs _); [| discriminate].
  destruct (IsValid _); simpl in H; [| discriminate].
  destruct (ExternalCacheManager_Create E _ _ _); simpl in H; [| discriminate].
  injection H as <- _. exact I.
Qed.

(** An instance that resolves without recursion is not a tiered manager
    and adds exactly its own name to the constructed instances. *)
Lemma SetupCacheMgr_leaf (E : Env) instance fs m fs' :
  SetupCacheMgr E 1 instance fs = Ret (Some m, fs') ->
  not_tiered m /\
  constructed_instances_ fs' = constructed_instances_ fs ∪ {[ instance ]}.
Proof.
  intros H.
  destruct (decide (instance ∈ constructed_instances_ fs)) as [Hin | Hnew].
  { simpl in H. rewrite bool_decide_eq_true_2 in H by exact Hin. discriminate. }
  rewrite (SetupCacheMgr_dispatch E 0 instance fs Hnew) in H. cbv zeta in H.
  assert (Hc : forall s : FileSystem,
             s = set_constructed_instances_
                   (constructed_instances_ fs ∪ {[ instance ]}) fs ->
             constructed_instances_ s = constructed_instances_ fs ∪ {[ instance ]})
    by (intros s ->; destruct fs; reflexivity).
  specialize (Hc _ eq_refl).
  destruct (String.eqb (instance_type instance fs) "posix").
  { split; [eapply SetupPosixCacheMgr_manager; eassumption |].
    apply SetupPosixCacheMgr_post in H as [-> _]. exact Hc. }
  destruct (String.eqb (instance_type instance fs) "ram").
  { split; [eapply SetupRamCacheMgr_manager; eassumption |].
    apply SetupRamCacheMgr_post in H as [-> _]. exact Hc. }
  destruct (String.eqb (instance_type instance fs) "tiered").
  { unfold SetupTieredCacheMgr in H.
    destruct (GetValue _ _); simpl in H; discriminate. }
  destruct (String.eqb (instance_type instance fs) "external").
  { split; [eapply SetupExternalCacheMgr_manager; eassumption |].
    apply SetupExternalCacheMgr_post in H as [-> _]. exact Hc. }
  discriminate.
Qed.

Lemma owns_leaf m i : not_tiered m -> owns m (Leaf i).
Proof. destruct m; simpl; auto. Qed.

Lemma tier_tree_resolves (E : Env) (cfg : CacheConfig) :
  (forall u l, TieredCacheManager_Create E u l = true) ->
  forall (fs : FileSystem) (fuel : nat),
    describes fs cfg ->
    NoDup (instances cfg) ->
    (forall i, i ∈ instances cfg -> i ∉ constructed_instances_ fs) ->
    (forall i, i ∈ leaves cfg ->
       forall fs1, same_context fs fs1 -> i ∉ constructed_instances_ fs1 ->
         exists m fs2, SetupCacheMgr E 1 i fs1 = Ret (Some m, fs2)) ->
    (depth cfg < fuel)%nat ->
    exists m fs',
      SetupCacheMgr E fuel (root cfg) fs = Ret (Some m, fs') /\
      owns m cfg /\
      constructed_instances_ fs' =
        constructed_instances_ fs ∪ list_to_set (instances cfg).
Proof.
  intros Htier.
  induction cfg as [i | i u IHu l IHl]; intros fs fuel Hdesc Hnodup Hfresh Hleaf Hfuel.
  - cbn [instances leaves root depth describes] in *.
    assert (Hnew : i ∉ constructed_instances_ fs) by (apply Hfresh; set_solver).
    destruct (Hleaf i ltac:(set_solver) fs (same_context_refl fs) Hnew) as (m & fs2 & Hrun).
    exists m, fs2.
    apply SetupCacheMgr_leaf in Hrun as Hl. destruct Hl as [Hm Hc].
    split; [eapply SetupCacheMgr_fuel_mono; [| exact Hrun]; lia |].
    split; [apply owns_leaf; exact Hm |].
    rewrite Hc. set_solver.
  - cbn [instances leaves root depth describes] in Hdesc, Hnodup, Hfresh, Hleaf, Hfuel.
    destruct Hdesc as (Hty & Hup & Hlo & Hdu & Hdl).
    apply NoDup_cons in Hnodup as [Hi Hnodup].
    apply NoDup_app in Hnodup as (Hnu & Hul & Hnl).
    destruct fuel as [| fuel]; [lia |].
    assert (Hnew : i ∉ constructed_instances_ fs) by (apply Hfresh; set_solver).
    change (root (Tier i u l)) with i.
    rewrite (SetupCacheMgr_dispatch E fuel i fs Hnew). cbv zeta.
    rewrite Hty. simpl String.eqb. cbv iota.
    pose proof (setup_post_constructed fs {[ i ]}) as Hp1.
    set (fs1 := set_constructed_instances_ (constructed_instances_ fs ∪ {[ i ]}) fs) in *.
    assert (Hc1 : constructed_instances_ fs1 = constructed_instances_ fs ∪ {[ i ]})
      by (subst fs1; destruct fs; reflexivity).
    clearbody fs1. destruct Hp1 as (Hctx1 & _).
    unfold SetupTieredCacheMgr.
    rewrite (MkCacheParm_same_context _ _ _ _ Hctx1), (GetValue_same_context _ _ _ Hctx1), Hup.
    destruct (IHu fs1 fuel) as (mu & fs2 & Hrun_u & Hown_u & Hc2).
    { eapply describes_same_context; eassumption. }
    { exact Hnu. }
    { intros j Hj. rewrite Hc1. intros Hin.
      apply elem_of_union in Hin as [Hin | Hin].
      - eapply Hfresh; [| exact Hin]. set_solver.
      - apply elem_of_singleton in Hin. subst j. apply Hi. set_solver. }
    { intros j Hj fs' Hctx'. apply (Hleaf j); [set_solver |].
      eapply same_context_trans; eassumption. }
    { lia. }
    rewrite Hrun_u. simpl.
    apply SetupCacheMgr_post in Hrun_u as (Hctx2 & _).
    assert (Hctx02 : same_context fs fs2) by (eapply same_context_trans; eassumption).
    rewrite (MkCacheParm_same_context _ _ _ _ Hctx02), (GetValue_same_context _ _ _ Hctx02), Hlo.
    destruct (IHl fs2 fuel) as (ml & fs3 & Hrun_l & Hown_l & Hc3).
    { eapply describes_same_context; eassumption. }
    { exact Hnl. }
    { intros j Hj. rewrite Hc2, Hc1. intros Hin.
      apply elem_of_union in Hin as [Hin | Hin].
      - apply elem_of_union in Hin as [Hin | Hin].
        + eapply Hfresh; [| exact Hin]. set_solver.
        + apply elem_of_singleton in Hin. subst j. apply Hi. set_solver.
      - apply elem_of_list_to_set in Hin. eapply Hul; eassumption. }
    { intros j Hj fs' Hctx'. apply (Hleaf j); [set_solver |].
      eapply same_context_trans; eassumption. }
    { lia. }
    rewrite Hrun_l. simpl. rewrite Htier. simpl.
    eexists _, _. split; [reflexivity |].
    split; [simpl; auto |].
    rewrite constructed_instances_io, Hc3, Hc2, Hc1. simpl.
    rewrite list_to_set_app_L. set_solver.
Qed.

Lemma ram_instance_resolves (E : Env) (fs : FileSystem) (i : string) :
  instance_type i fs = "ram" ->
  GetValue fs (MkCacheParm fs "CVMFS_CACHE_MALLOC" i) = None ->
  forall fs1, same_context fs fs1 -> i ∉ constructed_instances_ fs1 ->
    exists m fs2, SetupCacheMgr E 1 i fs1 = Ret (Some m, fs2).
Proof.
  intros Hty Hmalloc fs1 Hctx Hnew.
  rewrite (SetupCacheMgr_dispatch E 0 i fs1 Hnew). cbv zeta.
  rewrite (instance_type_same_context _ _ _ Hctx), Hty.
  change (String.eqb "ram" "posix") with false.
  change (String.eqb "ram" "ram") with true. cbv iota.
  pose proof (setup_post_constructed fs1 {[ i ]}) as (Hctx1 & _).
  assert (Hctx' := same_context_trans _ _ _ Hctx Hctx1).
  match goal with
  | |- context [SetupRamCacheMgr E i ?s] => generalize dependent s
  end.
  intros fs2 _ Hctx2. unfold SetupRamCacheMgr.
  rewrite (MkCacheParm_same_context _ _ "CVMFS_CACHE_MALLOC" _ Hctx2),
    (GetValue_same_context _ _ _ Hctx2), Hmalloc.
  eexists _, _. reflexivity.
Qed.

(** C3, as amended: resolution fails with the "circular cache definition"
    error (CacheDir code) whenever it enters an instance that is already
    in the set of constructed instances, in particular for a tiered
    instance whose upper and lower tier are the instance itself; and a
    tier configuration that is a tree of pairwise distinct, not yet
    constructed instances, whose leaves can be constructed and whose
    compositions succeed, resolves to a manager with the nesting of the
    configuration. *)
Theorem cache_mgr_cycles_and_tiers (E : Env) (fs : FileSystem)
  (cfg : CacheConfig) (fuel : nat)
  (Hcompose : forall u l, TieredCacheManager_Create E u l = true)
  (Hdesc : describes fs cfg)
  (Hnodup : NoDup (instances cfg))
  (Hfresh : forall i, i ∈ instances cfg -> i ∉ constructed_instances_ fs)
  (Hleaf : forall i, i ∈ leaves cfg ->
     forall fs1, same_context fs fs1 -> i ∉ constructed_instances_ fs1 ->
       exists m fs2, SetupCacheMgr E 1 i fs1 = Ret (Some m, fs2))
  (Hfuel : (depth cfg < fuel)%nat) :
  (forall n i fs0, i ∈ constructed_instances_ fs0 ->
     exists fs',
       SetupCacheMgr E (S n) i fs0 = Ret (None, fs') /\
       boot_status_ fs' = kFailCacheDir /\
       boot_error_ fs' = "circular cache definition: " +:+ i /\
       trace_ fs' = trace_ fs0) /\
  (forall n i fs0, i ∉ constructed_instances_ fs0 ->
     instance_type i fs0 = "tiered" ->
     GetValue fs0 (MkCacheParm fs0 "CVMFS_CACHE_UPPER" i) = Some i ->
     GetValue fs0 (MkCacheParm fs0 "CVMFS_CACHE_LOWER" i) = Some i ->
     exists fs',
       SetupCacheMgr E (S (S n)) i fs0 = Ret (None, fs') /\
       boot_status_ fs' = kFailCacheDir /\
       boot_error_ fs' = "circular cache definition: " +:+ i /\
       trace_ fs' = trace_ fs0) /\
  (exists m fs',
     SetupCacheMgr E fuel (root cfg) fs = Ret (Some m, fs') /\
     owns m cfg /\
     constructed_instances_ fs' =
       constructed_instances_ fs ∪ list_to_set (instances cfg)).
Proof.
  split; [| split].
  - intros n i fs0 Hin. simpl.
    rewrite bool_decide_eq_true_2 by exact Hin.
    eexists. split; [reflexivity |]. destruct fs0. simpl. auto.
  - intros n i fs0 Hnew Hty Hup _.
    rewrite (SetupCacheMgr_dispatch E (S n) i fs0 Hnew). cbv zeta.
    rewrite Hty. change (String.eqb "tiered" "posix") with false.
    change (String.eqb "tiered" "ram") with false.
    change (String.eqb "tiered" "tiered") with true. cbv iota.
    pose proof (setup_post_constructed fs0 {[ i ]}) as (Hctx1 & _).
    set (fs1 := set_constructed_instances_ _ fs0) in *.
    assert (Hin : i ∈ constructed_instances_ fs1).
    { subst fs1. destruct fs0. simpl. apply elem_of_union_r, elem_of_singleton.
      reflexivity. }
    assert (Htr : trace_ fs1 = trace_ fs0) by (subst fs1; destruct fs0; reflexivity).
    clearbody fs1. unfold SetupTieredCacheMgr.
    rewrite (MkCacheParm_same_context _ _ _ _ Hctx1),
      (GetValue_same_context _ _ _ Hctx1), Hup.
    cbn [SetupCacheMgr]. rewrite bool_decide_eq_true_2 by exact Hin.
    cbn [mbind outcome_bind].
    eexists. split; [reflexivity |]. rewrite <- Htr. destruct fs1. simpl. auto.
  - eapply tier_tree_resolves; eassumption.
Qed.

Lemma cache_mgr_cycles_and_tiers_witness :
  let fs := Examples.file_system kFsFuse Examples.chain_options false in
  exists m fs',
    SetupCacheMgr Examples.env 3 "A" fs = Ret (Some m, fs') /\
    owns m Examples.chain_config /\
    constructed_instances_ fs' =
      constructed_instances_ fs ∪ list_to_set (instances Examples.chain_config).
Proof.
  intros fs.
  refine (proj2 (proj2 (cache_mgr_cycles_and_tiers Examples.env fs
                          Examples.chain_config 3 _ _ _ _ _ _))).
  - intros u l. reflexivity.
  - vm_compute. repeat split; congruence.
  - apply (bool_decide_unpack _). vm_compute. exact I.
  - intros i _. apply not_elem_of_empty.
  - intros i Hi. cbn [leaves Examples.chain_config app] in Hi.
    repeat (apply elem_of_cons in Hi as [-> | Hi]);
      [ apply ram_instance_resolves; vm_compute; reflexivity ..
      | apply elem_of_nil in Hi; contradiction ].
  - simpl. lia.
Defined.

(** C3, as stated, fails: a three level chain in which two tiers name the
    same upper cache has no cycle, yet its resolution stops with the
    circular definition error at the second use of that cache. *)
Lemma shared_upper_tier_rejected :
  let fs := Examples.file_system kFsFuse Examples.shared_upper_options false in
  describes fs Examples.shared_upper_config /\
  acyclic Examples.shared_upper_config /\
  exists fs',
    SetupCacheMgr Examples.env 3 "A" fs = Ret (None, fs') /\
    boot_status_ fs' = kFailCacheDir /\
    boot_error_ fs' = "circular cache definition: R".
Proof.
  intros fs. split; [vm_compute; repeat split; congruence |].
  split.
  - unfold acyclic. cbn [acyclic_below Examples.shared_upper_config].
    repeat split; apply (bool_decide_unpack _); vm_compute; exact I.
  - eexists. vm_compute. repeat split; reflexivity.
Qed.

(** ** Quota attachment *)

Lemma SetupPosixQuotaMgr_cleanup (E : Env) (settings : PosixCacheSettings)
  (fs : FileSystem) (quota_mgr : PosixQuotaManager) :
  0 <= quota_limit settings ->
  (is_shared settings = false -> workspace_ fs = cache_path settings) ->
  created_quota_mgr E settings fs = Some quota_mgr ->
  let threshold := quota_limit settings / 2 in
  (forall ok fs',
     SetupPosixQuotaMgr E settings fs = Ret (ok, fs') ->
     exists evs,
       trace_ fs' = (trace_ fs ++ evs)%list /\
       List.filter is_cleanup evs =
         (if GetCapacity quota_mgr <? GetSize quota_mgr
          then [IoQuotaCleanup threshold] else []) /\
       (ok = true ->
        last evs = Some IoAcquireQuotaManager /\
        boot_status_ fs' = boot_status_ fs /\ boot_error_ fs' = boot_error_ fs) /\
       (ok = false <->
        GetCapacity quota_mgr < GetSize quota_mgr /\
        Cleanup quota_mgr threshold = false) /\
       (ok = false ->
        boot_status_ fs' = kFailQuota /\ last evs = Some IoQuotaDelete)) /\
  (AcquireQuotaManager E = true ->
   exists ok fs', SetupPosixQuotaMgr E settings fs = Ret (ok, fs')).
Proof.
  intros Hlimit Hws Hcreated threshold.
  assert (Hth : Z.quot (quota_limit settings) 2 = threshold)
    by (apply Z.quot_div_nonneg; lia).
  unfold SetupPosixQuotaMgr, created_quota_mgr in *. rewrite Hth in *.
  destruct (Z.ltb_spec (quota_limit settings) 0) as [| _]; [lia |].
  destruct fs as [nm ex ty op ww fg st ws wf pl fd pc fp nmode nd ci cs cm uu hn hs bs be tr].
  cbn [exe_path_ foreground_ workspace_ found_previous_crash_ io fail
       set_boot_status_ set_boot_error_ trace_ boot_status_ boot_error_] in *.
  destruct (is_shared settings) eqn:Hshared.
  - rewrite Hcreated. cbn [mbind outcome_bind].
    destruct (Z.ltb_spec (GetCapacity quota_mgr) (GetSize quota_mgr)) as [Hover | Hfit].
    + destruct (Cleanup quota_mgr threshold) eqn:Hclean; cbn [negb mbind outcome_bind io fail
        set_boot_status_ set_boot_error_].
      * split.
        -- destruct (AcquireQuotaManager E); cbn [negb]; intros ok fs' H; [| discriminate].
           injection H as <- <-. eexists. cbn [trace_ boot_status_ boot_error_].
           split; [rewrite <- !app_assoc; reflexivity |].
           split; [reflexivity |]. split; [auto |].
           split; [split; [discriminate | intros [_ ?]; discriminate] | discriminate].
        -- intros ->. eexists _, _. reflexivity.
      * split.
        -- intros ok fs' H. injection H as <- <-. eexists.
           cbn [trace_ boot_status_ boot_error_].
           split; [rewrite <- !app_assoc; reflexivity |].
           split; [reflexivity |]. split; [discriminate |].
           split; [split; auto | auto].
        -- intros _. eexists _, _. reflexivity.
    + cbn [mbind outcome_bind io]. split.
      * destruct (AcquireQuotaManager E); cbn [negb]; intros ok fs' H; [| discriminate].
        injection H as <- <-. eexists. cbn [trace_ boot_status_ boot_error_].
        split; [rewrite <- !app_assoc; reflexivity |].
        split; [reflexivity |]. split; [auto |].
        split; [split; [discriminate | intros [? _]; lia] | discriminate].
      * intros ->. eexists _, _. reflexivity.
  - rewrite (Hws eq_refl), String.eqb_refl. cbn [negb].
    rewrite Hcreated. cbn [mbind outcome_bind].
    destruct (Z.ltb_spec (GetCapacity quota_mgr) (GetSize quota_mgr)) as [Hover | Hfit].
    + destruct (Cleanup quota_mgr threshold) eqn:Hclean; cbn [negb mbind outcome_bind io fail
        set_boot_status_ set_boot_error_].
      * split.
        -- destruct (AcquireQuotaManager E); cbn [negb]; intros ok fs' H; [| discriminate].
           injection H as <- <-. eexists. cbn [trace_ boot_status_ boot_error_].
           split; [rewrite <- !app_assoc; reflexivity |].
           split; [reflexivity |]. split; [auto |].
           split; [split; [discriminate | intros [_ ?]; discriminate] | discriminate].
        -- intros ->. eexists _, _. reflexivity.
      * split.
        -- intros ok fs' H. injection H as <- <-. eexists.
           cbn [trace_ boot_status_ boot_error_].
           split; [rewrite <- !app_assoc; reflexivity |].
           split; [reflexivity |]. split; [discriminate |].
           split; [split; auto | auto].
        -- intros _. eexists _, _. reflexivity.
    + cbn [mbind outcome_bind io]. split.
      * destruct (AcquireQuotaManager E); cbn [negb]; intros ok fs' H; [| discriminate].
        injection H as <- <-. eexists. cbn [trace_ boot_status_ boot_error_].
        split; [rewrite <- !app_assoc; reflexivity |].
        split; [reflexivity |]. split; [auto |].
        split; [split; [discriminate | intros [? _]; lia] | discriminate].
      * intros ->. eexists _, _. reflexivity.
Qed.

(** ** The stages of FileSystem::Create *)

Ltac stage_done :=
  subst; unfold stage_post, fail; cbn;
  repeat split; try reflexivity; try discriminate;
  try (eexists; split; [rewrite <- ?app_assoc; reflexivity | try reflexivity; try discriminate]);
  try (exists []; split; [symmetry; apply app_nil_r | try reflexivity; try discriminate]).

Lemma stage_post_trans fs1 fs2 ok fs3 :
  stage_post fs1 true fs2 -> stage_post fs2 ok fs3 -> stage_post fs1 ok fs3.
Proof.
  intros [(e1 & He1 & Hq1) [Hb1 Hb1']] [(e2 & He2 & Hq2) Hb2]. split.
  - exists (e1 ++ e2)%list. split; [rewrite He2, He1, app_assoc; reflexivity |].
    rewrite existsb_app, Hq1, Hq2. reflexivity.
  - destruct ok; [destruct Hb2; split; congruence | exact Hb2].
Qed.

Lemma stage_post_io fs e :
  is_quota_delete e = false -> stage_post fs true (io e fs).
Proof.
  intros He. destruct fs. split; [| split; reflexivity].
  eexists [e]. split; [reflexivity |]. simpl. rewrite He. reflexivity.
Qed.

Lemma SetupLogging_post fs : stage_post fs true (SetupLogging fs).
Proof.
  unfold SetupLogging. destruct fs. cbn.
  repeat match goal with
         | |- context [match ?x with _ => _ end] =>
             lazymatch x with
             | context [match _ with _ => _ end] => fail
             | _ => destruct x
             end
         end; stage_done.
Qed.

Lemma CreateStatistics_post fs : stage_post fs true (CreateStatistics fs).
Proof. unfold CreateStatistics. destruct fs. stage_done. Qed.

Lemma SetupSqlite_post (E : Env) fs fs' :
  SetupSqlite E fs = Ret fs' -> stage_post fs true fs'.
Proof.
  unfold SetupSqlite. intros H. destruct fs. cbn in H. crunch H; stage_done.
Qed.

Lemma DetermineNfsMode_post (E : Env) fs ok fs' :
  DetermineNfsMode E fs = (ok, fs') -> stage_post fs ok fs'.
Proof.
  unfold DetermineNfsMode. intros H. destruct fs. cbn in H. crunch H; stage_done.
Qed.

Lemma LockWorkspace_post (E : Env) fs ok fs' :
  LockWorkspace E fs = Ret (ok, fs') -> stage_post fs ok fs'.
Proof.
  unfold LockWorkspace. intros H. destruct fs. cbn in H. crunch H; stage_done.
Qed.

Lemma SetupCwd_post (E : Env) fs ok fs' :
  SetupCwd E fs = (ok, fs') -> stage_post fs ok fs'.
Proof.
  unfold SetupCwd. intros H. destruct fs. cbn in H. crunch H; stage_done.
Qed.

Lemma SetupCrashGuard_post (E : Env) fs ok fs' :
  SetupCrashGuard E fs = (ok, fs') -> stage_post fs ok fs'.
Proof.
  unfold SetupCrashGuard. intros H. destruct fs. cbn in H. crunch H; stage_done.
Qed.

Lemma SetupUuid_post (E : Env) fs fs' :
  SetupUuid E fs = Ret fs' -> stage_post fs true fs'.
Proof.
  unfold SetupUuid. intros H. destruct fs. cbn in H. crunch H; stage_done.
Qed.

Lemma SetupNfsMaps_post (E : Env) fs ok fs' :
  SetupNfsMaps E fs = Ret (ok, fs') -> stage_post fs ok fs'.
Proof.
  unfold SetupNfsMaps, CreateFile. intros H. destruct fs. cbn in H.
  crunch H; stage_done.
Qed.

Lemma stage_post_set_workspace fs v : stage_post fs true (set_workspace_ v fs).
Proof. destruct fs. stage_done. Qed.

Lemma stage_post_fail fs code msg :
  is_failure_code code = true -> stage_post fs false (fail code msg fs).
Proof. intros H. destruct fs. stage_done; exact H. Qed.

Lemma stage_post_refl fs : stage_post fs true fs.
Proof. destruct fs. stage_done. Qed.

Ltac destruct_matches :=
  repeat match goal with
         | |- context [match ?x with _ => _ end] =>
             lazymatch x with
             | context [match _ with _ => _ end] => fail
             | _ => destruct x
             end
         end.

Lemma SetupWorkspace_tail (E : Env) fs0 fs ok fs' :
  stage_post fs0 true fs ->
  (let mode := 504 in
   let fs := io (IoMkdirDeep (workspace_ fs) mode) fs in
   if negb (MkdirDeep E (workspace_ fs) mode) then
     Ret (false,
          fail kFailCacheDir
            ("cannot create workspace directory " +:+ workspace_ fs) fs)
   else
     '(ok, fs) ← LockWorkspace E fs;
     if negb ok then Ret (false, fs)
     else
       let '(ok, fs) := SetupCwd E fs in
       if negb ok then Ret (false, fs)
       else
         let '(ok, fs) := SetupCrashGuard E fs in
         if negb ok then Ret (false, fs) else Ret (true, fs)) = Ret (ok, fs') ->
  stage_post fs0 ok fs'.
Proof.
  intros Hp0 H. cbv zeta in H.
  assert (Hp2 : stage_post fs0 true (io (IoMkdirDeep (workspace_ fs) 504) fs)).
  { eapply stage_post_trans; [exact Hp0 |]. apply stage_post_io. reflexivity. }
  clear Hp0.
  generalize dependent (io (IoMkdirDeep (workspace_ fs) 504) fs).
  intros fs2 H Hp2.
  destruct (MkdirDeep E _ _); cbn [negb] in H.
  2:{ inv_ret. subst. eapply stage_post_trans; [exact Hp2 |].
      apply stage_post_fail. reflexivity. }
  destruct (LockWorkspace E fs2) as [[ok1 fs3] | |] eqn:Hlock;
    cbn [mbind outcome_bind] in H; try discriminate.
  apply LockWorkspace_post in Hlock.
  destruct ok1; cbn [negb] in H;
    [| inv_ret; subst; eapply stage_post_trans; eassumption].
  destruct (SetupCwd E fs3) as [ok2 fs4] eqn:Hcwd.
  apply SetupCwd_post in Hcwd.
  destruct ok2; cbn [negb] in H;
    [| inv_ret; subst; repeat (eapply stage_post_trans; [eassumption |]); assumption].
  destruct (SetupCrashGuard E fs4) as [ok3 fs5] eqn:Hguard.
  apply SetupCrashGuard_post in Hguard.
  destruct ok3; cbn [negb] in H; inv_ret; subst;
    repeat (eapply stage_post_trans; [eassumption |]);
    first [assumption | apply stage_post_refl].
Qed.

Lemma SetupWorkspace_post (E : Env) fs ok fs' :
  SetupWorkspace E fs = Ret (ok, fs') -> stage_post fs ok fs'.
Proof.
  unfold SetupWorkspace. intros H.
  match type of H with
  | context [GetValue ?s "CVMFS_CACHE_DIR"] =>
      assert (Hp1 : stage_post fs true s)
        by (clear H; destruct fs; cbn; destruct_matches; stage_done);
      generalize dependent s
  end.
  intros fs1 H Hp1.
  destruct (GetValue fs1 "CVMFS_CACHE_DIR") as [dir |].
  - destruct (IsDefined fs1 "CVMFS_CACHE_BASE").
    + inv_ret. subst. eapply stage_post_trans; [exact Hp1 |].
      apply stage_post_fail. reflexivity.
    + eapply SetupWorkspace_tail; [| exact H].
      eapply stage_post_trans; [exact Hp1 |]. destruct fs1. cbn.
      destruct_matches; stage_done.
  - eapply SetupWorkspace_tail; [| exact H].
    eapply stage_post_trans; [exact Hp1 |]. destruct fs1. cbn.
    destruct_matches; stage_done.
Qed.

Lemma TriageCacheMgr_post (E : Env) fs ok fs' :
  TriageCacheMgr E fs = Ret (ok, fs') ->
  (exists evs,
     trace_ fs' = (trace_ fs ++ evs)%list /\
     (existsb is_quota_delete evs = true ->
      ok = false /\ boot_status_ fs' = kFailQuota)) /\
  (if ok
   then boot_status_ fs' = boot_status_ fs /\ boot_error_ fs' = boot_error_ fs
   else is_failure_code (boot_status_ fs') = true \/
        (primary_name_too_long fs /\ boot_status_ fs' = boot_status_ fs /\
         boot_error_ fs' = boot_error_ fs /\ trace_ fs' = trace_ fs)).
Proof.
  unfold TriageCacheMgr. intros H.
  assert (Hopt : forall k, GetValue (set_cache_mgr_instance_ kDefaultCacheMgrInstance fs) k
                           = GetValue fs k) by (intros; destruct fs; reflexivity).
  rewrite Hopt in H.
  assert (Hrun : forall fs1 : FileSystem,
            trace_ fs1 = trace_ fs -> boot_status_ fs1 = boot_status_ fs ->
            boot_error_ fs1 = boot_error_ fs ->
            ('(mgr, s) ← SetupCacheMgr E (S (size (options_mgr_ fs1)))
                          (cache_mgr_instance_ fs1) fs1;
             Ret (bool_decide (is_Some mgr), set_cache_mgr_ mgr s)) = Ret (ok, fs') ->
            (exists evs,
               trace_ fs' = (trace_ fs ++ evs)%list /\
               (existsb is_quota_delete evs = true ->
                ok = false /\ boot_status_ fs' = kFailQuota)) /\
            (if ok
             then boot_status_ fs' = boot_status_ fs /\ boot_error_ fs' = boot_error_ fs
             else is_failure_code (boot_status_ fs') = true \/
                  (primary_name_too_long fs /\ boot_status_ fs' = boot_status_ fs /\
                   boot_error_ fs' = boot_error_ fs /\ trace_ fs' = trace_ fs))).
  { intros fs1 Htr Hbs Hbe Hrun.
    destruct (SetupCacheMgr E _ _ fs1) as [[mgr fs2] | |] eqn:Hsetup;
      cbn [mbind outcome_bind] in Hrun; try discriminate.
    apply SetupCacheMgr_post in Hsetup as (_ & _ & (evs & Hevs & Hq) & Hb).
    injection Hrun as <- <-.
    assert (Hproj : trace_ (set_cache_mgr_ mgr fs2) = trace_ fs2 /\
                    boot_status_ (set_cache_mgr_ mgr fs2) = boot_status_ fs2 /\
                    boot_error_ (set_cache_mgr_ mgr fs2) = boot_error_ fs2)
      by (destruct fs2; auto).
    destruct Hproj as (-> & -> & ->).
    assert (Hok : bool_decide (is_Some mgr) = succeeded mgr).
    { destruct mgr; [apply bool_decide_eq_true_2; eauto |].
      apply bool_decide_eq_false_2. intros [? ?]. discriminate. }
    rewrite Hok. split.
    - exists evs. rewrite Hevs, Htr. auto.
    - destruct (succeeded mgr); [rewrite <- Hbs, <- Hbe; exact Hb | left; exact Hb]. }
  destruct (GetValue fs "CVMFS_CACHE_PRIMARY") as [instance |] eqn:Hprimary.
  2:{ apply (Hrun _) in H; [exact H | destruct fs; reflexivity ..]. }
  destruct (String.eqb instance "") eqn:Hempty; cbn [negb] in H.
  { apply (Hrun _) in H; [exact H | destruct fs; reflexivity ..]. }
  unfold CheckInstanceName in H.
  destruct (Nat.ltb_spec 24 (String.length instance)) as [Hlong | Hshort].
  { cbn [negb] in H. injection H as <- <-. split.
    - exists []. split; [destruct fs; symmetry; apply app_nil_r | discriminate].
    - right. split; [exists instance; auto | destruct fs; auto]. }
  destruct (CacheInstanceSanitizer_IsValid instance); cbn [negb] in H.
  - apply (Hrun _) in H; [exact H | destruct fs; reflexivity ..].
  - injection H as <- <-. split.
    + exists []. split; [destruct fs; symmetry; apply app_nil_r | discriminate].
    + left. destruct fs. reflexivity.
Qed.

(** ** Runs of a stage list *)

Section RunStages.

Context {S : Type}.
Implicit Types stages : list (string * (S -> outcome (bool * S))).

Lemma run_stages_outcome stages (s : S) done failed s' :
  run_stages stages s = Ret (done, failed, s') ->
  match failed with
  | None => completed stages s s'
  | Some n => exists before, halted_at stages s n before s'
  end.
Proof.
  revert s done. induction stages as [| [n f] rest IH]; intros s done H.
  - cbn in H. injection H as <- <- <-. reflexivity.
  - cbn [run_stages] in H.
    destruct (f s) as [[ok s1] | |] eqn:Hf; cbn [mbind outcome_bind] in H;
      try discriminate.
    destruct ok; cbn [negb] in H.
    + destruct (run_stages rest s1) as [[[done1 failed1] s2] | |] eqn:Hrest;
        cbn [mbind outcome_bind] in H; try discriminate.
      injection H as <- <- <-.
      specialize (IH _ _ Hrest). destruct failed1 as [m |].
      * destruct IH as (before & front & stage & behind & -> & Hfront & Hstage).
        exists before, ((n, f) :: front), stage, behind.
        split; [reflexivity |]. split; [| exact Hstage].
        cbn [run_stages map fst]. rewrite Hf. cbn [mbind outcome_bind negb].
        rewrite Hfront. reflexivity.
      * unfold completed in *. cbn [run_stages map fst]. rewrite Hf.
        cbn [mbind outcome_bind negb]. rewrite IH. reflexivity.
    + injection H as <- <- <-.
      exists s, [], f, rest. split; [reflexivity |]. split; [reflexivity | exact Hf].
Qed.

Lemma run_stages_walked (step : string -> S -> bool -> S -> Prop) stages :
  stages_satisfy step stages ->
  forall (s : S) done failed s',
    run_stages stages s = Ret (done, failed, s') -> walked step s failed s'.
Proof.
  induction 1 as [| [n f] rest Hf Hrest IH]; intros s done failed s' H.
  - cbn in H. injection H as <- <- <-. constructor.
  - cbn [run_stages] in H.
    destruct (f s) as [[ok s1] | |] eqn:Hfs; cbn [mbind outcome_bind] in H;
      try discriminate.
    apply Hf in Hfs. cbn [fst] in Hfs.
    destruct ok; cbn [negb] in H.
    + destruct (run_stages rest s1) as [[[done1 failed1] s2] | |] eqn:Hrun;
        cbn [mbind outcome_bind] in H; try discriminate.
      injection H as <- <- <-. eapply walked_on; [exact Hfs |].
      eapply IH. exact Hrun.
    + injection H as <- <- <-. apply walked_halt. exact Hfs.
Qed.

Lemma halted_at_walked (step : string -> S -> bool -> S -> Prop) stages
  (s : S) n before s' :
  stages_satisfy step stages ->
  halted_at stages s n before s' ->
  walked step s None before /\ step n before false s'.
Proof.
  intros Hall (front & stage & behind & -> & Hfront & Hstage).
  apply Forall_app in Hall as [Hfr Hrest].
  apply Forall_cons in Hrest as [Hst _].
  split; [eapply run_stages_walked; eassumption |].
  apply Hst in Hstage. exact Hstage.
Qed.

End RunStages.

Lemma run_stages_halt {S : Type}
  (front behind : list (string * (S -> outcome (bool * S))))
  (n : string) (stage : S -> outcome (bool * S)) (s before s' : S) done :
  run_stages front s = Ret (done, None, before) ->
  stage before = Ret (false, s') ->
  run_stages (front ++ (n, stage) :: behind) s = Ret (done, Some n, s').
Proof.
  revert s done. induction front as [| [m f] front IH]; intros s done Hfront Hstage.
  - cbn in Hfront. injection Hfront as <- <-.
    cbn [app run_stages]. rewrite Hstage. reflexivity.
  - cbn [app run_stages] in *.
    destruct (f s) as [[ok s1] | |]; cbn [mbind outcome_bind] in *; try discriminate.
    destruct ok; cbn [negb] in *; [| discriminate].
    destruct (run_stages front s1) as [[[d1 f1] s2] | |] eqn:Hrun;
      cbn [mbind outcome_bind] in *; try discriminate.
    injection Hfront as <- -> ->.
    rewrite (IH _ _ Hrun Hstage). reflexivity.
Qed.

Lemma fs_step_of_stage_post n fs ok fs' : stage_post fs ok fs' -> fs_step n fs ok fs'.
Proof.
  intros [(evs & Hevs & Hq) Hb]. split.
  - exists evs. split; [exact Hevs |]. rewrite Hq. discriminate.
  - destruct ok; [exact Hb | left; exact Hb].
Qed.

Lemma FileSystem_stages_satisfy (E : Env) : stages_satisfy fs_step (FileSystem_stages E).
Proof.
  unfold stages_satisfy, FileSystem_stages.
  repeat apply Forall_cons_2; try apply Forall_nil_2; cbn [fst snd];
    intros s ok s' H.
  - injection H as <- <-. apply fs_step_of_stage_post, SetupLogging_post.
  - injection H as <- <-. apply fs_step_of_stage_post, CreateStatistics_post.
  - destruct (SetupSqlite E s) eqn:Hs; cbn in H; try discriminate.
    injection H as <- <-. eapply fs_step_of_stage_post, SetupSqlite_post. exact Hs.
  - injection H as H. eapply fs_step_of_stage_post, DetermineNfsMode_post. exact H.
  - eapply fs_step_of_stage_post, SetupWorkspace_post. exact H.
  - injection H as <- <-. apply fs_step_of_stage_post, stage_post_io. reflexivity.
  - apply TriageCacheMgr_post in H as [Hevs Hb]. split; [exact Hevs |].
    destruct ok; [exact Hb |]. destruct Hb as [Hb | Hb]; [left; exact Hb | right].
    split; [reflexivity | exact Hb].
  - destruct (SetupUuid E s) eqn:Hs; cbn in H; try discriminate.
    injection H as <- <-. eapply fs_step_of_stage_post, SetupUuid_post. exact Hs.
  - eapply fs_step_of_stage_post, SetupNfsMaps_post. exact H.
  - destruct (RegisterVfsRdOnly E); cbn in H; [| discriminate].
    injection H as <- <-. apply fs_step_of_stage_post. destruct s. stage_done.
  - injection H as <- <-. apply fs_step_of_stage_post, stage_post_io. reflexivity.
Qed.

Lemma FileSystem_Create_pipeline (E : Env) g fs_info :
  FileSystem_Create E g fs_info =
  (fs0 ← FileSystem_new g fs_info;
   '(_, failed, fs) ← run_stages (FileSystem_stages E) fs0;
   Ret (match failed with
        | None => set_boot_status_ kFailOk fs
        | Some _ => fs
        end)).
Proof.
  unfold FileSystem_Create, FileSystem_stages.
  destruct (FileSystem_new g fs_info) as [fs0 | |]; cbn [mbind outcome_bind]; try reflexivity.
  cbn [run_stages mbind outcome_bind negb].
  destruct (SetupSqlite E _) as [fs1 | |]; cbn [mbind outcome_bind negb]; try reflexivity.
  destruct (DetermineNfsMode E fs1) as [[] fs2]; cbn [mbind outcome_bind negb]; try reflexivity.
  destruct (SetupWorkspace E fs2) as [[[] fs3] | |]; cbn [mbind outcome_bind negb];
    try reflexivity.
  destruct (TriageCacheMgr E _) as [[[] fs4] | |]; cbn [mbind outcome_bind negb];
    try reflexivity.
  destruct (SetupUuid E fs4) as [fs5 | |]; cbn [mbind outcome_bind negb]; try reflexivity.
  destruct (SetupNfsMaps E fs5) as [[[] fs6] | |]; cbn [mbind outcome_bind negb];
    try reflexivity.
  destruct (RegisterVfsRdOnly E); cbn [mbind outcome_bind negb]; reflexivity.
Qed.

(** Consequences of a walk for the FileSystem object. *)
Lemma fs_walked_trace fs failed fs' :
  walked fs_step fs failed fs' ->
  (exists evs,
     trace_ fs' = (trace_ fs ++ evs)%list /\
     (existsb is_quota_delete evs = true ->
      failed <> None /\ boot_status_ fs' = kFailQuota)) /\
  match failed with
  | None => boot_status_ fs' = boot_status_ fs /\ boot_error_ fs' = boot_error_ fs
  | Some _ => boot_status_ fs <> kFailOk -> boot_status_ fs' <> kFailOk
  end.
Proof.
  induction 1 as [s | n s s' [(evs & Hevs & Hq) Hb]
                    | n s s1 failed s' [(evs & Hevs & Hq) [Hb Hb']] _ IH].
  - split; [| auto]. exists []. split; [symmetry; apply app_nil_r | discriminate].
  - split.
    + exists evs. split; [exact Hevs |]. intros Hd. apply Hq in Hd as [_ ?].
      split; [discriminate | assumption].
    + intros Hne. destruct Hb as [Hb | (_ & _ & Hb & _)]; [| congruence].
      destruct (boot_status_ s'); discriminate.
  - destruct IH as [(evs' & Hevs' & Hq') Hb2]. split.
    + exists (evs ++ evs')%list.
      split; [rewrite Hevs', Hevs, app_assoc; reflexivity |].
      rewrite existsb_app. intros Hd. apply orb_true_iff in Hd as [Hd | Hd].
      * apply Hq in Hd as [? _]. discriminate.
      * apply Hq'. exact Hd.
    + destruct failed; [rewrite Hb in Hb2; exact Hb2 |].
      destruct Hb2. split; congruence.
Qed.

Lemma FileSystem_new_fresh g fs_info fs0 :
  FileSystem_new g fs_info = Ret fs0 ->
  boot_status_ fs0 = kFailUnknown /\ boot_error_ fs0 = "" /\ trace_ fs0 = [].
Proof.
  unfold FileSystem_new. destruct g; [discriminate |].
  intros [= <-]. auto.
Qed.

Lemma boot_status_set_ok fs : boot_status_ (set_boot_status_ kFailOk fs) = kFailOk.
Proof. destruct fs. reflexivity. Qed.

(** The file system half of C1. *)
Lemma FileSystem_Create_outcome (E : Env) g fs_info fs :
  FileSystem_Create E g fs_info = Ret fs ->
  exists fs0,
    FileSystem_new g fs_info = Ret fs0 /\
    (boot_status_ fs = kFailOk <->
     exists fs_end, completed (FileSystem_stages E) fs0 fs_end) /\
    ((exists fs_end,
        completed (FileSystem_stages E) fs0 fs_end /\
        fs = set_boot_status_ kFailOk fs_end) \/
     (exists n before,
        halted_at (FileSystem_stages E) fs0 n before fs /\
        boot_status_ fs <> kFailOk /\
        (exists evs0 evs1,
           trace_ before = (trace_ fs0 ++ evs0)%list /\
           trace_ fs = (trace_ before ++ evs1)%list) /\
        (is_failure_code (boot_status_ fs) = true \/
         (n = "TriageCacheMgr" /\ primary_name_too_long before /\
          boot_status_ fs = kFailUnknown /\ boot_error_ fs = "")))).
Proof.
  intros H. rewrite FileSystem_Create_pipeline in H.
  destruct (FileSystem_new g fs_info) as [fs0 | |] eqn:Hnew;
    cbn [mbind outcome_bind] in H; try discriminate.
  exists fs0. split; [reflexivity |].
  destruct (run_stages (FileSystem_stages E) fs0) as [[[done failed] fs1] | |] eqn:Hrun;
    cbn [mbind outcome_bind] in H; try discriminate.
  injection H as <-.
  pose proof (run_stages_outcome _ _ _ _ _ Hrun) as Hout.
  apply FileSystem_new_fresh in Hnew as (Hst0 & Herr0 & _).
  destruct failed as [n |].
  - destruct Hout as (before & Hhalt).
    destruct (halted_at_walked fs_step _ _ _ _ _ (FileSystem_stages_satisfy E) Hhalt)
      as [Hwalk Hstep].
    apply fs_walked_trace in Hwalk as [(evs0 & Hevs0 & _) [Hb0 He0]].
    assert (Hne : boot_status_ fs1 <> kFailOk).
    { destruct Hstep as [_ [Hc | (_ & _ & Hc & _)]].
      - destruct (boot_status_ fs1); discriminate.
      - rewrite Hc, Hb0, Hst0. discriminate. }
    split.
    + split; [contradiction |]. intros (fs_end & Hcompl).
      unfold completed in Hcompl. rewrite Hrun in Hcompl. discriminate.
    + right. exists n, before. split; [exact Hhalt |]. split; [exact Hne |].
      destruct Hstep as [(evs1 & Hevs1 & _) Hcode]. split; [eauto |].
      destruct Hcode as [Hc | (Hn & Hlong & Hs & He & _)]; [left; exact Hc |].
      right. split; [exact Hn |]. split; [exact Hlong |].
      split; congruence.
  - split.
    + split; [eauto |]. intros _. apply boot_status_set_ok.
    + left. eauto.
Qed.

(** The whole bootstrap fails with the Quota code once a quota manager
    had to be disposed of. *)
Lemma FileSystem_Create_quota (E : Env) g fs_info fs :
  FileSystem_Create E g fs_info = Ret fs ->
  existsb is_quota_delete (trace_ fs) = true ->
  boot_status_ fs = kFailQuota.
Proof.
  intros H Hq. rewrite FileSystem_Create_pipeline in H.
  destruct (FileSystem_new g fs_info) as [fs0 | |] eqn:Hnew;
    cbn [mbind outcome_bind] in H; try discriminate.
  destruct (run_stages (FileSystem_stages E) fs0) as [[[done failed] fs1] | |] eqn:Hrun;
    cbn [mbind outcome_bind] in H; try discriminate.
  injection H as <-.
  apply FileSystem_new_fresh in Hnew as (_ & _ & Htr0).
  apply (run_stages_walked fs_step _ (FileSystem_stages_satisfy E)) in Hrun.
  apply fs_walked_trace in Hrun as [(evs & Hevs & Hd) _].
  rewrite Htr0 in Hevs. cbn [app] in Hevs.
  destruct failed as [n |].
  - rewrite Hevs in Hq. apply Hd in Hq as [_ Hq]. exact Hq.
  - assert (Htr : trace_ (set_boot_status_ kFailOk fs1) = trace_ fs1)
      by (destruct fs1; reflexivity).
    rewrite Htr, Hevs in Hq. apply Hd in Hq as [Hq _]. contradiction.
Qed.

Lemma SetupPosixQuotaMgr_cleanup_fails (E : Env) (settings : PosixCacheSettings)
  (fs : FileSystem) (quota_mgr : PosixQuotaManager) :
  0 <= quota_limit settings ->
  (is_shared settings = false -> workspace_ fs = cache_path settings) ->
  created_quota_mgr E settings fs = Some quota_mgr ->
  GetCapacity quota_mgr < GetSize quota_mgr ->
  Cleanup quota_mgr (quota_limit settings / 2) = false ->
  exists fs', SetupPosixQuotaMgr E settings fs = Ret (false, fs').
Proof.
  intros Hlimit Hws Hcreated Hover Hclean.
  assert (Hth : Z.quot (quota_limit settings) 2 = quota_limit settings / 2)
    by (apply Z.quot_div_nonneg; lia).
  unfold SetupPosixQuotaMgr, created_quota_mgr in *. rewrite Hth in *.
  destruct (Z.ltb_spec (quota_limit settings) 0) as [| _]; [lia |].
  destruct (is_shared settings) eqn:Hshared.
  - destruct fs. cbn in *. rewrite Hcreated. cbn [mbind outcome_bind].
    destruct (Z.ltb_spec (GetCapacity quota_mgr) (GetSize quota_mgr)); [| lia].
    rewrite Hclean. cbn. eexists. reflexivity.
  - rewrite (Hws eq_refl), String.eqb_refl. cbn [negb].
    destruct fs. cbn in *. rewrite Hcreated. cbn [mbind outcome_bind].
    destruct (Z.ltb_spec (GetCapacity quota_mgr) (GetSize quota_mgr)); [| lia].
    rewrite Hclean. cbn. eexists. reflexivity.
Qed.

(** The primary cache instance is set up by SetupPosixQuotaMgr whenever
    TriageCacheMgr gets as far as that call. *)
Lemma TriageCacheMgr_quota_call (E : Env) before settings fs :
  primary_quota_call E before = Some (settings, fs) ->
  TriageCacheMgr E before =
  ('(ok, fs') ← SetupPosixQuotaMgr E settings fs;
   Ret (ok,
        set_cache_mgr_
          (if (ok : bool)
           then Some (PosixCacheManager (cache_path settings) (is_alien settings)
                        (avoid_rename settings) true)
           else None) fs')).
Proof.
  unfold primary_quota_call, TriageCacheMgr.
  destruct (GetValue _ "CVMFS_CACHE_PRIMARY") as [instance |];
    [ destruct (String.eqb instance ""); cbn [negb];
      [| destruct (CheckInstanceName instance _) as [[] fsx]; cbn [negb];
         [| discriminate] ] |];
    cbn [SetupCacheMgr];
    (destruct (bool_decide (_ ∈ _)); [discriminate |]);
    match goal with
    | |- context [instance_type ?i ?s] => generalize s
    end;
    intros fs2;
    (destruct (String.eqb (instance_type _ fs2) "posix"); cbn [negb]; [| discriminate]);
    unfold SetupPosixCacheMgr, CreateFile;
    (destruct (CheckPosixCacheSettings _ fs2) as [[] fs3]; cbn [negb]; [| discriminate]);
    (destruct (PosixCacheManager_Create E _ _ _); cbn [negb]; [| discriminate]);
    (destruct (CreateFile_creates E _ _ || _); cbn [negb mbind outcome_bind];
     [| discriminate]);
    (destruct (is_managed _); [| discriminate]);
    intros [= <- <-];
    (destruct (SetupPosixQuotaMgr E _ _) as [[[] fs4] | |];
     cbn [mbind outcome_bind negb]; try reflexivity);
    rewrite bool_decide_eq_true_2 by eauto; reflexivity.
Qed.

(** C6: quota attachment uses quota_limit / 2 as the cleanup threshold.
    With the quota manager created, cleanup is invoked exactly once, with
    that threshold, when the size exceeds the capacity, and not at all
    otherwise; on success the quota manager is attached after the cleanup
    and the boot outcome is untouched; the attachment fails exactly when
    the size exceeds the capacity and the cleanup fails, and then the
    Quota code is recorded and the quota manager disposed of.  A
    FileSystem::Create in which a quota manager was disposed of returns
    with the Quota code.  And the whole bootstrap fails when the cleanup
    does: when the constructor and the stages in front of TriageCacheMgr
    succeed, TriageCacheMgr calls the quota attachment for its primary
    instance, the size exceeds the capacity and the cleanup fails, then
    FileSystem::Create returns, halted at TriageCacheMgr, with the Quota
    code and without a cache manager, after exactly one cleanup and the
    disposal of the quota manager. *)
Theorem quota_attachment (E : Env) (settings : PosixCacheSettings)
  (fs : FileSystem) (quota_mgr : PosixQuotaManager)
  (Hlimit : 0 <= quota_limit settings)
  (Hworkspace : is_shared settings = false -> workspace_ fs = cache_path settings)
  (Hcreated : created_quota_mgr E settings fs = Some quota_mgr) :
  let threshold := quota_limit settings / 2 in
  (forall ok fs',
     SetupPosixQuotaMgr E settings fs = Ret (ok, fs') ->
     exists evs,
       trace_ fs' = (trace_ fs ++ evs)%list /\
       List.filter is_cleanup evs =
         (if GetCapacity quota_mgr <? GetSize quota_mgr
          then [IoQuotaCleanup threshold] else []) /\
       (ok = true ->
        last evs = Some IoAcquireQuotaManager /\
        boot_status_ fs' = boot_status_ fs /\ boot_error_ fs' = boot_error_ fs) /\
       (ok = false <->
        GetCapacity quota_mgr < GetSize quota_mgr /\
        Cleanup quota_mgr threshold = false) /\
       (ok = false ->
        boot_status_ fs' = kFailQuota /\ last evs = Some IoQuotaDelete)) /\
  (AcquireQuotaManager E = true ->
   exists ok fs', SetupPosixQuotaMgr E settings fs = Ret (ok, fs')) /\
  (forall g fs_info final,
     FileSystem_Create E g fs_info = Ret final ->
     existsb is_quota_delete (trace_ final) = true ->
     boot_status_ final = kFailQuota) /\
  (forall g fs_info fs0 before,
     FileSystem_new g fs_info = Ret fs0 ->
     completed (take 6 (FileSystem_stages E)) fs0 before ->
     primary_quota_call E before = Some (settings, fs) ->
     GetCapacity quota_mgr < GetSize quota_mgr ->
     Cleanup quota_mgr threshold = false ->
     exists final evs,
       FileSystem_Create E g fs_info = Ret final /\
       halted_at (FileSystem_stages E) fs0 "TriageCacheMgr" before final /\
       boot_status_ final = kFailQuota /\
       cache_mgr_ final = None /\
       trace_ final = (trace_ fs ++ evs)%list /\
       List.filter is_cleanup evs = [IoQuotaCleanup threshold] /\
       last evs = Some IoQuotaDelete).
Proof.
  intros threshold.
  destruct (SetupPosixQuotaMgr_cleanup E settings fs quota_mgr Hlimit Hworkspace Hcreated)
    as [Hrun Hret].
  split; [exact Hrun |]. split; [exact Hret |].
  split; [intros g fs_info final; apply FileSystem_Create_quota |].
  intros g fs_info fs0 before Hnew Hfront Hcall Hover Hclean.
  destruct (SetupPosixQuotaMgr_cleanup_fails E settings fs quota_mgr
              Hlimit Hworkspace Hcreated Hover Hclean) as (fs' & Hquota).
  destruct (Hrun false fs' Hquota) as (evs & Htrace & Hfilter & _ & _ & Hfail).
  destruct (Hfail eq_refl) as [Hstatus Hlast].
  assert (Htriage : TriageCacheMgr E before = Ret (false, set_cache_mgr_ None fs')).
  { rewrite (TriageCacheMgr_quota_call E before settings fs Hcall), Hquota.
    reflexivity. }
  assert (Hsplit : FileSystem_stages E =
            (take 6 (FileSystem_stages E) ++
             ("TriageCacheMgr", TriageCacheMgr E) :: drop 7 (FileSystem_stages E))%list)
    by reflexivity.
  exists (set_cache_mgr_ None fs'), evs.
  split.
  { rewrite FileSystem_Create_pipeline, Hnew. cbn [mbind outcome_bind].
    rewrite Hsplit, (run_stages_halt _ _ _ _ _ _ _ _ Hfront Htriage). reflexivity. }
  split.
  { eexists _, _, _. split; [exact Hsplit |]. split; [exact Hfront | exact Htriage]. }
  assert (Hover' : (GetCapacity quota_mgr <? GetSize quota_mgr) = true)
    by (apply Z.ltb_lt; exact Hover).
  rewrite Hover' in Hfilter.
  destruct fs'; cbn in *. auto.
Qed.

(** ** The stages of MountPoint::Create *)

Lemma mount_post_refl e mp : mount_post e mp true mp.
Proof.
  unfold mount_post. repeat split.
  exists []. split; [symmetry; apply app_nil_r | reflexivity].
Qed.

Lemma mount_post_trans e m1 m2 ok m3 :
  mount_post e m1 true m2 -> mount_post e m2 ok m3 -> mount_post e m1 ok m3.
Proof.
  intros ([Hf1 Ho1] & (e1 & He1 & Hq1) & Hk1 & Hb1 & Hb1')
         ([Hf2 Ho2] & (e2 & He2 & Hq2) & Hk2 & Hb2).
  split; [split; congruence |]. split; [| split].
  - exists (e1 ++ e2)%list. split; [rewrite He2, He1, app_assoc; reflexivity |].
    intros He. rewrite existsb_app, (Hq1 He), (Hq2 He). reflexivity.
  - intros He. destruct (Hk1 He) as (? & ? & ?), (Hk2 He) as (? & ? & ?).
    repeat split; congruence.
  - destruct ok; [destruct Hb2; split; congruence | exact Hb2].
Qed.

Lemma mount_post_weaken mp ok mp' : mount_post true mp ok mp' -> mount_post false mp ok mp'.
Proof.
  intros (Hf & (evs & Hevs & _) & _ & Hb).
  split; [exact Hf |]. split; [exists evs; split; [exact Hevs | discriminate] |].
  split; [discriminate | exact Hb].
Qed.

Lemma mount_post_let e m ok (X : MountPoint.t) (B : MountPoint.t -> MountPoint.t) :
  mount_post e m true X ->
  (forall x, mount_post e x ok (B x)) ->
  mount_post e m ok (let x := X in B x).
Proof. intros H1 H2. eapply mount_post_trans; [exact H1 | apply H2]. Qed.

Lemma mount_post_ev e mp evt :
  (e = true -> MountPoint.is_fetch_or_catalog evt = false) ->
  mount_post e mp true (MountPoint.ev evt mp).
Proof.
  intros He. destruct mp. unfold mount_post. cbn. repeat split.
  exists [evt]. split; [reflexivity |]. intros Ht. cbn. rewrite (He Ht). reflexivity.
Qed.

Lemma mount_post_ev_after e m ok mp evt :
  (e = true -> MountPoint.is_fetch_or_catalog evt = false) ->
  mount_post e m ok mp -> mount_post e m ok (MountPoint.ev evt mp).
Proof.
  intros He (Hf & (evs & Hevs & Hq) & Hk & Hb). destruct mp. cbn in *.
  split; [exact Hf |]. split; [| split; [exact Hk | exact Hb]].
  exists (evs ++ [evt])%list. split; [rewrite Hevs, app_assoc; reflexivity |].
  intros Ht. rewrite existsb_app, (Hq Ht). cbn. rewrite (He Ht). reflexivity.
Qed.

Lemma mount_post_fail e mp code msg :
  is_failure_code code = true -> mount_post e mp false (MountPoint.fail code msg mp).
Proof.
  intros Hc. destruct mp. unfold mount_post. cbn. repeat split; [| exact Hc].
  exists []. split; [symmetry; apply app_nil_r | reflexivity].
Qed.

Ltac mount_setter :=
  intros; match goal with mp : MountPoint.t |- _ => destruct mp end;
  unfold mount_post; cbn; repeat split; try discriminate;
  exists []; split; [symmetry; apply app_nil_r | reflexivity].

Lemma mount_post_set_statistics_ e mp v : mount_post e mp true (MountPoint.set_statistics_ v mp).
Proof. mount_setter. Qed.
Lemma mount_post_set_authz_fetcher_ e mp v :
  mount_post e mp true (MountPoint.set_authz_fetcher_ v mp).
Proof. mount_setter. Qed.
Lemma mount_post_set_authz_session_mgr_ e mp v :
  mount_post e mp true (MountPoint.set_authz_session_mgr_ v mp).
Proof. mount_setter. Qed.
Lemma mount_post_set_authz_attachment_ e mp v :
  mount_post e mp true (MountPoint.set_authz_attachment_ v mp).
Proof. mount_setter. Qed.
Lemma mount_post_set_backoff_throttle_ e mp v :
  mount_post e mp true (MountPoint.set_backoff_throttle_ v mp).
Proof. mount_setter. Qed.
Lemma mount_post_set_signature_mgr_ e mp v :
  mount_post e mp true (MountPoint.set_signature_mgr_ v mp).
Proof. mount_setter. Qed.
Lemma mount_post_set_download_mgr_ e mp v :
  mount_post e mp true (MountPoint.set_download_mgr_ v mp).
Proof. mount_setter. Qed.
Lemma mount_post_set_external_download_mgr_ e mp v :
  mount_post e mp true (MountPoint.set_external_download_mgr_ v mp).
Proof. mount_setter. Qed.
Lemma mount_post_set_inode_annotation_ e mp v :
  mount_post e mp true (MountPoint.set_inode_annotation_ v mp).
Proof. mount_setter. Qed.
Lemma mount_post_set_tables_ e mp v : mount_post e mp true (MountPoint.set_tables_ v mp).
Proof. mount_setter. Qed.
Lemma mount_post_set_tracer_ e mp v : mount_post e mp true (MountPoint.set_tracer_ v mp).
Proof. mount_setter. Qed.
Lemma mount_post_set_max_ttl_sec_ e mp v :
  mount_post e mp true (MountPoint.set_max_ttl_sec_ v mp).
Proof. mount_setter. Qed.
Lemma mount_post_set_kcache_timeout_sec_ e mp v :
  mount_post e mp true (MountPoint.set_kcache_timeout_sec_ v mp).
Proof. mount_setter. Qed.
Lemma mount_post_set_fixed_catalog_ e mp v :
  mount_post e mp true (MountPoint.set_fixed_catalog_ v mp).
Proof. mount_setter. Qed.
Lemma mount_post_set_hide_magic_xattrs_ e mp v :
  mount_post e mp true (MountPoint.set_hide_magic_xattrs_ v mp).
Proof. mount_setter. Qed.
Lemma mount_post_set_membership_ e mp h r :
  mount_post e mp true (MountPoint.set_membership_ h r mp).
Proof. mount_setter. Qed.
Lemma mount_post_set_repository_tag_ e mp v :
  mount_post e mp true (MountPoint.set_repository_tag_ v mp).
Proof. mount_setter. Qed.
Lemma mount_post_set_fetcher_ mp v :
  mount_post false mp true (MountPoint.set_fetcher_ v mp).
Proof. mount_setter. Qed.
Lemma mount_post_set_external_fetcher_ mp v :
  mount_post false mp true (MountPoint.set_external_fetcher_ v mp).
Proof. mount_setter. Qed.
Lemma mount_post_set_catalog_mgr_ mp v :
  mount_post false mp true (MountPoint.set_catalog_mgr_ v mp).
Proof. mount_setter. Qed.

Lemma mount_post_SetMaxTtlMn e mp v : mount_post e mp true (MountPoint.SetMaxTtlMn v mp).
Proof. apply mount_post_set_max_ttl_sec_. Qed.

Create HintDb mount_setters.
#[local] Hint Resolve mount_post_set_statistics_ mount_post_set_authz_fetcher_
  mount_post_set_authz_session_mgr_ mount_post_set_authz_attachment_
  mount_post_set_backoff_throttle_ mount_post_set_signature_mgr_
  mount_post_set_download_mgr_ mount_post_set_external_download_mgr_
  mount_post_set_inode_annotation_ mount_post_set_tables_ mount_post_set_tracer_
  mount_post_set_max_ttl_sec_ mount_post_set_kcache_timeout_sec_
  mount_post_set_fixed_catalog_ mount_post_set_hide_magic_xattrs_
  mount_post_set_membership_ mount_post_set_repository_tag_
  mount_post_set_fetcher_ mount_post_set_external_fetcher_
  mount_post_set_catalog_mgr_ mount_post_SetMaxTtlMn : mount_setters.

Ltac innermost_scrutinee c :=
  lazymatch c with
  | context [match ?d with _ => _ end] => innermost_scrutinee d
  | _ => c
  end.

(** Walks through an expression built from the object by lets, case
    distinctions, events, assignments and failures. *)
Ltac mp_go :=
  lazymatch goal with
  | |- mount_post ?e ?m ?ok ?T =>
      first
        [ apply mount_post_refl
        | lazymatch T with
          | (let x := ?X in @?B x) =>
              lazymatch type of X with
              | MountPoint.t =>
                  apply (mount_post_let e m ok X B);
                  [ mp_go | let y := fresh "mp" in intro y; cbv beta; mp_go ]
              | _ => change (mount_post e m ok (B X)); cbv beta; mp_go
              end
          | (match ?c with _ => _ end) =>
              let d := innermost_scrutinee c in destruct d; mp_go
          | MountPoint.ev ?evt ?X =>
              apply mount_post_ev_after;
              [ intros He; first [reflexivity | discriminate He] | mp_go ]
          | MountPoint.fail ?c ?msg ?X =>
              eapply mount_post_trans;
              [ | apply mount_post_fail; reflexivity ]; mp_go
          | ?f ?v ?X =>
              eapply mount_post_trans; [ | solve [eauto with mount_setters] ]; mp_go
          | ?f ?v ?w ?X =>
              eapply mount_post_trans; [ | solve [eauto with mount_setters] ]; mp_go
          end ]
  end.

(** The same for an expression that yields a return value and the object. *)
Ltac mp_go2 :=
  lazymatch goal with
  | |- mount_post ?e ?m (fst ?T) (snd ?T) =>
      lazymatch T with
      | (?b, ?X) => change (mount_post e m b X); mp_go
      | (let x := ?X in @?B x) =>
          lazymatch type of X with
          | MountPoint.t =>
              let y := fresh "mp" in
              cut (mount_post e m true X);
              [ generalize X; intros y Hy;
                cut (mount_post e y (fst (B y)) (snd (B y)));
                [ apply mount_post_trans; exact Hy | clear Hy; cbv beta; mp_go2 ]
              | mp_go ]
          | _ =>
              change (mount_post e m (fst (B X)) (snd (B X))); cbv beta; mp_go2
          end
      | (match ?c with _ => _ end) =>
          let d := innermost_scrutinee c in destruct d; mp_go2
      end
  end.

(** The same for a return value, a second result and the object. *)
Ltac mp_go3 :=
  lazymatch goal with
  | |- mount_post ?e ?m (fst (fst ?T)) (snd ?T) =>
      lazymatch T with
      | (?b, ?a, ?X) => change (mount_post e m b X); mp_go
      | (match ?c with _ => _ end) =>
          let d := innermost_scrutinee c in destruct d; mp_go3
      end
  end.

Section MountStages.

Variable E : Env.
Variable M : MountPoint.Collaborators.

Lemma CreateAuthz_post e mp mp' :
  MountPoint.CreateAuthz M mp = Ret mp' -> mount_post e mp true mp'.
Proof.
  unfold MountPoint.CreateAuthz. intros H.
  repeat match type of H with
         | (if negb ?c then Abort else _) = _ =>
             destruct c; cbn [negb] in H; [| discriminate H]
         end.
  injection H as <-. mp_go.
Qed.

Lemma CreateSignatureManager_post e mp :
  mount_post e mp (fst (MountPoint.CreateSignatureManager M mp))
    (snd (MountPoint.CreateSignatureManager M mp)).
Proof. unfold MountPoint.CreateSignatureManager. mp_go2. Qed.

Lemma CheckBlacklists_post e mp :
  mount_post e mp (fst (MountPoint.CheckBlacklists E M mp))
    (snd (MountPoint.CheckBlacklists E M mp)).
Proof. unfold MountPoint.CheckBlacklists. mp_go2. Qed.


Lemma MountPoint_CreateStatistics_post e mp mp' :
  MountPoint.CreateStatistics mp = Ret mp' -> mount_post e mp true mp'.
Proof.
  unfold MountPoint.CreateStatistics. intros H.
  destruct (FileSystem_statistics _); cbn [negb] in H; [| discriminate].
  destruct (bool_decide _); cbn [negb] in H; injection H as <-; mp_go.
Qed.

Lemma SetupDnsTuning_post e ext mp :
  mount_post e mp true (MountPoint.SetupDnsTuning E M ext mp).
Proof. cbv delta [MountPoint.SetupDnsTuning]. cbv beta. mp_go. Qed.

Lemma SetupHttpTuning_post e mp :
  mount_post e mp true (MountPoint.SetupHttpTuning E M mp).
Proof. cbv delta [MountPoint.SetupHttpTuning]. cbv beta. mp_go. Qed.

Lemma SetupExternalDownloadMgr_post e mp :
  mount_post e mp (fst (MountPoint.SetupExternalDownloadMgr E M mp))
    (snd (MountPoint.SetupExternalDownloadMgr E M mp)).
Proof. unfold MountPoint.SetupExternalDownloadMgr. mp_go2. Qed.

Lemma CreateDownloadManagers_post mp ok mp' :
  MountPoint.CreateDownloadManagers E M mp = Ret (ok, mp') ->
  mount_post true mp ok mp'.
Proof.
  cbv delta [MountPoint.CreateDownloadManagers]. cbv beta. intros H.
  match type of H with
  | (let x := ?X in @?B x) = _ =>
      assert (H1 : mount_post true mp true X) by mp_go;
      change (B X = Ret (ok, mp')) in H; generalize dependent X; intros mp1
  end.
  cbv beta. intros H H1.
  repeat match type of H with
  | (let x := ?X in @?B x) = _ =>
      lazymatch type of X with
      | MountPoint.t =>
          let H2 := fresh "Hs" in
          assert (H2 : mount_post true mp true X)
            by (eapply mount_post_trans; [exact H1 |];
                first [ apply SetupDnsTuning_post | apply SetupHttpTuning_post | mp_go ]);
          clear H1; rename H2 into H1;
          change (B X = Ret (ok, mp')) in H; generalize dependent X;
          let y := fresh "mp" in (intros y H H1; cbv beta in H)
      | _ => change (B X = Ret (ok, mp')) in H; cbv beta in H
      end
  end.
  destruct (uuid_cache_ _) as [uuid |]; [| discriminate].
  repeat match type of H with
  | (let x := ?X in @?B x) = _ =>
      lazymatch type of X with
      | MountPoint.t =>
          let H2 := fresh "Hs" in
          assert (H2 : mount_post true mp true X)
            by (eapply mount_post_trans; [exact H1 |]; mp_go);
          clear H1; rename H2 into H1;
          change (B X = Ret (ok, mp')) in H; generalize dependent X;
          let y := fresh "mp" in (intros y H H1; cbv beta in H)
      | _ => change (B X = Ret (ok, mp')) in H; cbv beta in H
      end
  end.
  destruct (String.eqb _ "").
  - injection H as <- <-. eapply mount_post_trans; [exact H1 |].
    apply mount_post_fail. reflexivity.
  - repeat match type of H with
    | (let x := ?X in @?B x) = _ =>
        lazymatch type of X with
        | MountPoint.t =>
            let H2 := fresh "Hs" in
            assert (H2 : mount_post true mp true X)
              by (eapply mount_post_trans; [exact H1 |]; mp_go);
            clear H1; rename H2 into H1;
            change (B X = Ret (ok, mp')) in H; generalize dependent X;
            let y := fresh "mp" in (intros y H H1; cbv beta in H)
        | _ => change (B X = Ret (ok, mp')) in H; cbv beta in H
        end
    end.
    injection H as H.
    eapply mount_post_trans; [exact H1 |].
    match type of H with
    | MountPoint.SetupExternalDownloadMgr E M ?x = _ =>
        pose proof (SetupExternalDownloadMgr_post true x) as Hx; rewrite H in Hx
    end.
    exact Hx.
Qed.


Lemma CreateFetchers_post mp : mount_post false mp true (MountPoint.CreateFetchers mp).
Proof. unfold MountPoint.CreateFetchers. mp_go. Qed.

Lemma FetchHistory_post mp :
  mount_post false mp (fst (fst (MountPoint.FetchHistory E M mp)))
    (snd (MountPoint.FetchHistory E M mp)).
Proof. unfold MountPoint.FetchHistory. mp_go3. Qed.

Lemma DetermineRootHash_post mp :
  mount_post false mp (fst (fst (MountPoint.DetermineRootHash E M mp)))
    (snd (MountPoint.DetermineRootHash E M mp)).
Proof.
  unfold MountPoint.DetermineRootHash.
  destruct (MountPoint.GetValue mp "CVMFS_ROOT_HASH"); [apply mount_post_refl |].
  destruct (_ && _); [apply mount_post_refl |].
  pose proof (FetchHistory_post mp) as Hf.
  destruct (MountPoint.FetchHistory E M mp) as [[ok history_path] mp1].
  cbn [fst snd] in Hf.
  destruct ok; cbn [negb]; [| exact Hf].
  eapply mount_post_trans; [exact Hf |]. mp_go3.
Qed.

Lemma SetupInodeAnnotation_post mp :
  mount_post false mp true (MountPoint.SetupInodeAnnotation E mp).
Proof. unfold MountPoint.SetupInodeAnnotation. mp_go. Qed.

Lemma SetupOwnerMaps_post mp :
  mount_post false mp (fst (MountPoint.SetupOwnerMaps E M mp))
    (snd (MountPoint.SetupOwnerMaps E M mp)).
Proof. unfold MountPoint.SetupOwnerMaps. mp_go2. Qed.

Lemma CreateCatalogManager_post mp :
  mount_post false mp (fst (MountPoint.CreateCatalogManager E M mp))
    (snd (MountPoint.CreateCatalogManager E M mp)).
Proof.
  unfold MountPoint.CreateCatalogManager.
  match goal with
  | |- context [MountPoint.SetupOwnerMaps E M ?x] =>
      assert (H0 : mount_post false mp true x);
      [ eapply mount_post_trans; [| apply SetupInodeAnnotation_post]; mp_go
      | generalize dependent x; intros mp1 H1 ]
  end.
  pose proof (SetupOwnerMaps_post mp1) as H2.
  destruct (MountPoint.SetupOwnerMaps E M mp1) as [ok2 mp2]. cbn [fst snd] in H2.
  destruct ok2; cbn [negb fst snd];
    [| eapply mount_post_trans; eassumption].
  pose proof (DetermineRootHash_post mp2) as H3.
  destruct (MountPoint.DetermineRootHash E M mp2) as [[ok3 root_hash] mp3].
  cbn [fst snd] in H3.
  destruct ok3; cbn [negb fst snd];
    [| eapply mount_post_trans; [exact H1 |]; eapply mount_post_trans; eassumption].
  assert (H4 : mount_post false mp true mp3).
  { eapply mount_post_trans; [exact H1 |]. eapply mount_post_trans; eassumption. }
  clear H1 H2 H3. eapply mount_post_trans; [exact H4 |]. mp_go2.
Qed.

Lemma CreateTracer_post e mp :
  mount_post e mp (fst (MountPoint.CreateTracer mp)) (snd (MountPoint.CreateTracer mp)).
Proof. unfold MountPoint.CreateTracer. mp_go2. Qed.

Lemma ReEvaluateAuthz_post e mp : mount_post e mp true (MountPoint.ReEvaluateAuthz M mp).
Proof. unfold MountPoint.ReEvaluateAuthz. mp_go. Qed.

Lemma CreateTables_post e mp : mount_post e mp true (MountPoint.CreateTables E M mp).
Proof. unfold MountPoint.CreateTables. mp_go. Qed.

Lemma SetupBehavior_post e mp : mount_post e mp true (MountPoint.SetupBehavior E mp).
Proof. cbv delta [MountPoint.SetupBehavior]. cbv beta. mp_go. Qed.

Lemma MountPoint_stages_satisfy :
  stages_satisfy mount_step (MountPoint_stages E M).
Proof.
  unfold stages_satisfy, MountPoint_stages, mount_step.
  repeat apply Forall_cons_2; try apply Forall_nil_2; cbn [fst snd];
    intros s ok s' H.
  - destruct (MountPoint.CreateStatistics s) eqn:Hs; cbn in H; try discriminate.
    injection H as <- <-. eapply MountPoint_CreateStatistics_post. exact Hs.
  - destruct (MountPoint.CreateAuthz M s) eqn:Hs; cbn in H; try discriminate.
    injection H as <- <-. eapply CreateAuthz_post. exact Hs.
  - injection H as <- <-. mp_go.
  - injection H as H. pose proof (CreateSignatureManager_post false s) as Hp.
    rewrite H in Hp. exact Hp.
  - injection H as H. pose proof (CheckBlacklists_post false s) as Hp.
    rewrite H in Hp. exact Hp.
  - apply mount_post_weaken. apply CreateDownloadManagers_post. exact H.
  - injection H as <- <-. apply CreateFetchers_post.
  - injection H as H. pose proof (CreateCatalogManager_post s) as Hp.
    rewrite H in Hp. exact Hp.
  - injection H as H. pose proof (CreateTracer_post false s) as Hp.
    rewrite H in Hp. exact Hp.
  - injection H as <- <-. apply ReEvaluateAuthz_post.
  - injection H as <- <-. apply CreateTables_post.
  - injection H as <- <-. apply SetupBehavior_post.
Qed.

(** The stages in front of the fetchers satisfy the stronger condition. *)
Lemma MountPoint_front_stages_satisfy :
  stages_satisfy (fun _ => mount_post true) (take 6 (MountPoint_stages E M)).
Proof.
  unfold stages_satisfy, MountPoint_stages. cbn [take].
  repeat apply Forall_cons_2; try apply Forall_nil_2; cbn [fst snd];
    intros s ok s' H.
  - destruct (MountPoint.CreateStatistics s) eqn:Hs; cbn in H; try discriminate.
    injection H as <- <-. eapply MountPoint_CreateStatistics_post. exact Hs.
  - destruct (MountPoint.CreateAuthz M s) eqn:Hs; cbn in H; try discriminate.
    injection H as <- <-. eapply CreateAuthz_post. exact Hs.
  - injection H as <- <-. mp_go.
  - injection H as H. pose proof (CreateSignatureManager_post true s) as Hp.
    rewrite H in Hp. exact Hp.
  - injection H as H. pose proof (CheckBlacklists_post true s) as Hp.
    rewrite H in Hp. exact Hp.
  - apply CreateDownloadManagers_post. exact H.
Qed.

Lemma MountPoint_Create_pipeline fqrn file_system options_mgr :
  MountPoint.Create E M fqrn file_system options_mgr =
  (mp0 ← MountPoint.new M fqrn file_system
           (match options_mgr with
            | None => FileSystem_options_mgr file_system
            | Some o => o
            end);
   '(_, failed, mp) ← run_stages (MountPoint_stages E M) mp0;
   Ret (match failed with
        | None => MountPoint.set_boot_status_ kFailOk mp
        | Some _ => mp
        end)).
Proof.
  unfold MountPoint.Create, MountPoint_stages.
  destruct (MountPoint.new M fqrn file_system _) as [mp0 | |];
    cbn [mbind outcome_bind]; try reflexivity.
  cbn [run_stages mbind outcome_bind negb].
  destruct (MountPoint.CreateStatistics _) as [mp1 | |];
    cbn [mbind outcome_bind negb]; try reflexivity.
  destruct (MountPoint.CreateAuthz M mp1) as [mp1' | |];
    cbn [mbind outcome_bind negb]; try reflexivity.
  destruct (MountPoint.CreateSignatureManager M _) as [[] mp2];
    cbn [mbind outcome_bind negb]; try reflexivity.
  destruct (MountPoint.CheckBlacklists E M mp2) as [[] mp3];
    cbn [mbind outcome_bind negb]; try reflexivity.
  destruct (MountPoint.CreateDownloadManagers E M mp3) as [[[] mp4] | |];
    cbn [mbind outcome_bind negb]; try reflexivity.
  destruct (MountPoint.CreateCatalogManager E M _) as [[] mp5];
    cbn [mbind outcome_bind negb]; try reflexivity.
  destruct (MountPoint.CreateTracer mp5) as [[] mp6];
    cbn [mbind outcome_bind negb]; reflexivity.
Qed.

End MountStages.

(** ** The construction sequences never run out of fuel

    Apart from [SetupCacheMgr], whose fuel is shown above to suffice,
    nothing in the model recurses: every call returns, or stops at an
    assertion of the source. *)

(** Walks through an expression of type [outcome]; a call of another
    function of that type is settled by a fact in the context. *)
Ltac fuel_go :=
  lazymatch goal with
  | |- Ret _ <> OutOfFuel => discriminate
  | |- Abort <> OutOfFuel => discriminate
  | |- (let x := ?X in @?B x) <> OutOfFuel =>
      change (B X <> OutOfFuel); generalize X; intro; cbv beta; fuel_go
  | |- (match ?c with _ => _ end) <> OutOfFuel =>
      lazymatch type of c with
      | outcome _ =>
          let H := fresh "H" in
          assert (H : c <> OutOfFuel)
            by first [ match goal with H' : _ |- _ => apply H' end | fuel_go ];
          destruct c; [fuel_go | fuel_go | contradiction]
      | _ => destruct c; fuel_go
      end
  | |- _ => progress cbv beta iota delta [mbind outcome_bind]; fuel_go
  end.

Section NoOutOfFuel.

Variable E : Env.
Variable M : MountPoint.Collaborators.

Lemma CreateFile_fuel path mode ignore_failure :
  CreateFile E path mode ignore_failure <> OutOfFuel.
Proof. unfold CreateFile. fuel_go. Qed.

Lemma FileSystem_new_fuel g fs_info : FileSystem_new g fs_info <> OutOfFuel.
Proof. unfold FileSystem_new. fuel_go. Qed.

Lemma SetupSqlite_fuel fs : SetupSqlite E fs <> OutOfFuel.
Proof. cbv delta [SetupSqlite]. cbv beta. fuel_go. Qed.

Lemma LockWorkspace_fuel fs : LockWorkspace E fs <> OutOfFuel.
Proof. cbv delta [LockWorkspace]. cbv beta. fuel_go. Qed.

Lemma SetupWorkspace_fuel fs : SetupWorkspace E fs <> OutOfFuel.
Proof.
  pose proof LockWorkspace_fuel.
  cbv delta [SetupWorkspace]. cbv beta. fuel_go.
Qed.

Lemma SetupUuid_fuel fs : SetupUuid E fs <> OutOfFuel.
Proof. cbv delta [SetupUuid]. cbv beta. fuel_go. Qed.

Lemma SetupNfsMaps_fuel fs : SetupNfsMaps E fs <> OutOfFuel.
Proof.
  pose proof CreateFile_fuel.
  cbv delta [SetupNfsMaps]. cbv beta. fuel_go.
Qed.

Lemma FileSystem_Create_fuel g fs_info : FileSystem_Create E g fs_info <> OutOfFuel.
Proof.
  pose proof FileSystem_new_fuel. pose proof SetupSqlite_fuel.
  pose proof SetupWorkspace_fuel. pose proof (TriageCacheMgr_fuel E).
  pose proof SetupUuid_fuel. pose proof SetupNfsMaps_fuel.
  cbv delta [FileSystem_Create]. cbv beta. fuel_go.
Qed.

Lemma MountPoint_CreateStatistics_fuel mp : MountPoint.CreateStatistics mp <> OutOfFuel.
Proof. cbv delta [MountPoint.CreateStatistics]. cbv beta. fuel_go. Qed.

Lemma CreateDownloadManagers_fuel mp :
  MountPoint.CreateDownloadManagers E M mp <> OutOfFuel.
Proof. cbv delta [MountPoint.CreateDownloadManagers]. cbv beta. fuel_go. Qed.

Lemma MountPoint_new_fuel fqrn file_system options_mgr :
  MountPoint.new M fqrn file_system options_mgr <> OutOfFuel.
Proof. cbv delta [MountPoint.new]. cbv beta. fuel_go. Qed.

Lemma CreateAuthz_fuel mp : MountPoint.CreateAuthz M mp <> OutOfFuel.
Proof. cbv delta [MountPoint.CreateAuthz]. cbv beta. fuel_go. Qed.

Lemma MountPoint_Create_fuel fqrn file_system options_mgr :
  MountPoint.Create E M fqrn file_system options_mgr <> OutOfFuel.
Proof.
  pose proof MountPoint_new_fuel. pose proof CreateAuthz_fuel.
  pose proof MountPoint_CreateStatistics_fuel. pose proof CreateDownloadManagers_fuel.
  cbv delta [MountPoint.Create]. cbv beta. fuel_go.
Qed.

End NoOutOfFuel.

(** A call either returns or stops at an assertion. *)
Lemma returns_or_aborts {A : Type} (m : outcome A) :
  m <> OutOfFuel -> (exists a, m = Ret a) \/ m = Abort.
Proof. destruct m; [eauto | auto | contradiction]. Qed.

Lemma mount_walked_post e mp failed mp' :
  walked (fun _ => mount_post e) mp failed mp' ->
  mount_post e mp (match failed with None => true | Some _ => false end) mp'.
Proof.
  induction 1 as [s | n s s' Hs | n s s1 failed s' Hs _ IH].
  - apply mount_post_refl.
  - exact Hs.
  - eapply mount_post_trans; eassumption.
Qed.

Lemma MountPoint_new_fresh M fqrn file_system options_mgr mp0 :
  MountPoint.new M fqrn file_system options_mgr = Ret mp0 ->
  MountPoint.boot_status_ mp0 = kFailUnknown /\
  MountPoint.trace_ mp0 = [] /\
  MountPoint.fetcher_ mp0 = false /\
  MountPoint.external_fetcher_ mp0 = false /\
  MountPoint.catalog_mgr_ mp0 = false /\
  MountPoint.file_system_ mp0 = file_system /\
  MountPoint.options_mgr_ mp0 = options_mgr.
Proof.
  unfold MountPoint.new. destruct (negb _); [discriminate |].
  intros [= <-]. cbn. auto 10.
Qed.

Lemma MountPoint_boot_status_set_ok mp :
  MountPoint.boot_status_ (MountPoint.set_boot_status_ kFailOk mp) = kFailOk.
Proof. destruct mp. reflexivity. Qed.

(** The mount point half of C1. *)
Lemma MountPoint_Create_outcome (E : Env) (M : MountPoint.Collaborators)
  fqrn file_system options_mgr mp :
  MountPoint.Create E M fqrn file_system options_mgr = Ret mp ->
  exists mp0,
    MountPoint.new M fqrn file_system
      (match options_mgr with
       | None => FileSystem_options_mgr file_system
       | Some o => o
       end) = Ret mp0 /\
    (MountPoint.boot_status_ mp = kFailOk <->
     exists mp_end, completed (MountPoint_stages E M) mp0 mp_end) /\
    ((exists mp_end,
        completed (MountPoint_stages E M) mp0 mp_end /\
        mp = MountPoint.set_boot_status_ kFailOk mp_end) \/
     (exists n before,
        halted_at (MountPoint_stages E M) mp0 n before mp /\
        MountPoint.boot_status_ mp <> kFailOk /\
        (exists evs0 evs1,
           MountPoint.trace_ before = (MountPoint.trace_ mp0 ++ evs0)%list /\
           MountPoint.trace_ mp = (MountPoint.trace_ before ++ evs1)%list) /\
        is_failure_code (MountPoint.boot_status_ mp) = true)).
Proof.
  intros H. rewrite MountPoint_Create_pipeline in H.
  destruct (MountPoint.new M fqrn file_system _) as [mp0 | |] eqn:Hnew;
    cbn [mbind outcome_bind] in H; try discriminate.
  exists mp0. split; [reflexivity |].
  destruct (run_stages (MountPoint_stages E M) mp0) as [[[done failed] mp1] | |] eqn:Hrun;
    cbn [mbind outcome_bind] in H; try discriminate.
  injection H as <-.
  pose proof (run_stages_outcome _ _ _ _ _ Hrun) as Hout.
  destruct failed as [n |].
  - destruct Hout as (before & Hhalt).
    destruct (halted_at_walked mount_step _ _ _ _ _ (MountPoint_stages_satisfy E M) Hhalt)
      as [Hwalk Hstep].
    apply (mount_walked_post false) in Hwalk as (_ & (evs0 & Hevs0 & _) & _).
    destruct Hstep as (_ & (evs1 & Hevs1 & _) & _ & Hcode).
    assert (Hne : MountPoint.boot_status_ mp1 <> kFailOk)
      by (destruct (MountPoint.boot_status_ mp1); discriminate).
    split.
    + split; [contradiction |]. intros (mp_end & Hcompl).
      unfold completed in Hcompl. rewrite Hrun in Hcompl. discriminate.
    + right. exists n, before. eauto 10.
  - split.
    + split; [eauto |]. intros _. apply MountPoint_boot_status_set_ok.
    + left. eauto.
Qed.

(** C1.  FileSystem::Create and MountPoint::Create each either return the
    context object or stop at an assertion of the source.  Whenever one
    of them returns, the constructor has returned, and the boot status of
    the returned object is the ok code if and only if the whole stage
    sequence ran through; otherwise the sequence halted at its first
    failing stage, the returned object is exactly what that stage left
    behind (nothing of a later stage), the trace of the earlier stages is
    kept in front, and the code is one of the failure codes -- with one
    exception: when TriageCacheMgr refuses the primary instance name for
    its length, the object is returned with the status and the empty
    message the constructor wrote. *)
Theorem boot_sequence_outcome (E : Env) (M : MountPoint.Collaborators) :
  (forall g fs_info fs,
     FileSystem_Create E g fs_info = Ret fs ->
     exists fs0,
       FileSystem_new g fs_info = Ret fs0 /\
       (boot_status_ fs = kFailOk <->
        exists fs_end, completed (FileSystem_stages E) fs0 fs_end) /\
       ((exists fs_end,
           completed (FileSystem_stages E) fs0 fs_end /\
           fs = set_boot_status_ kFailOk fs_end) \/
        (exists n before,
           halted_at (FileSystem_stages E) fs0 n before fs /\
           boot_status_ fs <> kFailOk /\
           (exists evs0 evs1,
              trace_ before = (trace_ fs0 ++ evs0)%list /\
              trace_ fs = (trace_ before ++ evs1)%list) /\
           (is_failure_code (boot_status_ fs) = true \/
            (n = "TriageCacheMgr" /\ primary_name_too_long before /\
             boot_status_ fs = kFailUnknown /\ boot_error_ fs = ""))))) /\
  (forall fqrn file_system options_mgr mp,
     MountPoint.Create E M fqrn file_system options_mgr = Ret mp ->
     exists mp0,
       MountPoint.new M fqrn file_system
         (match options_mgr with
          | None => FileSystem_options_mgr file_system
          | Some o => o
          end) = Ret mp0 /\
       (MountPoint.boot_status_ mp = kFailOk <->
        exists mp_end, completed (MountPoint_stages E M) mp0 mp_end) /\
       ((exists mp_end,
           completed (MountPoint_stages E M) mp0 mp_end /\
           mp = MountPoint.set_boot_status_ kFailOk mp_end) \/
        (exists n before,
           halted_at (MountPoint_stages E M) mp0 n before mp /\
           MountPoint.boot_status_ mp <> kFailOk /\
           (exists evs0 evs1,
              MountPoint.trace_ before = (MountPoint.trace_ mp0 ++ evs0)%list /\
              MountPoint.trace_ mp = (MountPoint.trace_ before ++ evs1)%list) /\
           is_failure_code (MountPoint.boot_status_ mp) = true))) /\
  (forall g fs_info,
     (exists fs, FileSystem_Create E g fs_info = Ret fs) \/
     FileSystem_Create E g fs_info = Abort) /\
  (forall fqrn file_system options_mgr,
     (exists mp, MountPoint.Create E M fqrn file_system options_mgr = Ret mp) \/
     MountPoint.Create E M fqrn file_system options_mgr = Abort).
Proof.
  split; [| split; [| split]].
  - intros g fs_info fs. apply FileSystem_Create_outcome.
  - intros fqrn file_system options_mgr mp. apply MountPoint_Create_outcome.
  - intros g fs_info. apply returns_or_aborts, FileSystem_Create_fuel.
  - intros fqrn file_system options_mgr.
    apply returns_or_aborts, MountPoint_Create_fuel.
Qed.

Lemma boot_sequence_outcome_witness :
  exists fs,
    FileSystem_Create Examples.env false (Examples.fs_info kFsFuse ∅ false) = Ret fs /\
    boot_status_ fs = kFailOk /\
    exists fs0 fs_end,
      FileSystem_new false (Examples.fs_info kFsFuse ∅ false) = Ret fs0 /\
      completed (FileSystem_stages Examples.env) fs0 fs_end.
Proof.
  assert (H : exists fs,
            FileSystem_Create Examples.env false (Examples.fs_info kFsFuse ∅ false)
              = Ret fs /\ boot_status_ fs = kFailOk)
    by (eexists; split; vm_compute; reflexivity).
  destruct H as (fs & H & Hs). exists fs. split; [exact H |]. split; [exact Hs |].
  destruct (proj1 (boot_sequence_outcome Examples.env (Examples.collaborators "DIRECT"))
              _ _ _ H) as (fs0 & Hnew & Hiff & _).
  destruct (proj1 Hiff Hs) as (fs_end & Hcompl).
  exists fs0, fs_end. split; assumption.
Defined.

(** C1 does not hold of the code.  The assertion of SetupPosixQuotaMgr
    that the cache directory is the workspace fails on a configuration a
    user can write: with a workspace configured apart from a managed,
    exclusive cache the process stops and no object is returned. *)
Lemma workspace_assertion_aborts :
  let fs_info := Examples.fs_info kFsFuse {[ "CVMFS_WORKSPACE" := "/scratch/ws" ]} false in
  FileSystem_Create Examples.env false fs_info = Abort /\
  ~ exists fs, FileSystem_Create Examples.env false fs_info = Ret fs.
Proof.
  intros fs_info.
  assert (H : FileSystem_Create Examples.env false fs_info = Abort)
    by (vm_compute; reflexivity).
  split; [exact H |]. intros (fs & Hfs). rewrite H in Hfs. discriminate.
Qed.

Lemma quota_attachment_witness :
  let E := Examples.env_with 2000 1000 false 3 3 in
  let fs_info := Examples.fs_info kFsFuse {[ "CVMFS_QUOTA_LIMIT" := "4" ]} false in
  exists fs0 before settings fs final,
    FileSystem_new false fs_info = Ret fs0 /\
    completed (take 6 (FileSystem_stages E)) fs0 before /\
    primary_quota_call E before = Some (settings, fs) /\
    0 <= quota_limit settings /\
    (is_shared settings = false -> workspace_ fs = cache_path settings) /\
    created_quota_mgr E settings fs = Some (Examples.quota_mgr 2000 1000 false) /\
    FileSystem_Create E false fs_info = Ret final /\
    boot_status_ final = kFailQuota /\
    cache_mgr_ final = None.
Proof.
  intros E fs_info.
  assert (Hnew : exists fs0, FileSystem_new false fs_info = Ret fs0)
    by (eexists; reflexivity).
  destruct Hnew as (fs0 & Hnew).
  assert (Hfront : exists before, completed (take 6 (FileSystem_stages E)) fs0 before).
  { injection Hnew as <-. eexists. unfold completed. vm_compute. reflexivity. }
  destruct Hfront as (before & Hfront).
  assert (Hcall : exists settings fs,
            primary_quota_call E before = Some (settings, fs) /\
            0 <= quota_limit settings /\
            (is_shared settings = false -> workspace_ fs = cache_path settings) /\
            created_quota_mgr E settings fs = Some (Examples.quota_mgr 2000 1000 false)).
  { injection Hnew as <-. unfold completed in Hfront. vm_compute in Hfront.
    injection Hfront as <-. eexists _, _.
    split; [vm_compute; reflexivity |].
    split; [vm_compute; discriminate |].
    split; [intros _; vm_compute; reflexivity | vm_compute; reflexivity]. }
  destruct Hcall as (settings & fs & Hcall & Hl & Hw & Hc).
  destruct (quota_attachment E settings fs _ Hl Hw Hc) as (_ & _ & _ & Hboot).
  destruct (Hboot false fs_info fs0 before Hnew Hfront Hcall)
    as (final & evs & Hcreate & _ & Hstatus & Hmgr & _);
    [simpl; lia | reflexivity |].
  exists fs0, before, settings, fs, final. auto 10.
Defined.

(** A whole bootstrap over a cache that is beyond its quota and cannot be
    cleaned up: cleanup is called once with half the limit, and the file
    system is returned with the Quota code. *)
Example over_quota_bootstrap :
  exists fs,
    FileSystem_Create (Examples.env_with 2000 1000 false 3 3) false
      (Examples.fs_info kFsFuse {[ "CVMFS_QUOTA_LIMIT" := "4" ]} false) = Ret fs /\
    boot_status_ fs = kFailQuota /\
    List.filter is_cleanup (trace_ fs) = [IoQuotaCleanup (4 * 1024 * 1024 / 2)] /\
    cache_mgr_ fs = None.
Proof. eexists. vm_compute. repeat split; reflexivity. Qed.

(** ** Proxy discovery *)

Section ProxyDiscovery.

Variable E : Env.
Variable M : MountPoint.Collaborators.

(** The object variable an expression is built from. *)
Ltac state_var X :=
  match X with
  | context [?v] =>
      lazymatch type of v with
      | MountPoint.t => let _ := match goal with _ => is_var v end in v
      end
  end.

(** Steps over a let-bound object in the goal, keeping the facts that the
    file system and the options are those of [mp]. *)
Ltac keep_step mp P :=
  lazymatch goal with
  | |- P (let x := ?X in @?B x) =>
      lazymatch type of X with
      | MountPoint.t =>
          let Hn := fresh "Hn" in
          let cur := state_var X in
          assert (Hn : mount_post true cur true X)
            by (first [ apply SetupDnsTuning_post | apply SetupHttpTuning_post | mp_go ]);
          destruct Hn as ((Hnf & Hno) & _);
          let Hf := fresh "Hf" in
          let Ho := fresh "Ho" in
          assert (Hf : MountPoint.file_system_ X = MountPoint.file_system_ mp)
            by congruence;
          assert (Ho : MountPoint.options_mgr_ X = MountPoint.options_mgr_ mp)
            by congruence;
          clear Hnf Hno;
          change (P (B X));
          let y := fresh "mp" in
          (generalize dependent X; intros y Hf Ho; cbv beta)
      | _ => change (P (B X)); cbv beta
      end
  end.

Lemma SetupExternalDownloadMgr_wpad mp optarg :
  MountPoint.options_mgr_ mp !! "CVMFS_EXTERNAL_HTTP_PROXY" = Some optarg ->
  MountPoint.ResolveProxyDescription M true optarg = "" ->
  wpad_result "failed to discover external HTTP proxy servers"
    (MountPoint.SetupExternalDownloadMgr E M mp).
Proof.
  intros Hext Hresolve.
  cbv delta [MountPoint.SetupExternalDownloadMgr]. cbv beta.
  keep_step mp (wpad_result "failed to discover external HTTP proxy servers").
  destruct (MountPoint.GetTimeout M) as [timeout timeout_direct].
  repeat keep_step mp (wpad_result "failed to discover external HTTP proxy servers").
  unfold MountPoint.GetValue.
  match goal with
  | Ho : MountPoint.options_mgr_ ?y = MountPoint.options_mgr_ mp
    |- context [MountPoint.options_mgr_ ?y !! "CVMFS_EXTERNAL_HTTP_PROXY"] =>
      rewrite Ho
  end.
  rewrite Hext. cbv beta iota zeta. rewrite Hresolve. cbn [String.eqb].
  eexists. split; [reflexivity |].
  match goal with |- context [MountPoint.fail _ _ ?s] => destruct s end.
  split; reflexivity.
Qed.

Lemma CreateDownloadManagers_wpad mp uuid msg :
  uuid_cache_ (MountPoint.file_system_ mp) = Some uuid ->
  proxy_discovery_fails M (MountPoint.options_mgr_ mp) = Some msg ->
  wpad_failure msg (MountPoint.CreateDownloadManagers E M mp).
Proof.
  intros Huuid Hfails.
  cbv delta [MountPoint.CreateDownloadManagers]. cbv beta.
  repeat keep_step mp (wpad_failure msg).
  match goal with
  | Hf : MountPoint.file_system_ ?y = MountPoint.file_system_ mp |- _ =>
      rewrite Hf, Huuid
  end.
  repeat keep_step mp (wpad_failure msg).
  unfold MountPoint.GetValue at 1.
  match goal with
  | Ho : MountPoint.options_mgr_ ?y = MountPoint.options_mgr_ mp
    |- context [MountPoint.options_mgr_ ?y !! "CVMFS_HTTP_PROXY"] => rewrite Ho
  end.
  fold (http_proxy_option (MountPoint.options_mgr_ mp)).
  unfold proxy_discovery_fails in Hfails.
  destruct (String.eqb
              (MountPoint.ResolveProxyDescription M false
                 (http_proxy_option (MountPoint.options_mgr_ mp))) "").
  - injection Hfails as <-.
    eexists. split; [reflexivity |].
    match goal with |- context [MountPoint.fail _ _ ?s] => destruct s end.
    split; reflexivity.
  - destruct (MountPoint.options_mgr_ mp !! "CVMFS_EXTERNAL_HTTP_PROXY")
      as [optarg |] eqn:Hext; [| discriminate].
    destruct (String.eqb (MountPoint.ResolveProxyDescription M true optarg) "")
      eqn:Hresolve; [| discriminate].
    injection Hfails as <-. apply String.eqb_eq in Hresolve.
    repeat keep_step mp
      (wpad_failure "failed to discover external HTTP proxy servers").
    match goal with
    | Ho : MountPoint.options_mgr_ ?z = MountPoint.options_mgr_ mp
      |- wpad_failure _ (Ret (MountPoint.SetupExternalDownloadMgr E M ?y)) =>
        let Hn := fresh "Hn" in
        assert (Hn : mount_post true z true y) by mp_go;
        destruct Hn as ((_ & Hn) & _); rewrite Ho in Hn; rewrite <- Hn in Hext;
        destruct (SetupExternalDownloadMgr_wpad y optarg Hext Hresolve)
          as (mp' & -> & Hst & Herr)
    end.
    exists mp'. auto.
Qed.

End ProxyDiscovery.

(** C8: when the constructor and the stages in front of the download
    managers have succeeded and the resolution of the proxy chain returns the empty string, for the
    primary download manager or for the external one,
    MountPoint::Create returns, halted at CreateDownloadManagers, with the
    proxy discovery (Wpad) code and the message of that download manager;
    the fetchers and the catalog manager are not constructed and no event
    of the fetch or catalog stage occurs. *)
Theorem proxy_discovery_failure (E : Env) (M : MountPoint.Collaborators)
  (fqrn : string) (file_system : FileSystem)
  (options_mgr : option (gmap string string))
  (uuid msg : string) (done : list string) (mp0 before : MountPoint.t) :
  let options :=
    match options_mgr with
    | None => FileSystem_options_mgr file_system
    | Some o => o
    end in
  MountPoint.new M fqrn file_system options = Ret mp0 ->
  run_stages (take 5 (MountPoint_stages E M)) mp0 = Ret (done, None, before) ->
  uuid_cache_ file_system = Some uuid ->
  proxy_discovery_fails M options = Some msg ->
  exists mp,
    MountPoint.Create E M fqrn file_system options_mgr = Ret mp /\
    halted_at (MountPoint_stages E M) mp0 "CreateDownloadManagers" before mp /\
    MountPoint.boot_status_ mp = kFailWpad /\
    MountPoint.boot_error_ mp = msg /\
    MountPoint.fetcher_ mp = false /\
    MountPoint.external_fetcher_ mp = false /\
    MountPoint.catalog_mgr_ mp = false /\
    existsb MountPoint.is_fetch_or_catalog (MountPoint.trace_ mp) = false.
Proof.
  intros options Hnew Hfront Huuid Hresolve.
  assert (Hsat : stages_satisfy (fun _ => mount_post true)
                   (take 5 (MountPoint_stages E M))).
  { exact (Forall_take _ 5%nat _ (MountPoint_front_stages_satisfy E M)). }
  pose proof (run_stages_walked _ _ Hsat _ _ _ _ Hfront) as Hwalk.
  apply mount_walked_post in Hwalk as ((Hfs & Hopt) & (evs0 & Hevs0 & Hq0) & Hk0 & _).
  destruct (Hk0 eq_refl) as (Hf0 & Hx0 & Hc0).
  destruct (MountPoint_new_fresh _ _ _ _ _ Hnew)
    as (_ & Htr0 & Hfe0 & Hxf0 & Hcm0 & Hfs0 & Hop0).
  rewrite Hfs0 in Hfs. rewrite Hop0 in Hopt. rewrite Hfe0 in Hf0.
  rewrite Hxf0 in Hx0. rewrite Hcm0 in Hc0.
  destruct (CreateDownloadManagers_wpad E M before uuid msg) as (mp & Hrun & Hst & Herr).
  { rewrite Hfs. exact Huuid. }
  { rewrite Hopt. exact Hresolve. }
  pose proof (CreateDownloadManagers_post E M _ _ _ Hrun)
    as (_ & (evs1 & Hevs1 & Hq1) & Hk1 & _).
  destruct (Hk1 eq_refl) as (Hf1 & Hx1 & Hc1).
  assert (Hdone : done = map fst (take 5 (MountPoint_stages E M))).
  { pose proof (run_stages_outcome _ _ _ _ _ Hfront) as Hc. unfold completed in Hc.
    rewrite Hfront in Hc. injection Hc as ->. reflexivity. }
  assert (Hsplit : MountPoint_stages E M =
            (take 5 (MountPoint_stages E M) ++
             ("CreateDownloadManagers", MountPoint.CreateDownloadManagers E M)
             :: drop 6 (MountPoint_stages E M))%list) by reflexivity.
  exists mp. split.
  { rewrite MountPoint_Create_pipeline. fold options. rewrite Hnew.
    cbn [mbind outcome_bind].
    rewrite Hsplit, (run_stages_halt _ _ _ _ _ _ _ _ Hfront Hrun). reflexivity. }
  split.
  { eexists _, _, _. split; [exact Hsplit |]. split; [| exact Hrun].
    rewrite <- Hdone. exact Hfront. }
  split; [exact Hst |]. split; [exact Herr |].
  split; [rewrite Hf1, Hf0; reflexivity |].
  split; [rewrite Hx1, Hx0; reflexivity |].
  split; [rewrite Hc1, Hc0; reflexivity |].
  rewrite Hevs1, Hevs0, Htr0. cbn [app].
  rewrite existsb_app, (Hq0 eq_refl), (Hq1 eq_refl). reflexivity.
Qed.

Lemma proxy_discovery_failure_witness :
  let E := Examples.env in
  let M := Examples.collaborators "" in
  exists mp0 done before,
    MountPoint.new M "repo.example.org" Examples.booted_file_system
      (FileSystem_options_mgr Examples.booted_file_system) = Ret mp0 /\
    run_stages (take 5 (MountPoint_stages E M)) mp0 = Ret (done, None, before) /\
    uuid_cache_ Examples.booted_file_system = Some "./uuid" /\
    proxy_discovery_fails M (FileSystem_options_mgr Examples.booted_file_system)
    = Some "failed to discover HTTP proxy servers" /\
    exists mp,
      MountPoint.Create E M "repo.example.org" Examples.booted_file_system None = Ret mp /\
      MountPoint.boot_status_ mp = kFailWpad /\
      MountPoint.fetcher_ mp = false /\
      MountPoint.catalog_mgr_ mp = false.
Proof.
  intros E M.
  assert (Hnew : exists mp0,
            MountPoint.new M "repo.example.org" Examples.booted_file_system
              (FileSystem_options_mgr Examples.booted_file_system) = Ret mp0)
    by (eexists; vm_compute; reflexivity).
  destruct Hnew as (mp0 & Hnew).
  assert (Hrun : exists done before,
            run_stages (take 5 (MountPoint_stages E M)) mp0 = Ret (done, None, before)).
  { assert (Hboth : exists done before,
              (mp ← MountPoint.new M "repo.example.org" Examples.booted_file_system
                      (FileSystem_options_mgr Examples.booted_file_system);
               run_stages (take 5 (MountPoint_stages E M)) mp)
              = Ret (done, None, before))
      by (eexists _, _; vm_compute; reflexivity).
    destruct Hboth as (done & before & Hboth). rewrite Hnew in Hboth.
    exists done, before. exact Hboth. }
  destruct Hrun as (done & before & Hrun). exists mp0, done, before.
  assert (Hu : uuid_cache_ Examples.booted_file_system = Some "./uuid")
    by (vm_compute; reflexivity).
  assert (Hr : proxy_discovery_fails M
                 (FileSystem_options_mgr Examples.booted_file_system)
               = Some "failed to discover HTTP proxy servers")
    by (vm_compute; reflexivity).
  split; [exact Hnew | split; [exact Hrun | split; [exact Hu | split; [exact Hr |]]]].
  destruct (proxy_discovery_failure E M "repo.example.org" Examples.booted_file_system
              None "./uuid" _ done mp0 before Hnew Hrun Hu Hr)
    as (mp & Hc & _ & Hs & _ & Hf & _ & Hcat & _).
  exists mp. auto.
Defined.

(** * Root hash resolution and the fixed catalog flag *)

Lemma GetByName_found tag_db tag_name tag :
  MountPoint.GetByName tag_db tag_name = Some tag ->
  MountPoint.name tag = tag_name /\ tag ∈ tag_db.
Proof.
  induction tag_db as [| t rest IH]; cbn; [discriminate |].
  destruct (String.eqb (MountPoint.name t) tag_name) eqn:Heq.
  - intros [= <-]. split; [by apply String.eqb_eq | left].
  - intros H. destruct (IH H). split; [done | by right].
Qed.

Lemma GetByDate_between (v1 v2 : MountPoint.Tag) (d : Z) :
  MountPoint.timestamp v1 < MountPoint.timestamp v2 ->
  MountPoint.timestamp v1 <= d < MountPoint.timestamp v2 ->
  MountPoint.GetByDate [v1; v2] d = Some v1 /\
  MountPoint.GetByDate [v2; v1] d = Some v1.
Proof.
  intros Hlt Hd. cbn.
  destruct (Z.leb_spec (MountPoint.timestamp v2) d); [lia |].
  destruct (Z.leb_spec (MountPoint.timestamp v1) d); [| lia].
  split; reflexivity.
Qed.

Lemma IsDefined_None mp key :
  MountPoint.GetValue mp key = None -> MountPoint.IsDefined mp key = false.
Proof.
  unfold MountPoint.GetValue, MountPoint.IsDefined. intros ->.
  apply bool_decide_eq_false. intros [x Hx]. discriminate.
Qed.

Lemma IsDefined_Some mp key v :
  MountPoint.GetValue mp key = Some v -> MountPoint.IsDefined mp key = true.
Proof.
  unfold MountPoint.GetValue, MountPoint.IsDefined. intros ->.
  apply bool_decide_eq_true. eauto.
Qed.

Lemma GetValue_same_options mp mp' key :
  MountPoint.options_mgr_ mp' = MountPoint.options_mgr_ mp ->
  MountPoint.GetValue mp' key = MountPoint.GetValue mp key.
Proof. unfold MountPoint.GetValue. intros ->. reflexivity. Qed.

Lemma options_mgr_ev e mp :
  MountPoint.options_mgr_ (MountPoint.ev e mp) = MountPoint.options_mgr_ mp.
Proof. destruct mp; reflexivity. Qed.

Lemma options_mgr_set_repository_tag_ v mp :
  MountPoint.options_mgr_ (MountPoint.set_repository_tag_ v mp) = MountPoint.options_mgr_ mp.
Proof. destruct mp; reflexivity. Qed.

Lemma options_mgr_set_fixed_catalog_ v mp :
  MountPoint.options_mgr_ (MountPoint.set_fixed_catalog_ v mp) = MountPoint.options_mgr_ mp.
Proof. destruct mp; reflexivity. Qed.

Lemma repository_tag_set v mp :
  MountPoint.repository_tag_ (MountPoint.set_repository_tag_ v mp) = v.
Proof. destruct mp; reflexivity. Qed.

Lemma repository_tag_ev e mp :
  MountPoint.repository_tag_ (MountPoint.ev e mp) = MountPoint.repository_tag_ mp.
Proof. destruct mp; reflexivity. Qed.

Lemma boot_fail code msg mp :
  MountPoint.boot_status_ (MountPoint.fail code msg mp) = code /\
  MountPoint.boot_error_ (MountPoint.fail code msg mp) = msg.
Proof. destruct mp; split; reflexivity. Qed.

Lemma boot_ev e mp :
  MountPoint.boot_status_ (MountPoint.ev e mp) = MountPoint.boot_status_ mp /\
  MountPoint.boot_error_ (MountPoint.ev e mp) = MountPoint.boot_error_ mp.
Proof. destruct mp; split; reflexivity. Qed.

Lemma fixed_catalog_ev e mp :
  MountPoint.fixed_catalog_ (MountPoint.ev e mp) = MountPoint.fixed_catalog_ mp.
Proof. destruct mp; reflexivity. Qed.

Lemma fixed_catalog_fail code msg mp :
  MountPoint.fixed_catalog_ (MountPoint.fail code msg mp) = MountPoint.fixed_catalog_ mp.
Proof. destruct mp; reflexivity. Qed.

Lemma fixed_catalog_set_repository_tag_ v mp :
  MountPoint.fixed_catalog_ (MountPoint.set_repository_tag_ v mp) =
  MountPoint.fixed_catalog_ mp.
Proof. destruct mp; reflexivity. Qed.

Lemma fixed_catalog_set_inode_annotation_ v mp :
  MountPoint.fixed_catalog_ (MountPoint.set_inode_annotation_ v mp) =
  MountPoint.fixed_catalog_ mp.
Proof. destruct mp; reflexivity. Qed.

Lemma fixed_catalog_set_catalog_mgr_ v mp :
  MountPoint.fixed_catalog_ (MountPoint.set_catalog_mgr_ v mp) =
  MountPoint.fixed_catalog_ mp.
Proof. destruct mp; reflexivity. Qed.

Lemma fixed_catalog_set v mp :
  MountPoint.fixed_catalog_ (MountPoint.set_fixed_catalog_ v mp) = v.
Proof. destruct mp; reflexivity. Qed.

Create Rewrite HintDb fixed_catalog.
#[local] Hint Rewrite fixed_catalog_ev fixed_catalog_fail
  fixed_catalog_set_repository_tag_ fixed_catalog_set_inode_annotation_
  fixed_catalog_set_catalog_mgr_ fixed_catalog_set : fixed_catalog.

(** Case analysis down to the leaves of an expression; every leaf leaves
    the fixed catalog flag as it is. *)
Ltac fixed_go :=
  repeat first
    [ progress autorewrite with fixed_catalog
    | progress cbn [fst snd]
    | match goal with
      | |- context [match ?c with _ => _ end] =>
          let d := innermost_scrutinee c in destruct d
      end ];
  try reflexivity.

Section RootHash.

Variable E : Env.
Variable M : MountPoint.Collaborators.

Lemma FetchHistory_fixed_catalog mp :
  MountPoint.fixed_catalog_ (snd (MountPoint.FetchHistory E M mp)) =
  MountPoint.fixed_catalog_ mp.
Proof. unfold MountPoint.FetchHistory. fixed_go. Qed.

Lemma DetermineRootHash_fixed_catalog mp :
  MountPoint.fixed_catalog_ (snd (MountPoint.DetermineRootHash E M mp)) =
  MountPoint.fixed_catalog_ mp.
Proof.
  unfold MountPoint.DetermineRootHash.
  pose proof (FetchHistory_fixed_catalog mp) as Hf.
  destruct (MountPoint.FetchHistory E M mp) as [[ok history_path] mp1].
  cbn [snd] in Hf. fixed_go; congruence.
Qed.

Lemma SetupInodeAnnotation_fixed_catalog mp :
  MountPoint.fixed_catalog_ (MountPoint.SetupInodeAnnotation E mp) =
  MountPoint.fixed_catalog_ mp.
Proof. unfold MountPoint.SetupInodeAnnotation. fixed_go. Qed.

Lemma SetupOwnerMaps_fixed_catalog mp :
  MountPoint.fixed_catalog_ (snd (MountPoint.SetupOwnerMaps E M mp)) =
  MountPoint.fixed_catalog_ mp.
Proof. unfold MountPoint.SetupOwnerMaps, MountPoint.OptionIsOn. fixed_go. Qed.

Lemma catalog_mgr_created_fixed_catalog mp :
  MountPoint.fixed_catalog_ (catalog_mgr_created E mp) = MountPoint.fixed_catalog_ mp.
Proof.
  unfold catalog_mgr_created. rewrite SetupInodeAnnotation_fixed_catalog.
  fixed_go.
Qed.

Lemma catalog_mgr_created_options mp :
  MountPoint.options_mgr_ (catalog_mgr_created E mp) = MountPoint.options_mgr_ mp.
Proof.
  unfold catalog_mgr_created.
  destruct (SetupInodeAnnotation_post E
              (MountPoint.set_catalog_mgr_ true
                 (MountPoint.ev MountPoint.EvCatalogMgrCreate mp))) as ((_ & Ho) & _).
  rewrite Ho. destruct mp; reflexivity.
Qed.

Lemma DetermineRootHash_explicit mp v :
  MountPoint.GetValue mp "CVMFS_ROOT_HASH" = Some v ->
  MountPoint.DetermineRootHash E M mp =
  (true, MountPoint.MkFromHexPtr M v MountPoint.kSuffixCatalog, mp).
Proof. intros H. unfold MountPoint.DetermineRootHash. rewrite H. reflexivity. Qed.

Lemma DetermineRootHash_head mp :
  MountPoint.GetValue mp "CVMFS_ROOT_HASH" = None ->
  MountPoint.GetValue mp "CVMFS_REPOSITORY_TAG" = None ->
  MountPoint.GetValue mp "CVMFS_REPOSITORY_DATE" = None ->
  MountPoint.DetermineRootHash E M mp = (true, MountPoint.NullHash, mp).
Proof.
  intros Hh Ht Hd. unfold MountPoint.DetermineRootHash.
  rewrite Hh, (IsDefined_None _ _ Ht), (IsDefined_None _ _ Hd). reflexivity.
Qed.

Lemma DetermineRootHash_by_name mp tag_name history_path mp1 tag_db :
  MountPoint.GetValue mp "CVMFS_ROOT_HASH" = None ->
  MountPoint.GetValue mp "CVMFS_REPOSITORY_TAG" = Some tag_name ->
  MountPoint.FetchHistory E M mp = (true, history_path, mp1) ->
  MountPoint.SqliteHistory_Open M history_path = Some tag_db ->
  let opened :=
    MountPoint.set_repository_tag_ tag_name
      (MountPoint.ev (MountPoint.EvHistoryOpen history_path) mp1) in
  MountPoint.DetermineRootHash E M mp =
  match MountPoint.GetByName tag_db tag_name with
  | Some tag =>
      (true, MountPoint.root_hash tag,
       MountPoint.ev (MountPoint.EvUnlink history_path) opened)
  | None =>
      (false, MountPoint.NullHash,
       MountPoint.ev (MountPoint.EvUnlink history_path)
         (MountPoint.fail kFailHistory ("no such tag: " +:+ tag_name) opened))
  end.
Proof.
  intros Hh Ht Hf Ho opened. subst opened.
  assert (Ht1 : MountPoint.GetValue
                  (MountPoint.ev (MountPoint.EvHistoryOpen history_path) mp1)
                  "CVMFS_REPOSITORY_TAG" = Some tag_name).
  { rewrite <- Ht. apply GetValue_same_options. rewrite options_mgr_ev.
    pose proof (FetchHistory_post E M mp) as Hp. rewrite Hf in Hp.
    destruct Hp as ((_ & Hp) & _). exact Hp. }
  unfold MountPoint.DetermineRootHash.
  rewrite Hh, (IsDefined_Some _ _ _ Ht). cbn [negb andb]. rewrite Hf.
  cbn [negb]. rewrite Ho, Ht1, repository_tag_set.
  destruct (MountPoint.GetByName tag_db tag_name); reflexivity.
Qed.

Lemma DetermineRootHash_by_date mp date history_path mp1 tag_db :
  MountPoint.GetValue mp "CVMFS_ROOT_HASH" = None ->
  MountPoint.GetValue mp "CVMFS_REPOSITORY_TAG" = None ->
  MountPoint.GetValue mp "CVMFS_REPOSITORY_DATE" = Some date ->
  MountPoint.FetchHistory E M mp = (true, history_path, mp1) ->
  MountPoint.SqliteHistory_Open M history_path = Some tag_db ->
  MountPoint.IsoTimestamp2UtcTime M date <> 0 ->
  let opened :=
    MountPoint.set_repository_tag_ ""
      (MountPoint.ev (MountPoint.EvHistoryOpen history_path) mp1) in
  MountPoint.DetermineRootHash E M mp =
  match MountPoint.GetByDate tag_db (MountPoint.IsoTimestamp2UtcTime M date) with
  | Some tag =>
      (true, MountPoint.root_hash tag,
       MountPoint.ev (MountPoint.EvUnlink history_path)
         (MountPoint.set_repository_tag_ (MountPoint.name tag) opened))
  | None =>
      (false, MountPoint.NullHash,
       MountPoint.ev (MountPoint.EvUnlink history_path)
         (MountPoint.fail kFailHistory
            ("no repository state as early as utc timestamp " +:+
             MountPoint.StringifyTime M (MountPoint.IsoTimestamp2UtcTime M date) true)
            opened))
  end.
Proof.
  intros Hh Ht Hd Hf Ho Hnz opened. subst opened.
  pose proof (FetchHistory_post E M mp) as Hp. rewrite Hf in Hp.
  destruct Hp as ((_ & Hp) & _). cbn [snd] in Hp.
  assert (Ht1 : MountPoint.GetValue
                  (MountPoint.ev (MountPoint.EvHistoryOpen history_path) mp1)
                  "CVMFS_REPOSITORY_TAG" = None).
  { rewrite <- Ht. apply GetValue_same_options. by rewrite options_mgr_ev. }
  assert (Hd1 : MountPoint.GetValue
                  (MountPoint.set_repository_tag_ ""
                     (MountPoint.ev (MountPoint.EvHistoryOpen history_path) mp1))
                  "CVMFS_REPOSITORY_DATE" = Some date).
  { rewrite <- Hd. apply GetValue_same_options.
    by rewrite options_mgr_set_repository_tag_, options_mgr_ev. }
  unfold MountPoint.DetermineRootHash.
  rewrite Hh, (IsDefined_None _ _ Ht), (IsDefined_Some _ _ _ Hd).
  cbn [negb andb]. rewrite Hf. cbn [negb]. rewrite Ho, Ht1, Hd1.
  destruct (Z.eqb_spec (MountPoint.IsoTimestamp2UtcTime M date) 0) as [| _];
    [contradiction |].
  destruct (MountPoint.GetByDate tag_db _); reflexivity.
Qed.

End RootHash.

Section FixedCatalog.

Variable E : Env.
Variable M : MountPoint.Collaborators.

Lemma CreateCatalogManager_fixed_catalog mp :
  fst (MountPoint.CreateCatalogManager E M mp) = true ->
  MountPoint.fixed_catalog_ (snd (MountPoint.CreateCatalogManager E M mp)) =
  MountPoint.fixed_catalog_ mp
  || negb (MountPoint.IsNull (resolved_root_hash E M mp))
  || auto_update_off E (MountPoint.options_mgr_ mp).
Proof.
  unfold MountPoint.CreateCatalogManager, resolved_root_hash.
  change (MountPoint.SetupInodeAnnotation E _) with (catalog_mgr_created E mp).
  pose proof (catalog_mgr_created_fixed_catalog E mp) as Hc.
  pose proof (catalog_mgr_created_options E mp) as Hco.
  set (c := catalog_mgr_created E mp) in *.
  pose proof (SetupOwnerMaps_fixed_catalog E M c) as Hs.
  destruct (SetupOwnerMaps_post E M c) as ((_ & Hso) & _).
  destruct (MountPoint.SetupOwnerMaps E M c) as [ok1 mp2].
  cbn [fst snd] in *. destruct ok1; cbn [negb]; [| discriminate].
  pose proof (DetermineRootHash_fixed_catalog E M mp2) as Hd.
  destruct (DetermineRootHash_post E M mp2) as ((_ & Hdo) & _).
  destruct (MountPoint.DetermineRootHash E M mp2) as [[ok2 h] mp3].
  cbn [fst snd] in *. destruct ok2; cbn [negb]; [| discriminate].
  assert (Hfix : MountPoint.fixed_catalog_ mp3 = MountPoint.fixed_catalog_ mp)
    by congruence.
  assert (Hopt : MountPoint.options_mgr_ mp3 = MountPoint.options_mgr_ mp)
    by congruence.
  unfold auto_update_off, MountPoint.GetValue.
  destruct (MountPoint.IsNull h); cbn [negb].
  - destruct (MountPoint.catalog_Init M); cbn [negb fst snd]; [| discriminate].
    intros _. rewrite options_mgr_ev, Hopt.
    destruct (MountPoint.options_mgr_ mp !! "CVMFS_AUTO_UPDATE") as [optarg |];
      [destruct (IsOn E optarg) |]; cbn [negb];
      autorewrite with fixed_catalog; rewrite ?Hfix;
      destruct (MountPoint.fixed_catalog_ mp); reflexivity.
  - destruct (MountPoint.catalog_InitFixed M h _); cbn [negb fst snd];
      [| discriminate].
    intros _. rewrite options_mgr_ev, options_mgr_set_fixed_catalog_, Hopt.
    destruct (MountPoint.options_mgr_ mp !! "CVMFS_AUTO_UPDATE") as [optarg |];
      [destruct (IsOn E optarg) |]; cbn [negb];
      autorewrite with fixed_catalog;
      destruct (MountPoint.fixed_catalog_ mp); reflexivity.
Qed.

End FixedCatalog.

(** C2, amended. [DetermineRootHash] on any mount point: a configured
    CVMFS_ROOT_HASH is handed to MkFromHexPtr and returned as it is; with no
    hash, tag or date configured the result is the null hash; with the
    history database fetched and opened, a configured tag name resolves to
    the root hash of the tag of exactly that name and a missing tag is a
    kFailHistory failure with the message no such tag; with no tag name but
    a date whose time stamp is not 0, the result is the root hash of the tag
    GetByDate returns, which for two tags v1, v2 with t1 < t2 and
    t1 <= d < t2 is v1 in either order. [DetermineRootHash] itself leaves
    fixed_catalog_ alone: a successful [CreateCatalogManager] ends with the
    flag set exactly when it was set before, or the resolved hash is not
    null, or CVMFS_AUTO_UPDATE is configured and not on. *)
Theorem root_hash_resolution (E : Env) (M : MountPoint.Collaborators)
  (mp : MountPoint.t) :
  let resolved := MountPoint.DetermineRootHash E M mp in
  (forall v,
     MountPoint.GetValue mp "CVMFS_ROOT_HASH" = Some v ->
     resolved = (true, MountPoint.MkFromHexPtr M v MountPoint.kSuffixCatalog, mp)) /\
  (MountPoint.GetValue mp "CVMFS_ROOT_HASH" = None ->
   MountPoint.GetValue mp "CVMFS_REPOSITORY_TAG" = None ->
   MountPoint.GetValue mp "CVMFS_REPOSITORY_DATE" = None ->
   resolved = (true, MountPoint.NullHash, mp)) /\
  (forall history_path mp1 tag_db,
     MountPoint.GetValue mp "CVMFS_ROOT_HASH" = None ->
     MountPoint.FetchHistory E M mp = (true, history_path, mp1) ->
     MountPoint.SqliteHistory_Open M history_path = Some tag_db ->
     (forall tag_name,
        MountPoint.GetValue mp "CVMFS_REPOSITORY_TAG" = Some tag_name ->
        match MountPoint.GetByName tag_db tag_name with
        | Some tag =>
            MountPoint.name tag = tag_name /\ tag ∈ tag_db /\
            fst resolved = (true, MountPoint.root_hash tag) /\
            MountPoint.repository_tag_ (snd resolved) = tag_name
        | None =>
            fst resolved = (false, MountPoint.NullHash) /\
            MountPoint.boot_status_ (snd resolved) = kFailHistory /\
            MountPoint.boot_error_ (snd resolved) = "no such tag: " +:+ tag_name
        end) /\
     (forall date,
        MountPoint.GetValue mp "CVMFS_REPOSITORY_TAG" = None ->
        MountPoint.GetValue mp "CVMFS_REPOSITORY_DATE" = Some date ->
        MountPoint.IsoTimestamp2UtcTime M date <> 0 ->
        match MountPoint.GetByDate tag_db (MountPoint.IsoTimestamp2UtcTime M date) with
        | Some tag =>
            fst resolved = (true, MountPoint.root_hash tag) /\
            MountPoint.repository_tag_ (snd resolved) = MountPoint.name tag
        | None =>
            fst resolved = (false, MountPoint.NullHash) /\
            MountPoint.boot_status_ (snd resolved) = kFailHistory
        end)) /\
  (forall (v1 v2 : MountPoint.Tag) (d : Z),
     MountPoint.timestamp v1 < MountPoint.timestamp v2 ->
     MountPoint.timestamp v1 <= d < MountPoint.timestamp v2 ->
     MountPoint.GetByDate [v1; v2] d = Some v1 /\
     MountPoint.GetByDate [v2; v1] d = Some v1) /\
  MountPoint.fixed_catalog_ (snd resolved) = MountPoint.fixed_catalog_ mp /\
  MountPoint.options_mgr_ (snd (MountPoint.SetupOwnerMaps E M (catalog_mgr_created E mp)))
  = MountPoint.options_mgr_ mp /\
  (fst (MountPoint.CreateCatalogManager E M mp) = true ->
   MountPoint.fixed_catalog_ (snd (MountPoint.CreateCatalogManager E M mp)) =
   MountPoint.fixed_catalog_ mp
   || negb (MountPoint.IsNull (resolved_root_hash E M mp))
   || auto_update_off E (MountPoint.options_mgr_ mp)).
Proof.
  intros resolved. subst resolved.
  split; [intros v Hv; by apply DetermineRootHash_explicit |].
  split; [by apply DetermineRootHash_head |].
  split.
  { intros history_path mp1 tag_db Hh Hf Ho. split.
    - intros tag_name Ht.
      rewrite (DetermineRootHash_by_name E M mp tag_name history_path mp1 tag_db
                 Hh Ht Hf Ho).
      destruct (MountPoint.GetByName tag_db tag_name) as [tag |] eqn:Hn; cbn [fst snd].
      + destruct (GetByName_found _ _ _ Hn) as [Hname Hin].
        repeat split; try assumption.
        by rewrite repository_tag_ev, repository_tag_set.
      + repeat split.
        * rewrite (proj1 (boot_ev _ _)). apply boot_fail.
        * rewrite (proj2 (boot_ev _ _)). apply boot_fail.
    - intros date Ht Hd Hnz.
      rewrite (DetermineRootHash_by_date E M mp date history_path mp1 tag_db
                 Hh Ht Hd Hf Ho Hnz).
      destruct (MountPoint.GetByDate tag_db _) as [tag |]; cbn [fst snd].
      + split; [reflexivity |]. by rewrite repository_tag_ev, repository_tag_set.
      + split; [reflexivity |]. rewrite (proj1 (boot_ev _ _)). apply boot_fail. }
  split; [exact GetByDate_between |].
  split; [apply DetermineRootHash_fixed_catalog |].
  split; [| apply CreateCatalogManager_fixed_catalog].
  destruct (SetupOwnerMaps_post E M (catalog_mgr_created E mp)) as ((_ & Ho) & _).
  rewrite Ho. apply catalog_mgr_created_options.
Qed.

Lemma root_hash_resolution_witness :
  let E := Examples.env in
  let M := Examples.collaborators "DIRECT" in
  let mp := Examples.mount_point "DIRECT" {[ "CVMFS_REPOSITORY_DATE" := "150" ]} in
  let v1 := MountPoint.mkTag "v1" (MountPoint.Digest "11" "C"%char) 100 in
  let v2 := MountPoint.mkTag "v2" (MountPoint.Digest "22" "C"%char) 200 in
  MountPoint.GetValue mp "CVMFS_ROOT_HASH" = None /\
  MountPoint.GetValue mp "CVMFS_REPOSITORY_TAG" = None /\
  MountPoint.GetValue mp "CVMFS_REPOSITORY_DATE" = Some "150" /\
  MountPoint.IsoTimestamp2UtcTime M "150" <> 0 /\
  (exists history_path mp1,
     MountPoint.FetchHistory E M mp = (true, history_path, mp1) /\
     MountPoint.SqliteHistory_Open M history_path = Some [v1; v2]) /\
  fst (MountPoint.DetermineRootHash E M mp) = (true, MountPoint.root_hash v1) /\
  MountPoint.repository_tag_ (snd (MountPoint.DetermineRootHash E M mp)) = "v1".
Proof.
  intros E M mp v1 v2.
  assert (Hh : MountPoint.GetValue mp "CVMFS_ROOT_HASH" = None)
    by (vm_compute; reflexivity).
  assert (Ht : MountPoint.GetValue mp "CVMFS_REPOSITORY_TAG" = None)
    by (vm_compute; reflexivity).
  assert (Hd : MountPoint.GetValue mp "CVMFS_REPOSITORY_DATE" = Some "150")
    by (vm_compute; reflexivity).
  assert (Hnz : MountPoint.IsoTimestamp2UtcTime M "150" <> 0)
    by (vm_compute; discriminate).
  assert (Hf : exists history_path mp1,
            MountPoint.FetchHistory E M mp = (true, history_path, mp1) /\
            MountPoint.SqliteHistory_Open M history_path = Some [v1; v2])
    by (eexists _, _; split; vm_compute; reflexivity).
  repeat (split; [assumption |]).
  destruct Hf as (history_path & mp1 & Hf & Ho).
  destruct (root_hash_resolution E M mp) as (_ & _ & Hdb & Hbetween & _).
  destruct (Hdb history_path mp1 [v1; v2] Hh Hf Ho) as [_ Hdate].
  specialize (Hdate "150" Ht Hd Hnz).
  assert (Hv : MountPoint.GetByDate [v1; v2] (MountPoint.IsoTimestamp2UtcTime M "150")
               = Some v1).
  { change (MountPoint.IsoTimestamp2UtcTime M "150") with 150.
    apply (Hbetween v1 v2); unfold v1, v2; cbn [MountPoint.timestamp]; lia. }
  rewrite Hv in Hdate. exact Hdate.
Defined.

(** C2, as stated, fails: with CVMFS_AUTO_UPDATE set to NO and no root
    hash, tag or date configured, the root hash resolves to the null hash
    and the mount point is mounted with its catalog flagged fixed. *)
Lemma auto_update_off_fixes_head_mount :
  let E := Examples.env in
  let M := Examples.collaborators "DIRECT" in
  let options : gmap string string := {[ "CVMFS_AUTO_UPDATE" := "NO" ]} in
  let mp := Examples.mount_point "DIRECT" options in
  MountPoint.GetValue mp "CVMFS_ROOT_HASH" = None /\
  MountPoint.GetValue mp "CVMFS_REPOSITORY_TAG" = None /\
  MountPoint.GetValue mp "CVMFS_REPOSITORY_DATE" = None /\
  MountPoint.DetermineRootHash E M mp = (true, MountPoint.NullHash, mp) /\
  MountPoint.fixed_catalog_ mp = false /\
  exists mounted,
    MountPoint.Create E M "repo.example.org" Examples.booted_file_system (Some options)
    = Ret mounted /\
    MountPoint.boot_status_ mounted = kFailOk /\
    MountPoint.fixed_catalog_ mounted = true.
Proof.
  intros E M options mp.
  do 5 (split; [vm_compute; reflexivity |]).
  assert (H : exists mounted,
            MountPoint.Create E M "repo.example.org" Examples.booted_file_system
              (Some options) = Ret mounted)
    by (eexists; vm_compute; reflexivity).
  destruct H as (mounted & H). exists mounted.
  split; [exact H |].
  assert (Hm : Ret (MountPoint.boot_status_ mounted, MountPoint.fixed_catalog_ mounted)
               = Ret (kFailOk, true)).
  { transitivity
      (mounted ← MountPoint.Create E M "repo.example.org" Examples.booted_file_system
                   (Some options);
       Ret (MountPoint.boot_status_ mounted, MountPoint.fixed_catalog_ mounted)).
    - rewrite H. reflexivity.
    - vm_compute. reflexivity. }
  injection Hm as -> ->. split; reflexivity.
Qed.

(** * Further properties of the bootstrap code *)

(** ** Names of cache parameters *)

Lemma substring_all (s : string) : substring 0 (String.length s) s = s.
Proof. induction s as [| c s IH]; cbn; [reflexivity | rewrite IH; reflexivity]. Qed.

Lemma MkCacheParm_instance fs rest instance :
  instance <> kDefaultCacheMgrInstance ->
  MkCacheParm fs ("CVMFS_CACHE_" +:+ rest) instance =
  "CVMFS_CACHE_" +:+ instance +:+ "_" +:+ rest.
Proof.
  intros Hne. unfold MkCacheParm.
  destruct (String.eqb_spec instance kDefaultCacheMgrInstance); [contradiction |].
  change (substring 12 _ ("CVMFS_CACHE_" +:+ rest))
    with (substring 0 (String.length rest - 0) rest).
  rewrite Nat.sub_0_r, substring_all. reflexivity.
Qed.

Lemma MkCacheParm_default_lookup fs generic_parameter :
  GetValue fs (MkCacheParm fs generic_parameter kDefaultCacheMgrInstance) =
  match GetValue fs generic_parameter with
  | Some v => Some v
  | None =>
      match legacy_name generic_parameter with
      | Some legacy => GetValue fs legacy
      | None => None
      end
  end.
Proof.
  unfold MkCacheParm, legacy_name, IsDefined, GetValue.
  change (String.eqb kDefaultCacheMgrInstance kDefaultCacheMgrInstance) with true.
  cbv iota.
  destruct (options_mgr_ fs !! generic_parameter) as [v |] eqn:Hv.
  - rewrite bool_decide_eq_true_2 by eauto. cbn [negb].
    rewrite !andb_false_r. exact Hv.
  - rewrite bool_decide_eq_false_2 by (intros [x Hx]; discriminate). cbn [negb].
    rewrite !andb_true_r.
    repeat match goal with
           | |- context [String.eqb generic_parameter ?k] =>
               destruct (String.eqb generic_parameter k); [reflexivity |]
           end.
    exact Hv.
Qed.

(** X1. The generic parameter starts with CVMFS_CACHE_, as the source
    asserts.  For the default instance it is looked up under its
    generic name and, only when that is not defined, under its
    compatibility name (shared, alien, server mode and quota limit have
    one).  For any other instance the key is CVMFS_CACHE_<instance>_<rest>:
    it is never a compatibility name, and for one parameter the keys of
    two instances differ. *)
Theorem cache_parameter_names (fs : FileSystem) (rest : string) :
  let generic_parameter := "CVMFS_CACHE_" +:+ rest in
  GetValue fs (MkCacheParm fs generic_parameter kDefaultCacheMgrInstance) =
    match GetValue fs generic_parameter with
    | Some v => Some v
    | None =>
        match legacy_name generic_parameter with
        | Some legacy => GetValue fs legacy
        | None => None
        end
    end /\
  (forall instance,
     instance <> kDefaultCacheMgrInstance ->
     MkCacheParm fs generic_parameter instance =
       "CVMFS_CACHE_" +:+ instance +:+ "_" +:+ rest /\
     forall g, legacy_name g <> Some (MkCacheParm fs generic_parameter instance)) /\
  (forall i1 i2,
     i1 <> kDefaultCacheMgrInstance -> i2 <> kDefaultCacheMgrInstance ->
     MkCacheParm fs generic_parameter i1 = MkCacheParm fs generic_parameter i2 ->
     i1 = i2).
Proof.
  intros generic_parameter. split; [apply MkCacheParm_default_lookup |]. split.
  - intros instance Hne. subst generic_parameter.
    rewrite (MkCacheParm_instance fs rest instance Hne).
    split; [reflexivity |].
    intros g. unfold legacy_name.
    repeat match goal with
           | |- context [String.eqb g ?k] => destruct (String.eqb g k)
           end; discriminate.
  - intros i1 i2 H1 H2. subst generic_parameter.
    rewrite (MkCacheParm_instance fs rest i1 H1), (MkCacheParm_instance fs rest i2 H2).
    intros H. apply (inj (String.app "CVMFS_CACHE_")) in H.
    apply string_app_inj_r in H. exact H.
Qed.

(** ** NFS mode *)

Lemma GetValue_set_nfs_mode_ v fs key :
  GetValue (set_nfs_mode_ v fs) key = GetValue fs key.
Proof. destruct fs; reflexivity. Qed.

Lemma nfs_mode_set_nfs_mode_ v fs : nfs_mode_ (set_nfs_mode_ v fs) = v.
Proof. destruct fs; reflexivity. Qed.

(** X2. On an object whose NFS mode is still none, DetermineNfsMode turns
    the maps flag on exactly when CVMFS_NFS_SOURCE is on, and the
    high-availability flag exactly when, in addition, CVMFS_NFS_SHARED is
    defined (its value becomes the maps directory; without NFS source the
    option is ignored).  High availability therefore implies NFS source.
    The call fails, with the Options code and nothing else changed,
    exactly for the library with NFS source on. *)
Theorem nfs_mode_determination (E : Env) (fs : FileSystem)
  (Hnone : nfs_mode_ fs = kNfsNone) :
  let source :=
    match GetValue fs "CVMFS_NFS_SOURCE" with
    | Some optarg => IsOn E optarg
    | None => false
    end in
  let ok := fst (DetermineNfsMode E fs) in
  let fs' := snd (DetermineNfsMode E fs) in
  IsNfsSource fs' = source /\
  IsHaNfsSource fs' = source && bool_decide (is_Some (GetValue fs "CVMFS_NFS_SHARED")) /\
  (IsHaNfsSource fs' = true ->
   IsNfsSource fs' = true /\
   GetValue fs "CVMFS_NFS_SHARED" = Some (nfs_maps_dir_ fs')) /\
  (IsHaNfsSource fs' = false -> nfs_maps_dir_ fs' = nfs_maps_dir_ fs) /\
  ok = negb (bool_decide (type_ fs = kFsLibrary) && source) /\
  trace_ fs' = trace_ fs /\
  (if ok
   then boot_status_ fs' = boot_status_ fs /\ boot_error_ fs' = boot_error_ fs
   else boot_status_ fs' = kFailOptions /\
        boot_error_ fs' = "Failure: libcvmfs does not support NFS export.").
Proof.
  intros source ok fs'. subst source ok fs'. unfold DetermineNfsMode.
  destruct fs as [nm ex ty op ww fg st ws wf pl fd pc fp nmode nd ci cs cm uu hn hs bs be tr].
  cbn in Hnone. subst nmode.
  unfold GetValue, IsNfsSource, IsHaNfsSource. cbn [options_mgr_ set_nfs_mode_ nfs_mode_].
  destruct (op !! "CVMFS_NFS_SOURCE") as [src |]; [destruct (IsOn E src) |];
    destruct (op !! "CVMFS_NFS_SHARED") as [dir |];
    destruct ty; cbn; repeat split; try reflexivity; try discriminate;
    intros; congruence.
Qed.

Lemma nfs_mode_determination_witness :
  let fs := Examples.file_system kFsFuse
              {[ "CVMFS_NFS_SOURCE" := "yes"; "CVMFS_NFS_SHARED" := "/srv/nfs" ]} false in
  nfs_mode_ fs = kNfsNone /\
  IsNfsSource (snd (DetermineNfsMode Examples.env fs)) = true /\
  IsHaNfsSource (snd (DetermineNfsMode Examples.env fs)) = true /\
  nfs_maps_dir_ (snd (DetermineNfsMode Examples.env fs)) = "/srv/nfs".
Proof.
  intros fs.
  assert (Hnone : nfs_mode_ fs = kNfsNone) by reflexivity.
  split; [exact Hnone |].
  destruct (nfs_mode_determination Examples.env fs Hnone)
    as (Hsrc & Hha & Hdir & _).
  assert (Hs : IsHaNfsSource (snd (DetermineNfsMode Examples.env fs)) = true)
    by (rewrite Hha; vm_compute; reflexivity).
  destruct (Hdir Hs) as [Hn Hd].
  split; [exact Hn |]. split; [exact Hs |].
  assert (Hv : GetValue fs "CVMFS_NFS_SHARED" = Some "/srv/nfs")
    by (vm_compute; reflexivity).
  rewrite Hv in Hd. congruence.
Defined.

(** ** The workspace *)

Lemma workspace_frame_refl fs : workspace_frame fs fs.
Proof. destruct fs; reflexivity. Qed.

Lemma workspace_frame_trans fs1 fs2 fs3 :
  workspace_frame fs1 fs2 -> workspace_frame fs2 fs3 -> workspace_frame fs1 fs3.
Proof.
  unfold workspace_frame. destruct fs1, fs2, fs3. cbn.
  intros H1 H2. injection H1 as -> -> -> -> -> -> -> -> -> -> -> -> -> -> ->.
  injection H2 as -> -> -> -> -> -> -> -> -> -> -> -> -> -> ->. reflexivity.
Qed.

(** Case analysis on everything a result [H] depends on, down to the
    returned objects. *)
Ltac ret_cases H :=
  repeat (match type of H with
          | context [match ?c with _ => _ end] =>
              let d := innermost_scrutinee c in destruct d eqn:?
          end; cbn in H);
  try discriminate H.

Lemma SetupWorkspace_tail_result (E : Env) fs ok fs' :
  (let mode := 504 in
   let fs := io (IoMkdirDeep (workspace_ fs) mode) fs in
   if negb (MkdirDeep E (workspace_ fs) mode) then
     Ret (false,
          fail kFailCacheDir
            ("cannot create workspace directory " +:+ workspace_ fs) fs)
   else
     '(ok, fs) ← LockWorkspace E fs;
     if negb ok then Ret (false, fs)
     else
       let '(ok, fs) := SetupCwd E fs in
       if negb ok then Ret (false, fs)
       else
         let '(ok, fs) := SetupCrashGuard E fs in
         if negb ok then Ret (false, fs) else Ret (true, fs)) = Ret (ok, fs') ->
  workspace_frame fs fs' /\
  workspace_fullpath_ fs' = workspace_fullpath_ fs /\
  (exists evs,
     trace_ fs' = (trace_ fs ++ IoMkdirDeep (workspace_ fs) 504 :: evs)%list) /\
  (ok = true ->
   MkdirDeep E (workspace_ fs) 504 = true /\
   0 <= fd_workspace_lock_ fs' /\
   path_workspace_lock_ fs' = workspace_ fs +:+ "/lock." +:+ name_ fs /\
   workspace_ fs' = (if bool_decide (type_ fs = kFsFuse) then "." else workspace_ fs) /\
   path_crash_guard_ fs' = workspace_ fs' +:+ "/running." +:+ name_ fs /\
   found_previous_crash_ fs' =
     found_previous_crash_ fs || (platform_stat E (path_crash_guard_ fs') =? 0)).
Proof.
  unfold LockWorkspace, SetupCwd, SetupCrashGuard. intros H.
  destruct fs as [nm ex ty op ww fg st ws wf pl fd pc fp nmode nd ci cs cm uu hn hs bs be tr].
  cbn in H. ret_cases H; injection H as <- <-; cbn;
    (split; [reflexivity |]); (split; [reflexivity |]);
    (split; [eexists; rewrite <- ?app_assoc; reflexivity |]);
    intros Hok; try discriminate Hok;
    repeat match goal with
           | H : (_ <=? _) = true |- _ => apply Z.leb_le in H
           | H : (_ <? _) = false |- _ => apply Z.ltb_ge in H
           | H : negb _ = false |- _ => apply negb_false_iff in H
           end;
    repeat match goal with
           | H : ?x = true |- context [?x] => rewrite H
           | H : ?x = false |- context [?x] => rewrite H
           end;
    rewrite ?orb_true_r, ?orb_false_r; auto 10.
Qed.

Lemma GetValue_set_workspace_ v fs key :
  GetValue (set_workspace_ v fs) key = GetValue fs key.
Proof. destruct fs; reflexivity. Qed.

Lemma IsDefined_set_workspace_ v fs key :
  IsDefined (set_workspace_ v fs) key = IsDefined fs key.
Proof. destruct fs; reflexivity. Qed.

Lemma FileSystem_IsDefined_Some fs key v :
  GetValue fs key = Some v -> IsDefined fs key = true.
Proof.
  unfold GetValue, IsDefined. intros ->. apply bool_decide_eq_true. eauto.
Qed.

Lemma FileSystem_IsDefined_None fs key :
  GetValue fs key = None -> IsDefined fs key = false.
Proof.
  unfold GetValue, IsDefined. intros ->.
  apply bool_decide_eq_false. intros [x Hx]. discriminate.
Qed.

Lemma SetupWorkspace_result (E : Env) fs ok fs' :
  SetupWorkspace E fs = Ret (ok, fs') ->
  let path := workspace_path E fs in
  workspace_frame fs fs' /\
  (if IsDefined fs "CVMFS_CACHE_DIR" && IsDefined fs "CVMFS_CACHE_BASE"
   then ok = false /\ boot_status_ fs' = kFailOptions /\ trace_ fs' = trace_ fs
   else
     workspace_fullpath_ fs' = path /\
     (exists evs, trace_ fs' = (trace_ fs ++ IoMkdirDeep path 504 :: evs)%list) /\
     (ok = true ->
      MkdirDeep E path 504 = true /\
      0 <= fd_workspace_lock_ fs' /\
      path_workspace_lock_ fs' = path +:+ "/lock." +:+ name_ fs /\
      workspace_ fs' = (if bool_decide (type_ fs = kFsFuse) then "." else path) /\
      path_crash_guard_ fs' = workspace_ fs' +:+ "/running." +:+ name_ fs /\
      found_previous_crash_ fs' =
        found_previous_crash_ fs || (platform_stat E (path_crash_guard_ fs') =? 0))).
Proof.
  intros H path. subst path. revert H.
  unfold SetupWorkspace, workspace_path.
  rewrite !GetValue_set_workspace_.
  destruct (GetValue fs "CVMFS_CACHE_BASE") as [base |] eqn:Hbase;
    rewrite ?GetValue_set_workspace_;
    (destruct (GetValue fs "CVMFS_SHARED_CACHE") as [shared |] eqn:Hshared;
     [destruct (IsOn E shared) |]);
    rewrite ?GetValue_set_workspace_, ?IsDefined_set_workspace_;
    (destruct (GetValue fs "CVMFS_CACHE_DIR") as [dir |] eqn:Hdir;
     [rewrite (FileSystem_IsDefined_Some _ _ _ Hdir)
     | rewrite (FileSystem_IsDefined_None _ _ Hdir)]);
    rewrite ?(FileSystem_IsDefined_Some _ _ _ Hbase),
      ?(FileSystem_IsDefined_None _ _ Hbase);
    rewrite ?GetValue_set_workspace_;
    destruct (GetValue fs "CVMFS_WORKSPACE") as [w |] eqn:Hw;
    cbn [andb]; intros H;
    first
      [ injection H as <- <-; split;
        [ destruct fs; reflexivity | destruct fs; cbn; auto ]
      | match type of H with
        | context [LockWorkspace E (io (IoMkdirDeep _ _) ?X)] =>
            destruct (SetupWorkspace_tail_result E X ok fs' H) as (Hf & Hfull & Htr & Hok);
            assert (HX : workspace_frame fs X /\ name_ X = name_ fs /\
                         type_ X = type_ fs /\ trace_ X = trace_ fs /\
                         found_previous_crash_ X = found_previous_crash_ fs /\
                         workspace_fullpath_ X = workspace_ X)
              by (destruct fs; repeat split; reflexivity);
            destruct HX as (HXf & HXn & HXt & HXtr & HXc & HXw);
            rewrite HXn, HXt, HXtr, HXc in *
        end;
        split;
        [ eapply workspace_frame_trans; [exact HXf | exact Hf]
        | split; [rewrite Hfull, HXw; destruct fs; reflexivity |];
          split; [destruct fs; exact Htr |];
          destruct fs; exact Hok ] ].
Qed.

Lemma SetupWorkspace_conflict (E : Env) fs :
  IsDefined fs "CVMFS_CACHE_DIR" && IsDefined fs "CVMFS_CACHE_BASE" = true ->
  exists fs',
    SetupWorkspace E fs = Ret (false, fs') /\
    boot_status_ fs' = kFailOptions /\
    boot_error_ fs' = "'CVMFS_CACHE_BASE' and 'CVMFS_CACHE_DIR' are mutually exclusive" /\
    trace_ fs' = trace_ fs.
Proof.
  intros Hc. apply andb_true_iff in Hc as [Hd Hb].
  unfold IsDefined in Hd, Hb. apply bool_decide_eq_true in Hd as [dir Hd].
  fold (IsDefined fs "CVMFS_CACHE_BASE") in Hb.
  unfold SetupWorkspace. rewrite !GetValue_set_workspace_.
  destruct (GetValue fs "CVMFS_CACHE_BASE") as [base |];
    rewrite ?GetValue_set_workspace_;
    (destruct (GetValue fs "CVMFS_SHARED_CACHE") as [shared |];
     [destruct (IsOn E shared) |]);
    rewrite ?GetValue_set_workspace_, ?IsDefined_set_workspace_;
    unfold GetValue at 1; rewrite Hd, Hb;
    (eexists; split; [reflexivity |]); destruct fs; cbn; auto.
Qed.

Lemma SetupWorkspace_tail_returns (E : Env) fs :
  -2 <= TryLockFile E (workspace_ fs +:+ "/lock." +:+ name_ fs) ->
  (let mode := 504 in
   let fs := io (IoMkdirDeep (workspace_ fs) mode) fs in
   if negb (MkdirDeep E (workspace_ fs) mode) then
     Ret (false,
          fail kFailCacheDir
            ("cannot create workspace directory " +:+ workspace_ fs) fs)
   else
     '(ok, fs) ← LockWorkspace E fs;
     if negb ok then Ret (false, fs)
     else
       let '(ok, fs) := SetupCwd E fs in
       if negb ok then Ret (false, fs)
       else
         let '(ok, fs) := SetupCrashGuard E fs in
         if negb ok then Ret (false, fs) else Ret (true, fs)) <> Abort.
Proof.
  intros Hlock H. unfold LockWorkspace in H. destruct fs. cbn in H, Hlock.
  ret_cases H;
    repeat match goal with
           | Hx : (_ <=? _) = false |- _ => apply Z.leb_gt in Hx
           | Hx : (_ =? _) = false |- _ => apply Z.eqb_neq in Hx
           end; lia.
Qed.

Lemma SetupWorkspace_returns (E : Env) fs :
  IsDefined fs "CVMFS_CACHE_DIR" && IsDefined fs "CVMFS_CACHE_BASE" = false ->
  -2 <= TryLockFile E (workspace_path E fs +:+ "/lock." +:+ name_ fs) ->
  exists ok fs', SetupWorkspace E fs = Ret (ok, fs').
Proof.
  intros Hc Hlock.
  destruct (SetupWorkspace E fs) as [[ok fs'] | |] eqn:H;
    [eauto | exfalso | exfalso; exact (SetupWorkspace_fuel E fs H)].
  revert Hlock. unfold workspace_path.
  revert H Hc. unfold SetupWorkspace.
  rewrite !GetValue_set_workspace_.
  destruct (GetValue fs "CVMFS_CACHE_BASE") as [base |] eqn:Hbase;
    rewrite ?GetValue_set_workspace_;
    (destruct (GetValue fs "CVMFS_SHARED_CACHE") as [shared |] eqn:Hshared;
     [destruct (IsOn E shared) |]);
    rewrite ?GetValue_set_workspace_, ?IsDefined_set_workspace_;
    (destruct (GetValue fs "CVMFS_CACHE_DIR") as [dir |] eqn:Hdir;
     [rewrite (FileSystem_IsDefined_Some _ _ _ Hdir)
     | rewrite (FileSystem_IsDefined_None _ _ Hdir)]);
    rewrite ?(FileSystem_IsDefined_Some _ _ _ Hbase),
      ?(FileSystem_IsDefined_None _ _ Hbase);
    rewrite ?GetValue_set_workspace_;
    destruct (GetValue fs "CVMFS_WORKSPACE") as [w |] eqn:Hw;
    cbn [andb]; intros H Hc Hlock; try discriminate;
    match type of H with
    | context [LockWorkspace E (io (IoMkdirDeep _ _) ?X)] =>
        apply (SetupWorkspace_tail_returns E X); [| exact H]
    end;
    destruct fs; exact Hlock.
Qed.

(** X3. SetupWorkspace.  With both CVMFS_CACHE_DIR and CVMFS_CACHE_BASE
    defined the call fails with the Options code before any external
    call, whether or not CVMFS_WORKSPACE is set.  Otherwise the workspace
    is the directory the options name (CVMFS_WORKSPACE before
    CVMFS_CACHE_DIR before the cache base with /shared or the name): the
    call returns unless TryLockFile answers below -2, its first external
    call creates that directory, and it changes nothing but the workspace
    members, the boot outcome and the trace.  When it succeeds the lock
    on <workspace>/lock.<name> is held, the fuse module has changed into
    the workspace (the path is then "."), the crash guard is
    <path>/running.<name>, and a previous crash is recorded exactly when
    that file was already there. *)
Theorem workspace_resolution (E : Env) (fs : FileSystem) :
  let path := workspace_path E fs in
  let conflict := IsDefined fs "CVMFS_CACHE_DIR" && IsDefined fs "CVMFS_CACHE_BASE" in
  (conflict = true ->
   exists fs',
     SetupWorkspace E fs = Ret (false, fs') /\
     boot_status_ fs' = kFailOptions /\
     boot_error_ fs' =
       "'CVMFS_CACHE_BASE' and 'CVMFS_CACHE_DIR' are mutually exclusive" /\
     trace_ fs' = trace_ fs) /\
  (conflict = false ->
   (-2 <= TryLockFile E (path +:+ "/lock." +:+ name_ fs) ->
    exists ok fs', SetupWorkspace E fs = Ret (ok, fs')) /\
   forall ok fs',
     SetupWorkspace E fs = Ret (ok, fs') ->
     workspace_frame fs fs' /\
     workspace_fullpath_ fs' = path /\
     (exists evs, trace_ fs' = (trace_ fs ++ IoMkdirDeep path 504 :: evs)%list) /\
     (ok = true ->
      MkdirDeep E path 504 = true /\
      0 <= fd_workspace_lock_ fs' /\
      path_workspace_lock_ fs' = path +:+ "/lock." +:+ name_ fs /\
      workspace_ fs' = (if bool_decide (type_ fs = kFsFuse) then "." else path) /\
      path_crash_guard_ fs' = workspace_ fs' +:+ "/running." +:+ name_ fs /\
      found_previous_crash_ fs' =
        found_previous_crash_ fs || (platform_stat E (path_crash_guard_ fs') =? 0))).
Proof.
  intros path conflict. subst path conflict. split.
  - apply SetupWorkspace_conflict.
  - intros Hc. split; [apply SetupWorkspace_returns; exact Hc |].
    intros ok fs' H.
    pose proof (SetupWorkspace_result E fs ok fs' H) as [Hf Hr].
    cbv zeta in Hr. rewrite Hc in Hr. split; [exact Hf | exact Hr].
Qed.

Lemma workspace_frame_context fs fs' :
  workspace_frame fs fs' ->
  options_mgr_ fs' = options_mgr_ fs /\ name_ fs' = name_ fs /\ type_ fs' = type_ fs.
Proof. unfold workspace_frame. intros ->. destruct fs; cbn; auto. Qed.

Lemma FileSystem_GetValue_same_options fs fs' key :
  options_mgr_ fs' = options_mgr_ fs -> GetValue fs' key = GetValue fs key.
Proof. unfold GetValue. intros ->. reflexivity. Qed.

Lemma FileSystem_IsDefined_same_options fs fs' key :
  options_mgr_ fs' = options_mgr_ fs -> IsDefined fs' key = IsDefined fs key.
Proof. unfold IsDefined. intros ->. reflexivity. Qed.

Lemma MkCacheParm_same_options fs fs' generic instance :
  options_mgr_ fs' = options_mgr_ fs ->
  MkCacheParm fs' generic instance = MkCacheParm fs generic instance.
Proof.
  intros Ho. unfold MkCacheParm. rewrite (FileSystem_IsDefined_same_options _ _ _ Ho).
  reflexivity.
Qed.

(** X4. The classic configuration: no CVMFS_WORKSPACE, no alien cache and
    no CVMFS_CACHE_SHARED.  Once SetupWorkspace has succeeded, the posix
    cache of the default instance is the workspace: its settings carry
    the path ".", and for the fuse module this is the workspace member
    itself, which is what SetupPosixQuotaMgr asserts for an exclusive
    cache. *)
Theorem classic_cache_is_workspace (E : Env) (fs fs' : FileSystem)
  (Hsetup : SetupWorkspace E fs = Ret (true, fs'))
  (Hworkspace : GetValue fs "CVMFS_WORKSPACE" = None)
  (Halien : GetValue fs "CVMFS_CACHE_ALIEN" = None)
  (Halien_legacy : GetValue fs "CVMFS_ALIEN_CACHE" = None)
  (Hshared : GetValue fs "CVMFS_CACHE_SHARED" = None) :
  let settings := DeterminePosixCacheSettings E kDefaultCacheMgrInstance fs' in
  cache_path settings = "." /\
  is_alien settings = false /\
  is_shared settings =
    match GetValue fs "CVMFS_SHARED_CACHE" with
    | Some optarg => IsOn E optarg
    | None => false
    end /\
  (type_ fs = kFsFuse -> workspace_ fs' = cache_path settings).
Proof.
  intros settings.
  pose proof (SetupWorkspace_result E fs true fs' Hsetup) as [Hf Hr].
  cbv zeta in Hr.
  destruct (IsDefined fs "CVMFS_CACHE_DIR" && IsDefined fs "CVMFS_CACHE_BASE") eqn:Hc;
    [destruct Hr as [Hr _]; discriminate Hr |].
  destruct Hr as (Hfull & _ & Hok). destruct (Hok eq_refl) as (_ & _ & _ & Hws & _).
  destruct (workspace_frame_context _ _ Hf) as (Ho & Hn & Ht).
  assert (Hpath : cache_path settings = "." /\ is_alien settings = false /\
                  is_shared settings =
                    match GetValue fs "CVMFS_SHARED_CACHE" with
                    | Some optarg => IsOn E optarg
                    | None => false
                    end).
  { subst settings. unfold DeterminePosixCacheSettings.
    rewrite !MkCacheParm_default_lookup.
    repeat match goal with
           | |- context [legacy_name ?g] =>
               let v := eval vm_compute in (legacy_name g) in
               change (legacy_name g) with v
           end.
    cbv beta iota.
    rewrite !(FileSystem_GetValue_same_options _ _ _ Ho), Hn, Hfull.
    rewrite Hshared, Halien, Halien_legacy.
    unfold workspace_path. rewrite Hworkspace.
    destruct (GetValue fs "CVMFS_CACHE_BASE");
      destruct (GetValue fs "CVMFS_CACHE_DIR");
      cbn [cache_path is_alien is_shared];
      (destruct (GetValue fs "CVMFS_SHARED_CACHE") as [shared |];
       [destruct (IsOn E shared) |]);
      rewrite ?String.eqb_refl; repeat split; reflexivity. }
  destruct Hpath as (Hp & Ha & Hs). repeat split; try assumption.
  intros Hfuse. rewrite Hws, Hp, Hfuse. reflexivity.
Qed.

Lemma classic_cache_is_workspace_witness :
  let fs := Examples.file_system kFsFuse {[ "CVMFS_CACHE_BASE" := "/cache" ]} false in
  exists fs',
    SetupWorkspace Examples.env fs = Ret (true, fs') /\
    workspace_fullpath_ fs' = "/cache/repo.example.org" /\
    cache_path (DeterminePosixCacheSettings Examples.env kDefaultCacheMgrInstance fs') = "." /\
    workspace_ fs' = ".".
Proof.
  intros fs.
  assert (H : exists fs', SetupWorkspace Examples.env fs = Ret (true, fs') /\
                          workspace_fullpath_ fs' = "/cache/repo.example.org")
    by (eexists; split; vm_compute; reflexivity).
  destruct H as (fs' & H & Hfull). exists fs'.
  split; [exact H |]. split; [exact Hfull |].
  assert (H1 : GetValue fs "CVMFS_WORKSPACE" = None) by (vm_compute; reflexivity).
  assert (H2 : GetValue fs "CVMFS_CACHE_ALIEN" = None) by (vm_compute; reflexivity).
  assert (H3 : GetValue fs "CVMFS_ALIEN_CACHE" = None) by (vm_compute; reflexivity).
  assert (H4 : GetValue fs "CVMFS_CACHE_SHARED" = None) by (vm_compute; reflexivity).
  destruct (classic_cache_is_workspace Examples.env fs fs' H H1 H2 H3 H4)
    as (Hp & _ & _ & Hw).
  split; [exact Hp |]. rewrite (Hw eq_refl). exact Hp.
Defined.

(** ** What a booted file system holds *)

Lemma completed_cons {S : Type} (n : string) (f : S -> outcome (bool * S))
  (rest : list (string * (S -> outcome (bool * S)))) (s s' : S) :
  completed ((n, f) :: rest) s s' ->
  exists s1, f s = Ret (true, s1) /\ completed rest s1 s'.
Proof.
  unfold completed. cbn [run_stages map fst].
  destruct (f s) as [[ok s1] | |]; cbn [mbind outcome_bind]; try discriminate.
  destruct ok; cbn [negb]; [| discriminate].
  destruct (run_stages rest s1) as [[[done failed] s2] | |] eqn:Hrest;
    cbn [mbind outcome_bind]; try discriminate.
  intros [= -> -> ->]. exists s1. split; [reflexivity | exact Hrest].
Qed.

Lemma SetupLogging_members fs :
  statistics_ (SetupLogging fs) = statistics_ fs /\
  options_mgr_ (SetupLogging fs) = options_mgr_ fs /\
  name_ (SetupLogging fs) = name_ fs /\ type_ (SetupLogging fs) = type_ fs.
Proof.
  unfold SetupLogging, GetValue. destruct fs; cbn. destruct_matches; cbn; auto.
Qed.

Lemma SetupSqlite_members (E : Env) fs fs' :
  SetupSqlite E fs = Ret fs' ->
  statistics_ fs' = statistics_ fs /\ options_mgr_ fs' = options_mgr_ fs /\
  name_ fs' = name_ fs /\ type_ fs' = type_ fs.
Proof.
  unfold SetupSqlite. intros H. destruct fs; cbn in H.
  ret_cases H. injection H as <-. cbn. auto.
Qed.

Lemma DetermineNfsMode_members (E : Env) fs :
  statistics_ (snd (DetermineNfsMode E fs)) = statistics_ fs /\
  options_mgr_ (snd (DetermineNfsMode E fs)) = options_mgr_ fs /\
  name_ (snd (DetermineNfsMode E fs)) = name_ fs /\
  type_ (snd (DetermineNfsMode E fs)) = type_ fs.
Proof.
  unfold DetermineNfsMode, GetValue. destruct fs; cbn. destruct_matches; cbn; auto.
Qed.

Lemma workspace_frame_members fs fs' :
  workspace_frame fs fs' ->
  statistics_ fs' = statistics_ fs /\ options_mgr_ fs' = options_mgr_ fs /\
  name_ fs' = name_ fs /\ type_ fs' = type_ fs /\
  cache_mgr_ fs' = cache_mgr_ fs /\ uuid_cache_ fs' = uuid_cache_ fs.
Proof. unfold workspace_frame. intros ->. destruct fs; cbn; auto 10. Qed.

(** What the cache manager factory leaves alone. *)
Lemma same_context_members fs fs' :
  same_context fs fs' ->
  statistics_ fs' = statistics_ fs /\ options_mgr_ fs' = options_mgr_ fs /\
  name_ fs' = name_ fs /\ type_ fs' = type_ fs /\
  fd_workspace_lock_ fs' = fd_workspace_lock_ fs /\
  workspace_ fs' = workspace_ fs /\
  workspace_fullpath_ fs' = workspace_fullpath_ fs /\
  path_workspace_lock_ fs' = path_workspace_lock_ fs /\
  path_crash_guard_ fs' = path_crash_guard_ fs /\
  found_previous_crash_ fs' = found_previous_crash_ fs /\
  nfs_mode_ fs' = nfs_mode_ fs /\
  cache_mgr_instance_ fs' = cache_mgr_instance_ fs /\
  cache_mgr_ fs' = cache_mgr_ fs /\ uuid_cache_ fs' = uuid_cache_ fs.
Proof. unfold same_context. intros ->. destruct fs; cbn; auto 20. Qed.

Lemma TriageCacheMgr_members (E : Env) fs ok fs' :
  TriageCacheMgr E fs = Ret (ok, fs') ->
  statistics_ fs' = statistics_ fs /\ options_mgr_ fs' = options_mgr_ fs /\
  name_ fs' = name_ fs /\ type_ fs' = type_ fs /\
  fd_workspace_lock_ fs' = fd_workspace_lock_ fs /\
  workspace_ fs' = workspace_ fs /\
  workspace_fullpath_ fs' = workspace_fullpath_ fs /\
  path_workspace_lock_ fs' = path_workspace_lock_ fs /\
  path_crash_guard_ fs' = path_crash_guard_ fs /\
  found_previous_crash_ fs' = found_previous_crash_ fs /\
  nfs_mode_ fs' = nfs_mode_ fs /\
  uuid_cache_ fs' = uuid_cache_ fs /\
  (ok = true -> is_Some (cache_mgr_ fs')).
Proof.
  unfold TriageCacheMgr. intros H.
  assert (Hrun : forall fs1 : FileSystem,
            same_context fs
              (set_cache_mgr_instance_ (cache_mgr_instance_ fs)
                 (set_cache_mgr_ (cache_mgr_ fs) fs1)) ->
            ('(mgr, s) ← SetupCacheMgr E (S (size (options_mgr_ fs1)))
                          (cache_mgr_instance_ fs1) fs1;
             Ret (bool_decide (is_Some mgr), set_cache_mgr_ mgr s)) = Ret (ok, fs') ->
            statistics_ fs' = statistics_ fs /\ options_mgr_ fs' = options_mgr_ fs /\
            name_ fs' = name_ fs /\ type_ fs' = type_ fs /\
            fd_workspace_lock_ fs' = fd_workspace_lock_ fs /\
            workspace_ fs' = workspace_ fs /\
            workspace_fullpath_ fs' = workspace_fullpath_ fs /\
            path_workspace_lock_ fs' = path_workspace_lock_ fs /\
            path_crash_guard_ fs' = path_crash_guard_ fs /\
            found_previous_crash_ fs' = found_previous_crash_ fs /\
            nfs_mode_ fs' = nfs_mode_ fs /\
            uuid_cache_ fs' = uuid_cache_ fs /\
            (ok = true -> is_Some (cache_mgr_ fs'))).
  { intros fs1 Hctx Hrun.
    destruct (SetupCacheMgr E _ _ fs1) as [[mgr fs2] | |] eqn:Hsetup;
      cbn [mbind outcome_bind] in Hrun; try discriminate.
    apply SetupCacheMgr_post in Hsetup as (Hc & _).
    apply same_context_members in Hc. injection Hrun as <- <-.
    apply same_context_members in Hctx.
    destruct fs, fs1, fs2. cbn in *.
    destruct Hc as (-> & -> & -> & -> & -> & -> & -> & -> & -> & -> & -> & _ & _ & ->).
    destruct Hctx as (-> & -> & -> & -> & -> & -> & -> & -> & -> & -> & -> & _ & _ & ->).
    repeat split; try reflexivity.
    intros Hb. apply bool_decide_eq_true in Hb. exact Hb. }
  revert H.
  assert (Hopt : forall k, GetValue (set_cache_mgr_instance_ kDefaultCacheMgrInstance fs) k
                           = GetValue fs k) by (intros; destruct fs; reflexivity).
  rewrite Hopt.
  destruct (GetValue fs "CVMFS_CACHE_PRIMARY") as [instance |].
  - destruct (String.eqb instance ""); cbn [negb].
    + apply Hrun. destruct fs; reflexivity.
    + unfold CheckInstanceName.
      destruct (_ <? _)%nat.
      * intros [= <- <-]. destruct fs; cbn. repeat split; try reflexivity.
        discriminate.
      * destruct (CacheInstanceSanitizer_IsValid instance); cbn [negb].
        -- apply Hrun. destruct fs; reflexivity.
        -- intros [= <- <-]. destruct fs; cbn. repeat split; try reflexivity.
           discriminate.
  - apply Hrun. destruct fs; reflexivity.
Qed.

Lemma SetupUuid_members (E : Env) fs fs' :
  SetupUuid E fs = Ret fs' ->
  statistics_ fs' = statistics_ fs /\ options_mgr_ fs' = options_mgr_ fs /\
  name_ fs' = name_ fs /\ type_ fs' = type_ fs /\
  fd_workspace_lock_ fs' = fd_workspace_lock_ fs /\
  workspace_ fs' = workspace_ fs /\
  workspace_fullpath_ fs' = workspace_fullpath_ fs /\
  path_workspace_lock_ fs' = path_workspace_lock_ fs /\
  path_crash_guard_ fs' = path_crash_guard_ fs /\
  cache_mgr_ fs' = cache_mgr_ fs /\
  is_Some (uuid_cache_ fs').
Proof.
  unfold SetupUuid. intros H. destruct fs; cbn in H.
  ret_cases H; injection H as <-; cbn; repeat split; eauto.
Qed.

Lemma SetupNfsMaps_members (E : Env) fs ok fs' :
  SetupNfsMaps E fs = Ret (ok, fs') ->
  statistics_ fs' = statistics_ fs /\ options_mgr_ fs' = options_mgr_ fs /\
  name_ fs' = name_ fs /\ type_ fs' = type_ fs /\
  fd_workspace_lock_ fs' = fd_workspace_lock_ fs /\
  workspace_ fs' = workspace_ fs /\
  workspace_fullpath_ fs' = workspace_fullpath_ fs /\
  path_workspace_lock_ fs' = path_workspace_lock_ fs /\
  path_crash_guard_ fs' = path_crash_guard_ fs /\
  cache_mgr_ fs' = cache_mgr_ fs /\
  uuid_cache_ fs' = uuid_cache_ fs.
Proof.
  unfold SetupNfsMaps, CreateFile, IsNfsSource, IsHaNfsSource. intros H.
  destruct fs; cbn in H.
  ret_cases H; injection H as <- <-; cbn; repeat split; reflexivity.
Qed.

Lemma CreateDownloadManagers_abort (E : Env) (M : MountPoint.Collaborators) mp :
  MountPoint.CreateDownloadManagers E M mp = Abort ->
  uuid_cache_ (MountPoint.file_system_ mp) = None.
Proof.
  unfold MountPoint.CreateDownloadManagers.
  match goal with
  | |- context [uuid_cache_ (MountPoint.file_system_
                               (MountPoint.SetupHttpTuning E M
                                  (MountPoint.SetupDnsTuning E M false ?Y)))] =>
      destruct (SetupHttpTuning_post E M false
                  (MountPoint.SetupDnsTuning E M false Y)) as ((H1 & _) & _);
      destruct (SetupDnsTuning_post E M false false Y) as ((H2 & _) & _);
      assert (H3 : MountPoint.file_system_ Y = MountPoint.file_system_ mp)
        by (unfold MountPoint.GetValue; destruct mp; cbn; destruct_matches; reflexivity);
      rewrite H1, H2, H3
  end.
  destruct (uuid_cache_ (MountPoint.file_system_ mp)); [| reflexivity].
  destruct (String.eqb _ _); discriminate.
Qed.

(** The assertions of the constructor and of CreateAuthz: the mutex is
    initialised and the authz session manager exists. *)
Lemma CreateAuthz_returns (M : MountPoint.Collaborators) mp :
  MountPoint.AuthzSessionManager_Create M = true ->
  exists mp', MountPoint.CreateAuthz M mp = Ret mp'.
Proof.
  intros Ha. unfold MountPoint.CreateAuthz. destruct mp. cbn. rewrite Ha. cbn.
  eexists. reflexivity.
Qed.

Lemma MountPoint_Create_asserted (E : Env) (M : MountPoint.Collaborators)
  fqrn file_system options_mgr mp :
  MountPoint.Create E M fqrn file_system options_mgr = Ret mp ->
  MountPoint.pthread_mutex_init M = 0 /\
  MountPoint.AuthzSessionManager_Create M = true.
Proof.
  unfold MountPoint.Create, MountPoint.new.
  destruct (Z.eqb_spec (MountPoint.pthread_mutex_init M) 0) as [Hm | Hm];
    cbn [negb mbind outcome_bind]; [| discriminate].
  destruct (MountPoint.CreateStatistics _) as [mp1 | |];
    cbn [mbind outcome_bind]; try discriminate.
  unfold MountPoint.CreateAuthz. destruct mp1. cbn.
  destruct (MountPoint.AuthzSessionManager_Create M); [auto | discriminate].
Qed.

Lemma MountPoint_Create_returns (E : Env) (M : MountPoint.Collaborators)
  fqrn file_system options_mgr :
  statistics_ file_system = true ->
  is_Some (uuid_cache_ file_system) ->
  MountPoint.pthread_mutex_init M = 0 ->
  MountPoint.AuthzSessionManager_Create M = true ->
  exists mp, MountPoint.Create E M fqrn file_system options_mgr = Ret mp.
Proof.
  intros Hst [uuid Huuid] Hmutex Hauthz.
  destruct (MountPoint.Create E M fqrn file_system options_mgr) as [mp | |] eqn:H;
    [eauto | exfalso | exfalso; exact (MountPoint_Create_fuel E M _ _ _ H)].
  revert H. unfold MountPoint.Create.
  destruct (MountPoint.new M fqrn file_system _) as [mp0 | |] eqn:Hnew;
    cbn [mbind outcome_bind].
  2:{ intros _. revert Hnew. unfold MountPoint.new. rewrite Hmutex. discriminate. }
  2:{ intros _. exact (MountPoint_new_fuel M _ _ _ Hnew). }
  apply MountPoint_new_fresh in Hnew as (_ & _ & _ & _ & _ & Hfs0 & _).
  destruct (MountPoint.CreateStatistics mp0) as [mp1 | |] eqn:Hstat;
    cbn [mbind outcome_bind].
  2:{ intros _. revert Hstat. unfold MountPoint.CreateStatistics, FileSystem_statistics.
      rewrite Hfs0, Hst. cbn [negb]. destruct (bool_decide _); discriminate. }
  2:{ intros _. exact (MountPoint_CreateStatistics_fuel mp0 Hstat). }
  apply (MountPoint_CreateStatistics_post false) in Hstat as ((Hf1 & _) & _).
  destruct (CreateAuthz_returns M mp1 Hauthz) as (mpa & Hmp2).
  rewrite Hmp2. cbn [mbind outcome_bind].
  apply (CreateAuthz_post M false) in Hmp2 as ((Hf2' & _) & _).
  match goal with
  | |- context [MountPoint.CreateSignatureManager M ?X] =>
      assert (Hf1' : MountPoint.file_system_ X = MountPoint.file_system_ mp1)
        by (rewrite <- Hf2'; destruct mpa; reflexivity);
      generalize dependent X
  end.
  intros mp1' Hf1'.
  destruct (CreateSignatureManager_post M false mp1') as ((Hf2 & _) & _).
  destruct (MountPoint.CreateSignatureManager M mp1') as [ok2 mp2].
  cbn [fst snd] in Hf2. destruct ok2; cbn [negb]; [| discriminate].
  destruct (CheckBlacklists_post E M false mp2) as ((Hf3 & _) & _).
  destruct (MountPoint.CheckBlacklists E M mp2) as [ok3 mp3].
  cbn [fst snd] in Hf3. destruct ok3; cbn [negb]; [| discriminate].
  destruct (MountPoint.CreateDownloadManagers E M mp3) as [[ok4 mp4] | |] eqn:Hdl;
    cbn [mbind outcome_bind].
  - destruct ok4; cbn [negb]; [| discriminate].
    destruct (MountPoint.CreateCatalogManager E M _) as [ok5 mp5].
    destruct ok5; cbn [negb]; [| discriminate].
    destruct (MountPoint.CreateTracer _) as [ok6 mp6].
    destruct ok6; discriminate.
  - intros _. apply CreateDownloadManagers_abort in Hdl. congruence.
  - intros _. exact (CreateDownloadManagers_fuel E M mp3 Hdl).
Qed.

Lemma FileSystem_CreateStatistics_members fs :
  statistics_ (CreateStatistics fs) = true /\
  options_mgr_ (CreateStatistics fs) = options_mgr_ fs /\
  name_ (CreateStatistics fs) = name_ fs /\ type_ (CreateStatistics fs) = type_ fs.
Proof. unfold CreateStatistics. destruct fs; cbn. auto. Qed.

Lemma completed_stages_members (E : Env) fs0 fs_end :
  completed (FileSystem_stages E) fs0 fs_end ->
  statistics_ fs_end = true /\
  is_Some (cache_mgr_ fs_end) /\
  is_Some (uuid_cache_ fs_end) /\
  0 <= fd_workspace_lock_ fs_end /\
  has_custom_sqlitevfs_ fs_end = true /\
  options_mgr_ fs_end = options_mgr_ fs0 /\
  name_ fs_end = name_ fs0 /\
  type_ fs_end = type_ fs0.
Proof.
  unfold FileSystem_stages. intros H.
  apply completed_cons in H as (s1 & [= <-] & H).
  apply completed_cons in H as (s2 & [= <-] & H).
  apply completed_cons in H as (s3 & H3 & H).
  apply completed_cons in H as (s4 & H4 & H).
  apply completed_cons in H as (s5 & H5 & H).
  apply completed_cons in H as (s6 & [= <-] & H).
  apply completed_cons in H as (s7 & H7 & H).
  apply completed_cons in H as (s8 & H8 & H).
  apply completed_cons in H as (s9 & H9 & H).
  apply completed_cons in H as (s10 & H10 & H).
  apply completed_cons in H as (s11 & [= <-] & H).
  unfold completed in H. cbn [run_stages map] in H. injection H as <-.
  destruct (SetupLogging_members fs0) as (L1 & L2 & L3 & L4).
  destruct (FileSystem_CreateStatistics_members (SetupLogging fs0)) as (C1 & C2 & C3 & C4).
  destruct (SetupSqlite E (CreateStatistics (SetupLogging fs0))) as [s3' | |] eqn:Hq;
    cbn [mbind outcome_bind] in H3; try discriminate.
  injection H3 as ->.
  destruct (SetupSqlite_members E _ _ Hq) as (Q1 & Q2 & Q3 & Q4).
  destruct (DetermineNfsMode_members E s3) as (N1 & N2 & N3 & N4).
  destruct (DetermineNfsMode E s3) as [ok4 s4'] eqn:Hn. cbn [snd] in N1, N2, N3, N4.
  injection H4 as -> ->.
  pose proof (SetupWorkspace_result E s4 true s5 H5) as (Hf & Hr). cbv zeta in Hr.
  assert (Hlock : 0 <= fd_workspace_lock_ s5).
  { destruct (IsDefined s4 "CVMFS_CACHE_DIR" && IsDefined s4 "CVMFS_CACHE_BASE").
    - destruct Hr as (Hr & _). discriminate Hr.
    - destruct Hr as (_ & _ & Hr). exact (proj1 (proj2 (Hr eq_refl))). }
  clear Hr.
  destruct (workspace_frame_members _ _ Hf) as (W1 & W2 & W3 & W4 & _).
  destruct (TriageCacheMgr_members E _ _ _ H7)
    as (T1 & T2 & T3 & T4 & T5 & _ & _ & _ & _ & _ & _ & _ & T6).
  specialize (T6 eq_refl).
  destruct (SetupUuid E s7) as [s8' | |] eqn:Hu;
    cbn [mbind outcome_bind] in H8; try discriminate.
  injection H8 as ->.
  destruct (SetupUuid_members E _ _ Hu)
    as (U1 & U2 & U3 & U4 & U5 & _ & _ & _ & _ & U6 & U7).
  destruct (SetupNfsMaps_members E _ _ _ H9)
    as (M1 & M2 & M3 & M4 & M5 & _ & _ & _ & _ & M6 & M7).
  cbv zeta in H10. destruct (negb (RegisterVfsRdOnly E)); [discriminate |].
  injection H10 as <-.
  assert (Hio : forall e (fs : FileSystem),
             statistics_ (io e fs) = statistics_ fs /\
             cache_mgr_ (io e fs) = cache_mgr_ fs /\
             uuid_cache_ (io e fs) = uuid_cache_ fs /\
             fd_workspace_lock_ (io e fs) = fd_workspace_lock_ fs /\
             has_custom_sqlitevfs_ (io e fs) = has_custom_sqlitevfs_ fs /\
             options_mgr_ (io e fs) = options_mgr_ fs /\
             name_ (io e fs) = name_ fs /\ type_ (io e fs) = type_ fs)
    by (intros e f; destruct f; cbn; auto 10).
  assert (Hset : forall (fs : FileSystem),
             statistics_ (set_has_custom_sqlitevfs_ true fs) = statistics_ fs /\
             cache_mgr_ (set_has_custom_sqlitevfs_ true fs) = cache_mgr_ fs /\
             uuid_cache_ (set_has_custom_sqlitevfs_ true fs) = uuid_cache_ fs /\
             fd_workspace_lock_ (set_has_custom_sqlitevfs_ true fs) = fd_workspace_lock_ fs /\
             has_custom_sqlitevfs_ (set_has_custom_sqlitevfs_ true fs) = true /\
             options_mgr_ (set_has_custom_sqlitevfs_ true fs) = options_mgr_ fs /\
             name_ (set_has_custom_sqlitevfs_ true fs) = name_ fs /\
             type_ (set_has_custom_sqlitevfs_ true fs) = type_ fs)
    by (intros f; destruct f; cbn; auto 10).
  destruct (Hio IoClientCtx (set_has_custom_sqlitevfs_ true (io IoRegisterVfsRdOnly s9)))
    as (A1 & A2 & A3 & A4 & A5 & A6 & A7 & A8).
  destruct (Hset (io IoRegisterVfsRdOnly s9)) as (B1 & B2 & B3 & B4 & B5 & B6 & B7 & B8).
  destruct (Hio IoRegisterVfsRdOnly s9) as (D1 & D2 & D3 & D4 & D5 & D6 & D7 & D8).
  destruct (Hio (IoSqliteTempDirectory (workspace_ s5)) s5)
    as (F1 & F2 & F3 & F4 & F5 & F6 & F7 & F8).
  rewrite A1, A2, A3, A4, A5, A6, A7, A8, B1, B2, B3, B4, B5, B6, B7, B8,
    D1, D2, D3, D4, D6, D7, D8.
  rewrite M1, M6, M7, M5, M2, M3, M4, U1, U6, U5, U2, U3, U4.
  rewrite T1, T5, T2, T3, T4, F1, F4, F6, F7, F8, W1, W2, W3, W4.
  rewrite N1, N2, N3, N4, Q1, Q2, Q3, Q4, C1, C2, C3, C4, L2, L3, L4.
  split; [reflexivity |]. split; [exact T6 |]. split; [exact U7 |].
  split; [exact Hlock |]. split; [reflexivity |]. split; [reflexivity |].
  split; reflexivity.
Qed.

(** X5. A file system that FileSystem::Create returns with the Ok boot
    status is complete: its statistics object, cache manager and uuid
    cache exist, the workspace lock is held, the read-only SQLite VFS is
    registered, and the options manager, name and type are the ones
    passed in.  On such a file system MountPoint::Create returns a mount
    point exactly when its two assertions on the collaborators hold, that
    the mutex is initialised and that the authz session manager exists:
    neither the statistics dereference nor the uuid dereference in
    CreateDownloadManagers can stop it. *)
Theorem booted_file_system_is_complete (E : Env) g fs_info fs :
  FileSystem_Create E g fs_info = Ret fs ->
  boot_status_ fs = kFailOk ->
  statistics_ fs = true /\
  is_Some (cache_mgr_ fs) /\
  is_Some (uuid_cache_ fs) /\
  0 <= fd_workspace_lock_ fs /\
  has_custom_sqlitevfs_ fs = true /\
  options_mgr_ fs = info_options_mgr fs_info /\
  name_ fs = info_name fs_info /\
  type_ fs = info_type fs_info /\
  forall (M : MountPoint.Collaborators) fqrn options_mgr,
    (exists mp, MountPoint.Create E M fqrn fs options_mgr = Ret mp) <->
    MountPoint.pthread_mutex_init M = 0 /\
    MountPoint.AuthzSessionManager_Create M = true.
Proof.
  intros H Hok.
  destruct (FileSystem_Create_outcome E g fs_info fs H) as (fs0 & Hnew & _ & Hcases).
  destruct Hcases as [(fs_end & Hc & ->) | (n & before & _ & Hne & _)];
    [| contradiction].
  destruct (completed_stages_members E fs0 fs_end Hc)
    as (P1 & P2 & P3 & P4 & P5 & P6 & P7 & P8).
  assert (Hsb : forall (f : FileSystem),
             statistics_ (set_boot_status_ kFailOk f) = statistics_ f /\
             cache_mgr_ (set_boot_status_ kFailOk f) = cache_mgr_ f /\
             uuid_cache_ (set_boot_status_ kFailOk f) = uuid_cache_ f /\
             fd_workspace_lock_ (set_boot_status_ kFailOk f) = fd_workspace_lock_ f /\
             has_custom_sqlitevfs_ (set_boot_status_ kFailOk f) = has_custom_sqlitevfs_ f /\
             options_mgr_ (set_boot_status_ kFailOk f) = options_mgr_ f /\
             name_ (set_boot_status_ kFailOk f) = name_ f /\
             type_ (set_boot_status_ kFailOk f) = type_ f)
    by (intros f; destruct f; cbn; auto 10).
  destruct (Hsb fs_end) as (S1 & S2 & S3 & S4 & S5 & S6 & S7 & S8).
  rewrite S1, S2, S3, S4, S5, S6, S7, S8.
  split; [exact P1 |]. split; [exact P2 |]. split; [exact P3 |].
  split; [exact P4 |]. split; [exact P5 |].
  unfold FileSystem_new in Hnew. destruct g; [discriminate |].
  injection Hnew as <-. cbn [options_mgr_ name_ type_] in P6, P7, P8.
  split; [exact P6 |]. split; [exact P7 |]. split; [exact P8 |].
  intros M fqrn options_mgr. split.
  - intros (mp & Hmp). exact (MountPoint_Create_asserted E M _ _ _ _ Hmp).
  - intros [Hmutex Hauthz]. apply MountPoint_Create_returns.
    + rewrite S1. exact P1.
    + rewrite S3. exact P3.
    + exact Hmutex.
    + exact Hauthz.
Qed.

Lemma booted_file_system_is_complete_witness :
  exists fs,
    FileSystem_Create Examples.env false (Examples.fs_info kFsFuse ∅ false) = Ret fs /\
    boot_status_ fs = kFailOk /\
    statistics_ fs = true /\ is_Some (cache_mgr_ fs) /\ is_Some (uuid_cache_ fs) /\
    exists mp,
      MountPoint.Create Examples.env (Examples.collaborators "DIRECT") "x.example.org"
        fs None = Ret mp.
Proof.
  assert (H : exists fs,
            FileSystem_Create Examples.env false (Examples.fs_info kFsFuse ∅ false)
              = Ret fs /\ boot_status_ fs = kFailOk)
    by (eexists; split; vm_compute; reflexivity).
  destruct H as (fs & H & Hs). exists fs. split; [exact H |]. split; [exact Hs |].
  destruct (booted_file_system_is_complete Examples.env false _ fs H Hs)
    as (P1 & P2 & P3 & _ & _ & _ & _ & _ & P7).
  split; [exact P1 |]. split; [exact P2 |]. split; [exact P3 |].
  apply P7. split; reflexivity.
Defined.

(** ** NFS maps *)

Lemma sentinel_not_empty (path name : string) :
  String.eqb (path +:+ "/no_nfs_maps." +:+ name) "" = false.
Proof. destruct path; reflexivity. Qed.

(** X6. SetupNfsMaps on a module built with NFS support.  A failure
    always carries the NfsMaps code and only happens to an NFS source.
    The maps directory is the workspace unless the source is highly
    available.  A module that is no NFS source succeeds with the boot
    outcome untouched; on a POSIX cache its only external call leaves the
    no_nfs_maps sentinel in the cache directory, tolerating a failure
    exactly for an alien cache.  The maps are marked as set up only for
    an NFS source whose POSIX cache is the workspace and carries no such
    sentinel, after the sentinel check, the creation of
    <maps dir>/nfs_maps.<name> and the initialisation with the inode
    offset plus one, in this order. *)
Theorem nfs_maps_setup (E : Env) (fs : FileSystem) ok fs' :
  CVMFS_NFS_SUPPORT E = true ->
  has_nfs_maps_ fs = false ->
  SetupNfsMaps E fs = Ret (ok, fs') ->
  let sentinel path := path +:+ "/no_nfs_maps." +:+ name_ fs in
  let dir := nfs_maps_dir_ fs' +:+ "/nfs_maps." +:+ name_ fs in
  nfs_maps_dir_ fs' = (if IsHaNfsSource fs then nfs_maps_dir_ fs else workspace_ fs) /\
  has_nfs_maps_ fs' = ok && IsNfsSource fs /\
  (ok = false -> boot_status_ fs' = kFailNfsMaps /\ IsNfsSource fs = true) /\
  (IsNfsSource fs = false ->
   boot_status_ fs' = boot_status_ fs /\ boot_error_ fs' = boot_error_ fs /\
   match cache_mgr_ fs with
   | Some (PosixCacheManager path alien _ _) =>
       trace_ fs' = (trace_ fs ++ [IoCreateFile (sentinel path) alien])%list /\
       (CreateFile_creates E (sentinel path) 384 = true \/ alien = true)
   | _ => trace_ fs' = trace_ fs
   end) /\
  (has_nfs_maps_ fs' = true ->
   (exists alien avoid_rename has_quota,
      cache_mgr_ fs =
        Some (PosixCacheManager (workspace_ fs) alien avoid_rename has_quota)) /\
   FileExists E (sentinel (workspace_ fs)) = false /\
   trace_ fs' =
     (trace_ fs ++
      [IoFileExists (sentinel (workspace_ fs));
       IoMkdirDeep dir 448;
       IoNfsMapsInit dir (kInodeOffset E + 1) (found_previous_crash_ fs)
         (IsHaNfsSource fs)])%list).
Proof.
  intros Hsup Hnone H sentinel dir. subst sentinel dir. revert H.
  unfold SetupNfsMaps, CreateFile. rewrite Hsup. cbn [negb].
  unfold IsNfsSource, IsHaNfsSource.
  destruct fs as [nm ex ty op ww fg st ws wf pl fd pc fp nmode nd ci cs cm uu hn hs bs be tr].
  cbn in Hnone. subst hn. cbn.
  destruct (Z.land nmode kNfsMapsHa =? 0) eqn:Hha;
    (destruct (Z.land nmode kNfsMaps =? 0) eqn:Hsrc);
    destruct cm as [[path alien avoid has_quota | | |] |];
    repeat (cbn; rewrite ?Hha, ?Hsrc; cbn;
            match goal with
            | |- context [if ?c then _ else _] => destruct c eqn:?
            end);
    cbn; rewrite ?Hha, ?Hsrc; cbn;
    intros H; try discriminate H; injection H as <- <-; cbn; rewrite ?Hha, ?Hsrc; cbn;
    (split; [reflexivity |]); (split; [reflexivity |]);
    (split; [intros Hok; try discriminate Hok; split; reflexivity |]);
    (split; [intros Hsrc'; try discriminate Hsrc';
             repeat (split; [reflexivity |]); try reflexivity;
             match goal with
             | Hc : (CreateFile_creates E _ _ || ?a) = true |- _ =>
                 apply orb_true_iff in Hc; exact Hc
             end |]);
    intros Hmaps; try discriminate Hmaps;
    repeat match goal with
           | Hc : negb _ = false |- _ => apply negb_false_iff in Hc
           | Hc : String.eqb _ _ = true |- _ => apply String.eqb_eq in Hc; subst
           | Hc : (_ && _) = false |- _ => cbn in Hc
           end;
    (split; [eauto |]);
    rewrite ?sentinel_not_empty in *; cbn [negb andb] in *;
    (split; [assumption |]); rewrite <- !app_assoc; reflexivity.
Qed.

Lemma nfs_maps_setup_witness :
  exists fs',
    SetupNfsMaps Examples.env (set_nfs_mode_ kNfsMaps Examples.booted_file_system)
      = Ret (true, fs') /\
    has_nfs_maps_ fs' = true /\
    nfs_maps_dir_ fs' = workspace_ Examples.booted_file_system.
Proof.
  assert (H : exists fs',
            SetupNfsMaps Examples.env
              (set_nfs_mode_ kNfsMaps Examples.booted_file_system) = Ret (true, fs'))
    by (eexists; vm_compute; reflexivity).
  destruct H as (fs' & H). exists fs'. split; [exact H |].
  assert (Hs : CVMFS_NFS_SUPPORT Examples.env = true) by reflexivity.
  assert (Hn : has_nfs_maps_ (set_nfs_mode_ kNfsMaps Examples.booted_file_system) = false)
    by (vm_compute; reflexivity).
  destruct (nfs_maps_setup Examples.env _ true fs' Hs Hn H) as (P1 & P2 & _).
  split.
  - rewrite P2. vm_compute. reflexivity.
  - rewrite P1. vm_compute. reflexivity.
Defined.

(** ** Keys and blacklists *)

(** X7. CreateSignatureManager.  The keys handed to LoadPublicRsaKeys are
    the value of CVMFS_PUBLIC_KEY when it is set, and then no directory is
    searched, not even a configured CVMFS_KEYS_DIR; otherwise they are
    the .pub files of CVMFS_KEYS_DIR, or of /etc/cvmfs/keys, joined by
    colons.  The trusted certificates are only loaded after the keys
    were.  The call succeeds exactly when every load does; a failure
    leaves the signature code, a success leaves the boot outcome alone,
    and the manager is constructed either way. *)
Theorem signature_manager_keys (M : MountPoint.Collaborators) (mp : MountPoint.t) :
  let keys_dir :=
    match MountPoint.GetValue mp "CVMFS_KEYS_DIR" with
    | Some d => d
    | None => "/etc/cvmfs/keys"
    end in
  let public_keys :=
    match MountPoint.GetValue mp "CVMFS_PUBLIC_KEY" with
    | Some k => k
    | None => String.concat ":" (MountPoint.FindFiles M keys_dir ".pub")
    end in
  let certs := MountPoint.GetValue mp "CVMFS_TRUSTED_CERTS" in
  let r := MountPoint.CreateSignatureManager M mp in
  fst r =
    MountPoint.LoadPublicRsaKeys M public_keys &&
    match certs with Some c => MountPoint.LoadTrustedCaCrl M c | None => true end /\
  MountPoint.signature_mgr_ (snd r) = true /\
  MountPoint.trace_ (snd r) =
    (MountPoint.trace_ mp ++
     [MountPoint.EvSignatureInit] ++
     (if MountPoint.IsDefined mp "CVMFS_PUBLIC_KEY" then []
      else [MountPoint.EvFindFiles keys_dir ".pub"]) ++
     [MountPoint.EvLoadPublicRsaKeys public_keys] ++
     (if MountPoint.LoadPublicRsaKeys M public_keys then
        match certs with Some c => [MountPoint.EvLoadTrustedCaCrl c] | None => [] end
      else []))%list /\
  (if fst r then
     MountPoint.boot_status_ (snd r) = MountPoint.boot_status_ mp /\
     MountPoint.boot_error_ (snd r) = MountPoint.boot_error_ mp
   else
     MountPoint.boot_status_ (snd r) = kFailSignature /\
     MountPoint.boot_error_ (snd r) =
       (if MountPoint.LoadPublicRsaKeys M public_keys
        then "failed to load trusted certificates"
        else "failed to load public key(s)")).
Proof.
  intros keys_dir public_keys certs r. subst keys_dir public_keys certs r.
  unfold MountPoint.CreateSignatureManager, MountPoint.IsDefined, MountPoint.GetValue.
  destruct mp as [fq fsys op st af asm aa bt sm dm edm fe efe ia cm tb tc mt kc fc hm hmr mr rt bs be tr]; cbn.
  destruct (op !! "CVMFS_PUBLIC_KEY") as [k |]; cbn;
    [| destruct (op !! "CVMFS_KEYS_DIR") as [d |]; cbn];
    (destruct (MountPoint.LoadPublicRsaKeys M _) eqn:Hkeys; cbn;
     [destruct (op !! "CVMFS_TRUSTED_CERTS") as [c |]; cbn;
      [destruct (MountPoint.LoadTrustedCaCrl M c); cbn |] |]);
    rewrite <- ?app_assoc; cbn;
    repeat split; reflexivity.
Qed.

(** X8. CheckBlacklists.  The local blacklist is CVMFS_BLACKLIST or
    /etc/cvmfs/blacklist; it is loaded, replacing what is there, only when
    the file exists.  The blacklist of the config repository is not looked
    at unless the local one went through and a config repository is set
    up; if the file exists it is loaded in append mode.  A missing file is
    no error.  The call succeeds exactly when every load it attempts
    does; a failure leaves the signature code. *)
Theorem blacklist_loading (E : Env) (M : MountPoint.Collaborators) (mp : MountPoint.t) :
  let blacklist :=
    match MountPoint.GetValue mp "CVMFS_BLACKLIST" with
    | Some v => v
    | None => "/etc/cvmfs/blacklist"
    end in
  let local_ok := negb (FileExists E blacklist) || MountPoint.LoadBlacklist M blacklist false in
  let config :=
    match MountPoint.HasConfigRepository M (MountPoint.fqrn_ mp) with
    | Some p => Some (p +:+ "blacklist")
    | None => None
    end in
  let r := MountPoint.CheckBlacklists E M mp in
  fst r =
    local_ok &&
    match config with
    | Some b => negb (FileExists E b) || MountPoint.LoadBlacklist M b true
    | None => true
    end /\
  MountPoint.trace_ (snd r) =
    (MountPoint.trace_ mp ++
     [MountPoint.EvFileExists blacklist] ++
     (if FileExists E blacklist then [MountPoint.EvLoadBlacklist blacklist false] else []) ++
     (if local_ok then
        match config with
        | Some b =>
            [MountPoint.EvFileExists b] ++
            (if FileExists E b then [MountPoint.EvLoadBlacklist b true] else [])
        | None => []
        end
      else []))%list /\
  (if fst r then
     MountPoint.boot_status_ (snd r) = MountPoint.boot_status_ mp /\
     MountPoint.boot_error_ (snd r) = MountPoint.boot_error_ mp
   else
     MountPoint.boot_status_ (snd r) = kFailSignature /\
     MountPoint.boot_error_ (snd r) =
       (if local_ok then "failed to load blacklist from config repository"
        else "failed to load blacklist " +:+ blacklist)).
Proof.
  intros blacklist local_ok config r. subst blacklist local_ok config r.
  unfold MountPoint.CheckBlacklists, MountPoint.GetValue.
  destruct mp as [fq fsys op st af asm aa bt sm dm edm fe efe ia cm tb tc mt kc fc hm hmr mr rt bs be tr]; cbn.
  destruct (op !! "CVMFS_BLACKLIST") as [b |]; cbn;
    (destruct (FileExists E _) eqn:Hex; cbn;
     [destruct (MountPoint.LoadBlacklist M _ false) eqn:Hload; cbn |]);
    try (destruct (MountPoint.HasConfigRepository M fq) as [p |]; cbn;
         [destruct (FileExists E (p +:+ "blacklist")) eqn:Hex2; cbn;
          [destruct (MountPoint.LoadBlacklist M _ true) eqn:Hload2; cbn |] |]);
    rewrite <- ?app_assoc; cbn;
    repeat split; reflexivity.
Qed.

(** ** Cache tables *)

Lemma land_mask_64 (x : Z) :
  0 <= x < 2 ^ 32 ->
  Z.land x (wrap_uint32 (Z.lnot (Z.shiftl 1 6 - 1))) = 64 * (x / 64).
Proof.
  intros Hx.
  change (wrap_uint32 (Z.lnot (Z.shiftl 1 6 - 1))) with (Z.shiftl (Z.ones 26) 6).
  transitivity (Z.shiftl (Z.shiftr x 6) 6).
  - apply Z.bits_inj'. intros n Hn. rewrite Z.land_spec.
    destruct (Z.ltb_spec n 6) as [Hlt | Hge].
    + rewrite !Z.shiftl_spec_low by lia. apply andb_false_r.
    + rewrite !Z.shiftl_spec by lia. rewrite Z.shiftr_spec by lia.
      replace (n - 6 + 6) with n by lia.
      destruct (Z.ltb_spec n 32) as [Hlt | Hge'].
      * rewrite Z.ones_spec_low by lia. apply andb_true_r.
      * rewrite Z.ones_spec_high by lia. rewrite andb_false_r.
        destruct (Z.eq_dec x 0) as [-> | Hnz]; [rewrite Z.bits_0; reflexivity |].
        symmetry. apply Z.bits_above_log2; [lia |].
        assert (Z.log2 x < 32) by (apply Z.log2_lt_pow2; lia). lia.
  - rewrite Z.shiftr_div_pow2, Z.shiftl_mul_pow2 by lia.
    change (2 ^ 6) with 64. lia.
Qed.

(** X9. CreateTables.  Outside the fuse module only the simplified tables
    of the library are set up and CVMFS_MEMCACHE_SIZE is not read.  In
    the fuse module the memory cache size (the option in MiB, wrapping at
    64 bits, or the default) is divided by the unit size and cut to 32
    bits; the inode cache and the path cache both get this number of
    units rounded down to a multiple of 64, the md5path cache seven times
    the units, cut to 32 bits before it is rounded down likewise.  Every
    size is a multiple of 64 below 2^32 within 63 of the unrounded
    number, so fewer than 64 units give empty inode and path caches. *)
Theorem table_sizes (E : Env) (M : MountPoint.Collaborators) (mp : MountPoint.t) :
  let mem_cache_size :=
    match MountPoint.GetValue mp "CVMFS_MEMCACHE_SIZE" with
    | Some optarg => (String2Uint64 E optarg * 1024 * 1024) mod 2 ^ 64
    | None => MountPoint.kDefaultMemcacheSize M
    end in
  let units := (mem_cache_size / MountPoint.memcache_unit_size M) mod 2 ^ 32 in
  let round64 n := 64 * (n / 64) in
  let mp' := MountPoint.CreateTables E M mp in
  MountPoint.tables_ mp' = true /\
  (type_ (MountPoint.file_system_ mp) <> kFsFuse ->
   MountPoint.trace_ mp' = (MountPoint.trace_ mp ++ [MountPoint.EvTablesLibrary])%list) /\
  (type_ (MountPoint.file_system_ mp) = kFsFuse ->
   MountPoint.trace_ mp' =
     (MountPoint.trace_ mp ++
      [MountPoint.EvTablesFuse (round64 units) (round64 units)
         (round64 ((units * 7) mod 2 ^ 32));
       MountPoint.EvInodeTracker])%list /\
   0 <= round64 units <= units /\ units < round64 units + 64 /\ units < 2 ^ 32 /\
   (units < 64 -> round64 units = 0) /\
   0 <= round64 ((units * 7) mod 2 ^ 32) < 2 ^ 32).
Proof.
  intros mem_cache_size units round64 mp'.
  assert (Hu : 0 <= units < 2 ^ 32) by (apply Z.mod_pos_bound; lia).
  assert (Hu7 : 0 <= (units * 7) mod 2 ^ 32 < 2 ^ 32) by (apply Z.mod_pos_bound; lia).
  assert (Hr : forall n, 0 <= n -> 0 <= round64 n <= n /\ n < round64 n + 64).
  { intros n Hn. unfold round64. pose proof (Z.div_mod n 64 ltac:(lia)) as Hd.
    pose proof (Z.mod_pos_bound n 64 ltac:(lia)). lia. }
  split; [| split].
  - subst mp'. unfold MountPoint.CreateTables.
    destruct (negb _); destruct mp; reflexivity.
  - intros Hty. subst mp'. unfold MountPoint.CreateTables.
    destruct (bool_decide_reflect (type_ (MountPoint.file_system_ mp) = kFsFuse));
      [contradiction |].
    cbn [negb]. destruct mp; reflexivity.
  - intros Hty. split; [| split; [| split; [| split; [| split]]]].
    + subst mp'. unfold MountPoint.CreateTables.
      rewrite (bool_decide_eq_true_2 _ Hty). cbn [negb].
      fold mem_cache_size. unfold wrap_uint64. fold mem_cache_size.
      cbv zeta. unfold wrap_uint32 at 2 4 6. fold units.
      unfold wrap_uint32 at 3. rewrite !land_mask_64 by assumption.
      destruct mp; cbn. rewrite <- app_assoc. reflexivity.
    + apply Hr. lia.
    + apply Hr. lia.
    + lia.
    + intros Hsmall. unfold round64. rewrite Z.div_small by lia. reflexivity.
    + pose proof (Hr _ (proj1 Hu7)). lia.
Qed.

(** ** The history database *)

Lemma MountPoint_IsDefined_GetValue (mp : MountPoint.t) (key : string) :
  MountPoint.IsDefined mp key =
  match MountPoint.GetValue mp key with Some _ => true | None => false end.
Proof.
  unfold MountPoint.IsDefined, MountPoint.GetValue.
  destruct (MountPoint.options_mgr_ mp !! key) as [v |].
  - apply bool_decide_eq_true. eauto.
  - apply bool_decide_eq_false. intros [x Hx]. discriminate.
Qed.

(** X10. The history database in DetermineRootHash.  With no root hash
    configured but a tag or a date, the history is fetched first.  If the
    manifest cannot be fetched, names no history, or the download fails,
    the call fails with the History code and nothing is opened or
    unlinked.  Otherwise the database is opened under the path "@" and
    the descriptor of the download, and whatever happens then -- the
    database does not open, the date is invalid, the tag is missing, or
    the tag is found -- the last thing the call does is to unlink that
    path, once.  A failure always carries the History code; a success
    leaves the boot outcome alone. *)
Theorem history_file_unlinked (E : Env) (M : MountPoint.Collaborators)
  (mp : MountPoint.t) :
  MountPoint.GetValue mp "CVMFS_ROOT_HASH" = None ->
  MountPoint.IsDefined mp "CVMFS_REPOSITORY_TAG" ||
    MountPoint.IsDefined mp "CVMFS_REPOSITORY_DATE" = true ->
  let r := MountPoint.DetermineRootHash E M mp in
  let fetched :=
    match MountPoint.manifest_Fetch M (MountPoint.fqrn_ mp) with
    | Some history_hash =>
        if MountPoint.IsNull history_hash then None
        else if MountPoint.Fetcher_Fetch M history_hash <? 0 then None
        else Some (history_hash, MountPoint.Fetcher_Fetch M history_hash)
    | None => None
    end in
  (if fst (fst r) then
     MountPoint.boot_status_ (snd r) = MountPoint.boot_status_ mp /\
     MountPoint.boot_error_ (snd r) = MountPoint.boot_error_ mp
   else MountPoint.boot_status_ (snd r) = kFailHistory) /\
  match fetched with
  | Some (history_hash, fd) =>
      let history_path := "@" +:+ StringifyInt E fd in
      MountPoint.trace_ (snd r) =
        (MountPoint.trace_ mp ++
         [MountPoint.EvManifestFetch; MountPoint.EvFetch history_hash;
          MountPoint.EvHistoryOpen history_path;
          MountPoint.EvUnlink history_path])%list
  | None =>
      fst r = (false, MountPoint.NullHash) /\
      exists evs,
        MountPoint.trace_ (snd r) =
          (MountPoint.trace_ mp ++ MountPoint.EvManifestFetch :: evs)%list /\
        forall e, e ∈ evs -> exists h, e = MountPoint.EvFetch h
  end.
Proof.
  intros Hroot Hdef r fetched. subst r fetched.
  rewrite !MountPoint_IsDefined_GetValue in Hdef.
  unfold MountPoint.DetermineRootHash, MountPoint.FetchHistory.
  rewrite Hroot, !MountPoint_IsDefined_GetValue.
  revert Hdef. clear Hroot. unfold MountPoint.GetValue.
  destruct mp as [fq fsys op st af asm aa bt sm dm edm fe efe ia cm tb tc mt kc fc hm hmr mr rt bs be tr]; cbn.
  destruct (op !! "CVMFS_REPOSITORY_TAG") as [tag_name |] eqn:Htag;
    (destruct (op !! "CVMFS_REPOSITORY_DATE") as [date |] eqn:Hdate);
    cbn; intros Hdef; try discriminate Hdef; clear Hdef;
    (destruct (MountPoint.manifest_Fetch M fq) as [[| hex suffix] |]; cbn;
     [| destruct (MountPoint.Fetcher_Fetch M _ <? 0) eqn:Hfd; cbn;
        [| destruct (MountPoint.SqliteHistory_Open M _) as [tag_db |]; cbn;
           rewrite ?Htag, ?Hdate; cbn;
           [repeat match goal with
                   | |- context [MountPoint.IsoTimestamp2UtcTime M ?d =? 0] =>
                       destruct (MountPoint.IsoTimestamp2UtcTime M d =? 0) eqn:?; cbn
                   | |- context [match MountPoint.GetByDate ?d ?t with _ => _ end] =>
                       destruct (MountPoint.GetByDate d t) eqn:?; cbn
                   | |- context [match MountPoint.GetByName ?d ?t with _ => _ end] =>
                       destruct (MountPoint.GetByName d t) eqn:?; cbn
                   end |]] |]);
    rewrite <- ?app_assoc; cbn;
    (split; [first [reflexivity | split; reflexivity] |]);
    try reflexivity; (split; [reflexivity |]).
  all: try (exists []; split; [reflexivity |]; intros e He; inversion He).
  all: eexists [_]; split; [rewrite <- ?app_assoc; reflexivity |];
    intros e He; apply list_elem_of_singleton in He; eauto.
Qed.

Lemma history_file_unlinked_witness :
  MountPoint.trace_
    (snd (MountPoint.DetermineRootHash Examples.env (Examples.collaborators "DIRECT")
            (Examples.mount_point "DIRECT" {[ "CVMFS_REPOSITORY_TAG" := "v1" ]}))) =
  [MountPoint.EvManifestFetch; MountPoint.EvFetch (MountPoint.Digest "aa" "H"%char);
   MountPoint.EvHistoryOpen "@n"; MountPoint.EvUnlink "@n"].
Proof.
  assert (H1 : MountPoint.GetValue
                 (Examples.mount_point "DIRECT" {[ "CVMFS_REPOSITORY_TAG" := "v1" ]})
                 "CVMFS_ROOT_HASH" = None) by (vm_compute; reflexivity).
  assert (H2 : MountPoint.IsDefined
                 (Examples.mount_point "DIRECT" {[ "CVMFS_REPOSITORY_TAG" := "v1" ]})
                 "CVMFS_REPOSITORY_TAG" ||
               MountPoint.IsDefined
                 (Examples.mount_point "DIRECT" {[ "CVMFS_REPOSITORY_TAG" := "v1" ]})
                 "CVMFS_REPOSITORY_DATE" = true) by (vm_compute; reflexivity).
  destruct (history_file_unlinked Examples.env (Examples.collaborators "DIRECT")
              _ H1 H2) as [_ H].
  exact H.
Defined.

(** ** The members of a mount point *)

Lemma members_added_trans a1 a2 mp1 mp2 mp3 :
  members_added a1 mp1 mp2 -> members_added a2 mp2 mp3 ->
  members_added (a1 ++ a2) mp1 mp3.
Proof.
  intros [Hf1 H1] [Hf2 H2]. split; [congruence |]. intros m.
  rewrite H2, H1, <- orb_assoc. f_equal.
  destruct (decide (m ∈ a1)) as [Hin | Hin], (decide (m ∈ a2)) as [Hin' | Hin'];
    rewrite ?(bool_decide_eq_true_2 _ Hin), ?(bool_decide_eq_false_2 _ Hin),
      ?(bool_decide_eq_true_2 _ Hin'), ?(bool_decide_eq_false_2 _ Hin');
    cbn [orb]; symmetry;
    first [apply bool_decide_eq_true_2 | apply bool_decide_eq_false_2];
    rewrite elem_of_app; tauto.
Qed.

(** Case analysis down to the assignments, then member by member. *)
Ltac added_go :=
  cbn; destruct_matches; cbn;
  (split; [reflexivity |]); intros m; destruct m; cbn [constructed];
  match goal with
  | |- context [bool_decide ?P] =>
      let b := eval vm_compute in (bool_decide P) in
      change (bool_decide P) with b
  end;
  rewrite ?orb_false_r, ?orb_true_r; reflexivity.

Lemma CreateAuthz_members M mp mp' :
  MountPoint.CreateAuthz M mp = Ret mp' ->
  members_added [MAuthzFetcher; MAuthzSessionMgr; MAuthzAttachment] mp mp'.
Proof.
  unfold MountPoint.CreateAuthz, MountPoint.GetValue. intros H. destruct mp.
  cbn in H. destruct (MountPoint.AuthzSessionManager_Create M); cbn in H;
    [| discriminate].
  injection H as <-. added_go.
Qed.

Lemma BackoffThrottle_members mp :
  members_added [MBackoffThrottle] mp
    (MountPoint.set_backoff_throttle_ true
       (MountPoint.ev MountPoint.EvBackoffThrottle mp)).
Proof. destruct mp. added_go. Qed.

Lemma CreateSignatureManager_members M mp :
  members_added [MSignatureMgr] mp (snd (MountPoint.CreateSignatureManager M mp)).
Proof.
  unfold MountPoint.CreateSignatureManager, MountPoint.GetValue. destruct mp. added_go.
Qed.

Lemma CheckBlacklists_members E M mp :
  members_added [] mp (snd (MountPoint.CheckBlacklists E M mp)).
Proof.
  unfold MountPoint.CheckBlacklists, MountPoint.GetValue. destruct mp. added_go.
Qed.

Lemma CreateFetchers_members mp :
  members_added [MFetcher; MExternalFetcher] mp (MountPoint.CreateFetchers mp).
Proof. unfold MountPoint.CreateFetchers. destruct mp. added_go. Qed.

Lemma CreateTracer_members mp :
  members_added [MTracer] mp (snd (MountPoint.CreateTracer mp)).
Proof. unfold MountPoint.CreateTracer, MountPoint.GetValue. destruct mp. added_go. Qed.

Lemma ReEvaluateAuthz_members M mp :
  members_added [] mp (MountPoint.ReEvaluateAuthz M mp).
Proof. unfold MountPoint.ReEvaluateAuthz. destruct mp. added_go. Qed.

Lemma CreateTables_members E M mp :
  members_added [MTables] mp (MountPoint.CreateTables E M mp).
Proof. unfold MountPoint.CreateTables, MountPoint.GetValue. destruct mp. added_go. Qed.

Lemma SetupBehavior_members E mp :
  members_added [] mp (MountPoint.SetupBehavior E mp).
Proof.
  unfold MountPoint.SetupBehavior, MountPoint.SetMaxTtlMn, MountPoint.OptionIsOn,
    MountPoint.GetValue.
  destruct mp. added_go.
Qed.

Lemma MountPoint_CreateStatistics_members mp mp' :
  MountPoint.CreateStatistics mp = Ret mp' -> members_added [MStatistics] mp mp'.
Proof.
  unfold MountPoint.CreateStatistics. destruct mp; cbn.
  destruct (negb _); [discriminate |]. destruct (negb _); intros [= <-]; added_go.
Qed.

Lemma SetupDnsTuning_members E M external mp :
  members_added [] mp (MountPoint.SetupDnsTuning E M external mp).
Proof. unfold MountPoint.SetupDnsTuning, MountPoint.GetValue. destruct mp. added_go. Qed.

Lemma members_same_refl mp : members_added [] mp mp.
Proof. destruct mp. added_go. Qed.

Lemma members_same_trans mp1 mp2 mp3 :
  members_added [] mp1 mp2 -> members_added [] mp2 mp3 -> members_added [] mp1 mp3.
Proof. intros H1 H2. exact (members_added_trans [] [] _ _ _ H1 H2). Qed.

Lemma members_same_ev e mp : members_added [] mp (MountPoint.ev e mp).
Proof. destruct mp. added_go. Qed.

(** Walks through an expression built from the object by lets, case
    distinctions and events. *)
Ltac same_go :=
  lazymatch goal with
  | |- members_added [] ?m ?T =>
      lazymatch T with
      | m => apply members_same_refl
      | (let x := ?X in @?B x) =>
          lazymatch type of X with
          | MountPoint.t =>
              apply (members_same_trans m X (B X));
              [ same_go | generalize X; intro; cbv beta; same_go ]
          | _ => change (members_added [] m (B X)); cbv beta; same_go
          end
      | (match ?c with _ => _ end) => destruct c; same_go
      | MountPoint.ev _ ?X =>
          apply (members_same_trans m X); [ same_go | apply members_same_ev ]
      end
  end.

Lemma SetupHttpTuning_members E M mp :
  members_added [] mp (MountPoint.SetupHttpTuning E M mp).
Proof. cbv delta [MountPoint.SetupHttpTuning]. cbv beta. same_go. Qed.

Lemma SetupExternalDownloadMgr_members E M mp :
  members_added [MExternalDownloadMgr] mp
    (snd (MountPoint.SetupExternalDownloadMgr E M mp)).
Proof.
  unfold MountPoint.SetupExternalDownloadMgr, MountPoint.GetValue.
  destruct mp. destruct (MountPoint.GetTimeout M) as [timeout timeout_direct]. added_go.
Qed.

Lemma SetupInodeAnnotation_members E mp :
  members_added [MInodeAnnotation] mp (MountPoint.SetupInodeAnnotation E mp).
Proof.
  unfold MountPoint.SetupInodeAnnotation, MountPoint.GetValue. destruct mp. added_go.
Qed.

Lemma SetupOwnerMaps_members E M mp :
  members_added [] mp (snd (MountPoint.SetupOwnerMaps E M mp)).
Proof.
  unfold MountPoint.SetupOwnerMaps, MountPoint.OptionIsOn, MountPoint.GetValue.
  destruct mp. added_go.
Qed.

Lemma DetermineRootHash_members E M mp :
  members_added [] mp (snd (MountPoint.DetermineRootHash E M mp)).
Proof.
  unfold MountPoint.DetermineRootHash, MountPoint.FetchHistory, MountPoint.IsDefined,
    MountPoint.GetValue.
  destruct mp. added_go.
Qed.

Lemma members_added_same_r added mp1 mp2 mp3 :
  members_added added mp1 mp2 -> members_added [] mp2 mp3 ->
  members_added added mp1 mp3.
Proof.
  intros H1 H2. pose proof (members_added_trans _ _ _ _ _ H1 H2) as H.
  rewrite app_nil_r in H. exact H.
Qed.

Lemma CreateDownloadManagers_members E M mp ok mp' :
  MountPoint.CreateDownloadManagers E M mp = Ret (ok, mp') ->
  exists added,
    members_added added mp mp' /\
    (added = [MDownloadMgr; MExternalDownloadMgr] \/
     ok = false /\ added = [MDownloadMgr]).
Proof.
  unfold MountPoint.CreateDownloadManagers.
  match goal with
  | |- context [MountPoint.SetupHttpTuning E M (MountPoint.SetupDnsTuning E M false ?Y)] =>
      pose proof (SetupHttpTuning_members E M (MountPoint.SetupDnsTuning E M false Y)) as H1;
      pose proof (SetupDnsTuning_members E M false Y) as H2;
      assert (H3 : members_added [MDownloadMgr] mp Y)
        by (unfold MountPoint.GetValue; destruct mp; added_go);
      pose proof (members_added_same_r _ _ _ _ (members_added_same_r _ _ _ _ H3 H2) H1)
        as H;
      clear H1 H2 H3;
      generalize dependent (MountPoint.SetupHttpTuning E M
                              (MountPoint.SetupDnsTuning E M false Y))
  end.
  intros mp5 H5.
  destruct (uuid_cache_ (MountPoint.file_system_ mp5)) as [uuid |]; [| discriminate].
  destruct (String.eqb _ _).
  - intros [= <- <-]. exists [MDownloadMgr]. split; [| right; split; reflexivity].
    eapply members_added_same_r; [exact H5 |].
    unfold MountPoint.GetValue. destruct mp5. added_go.
  - match goal with
    | |- Ret (MountPoint.SetupExternalDownloadMgr E M ?Z) = _ -> _ =>
        pose proof (SetupExternalDownloadMgr_members E M Z) as H6;
        assert (H7 : members_added [] mp5 Z)
          by (unfold MountPoint.OptionIsOn, MountPoint.GetValue; destruct mp5; added_go);
        destruct (MountPoint.SetupExternalDownloadMgr E M Z) as [ok9 mp9]
    end.
    cbn [snd] in H6. intros [= <- <-].
    exists [MDownloadMgr; MExternalDownloadMgr]. split; [| left; reflexivity].
    exact (members_added_trans [MDownloadMgr] [MExternalDownloadMgr] _ _ _
             (members_added_same_r _ _ _ _ H5 H7) H6).
Qed.

Lemma CreateCatalogManager_members E M mp :
  members_added [MCatalogMgr; MInodeAnnotation] mp
    (snd (MountPoint.CreateCatalogManager E M mp)).
Proof.
  unfold MountPoint.CreateCatalogManager.
  assert (H1 : members_added [MCatalogMgr] mp
                 (MountPoint.set_catalog_mgr_ true
                    (MountPoint.ev MountPoint.EvCatalogMgrCreate mp)))
    by (destruct mp; added_go).
  pose proof (SetupInodeAnnotation_members E
                (MountPoint.set_catalog_mgr_ true
                   (MountPoint.ev MountPoint.EvCatalogMgrCreate mp))) as H2.
  pose proof (members_added_trans [MCatalogMgr] [MInodeAnnotation] _ _ _ H1 H2) as H12.
  clear H1 H2.
  generalize dependent (MountPoint.SetupInodeAnnotation E
                          (MountPoint.set_catalog_mgr_ true
                             (MountPoint.ev MountPoint.EvCatalogMgrCreate mp))).
  intros mp2 H2.
  pose proof (SetupOwnerMaps_members E M mp2) as H3.
  destruct (MountPoint.SetupOwnerMaps E M mp2) as [ok3 mp3]. cbn [snd] in H3.
  pose proof (members_added_same_r _ _ _ _ H2 H3) as H23. clear H2 H3.
  destruct ok3; cbn [negb snd]; [| exact H23].
  pose proof (DetermineRootHash_members E M mp3) as H4.
  destruct (MountPoint.DetermineRootHash E M mp3) as [[ok4 root_hash] mp4].
  cbn [snd] in H4.
  pose proof (members_added_same_r _ _ _ _ H23 H4) as H34. clear H23 H4.
  destruct ok4; cbn [negb snd]; [| exact H34].
  eapply members_added_same_r; [exact H34 |].
  unfold MountPoint.OptionIsOn, MountPoint.GetValue. destruct mp4. added_go.
Qed.

Lemma members_prefix added mp0 mp (n : nat) :
  members_added added mp0 mp ->
  (forall m, constructed m mp0 = false) ->
  added = take n construction_order ->
  forall m, constructed m mp = true <-> m ∈ take n construction_order.
Proof.
  intros [_ H] H0 <- m. rewrite H, H0. cbn [orb]. apply bool_decide_eq_true.
Qed.


(** *** Failure codes of the stages *)

Ltac code_go :=
  repeat (cbn;
          match goal with
          | |- context [match ?x with _ => _ end] =>
              lazymatch x with
              | context [match _ with _ => _ end] => fail
              | _ => destruct x
              end
          end);
  cbn; intros Hfail; first [discriminate Hfail | reflexivity | auto].

Lemma CreateSignatureManager_code M mp :
  fst (MountPoint.CreateSignatureManager M mp) = false ->
  MountPoint.boot_status_ (snd (MountPoint.CreateSignatureManager M mp)) = kFailSignature.
Proof.
  unfold MountPoint.CreateSignatureManager, MountPoint.GetValue. destruct mp. code_go.
Qed.

Lemma CheckBlacklists_code E M mp :
  fst (MountPoint.CheckBlacklists E M mp) = false ->
  MountPoint.boot_status_ (snd (MountPoint.CheckBlacklists E M mp)) = kFailSignature.
Proof.
  unfold MountPoint.CheckBlacklists, MountPoint.GetValue. destruct mp. code_go.
Qed.

Lemma CreateTracer_code mp :
  fst (MountPoint.CreateTracer mp) = false ->
  MountPoint.boot_status_ (snd (MountPoint.CreateTracer mp)) = kFailOptions.
Proof. unfold MountPoint.CreateTracer, MountPoint.GetValue. destruct mp. code_go. Qed.

Lemma SetupOwnerMaps_code E M mp :
  fst (MountPoint.SetupOwnerMaps E M mp) = false ->
  MountPoint.boot_status_ (snd (MountPoint.SetupOwnerMaps E M mp)) = kFailOptions.
Proof.
  unfold MountPoint.SetupOwnerMaps, MountPoint.OptionIsOn, MountPoint.GetValue.
  destruct mp. code_go.
Qed.

Lemma DetermineRootHash_code E M mp :
  fst (fst (MountPoint.DetermineRootHash E M mp)) = false ->
  MountPoint.boot_status_ (snd (MountPoint.DetermineRootHash E M mp)) = kFailHistory.
Proof.
  unfold MountPoint.DetermineRootHash, MountPoint.FetchHistory, MountPoint.IsDefined,
    MountPoint.GetValue.
  destruct mp. code_go.
Qed.

Lemma SetupExternalDownloadMgr_code E M mp :
  fst (MountPoint.SetupExternalDownloadMgr E M mp) = false ->
  MountPoint.boot_status_ (snd (MountPoint.SetupExternalDownloadMgr E M mp)) = kFailWpad.
Proof.
  unfold MountPoint.SetupExternalDownloadMgr, MountPoint.GetValue.
  destruct mp. destruct (MountPoint.GetTimeout M) as [timeout timeout_direct]. code_go.
Qed.

Lemma CreateDownloadManagers_code E M mp mp' :
  MountPoint.CreateDownloadManagers E M mp = Ret (false, mp') ->
  MountPoint.boot_status_ mp' = kFailWpad.
Proof.
  unfold MountPoint.CreateDownloadManagers.
  match goal with
  | |- context [MountPoint.SetupHttpTuning E M ?Y] =>
      generalize (MountPoint.SetupHttpTuning E M Y)
  end.
  intros mp5.
  destruct (uuid_cache_ (MountPoint.file_system_ mp5)) as [uuid |]; [| discriminate].
  destruct (String.eqb _ _).
  - intros [= <-]. destruct mp5; reflexivity.
  - match goal with
    | |- Ret (MountPoint.SetupExternalDownloadMgr E M ?Z) = _ -> _ =>
        pose proof (SetupExternalDownloadMgr_code E M Z) as Hc;
        destruct (MountPoint.SetupExternalDownloadMgr E M Z) as [ok9 mp9]
    end.
    intros [= -> ->]. apply Hc. reflexivity.
Qed.

Lemma CreateCatalogManager_code E M mp :
  fst (MountPoint.CreateCatalogManager E M mp) = false ->
  let code := MountPoint.boot_status_ (snd (MountPoint.CreateCatalogManager E M mp)) in
  code = kFailOptions \/ code = kFailHistory \/ code = kFailCatalog.
Proof.
  unfold MountPoint.CreateCatalogManager.
  generalize (MountPoint.SetupInodeAnnotation E
                (MountPoint.set_catalog_mgr_ true
                   (MountPoint.ev MountPoint.EvCatalogMgrCreate mp))).
  intros mp2.
  pose proof (SetupOwnerMaps_code E M mp2) as H3.
  destruct (MountPoint.SetupOwnerMaps E M mp2) as [ok3 mp3]. cbn [fst snd] in H3.
  destruct ok3; cbn [negb fst snd]; [| intros _; left; apply H3; reflexivity].
  clear H3.
  pose proof (DetermineRootHash_code E M mp3) as H4.
  destruct (MountPoint.DetermineRootHash E M mp3) as [[ok4 root_hash] mp4].
  cbn [fst snd] in H4.
  destruct ok4; cbn [negb fst snd]; [| intros _; right; left; apply H4; reflexivity].
  clear H4.
  unfold MountPoint.OptionIsOn, MountPoint.GetValue. destruct mp4.
  code_go.
Qed.

(** Where [MountPoint::Create] can return: after the signature manager
    or the blacklists failed (6 members constructed), after proxy
    discovery failed (7 or 8), after the catalog manager failed (12),
    after the tracer failed (13), or at its end (14). *)
Lemma MountPoint_Create_cases (E : Env) (M : MountPoint.Collaborators)
  fqrn file_system options_mgr mp :
  MountPoint.Create E M fqrn file_system options_mgr = Ret mp ->
  exists n : nat,
    (forall m, constructed m mp = true <-> m ∈ take n construction_order) /\
    MountPoint.fqrn_ mp = fqrn /\
    (n = 6%nat /\ MountPoint.boot_status_ mp = kFailSignature \/
     (n = 7%nat \/ n = 8%nat) /\ MountPoint.boot_status_ mp = kFailWpad \/
     n = 12%nat /\
       (MountPoint.boot_status_ mp = kFailOptions \/
        MountPoint.boot_status_ mp = kFailHistory \/
        MountPoint.boot_status_ mp = kFailCatalog) \/
     n = 13%nat /\ MountPoint.boot_status_ mp = kFailOptions \/
     n = 14%nat /\ MountPoint.boot_status_ mp = kFailOk).
Proof.
  unfold MountPoint.Create.
  destruct (MountPoint.new M fqrn file_system _) as [mp0 | |] eqn:Hnew;
    cbn [mbind outcome_bind]; try discriminate.
  assert (H0 : forall m, constructed m mp0 = false).
  { revert Hnew. unfold MountPoint.new. destruct (negb _); [discriminate |].
    intros [= <-] m. destruct m; reflexivity. }
  assert (Hn0 : MountPoint.fqrn_ mp0 = fqrn).
  { revert Hnew. unfold MountPoint.new. destruct (negb _); [discriminate |].
    intros [= <-]. reflexivity. }
  clear Hnew.
  destruct (MountPoint.CreateStatistics mp0) as [mp1 | |] eqn:Hstat;
    cbn [mbind outcome_bind]; try discriminate.
  apply MountPoint_CreateStatistics_members in Hstat as G1.
  destruct (MountPoint.CreateAuthz M mp1) as [mp2 | |] eqn:Hauthz;
    cbn [mbind outcome_bind]; try discriminate.
  pose proof (members_added_trans _ _ _ _ _ G1 (CreateAuthz_members M mp1 mp2 Hauthz))
    as G2.
  pose proof (members_added_trans _ _ _ _ _ G2 (BackoffThrottle_members mp2)) as G3.
  clear G1 G2 Hstat Hauthz.
  generalize dependent (MountPoint.set_backoff_throttle_ true
                          (MountPoint.ev MountPoint.EvBackoffThrottle mp2)).
  intros mp3 G3.
  pose proof (CreateSignatureManager_code M mp3) as P4.
  pose proof (members_added_trans _ _ _ _ _ G3 (CreateSignatureManager_members M mp3))
    as G4.
  clear G3. destruct (MountPoint.CreateSignatureManager M mp3) as [ok4 mp4].
  cbn [fst snd app] in P4, G4.
  destruct ok4; cbn [negb].
  2:{ intros [= <-]. exists 6%nat.
      split; [exact (members_prefix _ _ _ 6 G4 H0 eq_refl) |].
      split; [destruct G4; congruence |]. left. split; [reflexivity | exact (P4 eq_refl)]. }
  clear P4.
  pose proof (CheckBlacklists_code E M mp4) as P5.
  pose proof (members_added_same_r _ _ _ _ G4 (CheckBlacklists_members E M mp4)) as G5.
  clear G4. destruct (MountPoint.CheckBlacklists E M mp4) as [ok5 mp5].
  cbn [fst snd app] in P5, G5.
  destruct ok5; cbn [negb].
  2:{ intros [= <-]. exists 6%nat.
      split; [exact (members_prefix _ _ _ 6 G5 H0 eq_refl) |].
      split; [destruct G5; congruence |]. left. split; [reflexivity | exact (P5 eq_refl)]. }
  clear P5.
  destruct (MountPoint.CreateDownloadManagers E M mp5) as [[ok6 mp6] | |] eqn:Hdl;
    cbn [mbind outcome_bind]; try discriminate.
  assert (P6 : ok6 = false -> MountPoint.boot_status_ mp6 = kFailWpad)
    by (intros ->; exact (CreateDownloadManagers_code E M _ _ Hdl)).
  destruct (CreateDownloadManagers_members E M _ _ _ Hdl) as (added & G6 & Hadded).
  pose proof (members_added_trans _ _ _ _ _ G5 G6) as G56. clear G5 G6 Hdl.
  destruct ok6; cbn [negb].
  2:{ intros [= <-].
      destruct Hadded as [-> | [_ ->]]; cbn [app] in G56;
        [exists 8%nat; split; [exact (members_prefix _ _ _ 8 G56 H0 eq_refl) |]
        | exists 7%nat; split; [exact (members_prefix _ _ _ 7 G56 H0 eq_refl) |]];
        (split; [destruct G56; congruence |]); right; left;
        (split; [auto | exact (P6 eq_refl)]). }
  destruct Hadded as [-> | [Hf _]]; [| discriminate Hf]. cbn [app] in G56. clear P6.
  pose proof (members_added_trans _ _ _ _ _ G56 (CreateFetchers_members mp6)) as G7.
  clear G56.
  pose proof (CreateCatalogManager_code E M (MountPoint.CreateFetchers mp6)) as P8.
  cbv zeta in P8.
  pose proof (members_added_trans _ _ _ _ _ G7
                (CreateCatalogManager_members E M (MountPoint.CreateFetchers mp6))) as G8.
  clear G7.
  destruct (MountPoint.CreateCatalogManager E M (MountPoint.CreateFetchers mp6))
    as [ok8 mp8].
  cbn [fst snd app] in P8, G8.
  destruct ok8; cbn [negb].
  2:{ intros [= <-]. exists 12%nat.
      split; [exact (members_prefix _ _ _ 12 G8 H0 eq_refl) |].
      split; [destruct G8; congruence |]. right. right. left.
      split; [reflexivity | exact (P8 eq_refl)]. }
  clear P8.
  pose proof (CreateTracer_code mp8) as P9.
  pose proof (members_added_trans _ _ _ _ _ G8 (CreateTracer_members mp8)) as G9.
  clear G8. destruct (MountPoint.CreateTracer mp8) as [ok9 mp9].
  cbn [fst snd app] in P9, G9.
  destruct ok9; cbn [negb].
  2:{ intros [= <-]. exists 13%nat.
      split; [exact (members_prefix _ _ _ 13 G9 H0 eq_refl) |].
      split; [destruct G9; congruence |]. right. right. right. left.
      split; [reflexivity | exact (P9 eq_refl)]. }
  clear P9.
  pose proof (members_added_same_r _ _ _ _ G9 (ReEvaluateAuthz_members M mp9)) as G10.
  pose proof (members_added_trans _ _ _ _ _ G10
                (CreateTables_members E M (MountPoint.ReEvaluateAuthz M mp9))) as G11.
  pose proof (members_added_same_r _ _ _ _ G11
                (SetupBehavior_members E
                   (MountPoint.CreateTables E M (MountPoint.ReEvaluateAuthz M mp9))))
    as G12.
  clear G9 G10 G11. cbn [app] in G12.
  generalize dependent (MountPoint.SetupBehavior E
                          (MountPoint.CreateTables E M (MountPoint.ReEvaluateAuthz M mp9))).
  intros mp12 G12 [= <-].
  assert (G13 : members_added [] mp12 (MountPoint.set_boot_status_ kFailOk mp12))
    by (destruct mp12; added_go).
  pose proof (members_added_same_r _ _ _ _ G12 G13) as G.
  exists 14%nat. split; [exact (members_prefix _ _ _ 14 G H0 eq_refl) |].
  split; [destruct G; congruence |]. right. right. right. right.
  split; [reflexivity |]. destruct mp12; reflexivity.
Qed.


(** X11. The members of a mount point are constructed in a fixed order:
    statistics, the three authz objects, the backoff throttle, the
    signature manager, the download manager, the external download
    manager, the two fetchers, the catalog manager, the inode annotation,
    the tracer, the tables.  Whenever MountPoint::Create returns, the
    constructed members are exactly the first n of this order, where n is
    6 (keys or blacklist refused), 7 or 8 (proxy discovery failed for the
    primary or the external download manager), 12 (catalog manager), 13
    (tracer) or 14; all 14 are constructed if and only if the boot status
    is Ok.  The name is the one passed in. *)
Theorem members_constructed_in_order (E : Env) (M : MountPoint.Collaborators)
  fqrn file_system options_mgr mp :
  MountPoint.Create E M fqrn file_system options_mgr = Ret mp ->
  exists n : nat,
    (forall m, constructed m mp = true <-> m ∈ take n construction_order) /\
    n ∈ [6; 7; 8; 12; 13; 14]%nat /\
    (MountPoint.boot_status_ mp = kFailOk <-> n = 14%nat) /\
    MountPoint.fqrn_ mp = fqrn.
Proof.
  intros H.
  destruct (MountPoint_Create_cases E M _ _ _ _ H) as (n & Hm & Hname & Hcases).
  exists n. split; [exact Hm |].
  destruct Hcases as [[-> Hc] | [[[-> | ->] Hc] | [[-> Hc] | [[-> Hc] | [-> Hc]]]]];
    (split; [set_solver |]); (split; [| exact Hname]);
    (split; [intros Hok | intros Hn; first [discriminate Hn | exact Hc]]);
    try reflexivity; rewrite Hok in Hc; try discriminate Hc;
    destruct Hc as [Hc | [Hc | Hc]]; discriminate Hc.
Qed.
Lemma members_constructed_in_order_witness :
  exists mp,
    MountPoint.Create Examples.env (Examples.collaborators "DIRECT") "repo.example.org"
      Examples.booted_file_system None = Ret mp /\
    forall m, constructed m mp = true.
Proof.
  assert (H : exists mp,
            MountPoint.Create Examples.env (Examples.collaborators "DIRECT")
              "repo.example.org" Examples.booted_file_system None = Ret mp /\
            MountPoint.boot_status_ mp = kFailOk)
    by (eexists; split; vm_compute; reflexivity).
  destruct H as (mp & H & Hs). exists mp. split; [exact H |].
  destruct (members_constructed_in_order _ _ _ _ _ _ H) as (n & Hm & _ & Hn & _).
  apply Hn in Hs. subst n. intros m. apply Hm.
  destruct m; cbn [take construction_order];
    repeat first [apply list_elem_of_here | apply list_elem_of_further].
Defined.

(** ** Behaviour tunables *)





(** ** NFS export of a booted file system *)

Lemma TriageCacheMgr_nfs_members (E : Env) fs ok fs' :
  TriageCacheMgr E fs = Ret (ok, fs') ->
  has_nfs_maps_ fs' = has_nfs_maps_ fs /\ nfs_maps_dir_ fs' = nfs_maps_dir_ fs.
Proof.
  unfold TriageCacheMgr. intros H.
  assert (Hrun : forall fs1 : FileSystem,
            has_nfs_maps_ fs1 = has_nfs_maps_ fs ->
            nfs_maps_dir_ fs1 = nfs_maps_dir_ fs ->
            ('(mgr, s) ← SetupCacheMgr E (S (size (options_mgr_ fs1)))
                          (cache_mgr_instance_ fs1) fs1;
             Ret (bool_decide (is_Some mgr), set_cache_mgr_ mgr s)) = Ret (ok, fs') ->
            has_nfs_maps_ fs' = has_nfs_maps_ fs /\ nfs_maps_dir_ fs' = nfs_maps_dir_ fs).
  { intros fs1 Hh Hd Hrun.
    destruct (SetupCacheMgr E _ _ fs1) as [[mgr fs2] | |] eqn:Hsetup;
      cbn [mbind outcome_bind] in Hrun; try discriminate.
    apply SetupCacheMgr_post in Hsetup as (Hc & _).
    injection Hrun as <- <-. unfold same_context in Hc.
    rewrite <- Hh, <- Hd, Hc. destruct fs1; cbn. split; reflexivity. }
  revert H.
  assert (Hopt : forall k, GetValue (set_cache_mgr_instance_ kDefaultCacheMgrInstance fs) k
                           = GetValue fs k) by (intros; destruct fs; reflexivity).
  rewrite Hopt.
  destruct (GetValue fs "CVMFS_CACHE_PRIMARY") as [instance |].
  - destruct (String.eqb instance ""); cbn [negb].
    + apply Hrun; destruct fs; reflexivity.
    + unfold CheckInstanceName.
      destruct (_ <? _)%nat.
      * intros [= <- <-]. destruct fs; cbn. split; reflexivity.
      * destruct (CacheInstanceSanitizer_IsValid instance); cbn [negb].
        -- apply Hrun; destruct fs; reflexivity.
        -- intros [= <- <-]. destruct fs; cbn. split; reflexivity.
  - apply Hrun; destruct fs; reflexivity.
Qed.

Lemma SetupUuid_nfs_members (E : Env) fs fs' :
  SetupUuid E fs = Ret fs' ->
  nfs_mode_ fs' = nfs_mode_ fs /\ has_nfs_maps_ fs' = has_nfs_maps_ fs /\
  nfs_maps_dir_ fs' = nfs_maps_dir_ fs.
Proof.
  unfold SetupUuid. intros H. destruct fs; cbn in H.
  ret_cases H; injection H as <-; cbn; repeat split; reflexivity.
Qed.

Lemma SetupNfsMaps_maps (E : Env) (fs : FileSystem) fs' :
  has_nfs_maps_ fs = false ->
  SetupNfsMaps E fs = Ret (true, fs') ->
  nfs_mode_ fs' = nfs_mode_ fs /\
  has_nfs_maps_ fs' = CVMFS_NFS_SUPPORT E && IsNfsSource fs /\
  (has_nfs_maps_ fs' = true ->
   nfs_maps_dir_ fs' = (if IsHaNfsSource fs then nfs_maps_dir_ fs else workspace_ fs) /\
   exists alien avoid_rename has_quota,
     cache_mgr_ fs = Some (PosixCacheManager (workspace_ fs) alien avoid_rename has_quota)).
Proof.
  intros Hnone. unfold SetupNfsMaps, CreateFile.
  destruct (CVMFS_NFS_SUPPORT E); cbn [negb andb].
  2:{ intros [= <-]. split; [reflexivity |]. split; [exact Hnone |].
      rewrite Hnone. discriminate. }
  unfold IsNfsSource, IsHaNfsSource.
  destruct fs as [nm ex ty op ww fg st ws wf pl fd pc fp nmode nd ci cs cm uu hn hs bs be tr].
  cbn in Hnone. subst hn. cbn.
  destruct (Z.land nmode kNfsMapsHa =? 0) eqn:Hha;
    (destruct (Z.land nmode kNfsMaps =? 0) eqn:Hsrc);
    destruct cm as [[path alien avoid has_quota | | |] |];
    repeat (cbn; rewrite ?Hha, ?Hsrc; cbn;
            match goal with
            | |- context [if ?c then _ else _] => destruct c eqn:?
            end);
    cbn; rewrite ?Hha, ?Hsrc; cbn;
    intros H; try discriminate H; injection H as <-; cbn; rewrite ?Hha, ?Hsrc; cbn;
    (split; [reflexivity |]); (split; [reflexivity |]);
    intros Hmaps; try discriminate Hmaps;
    repeat match goal with
           | Hc : negb _ = false |- _ => apply negb_false_iff in Hc
           | Hc : String.eqb _ _ = true |- _ => apply String.eqb_eq in Hc; subst
           end;
    (split; [reflexivity | eauto]).
Qed.

Lemma DetermineNfsMode_nfs_members (E : Env) (fs : FileSystem) fs' :
  nfs_mode_ fs = kNfsNone ->
  DetermineNfsMode E fs = (true, fs') ->
  let source :=
    match GetValue fs "CVMFS_NFS_SOURCE" with
    | Some optarg => IsOn E optarg
    | None => false
    end in
  IsNfsSource fs' = source /\
  (source = true -> type_ fs = kFsFuse) /\
  IsHaNfsSource fs' =
    source && match GetValue fs "CVMFS_NFS_SHARED" with Some _ => true | None => false end /\
  nfs_maps_dir_ fs' =
    (if IsHaNfsSource fs'
     then match GetValue fs "CVMFS_NFS_SHARED" with Some d => d | None => "" end
     else nfs_maps_dir_ fs) /\
  has_nfs_maps_ fs' = has_nfs_maps_ fs.
Proof.
  intros Hnone H source. subst source. revert H. unfold DetermineNfsMode.
  destruct fs as [nm ex ty op ww fg st ws wf pl fd pc fp nmode nd ci cs cm uu hn hs bs be tr].
  cbn in Hnone. subst nmode.
  unfold GetValue, IsNfsSource, IsHaNfsSource. cbn [options_mgr_ set_nfs_mode_ nfs_mode_].
  destruct (op !! "CVMFS_NFS_SOURCE") as [src |]; [destruct (IsOn E src) |];
    destruct (op !! "CVMFS_NFS_SHARED") as [dir |];
    destruct ty; cbn; intros H; try discriminate H; injection H as <-; cbn;
    repeat split; try reflexivity; try discriminate.
Qed.

Lemma early_stages_nfs_members (E : Env) fs fs' :
  SetupSqlite E (CreateStatistics (SetupLogging fs)) = Ret fs' ->
  nfs_mode_ fs' = nfs_mode_ fs /\ has_nfs_maps_ fs' = has_nfs_maps_ fs /\
  nfs_maps_dir_ fs' = nfs_maps_dir_ fs /\ options_mgr_ fs' = options_mgr_ fs /\
  type_ fs' = type_ fs.
Proof.
  unfold SetupSqlite, CreateStatistics, SetupLogging, GetValue.
  destruct fs; cbn. destruct (negb _); [discriminate |].
  intros [= <-]. destruct_matches; cbn; repeat split; reflexivity.
Qed.

Lemma workspace_frame_nfs_members fs fs' :
  workspace_frame fs fs' ->
  nfs_mode_ fs' = nfs_mode_ fs /\ has_nfs_maps_ fs' = has_nfs_maps_ fs /\
  nfs_maps_dir_ fs' = nfs_maps_dir_ fs.
Proof. unfold workspace_frame. intros ->. destruct fs; cbn; auto. Qed.

(** X13. NFS export of a booted file system.  On a file system that
    FileSystem::Create returns with the Ok status, the NFS source flag is
    on exactly when CVMFS_NFS_SOURCE is on, which is only possible in the
    fuse module, and high availability exactly when CVMFS_NFS_SHARED is
    defined as well.  The NFS maps are set up exactly when the module was
    built with NFS support and is an NFS source; then the cache manager
    is a POSIX cache in the workspace, and the maps directory is
    CVMFS_NFS_SHARED if that is defined and the workspace otherwise. *)
Theorem booted_nfs_export (E : Env) g fs_info fs :
  FileSystem_Create E g fs_info = Ret fs ->
  boot_status_ fs = kFailOk ->
  let source :=
    match info_options_mgr fs_info !! "CVMFS_NFS_SOURCE" with
    | Some optarg => IsOn E optarg
    | None => false
    end in
  let shared := info_options_mgr fs_info !! "CVMFS_NFS_SHARED" in
  IsNfsSource fs = source /\
  IsHaNfsSource fs = source && bool_decide (is_Some shared) /\
  (source = true -> info_type fs_info = kFsFuse) /\
  has_nfs_maps_ fs = CVMFS_NFS_SUPPORT E && source /\
  (has_nfs_maps_ fs = true ->
   nfs_maps_dir_ fs = match shared with Some d => d | None => workspace_ fs end /\
   exists alien avoid_rename has_quota,
     cache_mgr_ fs =
       Some (PosixCacheManager (workspace_ fs) alien avoid_rename has_quota)).
Proof.
  intros H Hok source shared.
  destruct (FileSystem_Create_outcome E g fs_info fs H) as (fs0 & Hnew & _ & Hcases).
  destruct Hcases as [(fs_end & Hc & ->) | (n & before & _ & Hne & _)];
    [| contradiction].
  clear H Hok.
  unfold FileSystem_new in Hnew. destruct g; [discriminate |]. injection Hnew as Hnew.
  unfold FileSystem_stages in Hc.
  apply completed_cons in Hc as (s1 & [= <-] & Hc).
  apply completed_cons in Hc as (s2 & [= <-] & Hc).
  apply completed_cons in Hc as (s3 & H3 & Hc).
  apply completed_cons in Hc as (s4 & H4 & Hc).
  apply completed_cons in Hc as (s5 & H5 & Hc).
  apply completed_cons in Hc as (s6 & [= <-] & Hc).
  apply completed_cons in Hc as (s7 & H7 & Hc).
  apply completed_cons in Hc as (s8 & H8 & Hc).
  apply completed_cons in Hc as (s9 & H9 & Hc).
  apply completed_cons in Hc as (s10 & H10 & Hc).
  apply completed_cons in Hc as (s11 & [= <-] & Hc).
  unfold completed in Hc. cbn [run_stages map] in Hc. injection Hc as <-.
  destruct (SetupSqlite E (CreateStatistics (SetupLogging fs0))) as [s3' | |] eqn:Hq;
    cbn [mbind outcome_bind] in H3; try discriminate.
  injection H3 as ->.
  destruct (early_stages_nfs_members E _ _ Hq) as (A1 & A2 & A3 & A4 & A5).
  assert (B1 : nfs_mode_ s3 = kNfsNone) by (rewrite A1, <- Hnew; reflexivity).
  assert (B2 : has_nfs_maps_ s3 = false) by (rewrite A2, <- Hnew; reflexivity).
  assert (B4 : forall k, GetValue s3 k = info_options_mgr fs_info !! k)
    by (intros k; unfold GetValue; rewrite A4, <- Hnew; reflexivity).
  assert (B5 : type_ s3 = info_type fs_info) by (rewrite A5, <- Hnew; reflexivity).
  clear A1 A2 A3 A4 A5 Hq Hnew fs0.
  destruct (DetermineNfsMode E s3) as [ok4 s4'] eqn:Hn.
  injection H4 as -> ->.
  destruct (DetermineNfsMode_nfs_members E s3 s4 B1 Hn) as (D1 & D2 & D3 & D4 & D5).
  rewrite ?(B4 "CVMFS_NFS_SOURCE"), ?(B4 "CVMFS_NFS_SHARED") in D1.
  rewrite ?(B4 "CVMFS_NFS_SOURCE"), ?(B4 "CVMFS_NFS_SHARED") in D2.
  rewrite ?(B4 "CVMFS_NFS_SOURCE"), ?(B4 "CVMFS_NFS_SHARED") in D3.
  rewrite ?(B4 "CVMFS_NFS_SOURCE"), ?(B4 "CVMFS_NFS_SHARED") in D4.
  rewrite B5 in D2. rewrite B2 in D5.
  fold source in D1, D2, D3. fold shared in D3, D4.
  clear Hn B1 B2 B4 B5.
  pose proof (SetupWorkspace_result E s4 true s5 H5) as (Hf & _).
  destruct (workspace_frame_nfs_members _ _ Hf) as (W1 & W2 & W3). clear Hf H5.
  assert (F : nfs_mode_ (io (IoSqliteTempDirectory (workspace_ s5)) s5) = nfs_mode_ s5 /\
              has_nfs_maps_ (io (IoSqliteTempDirectory (workspace_ s5)) s5)
                = has_nfs_maps_ s5 /\
              nfs_maps_dir_ (io (IoSqliteTempDirectory (workspace_ s5)) s5)
                = nfs_maps_dir_ s5) by (destruct s5; cbn; auto).
  destruct F as (F1 & F2 & F3).
  destruct (TriageCacheMgr_members E _ _ _ H7)
    as (_ & _ & _ & _ & _ & _ & _ & _ & _ & _ & T1 & _ & _).
  destruct (TriageCacheMgr_nfs_members E _ _ _ H7) as (T2 & T3). clear H7.
  destruct (SetupUuid E s7) as [s8' | |] eqn:Hu;
    cbn [mbind outcome_bind] in H8; try discriminate.
  injection H8 as ->.
  destruct (SetupUuid_nfs_members E _ _ Hu) as (U1 & U2 & U3). clear Hu.
  assert (N8 : nfs_mode_ s8 = nfs_mode_ s4) by congruence.
  assert (M8 : has_nfs_maps_ s8 = false) by congruence.
  assert (R8 : nfs_maps_dir_ s8 = nfs_maps_dir_ s4) by congruence.
  clear W1 W2 W3 F1 F2 F3 T1 T2 T3 U1 U2 U3.
  destruct (SetupNfsMaps_maps E s8 s9 M8 H9) as (P1 & P2 & P3).
  destruct (SetupNfsMaps_members E _ _ _ H9)
    as (_ & _ & _ & _ & _ & Q1 & _ & _ & _ & Q2 & _).
  clear H9.
  cbv zeta in H10. destruct (negb (RegisterVfsRdOnly E)); [discriminate |].
  injection H10 as <-.
  set (fs := set_boot_status_ kFailOk _).
  assert (Z : nfs_mode_ fs = nfs_mode_ s9 /\ has_nfs_maps_ fs = has_nfs_maps_ s9 /\
              nfs_maps_dir_ fs = nfs_maps_dir_ s9 /\ workspace_ fs = workspace_ s9 /\
              cache_mgr_ fs = cache_mgr_ s9) by (subst fs; destruct s9; cbn; auto).
  destruct Z as (Z1 & Z2 & Z3 & Z4 & Z5). clearbody fs.
  assert (Hsrc : IsNfsSource fs = source)
    by (rewrite <- D1; unfold IsNfsSource; congruence).
  assert (Hsrc8 : IsNfsSource s8 = source)
    by (rewrite <- D1; unfold IsNfsSource; congruence).
  assert (Hha8 : IsHaNfsSource s8 = IsHaNfsSource s4)
    by (unfold IsHaNfsSource; congruence).
  split; [exact Hsrc |].
  assert (Hdef : bool_decide (is_Some shared) =
                 match shared with Some _ => true | None => false end).
  { destruct shared as [d |].
    - apply bool_decide_eq_true_2. eauto.
    - apply bool_decide_eq_false_2. intros [x Hx]. discriminate. }
  rewrite Hdef.
  split; [rewrite <- D3; unfold IsHaNfsSource; congruence |].
  split; [exact D2 |].
  split; [rewrite Z2, P2, Hsrc8; reflexivity |].
  rewrite Z2. intros Hmaps. destruct (P3 Hmaps) as (Hdir & alien & avoid & quota & Hmgr).
  rewrite Z3, Z4, Z5, Q1, Q2. split; [| eauto].
  rewrite Hdir, Hha8, R8, D4.
  rewrite P2, Hsrc8 in Hmaps. apply andb_true_iff in Hmaps as [_ Hs].
  rewrite D3, Hs. cbn [andb]. destruct shared as [d |]; reflexivity.
Qed.

Lemma booted_nfs_export_witness :
  exists fs,
    FileSystem_Create Examples.env false
      (Examples.fs_info kFsFuse {[ "CVMFS_NFS_SOURCE" := "yes" ]} false) = Ret fs /\
    boot_status_ fs = kFailOk /\
    has_nfs_maps_ fs = true /\
    nfs_maps_dir_ fs = workspace_ fs.
Proof.
  assert (H : exists fs,
            FileSystem_Create Examples.env false
              (Examples.fs_info kFsFuse {[ "CVMFS_NFS_SOURCE" := "yes" ]} false) = Ret fs /\
            boot_status_ fs = kFailOk)
    by (eexists; split; vm_compute; reflexivity).
  destruct H as (fs & H & Hs). exists fs. split; [exact H |]. split; [exact Hs |].
  destruct (booted_nfs_export Examples.env false _ fs H Hs) as (_ & _ & _ & Hm & Hd).
  assert (Hmaps : has_nfs_maps_ fs = true) by (rewrite Hm; vm_compute; reflexivity).
  split; [exact Hmaps |]. destruct (Hd Hmaps) as (Hdir & _). exact Hdir.
Defined.

(** ** Teardown *)

Lemma lock_path_not_empty (path name : string) :
  String.eqb (path +:+ "/lock." +:+ name) "" = false.
Proof. destruct path; reflexivity. Qed.

Lemma crash_guard_not_empty (path name : string) :
  String.eqb (path +:+ "/running." +:+ name) "" = false.
Proof. destruct path; reflexivity. Qed.

Lemma completed_stages_workspace (E : Env) fs0 fs_end :
  completed (FileSystem_stages E) fs0 fs_end ->
  path_workspace_lock_ fs_end = workspace_fullpath_ fs_end +:+ "/lock." +:+ name_ fs0 /\
  path_crash_guard_ fs_end = workspace_ fs_end +:+ "/running." +:+ name_ fs0 /\
  sqlite3_temp_directory fs_end = true.
Proof.
  unfold FileSystem_stages. intros H.
  apply completed_cons in H as (s1 & [= <-] & H).
  apply completed_cons in H as (s2 & [= <-] & H).
  apply completed_cons in H as (s3 & H3 & H).
  apply completed_cons in H as (s4 & H4 & H).
  apply completed_cons in H as (s5 & H5 & H).
  apply completed_cons in H as (s6 & [= <-] & H).
  assert (Htail : stages_satisfy fs_step (drop 6 (FileSystem_stages E)))
    by (apply Forall_drop, FileSystem_stages_satisfy).
  pose proof (run_stages_walked fs_step _ Htail _ _ _ _ H) as Hwalk.
  apply fs_walked_trace in Hwalk as [(evs & Hevs & _) _].
  apply completed_cons in H as (s7 & H7 & H).
  apply completed_cons in H as (s8 & H8 & H).
  apply completed_cons in H as (s9 & H9 & H).
  apply completed_cons in H as (s10 & H10 & H).
  apply completed_cons in H as (s11 & [= <-] & H).
  unfold completed in H. cbn [run_stages map] in H. injection H as <-.
  destruct (SetupLogging_members fs0) as (_ & _ & L3 & _).
  destruct (FileSystem_CreateStatistics_members (SetupLogging fs0)) as (_ & _ & C3 & _).
  destruct (SetupSqlite E (CreateStatistics (SetupLogging fs0))) as [s3' | |] eqn:Hq;
    cbn [mbind outcome_bind] in H3; try discriminate.
  injection H3 as ->.
  destruct (SetupSqlite_members E _ _ Hq) as (_ & _ & Q3 & _).
  destruct (DetermineNfsMode_members E s3) as (_ & _ & N3 & _).
  destruct (DetermineNfsMode E s3) as [ok4 s4'] eqn:Hn. cbn [snd] in N3.
  injection H4 as -> ->.
  assert (Hname : name_ s4 = name_ fs0) by congruence.
  pose proof (SetupWorkspace_result E s4 true s5 H5) as (_ & Hr). cbv zeta in Hr.
  destruct (IsDefined s4 "CVMFS_CACHE_DIR" && IsDefined s4 "CVMFS_CACHE_BASE");
    [destruct Hr as (Hr & _); discriminate Hr |].
  destruct Hr as (Hfull & _ & Hr). destruct (Hr eq_refl) as (_ & _ & Hlock & _ & Hguard & _).
  rewrite <- Hfull, Hname in Hlock. rewrite Hname in Hguard. clear Hr Hfull.
  assert (F : workspace_ (io (IoSqliteTempDirectory (workspace_ s5)) s5) = workspace_ s5 /\
              workspace_fullpath_ (io (IoSqliteTempDirectory (workspace_ s5)) s5)
                = workspace_fullpath_ s5 /\
              path_workspace_lock_ (io (IoSqliteTempDirectory (workspace_ s5)) s5)
                = path_workspace_lock_ s5 /\
              path_crash_guard_ (io (IoSqliteTempDirectory (workspace_ s5)) s5)
                = path_crash_guard_ s5 /\
              trace_ (io (IoSqliteTempDirectory (workspace_ s5)) s5)
                = (trace_ s5 ++ [IoSqliteTempDirectory (workspace_ s5)])%list)
    by (destruct s5; cbn; auto 10).
  destruct F as (F1 & F2 & F3 & F4 & F5).
  destruct (TriageCacheMgr_members E _ _ _ H7)
    as (_ & _ & _ & _ & _ & T1 & T2 & T3 & T4 & _).
  destruct (SetupUuid E s7) as [s8' | |] eqn:Hu;
    cbn [mbind outcome_bind] in H8; try discriminate.
  injection H8 as ->.
  destruct (SetupUuid_members E _ _ Hu) as (_ & _ & _ & _ & _ & U1 & U2 & U3 & U4 & _).
  destruct (SetupNfsMaps_members E _ _ _ H9)
    as (_ & _ & _ & _ & _ & M1 & M2 & M3 & M4 & _).
  cbv zeta in H10. destruct (negb (RegisterVfsRdOnly E)); [discriminate |].
  injection H10 as <-.
  set (fs_end := io IoClientCtx _) in *.
  assert (Z : workspace_ fs_end = workspace_ s9 /\
              workspace_fullpath_ fs_end = workspace_fullpath_ s9 /\
              path_workspace_lock_ fs_end = path_workspace_lock_ s9 /\
              path_crash_guard_ fs_end = path_crash_guard_ s9)
    by (subst fs_end; destruct s9; cbn; auto).
  destruct Z as (Z1 & Z2 & Z3 & Z4).
  split; [| split].
  - congruence.
  - congruence.
  - unfold sqlite3_temp_directory. rewrite Hevs, F5, !existsb_app. cbn.
    rewrite orb_true_r. reflexivity.
Qed.

(** X14. The destructor of a booted file system.  On a file system that
    FileSystem::Create returns with the Ok status, the workspace lock
    file is <workspace>/lock.<name>, the crash guard
    <workspace>/running.<name>, and ~FileSystem releases everything the
    bootstrap acquired, in this order: the client context, the read-only
    SQLite VFS, the uuid, the NFS maps if they were set up, the cache
    manager, the SQLite temp directory, the crash guard file, the lock
    file, the workspace lock itself, SQLite, the statistics and the log
    settings.  It leaves the static alive flag cleared, so that a new
    FileSystem can be constructed. *)
Theorem booted_teardown (E : Env) g fs_info fs :
  FileSystem_Create E g fs_info = Ret fs ->
  boot_status_ fs = kFailOk ->
  exists uuid cache_mgr,
    uuid_cache_ fs = Some uuid /\
    cache_mgr_ fs = Some cache_mgr /\
    0 <= fd_workspace_lock_ fs /\
    path_workspace_lock_ fs =
      workspace_fullpath_ fs +:+ "/lock." +:+ info_name fs_info /\
    path_crash_guard_ fs = workspace_ fs +:+ "/running." +:+ info_name fs_info /\
    FileSystem_delete E fs =
      ([TdClientCtxCleanup; TdUnregisterVfsRdOnly; TdDeleteUuid uuid] ++
       (if CVMFS_NFS_SUPPORT E && has_nfs_maps_ fs then [TdNfsMapsFini] else []) ++
       [TdDeleteCacheMgr cache_mgr; TdFreeTempDirectory;
        TdUnlink (path_crash_guard_ fs); TdUnlink (path_workspace_lock_ fs);
        TdUnlockFile (fd_workspace_lock_ fs);
        TdSqliteShutdown; TdSqliteMemoryCleanup; TdDeleteStatistics;
        TdSetLog "SetLogSyslogPrefix" ""; TdSetLog "SetLogMicroSyslog" "";
        TdSetLog "SetLogDebugFile" ""; TdShutdownProtobuf],
       false)%list /\
    exists fs0, FileSystem_new (snd (FileSystem_delete E fs)) fs_info = Ret fs0.
Proof.
  intros H Hok.
  destruct (FileSystem_Create_outcome E g fs_info fs H) as (fs0 & Hnew & _ & Hcases).
  destruct Hcases as [(fs_end & Hc & ->) | (n & before & _ & Hne & _)];
    [| contradiction].
  destruct (completed_stages_members E fs0 fs_end Hc)
    as (P1 & [m P2] & [uuid P3] & P4 & P5 & _ & P7 & _).
  destruct (completed_stages_workspace E fs0 fs_end Hc) as (W1 & W2 & W3).
  unfold FileSystem_new in Hnew. destruct g; [discriminate |].
  injection Hnew as <-. cbn [name_] in *.
  set (fs := set_boot_status_ kFailOk fs_end).
  assert (Z : statistics_ fs = statistics_ fs_end /\ cache_mgr_ fs = cache_mgr_ fs_end /\
              uuid_cache_ fs = uuid_cache_ fs_end /\
              fd_workspace_lock_ fs = fd_workspace_lock_ fs_end /\
              has_custom_sqlitevfs_ fs = has_custom_sqlitevfs_ fs_end /\
              has_nfs_maps_ fs = has_nfs_maps_ fs_end /\
              workspace_ fs = workspace_ fs_end /\
              workspace_fullpath_ fs = workspace_fullpath_ fs_end /\
              path_workspace_lock_ fs = path_workspace_lock_ fs_end /\
              path_crash_guard_ fs = path_crash_guard_ fs_end /\
              trace_ fs = trace_ fs_end)
    by (subst fs; destruct fs_end; cbn; auto 20).
  destruct Z as (Z1 & Z2 & Z3 & Z4 & Z5 & Z6 & Z7 & Z8 & Z9 & Z10 & Z11).
  clearbody fs.
  exists uuid, m.
  split; [congruence |]. split; [congruence |]. split; [lia |].
  split; [congruence |]. split; [congruence |].
  split; [| exists
    {| name_ := info_name fs_info; exe_path_ := info_exe_path fs_info;
       type_ := info_type fs_info; options_mgr_ := info_options_mgr fs_info;
       wait_workspace_ := info_wait_workspace fs_info;
       foreground_ := info_foreground fs_info; statistics_ := false;
       workspace_ := ""; workspace_fullpath_ := ""; path_workspace_lock_ := "";
       fd_workspace_lock_ := -1; path_crash_guard_ := "";
       found_previous_crash_ := false; nfs_mode_ := kNfsNone; nfs_maps_dir_ := "";
       cache_mgr_instance_ := ""; constructed_instances_ := ∅; cache_mgr_ := None;
       uuid_cache_ := None; has_nfs_maps_ := false; has_custom_sqlitevfs_ := false;
       boot_status_ := kFailUnknown; boot_error_ := ""; trace_ := [] |};
    reflexivity].
  unfold FileSystem_delete, sqlite3_temp_directory.
  rewrite Z1, Z2, Z3, Z5, Z11, P1, P2, P3, P5. fold (sqlite3_temp_directory fs_end).
  rewrite W3.
  assert (Hl : String.eqb (path_workspace_lock_ fs) "" = false)
    by (rewrite Z9, W1; apply lock_path_not_empty).
  assert (Hg : String.eqb (path_crash_guard_ fs) "" = false)
    by (rewrite Z10, W2; apply crash_guard_not_empty).
  rewrite Hl, Hg. cbn [negb].
  destruct (Z.leb_spec 0 (fd_workspace_lock_ fs)) as [_ | Hneg]; [| lia].
  reflexivity.
Qed.

Lemma booted_teardown_witness :
  exists fs,
    FileSystem_Create Examples.env false (Examples.fs_info kFsFuse ∅ false) = Ret fs /\
    boot_status_ fs = kFailOk /\
    TdUnlockFile 3 ∈ fst (FileSystem_delete Examples.env fs) /\
    TdUnlink "./running.repo.example.org" ∈ fst (FileSystem_delete Examples.env fs).
Proof.
  assert (H : exists fs,
            FileSystem_Create Examples.env false (Examples.fs_info kFsFuse ∅ false)
              = Ret fs /\ boot_status_ fs = kFailOk /\
            fd_workspace_lock_ fs = 3 /\ workspace_ fs = ".")
    by (eexists; split; [| split; [| split]]; vm_compute; reflexivity).
  destruct H as (fs & H & Hs & Hfd & Hws). exists fs.
  split; [exact H |]. split; [exact Hs |].
  destruct (booted_teardown Examples.env false _ fs H Hs)
    as (uuid & m & _ & _ & _ & _ & Hguard & Hdel & _).
  rewrite Hdel, Hfd, Hguard, Hws. cbn [fst]. split.
  - apply elem_of_app. right. apply elem_of_app. right.
    repeat first [apply list_elem_of_here | apply list_elem_of_further].
  - apply elem_of_app. right. apply elem_of_app. right.
    repeat first [apply list_elem_of_here | apply list_elem_of_further].
Defined.

Lemma elem_of_if_singleton {A : Type} (c : bool) (x e : A) :
  e ∈ (if c then [x] else []) <-> c = true /\ e = x.
Proof.
  destruct c; rewrite ?list_elem_of_singleton, ?elem_of_nil; intuition discriminate.
Qed.

Lemma elem_of_option_singleton {A B : Type} (o : option B) (f : B -> A) (e : A) :
  e ∈ match o with Some b => [f b] | None => [] end <-> exists b, o = Some b /\ e = f b.
Proof.
  destruct o as [b |]; rewrite ?list_elem_of_singleton, ?elem_of_nil.
  - split; [eauto | intros (b' & [= ->] & ->); reflexivity].
  - split; [contradiction | intros (b' & Hb & _); discriminate].
Qed.

Lemma FileSystem_delete_unlock (E : Env) (fs : FileSystem) (fd : Z) :
  TdUnlockFile fd ∈ fst (FileSystem_delete E fs) <->
  0 <= fd_workspace_lock_ fs /\ fd = fd_workspace_lock_ fs.
Proof.
  unfold FileSystem_delete. cbn [fst].
  rewrite !elem_of_app, !elem_of_if_singleton,
    !(elem_of_option_singleton _ TdDeleteUuid),
    !(elem_of_option_singleton _ TdDeleteCacheMgr),
    !elem_of_cons, !elem_of_nil.
  rewrite Z.leb_le.
  split.
  - intros H. repeat (destruct H as [H | H]); try discriminate H; try contradiction;
      try (destruct H as [_ H]; discriminate H);
      try (destruct H as (? & _ & H); discriminate H).
    destruct H as [Hle Heq]. injection Heq as ->. split; [exact Hle | reflexivity].
  - intros [Hle ->]. do 8 right. left. split; [exact Hle | reflexivity].
Qed.

Lemma FileSystem_delete_unlink (E : Env) (fs : FileSystem) (path : string) :
  TdUnlink path ∈ fst (FileSystem_delete E fs) <->
  path <> "" /\ (path = path_crash_guard_ fs \/ path = path_workspace_lock_ fs).
Proof.
  unfold FileSystem_delete. cbn [fst].
  rewrite !elem_of_app, !elem_of_if_singleton,
    !(elem_of_option_singleton _ TdDeleteUuid),
    !(elem_of_option_singleton _ TdDeleteCacheMgr),
    !elem_of_cons, !elem_of_nil.
  rewrite !negb_true_iff.
  split.
  - intros H. repeat (destruct H as [H | H]); try discriminate H; try contradiction;
      try (destruct H as [_ H]; discriminate H);
      try (destruct H as (? & _ & H); discriminate H);
      destruct H as [Hne Heq]; injection Heq as ->; apply String.eqb_neq in Hne; auto.
  - intros [Hne [-> | ->]]; apply String.eqb_neq in Hne.
    + do 6 right. left. split; [exact Hne | reflexivity].
    + do 7 right. left. split; [exact Hne | reflexivity].
Qed.

(** X15. Teardown after a failed lock.  LockWorkspace records the path
    of the lock file before it tries to lock.  So whenever it fails --
    the lock is held elsewhere and the caller does not wait, or locking
    reports an error -- the object is left with the lock file's path and
    a negative descriptor, and ~FileSystem on it unlinks
    <workspace>/lock.<name> although the lock is not held, and unlocks
    nothing.  When LockWorkspace succeeds the destructor unlinks the same
    file and unlocks the descriptor that was obtained. *)
Theorem failed_lock_teardown (E : Env) (fs : FileSystem) ok fs' :
  LockWorkspace E fs = Ret (ok, fs') ->
  let lock := workspace_ fs +:+ "/lock." +:+ name_ fs in
  let teardown := fst (FileSystem_delete E fs') in
  path_workspace_lock_ fs' = lock /\
  TdUnlink lock ∈ teardown /\
  (if ok
   then 0 <= fd_workspace_lock_ fs' /\
        forall fd, TdUnlockFile fd ∈ teardown <-> fd = fd_workspace_lock_ fs'
   else fd_workspace_lock_ fs' < 0 /\
        forall fd, TdUnlockFile fd ∉ teardown).
Proof.
  intros H lock teardown. subst lock teardown.
  assert (Hres : path_workspace_lock_ fs' = workspace_ fs +:+ "/lock." +:+ name_ fs /\
                 if ok then 0 <= fd_workspace_lock_ fs' else fd_workspace_lock_ fs' < 0).
  { revert H. unfold LockWorkspace.
    destruct fs as [nm ex ty op ww fg st ws wf pl fd pc fp nmode nd ci cs cm uu hn hs bs be tr].
    cbn.
    destruct (Z.leb_spec 0 (TryLockFile E (ws +:+ "/lock." +:+ nm))) as [Hle | Hlt].
    - intros [= <- <-]. cbn. split; [reflexivity | exact Hle].
    - destruct (Z.eqb_spec (TryLockFile E (ws +:+ "/lock." +:+ nm)) (-1)) as [He | Hne].
      + intros [= <- <-]. cbn. split; [reflexivity | lia].
      + destruct (Z.eqb_spec (TryLockFile E (ws +:+ "/lock." +:+ nm)) (-2)) as [He2 | Hne2];
          cbn [negb]; [| discriminate].
        destruct ww; cbn [negb].
        * destruct (Z.ltb_spec (LockFile E (ws +:+ "/lock." +:+ nm)) 0) as [Hl | Hl];
            intros [= <- <-]; cbn; (split; [reflexivity | lia]).
        * intros [= <- <-]. cbn. split; [reflexivity | lia]. }
  destruct Hres as [Hpath Hfd]. split; [exact Hpath |]. split.
  - apply FileSystem_delete_unlink. split.
    + intros He. pose proof (lock_path_not_empty (workspace_ fs) (name_ fs)) as Hn.
      rewrite He in Hn. discriminate Hn.
    + right. symmetry. exact Hpath.
  - destruct ok.
    + split; [exact Hfd |]. intros fd. rewrite FileSystem_delete_unlock.
      split; [intros [_ ->]; reflexivity | intros ->; split; [exact Hfd | reflexivity]].
    + split; [exact Hfd |]. intros fd Hin. apply FileSystem_delete_unlock in Hin. lia.
Qed.

Lemma failed_lock_teardown_witness :
  exists fs',
    LockWorkspace (Examples.env_with 0 1000 true (-2) (-2))
      (Examples.file_system kFsFuse ∅ false) = Ret (false, fs') /\
    boot_status_ fs' = kFailLockWorkspace /\
    TdUnlink "/lock.repo.example.org"
      ∈ fst (FileSystem_delete (Examples.env_with 0 1000 true (-2) (-2)) fs').
Proof.
  assert (H : exists fs',
            LockWorkspace (Examples.env_with 0 1000 true (-2) (-2))
              (Examples.file_system kFsFuse ∅ false) = Ret (false, fs') /\
            boot_status_ fs' = kFailLockWorkspace)
    by (eexists; split; vm_compute; reflexivity).
  destruct H as (fs' & H & Hs). exists fs'. split; [exact H |]. split; [exact Hs |].
  destruct (failed_lock_teardown _ _ _ _ H) as (_ & Hun & _). exact Hun.
Defined.

(** ** Termination of the cache manager setup *)

Lemma SetupCacheMgr_fuel_stable (E : Env) fuel fuel' instance fs :
  (fuel <= fuel')%nat ->
  SetupCacheMgr E fuel instance fs <> OutOfFuel ->
  SetupCacheMgr E fuel' instance fs = SetupCacheMgr E fuel instance fs.
Proof.
  revert fuel' instance fs.
  induction fuel as [| fuel IH]; intros fuel' instance fs Hle H;
    [exfalso; apply H; reflexivity |].
  destruct fuel' as [| fuel']; [lia |].
  simpl in *.
  destruct (bool_decide (instance ∈ constructed_instances_ fs)); [reflexivity |].
  match type of H with
  | context [SetupPosixCacheMgr E instance ?s] => set (fs1 := s) in *
  end.
  clearbody fs1.
  destruct (String.eqb (instance_type instance fs1) "posix"); [reflexivity |].
  destruct (String.eqb (instance_type instance fs1) "ram"); [reflexivity |].
  destruct (String.eqb (instance_type instance fs1) "tiered"); [| reflexivity].
  assert (Hsub : forall i s, SetupCacheMgr E fuel i s <> OutOfFuel ->
                             SetupCacheMgr E fuel' i s = SetupCacheMgr E fuel i s).
  { intros. apply IH; [lia | assumption]. }
  unfold SetupTieredCacheMgr in *.
  destruct (GetValue fs1 _) as [up |]; [| reflexivity].
  assert (Hup : SetupCacheMgr E fuel up fs1 <> OutOfFuel).
  { intros Hout. rewrite Hout in H. apply H. reflexivity. }
  rewrite (Hsub _ _ Hup).
  destruct (SetupCacheMgr E fuel up fs1) as [[upper fs2] | |]; simpl in *;
    try reflexivity.
  destruct upper; [| reflexivity].
  destruct (GetValue fs2 _) as [lo |]; [| reflexivity].
  assert (Hlo : SetupCacheMgr E fuel lo fs2 <> OutOfFuel).
  { intros Hout. rewrite Hout in H. apply H. reflexivity. }
  rewrite (Hsub _ _ Hlo). reflexivity.
Qed.

Lemma SetupCacheMgr_marks (E : Env) fuel instance fs r fs' :
  SetupCacheMgr E fuel instance fs = Ret (r, fs') ->
  instance ∈ constructed_instances_ fs'.
Proof.
  destruct fuel as [| fuel]; [discriminate |]. simpl.
  destruct (bool_decide_reflect (instance ∈ constructed_instances_ fs)) as [Hin | Hnew].
  - intros [= <- <-]. destruct fs; exact Hin.
  - match goal with
    | |- context [SetupPosixCacheMgr E instance ?s] => set (fs1 := s) in *
    end.
    assert (Hin1 : instance ∈ constructed_instances_ fs1)
      by (subst fs1; destruct fs; cbn; set_solver).
    clearbody fs1.
    assert (Hpost : forall ok, setup_post fs1 ok fs' -> instance ∈ constructed_instances_ fs')
      by (intros ok (_ & Hsub & _); apply Hsub; exact Hin1).
    destruct (String.eqb (instance_type instance fs1) "posix").
    { intros H. apply SetupPosixCacheMgr_post in H as [_ H]. eapply Hpost, H. }
    destruct (String.eqb (instance_type instance fs1) "ram").
    { intros H. apply SetupRamCacheMgr_post in H as [_ H]. eapply Hpost, H. }
    destruct (String.eqb (instance_type instance fs1) "tiered").
    { intros H. eapply Hpost, (SetupTieredCacheMgr_post E _ _ _ _ _ (SetupCacheMgr_post E fuel)).
      exact H. }
    destruct (String.eqb (instance_type instance fs1) "external").
    { intros H. apply SetupExternalCacheMgr_post in H as [_ H]. eapply Hpost, H. }
    intros [= <- <-]. destruct fs1; exact Hin1.
Qed.

(** X16. The setup of a cache manager ends on every configuration,
    however the tiers refer to each other: with the nesting depth bounded
    by the number of options plus one -- what TriageCacheMgr grants --
    SetupCacheMgr returns or stops at an assertion, and no larger bound
    changes its result.  When it returns, the instance it was called for
    is marked as constructed, no mark is lost, nothing but the marks, the
    boot outcome and the trace has changed, the trace has only grown, and
    there is a manager exactly when the boot outcome was left alone;
    otherwise a failure code has been set. *)
Theorem cache_setup_terminates (E : Env) (instance : string) (fs : FileSystem) :
  let bound := S (size (options_mgr_ fs)) in
  SetupCacheMgr E bound instance fs <> OutOfFuel /\
  (forall fuel, (bound <= fuel)%nat ->
     SetupCacheMgr E fuel instance fs = SetupCacheMgr E bound instance fs) /\
  (forall cache_mgr fs',
     SetupCacheMgr E bound instance fs = Ret (cache_mgr, fs') ->
     instance ∈ constructed_instances_ fs' /\
     constructed_instances_ fs ⊆ constructed_instances_ fs' /\
     same_context fs fs' /\
     (exists evs, trace_ fs' = (trace_ fs ++ evs)%list) /\
     match cache_mgr with
     | Some _ => boot_status_ fs' = boot_status_ fs /\ boot_error_ fs' = boot_error_ fs
     | None => is_failure_code (boot_status_ fs') = true
     end).
Proof.
  intros bound.
  assert (Hfuel : SetupCacheMgr E bound instance fs <> OutOfFuel).
  { apply SetupCacheMgr_enough_fuel. pose proof (pending_tiers_bound fs). subst bound. lia. }
  split; [exact Hfuel |]. split.
  - intros fuel Hle. apply SetupCacheMgr_fuel_stable; assumption.
  - intros cache_mgr fs' H.
    pose proof (SetupCacheMgr_post E _ _ _ _ _ H) as (Hctx & Hsub & (evs & Hevs & _) & Hst).
    split; [| split; [exact Hsub | split; [exact Hctx | split; [eauto |]]]].
    + exact (SetupCacheMgr_marks E _ _ _ _ _ H).
    + destruct cache_mgr; exact Hst.
Qed.

(** ** The size of a RAM cache *)

Lemma RoundUp8_spec (x : Z) :
  0 <= x ->
  RoundUp8 x mod 8 = 0 /\ 0 <= RoundUp8 x < 2 ^ 64 /\
  (x + 7 < 2 ^ 64 -> x <= RoundUp8 x < x + 8).
Proof.
  intros Hx. unfold RoundUp8, wrap_uint64.
  pose proof (Z.div_mod (x + 7) 8 ltac:(lia)) as Hd.
  pose proof (Z.mod_pos_bound (x + 7) 8 ltac:(lia)) as Hm.
  split; [| split].
  - apply Z.mod_divide; [lia |]. rewrite Z.mod_eq by lia.
    apply Z.divide_sub_r.
    + exists ((x + 7) / 8). reflexivity.
    + exists (2 ^ 61 * ((x + 7) / 8 * 8 / 2 ^ 64)).
      change (2 ^ 64) with (2 ^ 61 * 8). ring.
  - apply Z.mod_pos_bound. lia.
  - intros Hfit. rewrite Z.mod_small by lia. lia.
Qed.

(** X17. SetupRamCacheMgr always returns.  It fails only for a
    CVMFS_CACHE_MALLOC value other than libc and heap, with the Options
    code and before anything is created; without the option the
    allocator is heap.  Otherwise it creates a RAM cache whose size is
    the requested size, but at least 200 MiB, rounded up to a multiple of
    8 in 64 bit arithmetic: the request is CVMFS_CACHE_SIZE in MiB, or,
    with a trailing percent sign, that percentage of the physical memory,
    or 1/32 of the physical memory when the option is missing.  The
    number of files is CVMFS_NFILES cut to 32 bits, or the default. *)
Theorem ram_cache_size (E : Env) (instance : string) (fs : FileSystem) :
  let requested :=
    match GetValue fs (MkCacheParm fs "CVMFS_CACHE_SIZE" instance) with
    | Some optarg =>
        if ends_with_percent optarg
        then ((platform_memsize E * String2Uint64 E optarg) mod 2 ^ 64) / 100
        else (String2Uint64 E optarg * 1024 * 1024) mod 2 ^ 64
    | None => platform_memsize E / 32
    end in
  let nfiles :=
    match GetValue fs "CVMFS_NFILES" with
    | Some optarg => String2Uint64 E optarg mod 2 ^ 32
    | None => kDefaultNfiles E
    end in
  let malloc := GetValue fs (MkCacheParm fs "CVMFS_CACHE_MALLOC" instance) in
  exists r fs',
    SetupRamCacheMgr E instance fs = Ret (r, fs') /\
    match r with
    | Some cache_mgr =>
        exists sz,
          cache_mgr =
            RamCacheManager sz nfiles
              (if bool_decide (malloc = Some "libc") then kMallocLibc else kMallocHeap) /\
          (malloc = None \/ malloc = Some "libc" \/ malloc = Some "heap") /\
          sz mod 8 = 0 /\ 0 <= sz < 2 ^ 64 /\
          (requested + 7 < 2 ^ 64 ->
           200 * 1024 * 1024 <= sz /\ requested <= sz /\
           sz < Z.max (200 * 1024 * 1024) requested + 8) /\
          trace_ fs' = (trace_ fs ++
                        [IoRamCacheCreate sz nfiles
                           (if bool_decide (malloc = Some "libc")
                            then kMallocLibc else kMallocHeap)])%list /\
          boot_status_ fs' = boot_status_ fs
    | None =>
        (exists v, malloc = Some v /\ v <> "libc" /\ v <> "heap") /\
        boot_status_ fs' = kFailOptions /\
        trace_ fs' = trace_ fs
    end.
Proof.
  intros requested nfiles malloc. unfold SetupRamCacheMgr.
  fold malloc. unfold wrap_uint64, wrap_uint32. rewrite Z.shiftr_div_pow2 by lia.
  change (2 ^ 5) with 32. fold requested. fold nfiles.
  clearbody requested nfiles.
  set (sz := RoundUp8 (Z.max (200 * 1024 * 1024) requested)).
  assert (Hsz : sz mod 8 = 0 /\ 0 <= sz < 2 ^ 64 /\
                (requested + 7 < 2 ^ 64 ->
                 200 * 1024 * 1024 <= sz /\ requested <= sz /\
                 sz < Z.max (200 * 1024 * 1024) requested + 8)).
  { destruct (RoundUp8_spec (Z.max (200 * 1024 * 1024) requested) ltac:(lia))
      as (H8 & Hr & Hfit).
    split; [exact H8 |]. split; [exact Hr |]. intros Hreq.
    assert (Hmax : Z.max (200 * 1024 * 1024) requested + 7 < 2 ^ 64) by lia.
    specialize (Hfit Hmax). fold sz in Hfit. lia. }
  clearbody sz.
  destruct malloc as [v |] eqn:Hmalloc.
  - destruct (String.eqb_spec v "libc") as [-> | Hlibc].
    + eexists _, _. split; [reflexivity |]. exists sz.
      rewrite bool_decide_eq_true_2 by reflexivity.
      split; [reflexivity |]. split; [auto |].
      split; [apply Hsz |]. split; [apply Hsz |]. split; [apply Hsz |].
      destruct fs; split; reflexivity.
    + destruct (String.eqb_spec v "heap") as [-> | Hheap].
      * eexists _, _. split; [reflexivity |]. exists sz.
        rewrite bool_decide_eq_false_2 by discriminate.
        split; [reflexivity |]. split; [auto |].
        split; [apply Hsz |]. split; [apply Hsz |]. split; [apply Hsz |].
        destruct fs; split; reflexivity.
      * eexists _, _. split; [reflexivity |].
        split; [exists v; auto |]. destruct fs; split; reflexivity.
  - eexists _, _. split; [reflexivity |]. exists sz.
    rewrite bool_decide_eq_false_2 by discriminate.
    split; [reflexivity |]. split; [auto |].
    split; [apply Hsz |]. split; [apply Hsz |]. split; [apply Hsz |].
    destruct fs; split; reflexivity.
Qed.

(** ** Quota management in the constructed caches *)

Lemma SetupPosixCacheMgr_quota (E : Env) instance fs m fs' :
  SetupPosixCacheMgr E instance fs = Ret (Some m, fs') ->
  exists cache_path alien avoid_rename has_quota,
    m = PosixCacheManager cache_path alien avoid_rename has_quota /\
    (alien = true -> has_quota = false) /\
    (type_ fs = kFsLibrary -> has_quota = false) /\
    has_quota = (0 <? quota_limit (DeterminePosixCacheSettings E instance fs)).
Proof.
  unfold SetupPosixCacheMgr.
  rewrite <- (is_managed_quota_limit E instance fs).
  set (settings := DeterminePosixCacheSettings E instance fs). clearbody settings.
  unfold CheckPosixCacheSettings, CreateFile.
  destruct (is_alien settings) eqn:Ha, (is_shared settings) eqn:Hs,
    (is_managed settings) eqn:Hm;
    (destruct (bool_decide_reflect (type_ fs = kFsLibrary)) as [Hlib | Hlib]);
    cbn -[SetupPosixQuotaMgr]; try discriminate;
    (destruct (cache_base_defined settings && cache_dir_defined settings);
     cbn -[SetupPosixQuotaMgr]; try discriminate);
    (destruct (PosixCacheManager_Create E _ _ _);
     cbn -[SetupPosixQuotaMgr]; try discriminate);
    (destruct (CreateFile_creates E _ _); cbn -[SetupPosixQuotaMgr]; try discriminate);
    try (destruct (SetupPosixQuotaMgr E settings _) as [[ok fs2] | |];
         cbn; try discriminate; destruct ok; cbn; try discriminate);
    intros [= <- <-]; eexists _, _, _, _;
    (split; [reflexivity |]); repeat split; try reflexivity; try discriminate;
    intros; try contradiction; congruence.
Qed.

Lemma same_context_type fs fs' : same_context fs fs' -> type_ fs' = type_ fs.
Proof. intros H. apply same_context_members in H. tauto. Qed.

(** X18. Quota management in the constructed caches.  In every manager
    that SetupCacheMgr returns, whatever the nesting of tiers, a POSIX
    cache has a quota manager attached only if it is not an alien cache,
    and none in the library: libcvmfs and alien caches are never
    managed.  TriageCacheMgr, run on an object without a cache manager,
    installs a manager exactly when it succeeds, and that manager
    satisfies the same; when it fails, for whatever reason, the object
    is left without one. *)
Theorem quota_in_cache_tree (E : Env) :
  let unmanaged (fs : FileSystem) (_ : string) (alien_cache _ has_quota : bool) :=
    (alien_cache = true -> has_quota = false) /\
    (type_ fs = kFsLibrary -> has_quota = false) in
  (forall fuel instance fs cache_mgr fs',
     SetupCacheMgr E fuel instance fs = Ret (Some cache_mgr, fs') ->
     every_posix (unmanaged fs) cache_mgr) /\
  (forall fs ok fs2,
     cache_mgr_ fs = None ->
     TriageCacheMgr E fs = Ret (ok, fs2) ->
     match cache_mgr_ fs2 with
     | Some installed => ok = true /\ every_posix (unmanaged fs) installed
     | None => ok = false
     end).
Proof.
  intros unmanaged.
  assert (Hall : forall fs fuel instance fs0 m fs1,
            type_ fs0 = type_ fs ->
            SetupCacheMgr E fuel instance fs0 = Ret (Some m, fs1) ->
            every_posix (unmanaged fs) m).
  { intros fs fuel. induction fuel as [| fuel IH]; intros instance fs0 m fs1 Hty H;
      [discriminate |].
    simpl in H.
    destruct (bool_decide (instance ∈ constructed_instances_ fs0)); [discriminate |].
    match type of H with
    | context [SetupPosixCacheMgr E instance ?s] => set (fs0' := s) in *
    end.
    assert (Hty' : type_ fs0' = type_ fs) by (subst fs0'; destruct fs0; exact Hty).
    clearbody fs0'.
    destruct (String.eqb (instance_type instance fs0') "posix").
    { apply SetupPosixCacheMgr_quota in H
        as (path & alien & avoid & quota & -> & Halien & Hlib & _).
      cbn. split; [exact Halien |]. rewrite <- Hty'. exact Hlib. }
    destruct (String.eqb (instance_type instance fs0') "ram").
    { unfold SetupRamCacheMgr in H.
      destruct (GetValue fs0' (MkCacheParm fs0' "CVMFS_CACHE_MALLOC" instance)) as [v |];
        [destruct (String.eqb v "libc"); [| destruct (String.eqb v "heap")] |];
        cbn in H; try discriminate; injection H as <- <-; exact I. }
    destruct (String.eqb (instance_type instance fs0') "tiered").
    { unfold SetupTieredCacheMgr in H.
      destruct (GetValue fs0' _) as [up |]; [| discriminate].
      destruct (SetupCacheMgr E fuel up fs0') as [[[upper |] fs2] | |] eqn:Hup;
        cbn [mbind outcome_bind] in H; try discriminate.
      destruct (GetValue fs2 _) as [lo |]; [| discriminate].
      destruct (SetupCacheMgr E fuel lo fs2) as [[[lower |] fs3] | |] eqn:Hlo;
        cbn [mbind outcome_bind] in H; try discriminate.
      destruct (negb (TieredCacheManager_Create E upper lower)); [discriminate |].
      injection H as <- <-.
      pose proof (SetupCacheMgr_post E _ _ _ _ _ Hup) as (Hctx & _).
      apply same_context_type in Hctx.
      cbn. split.
      - exact (IH _ _ _ _ Hty' Hup).
      - apply (IH _ _ _ _ (eq_trans Hctx Hty') Hlo). }
    destruct (String.eqb (instance_type instance fs0') "external"); [| discriminate].
    unfold SetupExternalCacheMgr in H.
    destruct (GetValue fs0' (MkCacheParm fs0' "CVMFS_CACHE_LOCATOR" instance));
      [| discriminate].
    destruct (negb (IsValid _)); [discriminate |].
    destruct (negb (ExternalCacheManager_Create E _ _ _)); [discriminate |].
    injection H as <- <-. exact I. }
  split; [intros fuel instance fs cache_mgr fs' H; exact (Hall _ _ _ _ _ _ eq_refl H) |].
  intros fs ok fs2 Hnone. unfold TriageCacheMgr.
  assert (Hrun : forall fs1 : FileSystem,
            type_ fs1 = type_ fs ->
            ('(mgr, s) ← SetupCacheMgr E (S (size (options_mgr_ fs1)))
                          (cache_mgr_instance_ fs1) fs1;
             Ret (bool_decide (is_Some mgr), set_cache_mgr_ mgr s)) = Ret (ok, fs2) ->
            match cache_mgr_ fs2 with
            | Some installed => ok = true /\ every_posix (unmanaged fs) installed
            | None => ok = false
            end).
  { intros fs1 Hty Hrun.
    destruct (SetupCacheMgr E _ _ fs1) as [[mgr fs3] | |] eqn:Hsetup;
      cbn [mbind outcome_bind] in Hrun; try discriminate.
    injection Hrun as <- <-.
    assert (Hc : cache_mgr_ (set_cache_mgr_ mgr fs3) = mgr) by (destruct fs3; reflexivity).
    rewrite Hc. destruct mgr as [m |].
    - split; [apply bool_decide_eq_true_2; eauto |]. exact (Hall _ _ _ _ _ _ Hty Hsetup).
    - apply bool_decide_eq_false_2. intros [x Hx]. discriminate. }
  assert (Hopt : forall k, GetValue (set_cache_mgr_instance_ kDefaultCacheMgrInstance fs) k
                           = GetValue fs k) by (intros; destruct fs; reflexivity).
  rewrite Hopt.
  destruct (GetValue fs "CVMFS_CACHE_PRIMARY") as [primary |].
  - destruct (String.eqb primary ""); cbn [negb].
    + apply Hrun. destruct fs; reflexivity.
    + unfold CheckInstanceName.
      destruct (_ <? _)%nat.
      * intros [= <- <-]. destruct fs; cbn in *. rewrite Hnone. reflexivity.
      * destruct (CacheInstanceSanitizer_IsValid primary); cbn [negb].
        -- apply Hrun. destruct fs; reflexivity.
        -- intros [= <- <-]. destruct fs; cbn in *. rewrite Hnone. reflexivity.
  - apply Hrun. destruct fs; reflexivity.
Qed.

(** A library file system gets an unmanaged POSIX cache installed; a
    primary instance of an unknown type leaves the object without a
    cache manager. *)
Lemma quota_in_cache_tree_witness :
  (exists fs2 cache_path alien_cache avoid_rename,
     TriageCacheMgr Examples.env (Examples.file_system kFsLibrary ∅ false)
     = Ret (true, fs2) /\
     cache_mgr_ fs2 = Some (PosixCacheManager cache_path alien_cache avoid_rename false)) /\
  (exists fs2,
     TriageCacheMgr Examples.env
       (Examples.file_system kFsFuse {[ "CVMFS_CACHE_PRIMARY" := "x" ]} false)
     = Ret (false, fs2) /\
     cache_mgr_ fs2 = None).
Proof.
  destruct (quota_in_cache_tree Examples.env) as [_ Htriage].
  split.
  - assert (H : exists fs2,
              TriageCacheMgr Examples.env (Examples.file_system kFsLibrary ∅ false)
              = Ret (true, fs2))
      by (eexists; vm_compute; reflexivity).
    destruct H as (fs2 & H).
    assert (Hm : exists cache_path alien_cache avoid_rename has_quota,
              cache_mgr_ fs2
              = Some (PosixCacheManager cache_path alien_cache avoid_rename has_quota)).
    { assert (Hboth : Ret (cache_mgr_ fs2)
                      = Ret (Some (PosixCacheManager "/var/lib/cvmfs/repo.example.org"
                                     false false false))).
      { transitivity
          ('(_, s) ← TriageCacheMgr Examples.env
                       (Examples.file_system kFsLibrary ∅ false);
           Ret (cache_mgr_ s)).
        - rewrite H. reflexivity.
        - vm_compute. reflexivity. }
      injection Hboth as Hboth. eauto. }
    destruct Hm as (cache_path & alien_cache & avoid_rename & has_quota & Hm).
    pose proof (Htriage (Examples.file_system kFsLibrary ∅ false) _ _ eq_refl H)
      as Hpost.
    rewrite Hm in Hpost. destruct Hpost as [_ [_ Hlib]].
    rewrite (Hlib eq_refl) in Hm. exists fs2, cache_path, alien_cache, avoid_rename.
    split; [exact H | exact Hm].
  - assert (H : exists fs2,
              TriageCacheMgr Examples.env
                (Examples.file_system kFsFuse {[ "CVMFS_CACHE_PRIMARY" := "x" ]} false)
              = Ret (false, fs2))
      by (eexists; vm_compute; reflexivity).
    destruct H as (fs2 & H). exists fs2. split; [exact H |].
    pose proof (Htriage (Examples.file_system kFsFuse
                           {[ "CVMFS_CACHE_PRIMARY" := "x" ]} false) _ _ eq_refl H)
      as Hpost.
    destruct (cache_mgr_ fs2); [destruct Hpost; discriminate | reflexivity].
Defined.

(** ** Failure codes of the mount point *)

Lemma constructed_decide (mp : MountPoint.t) (l : list Member) :
  (forall m, constructed m mp = true <-> m ∈ l) ->
  forall m, constructed m mp = bool_decide (m ∈ l).
Proof.
  intros H m. destruct (decide (m ∈ l)) as [Hin | Hin].
  - rewrite (bool_decide_eq_true_2 _ Hin). apply H. exact Hin.
  - rewrite (bool_decide_eq_false_2 _ Hin).
    destruct (constructed m mp) eqn:Hc; [| reflexivity].
    apply H in Hc. contradiction.
Qed.

(** X19. The failure codes of MountPoint::Create.  Whenever it returns,
    the boot status tells how far the construction went.  Ok: every
    member is constructed.  Signature (keys, certificates or a blacklist
    could not be loaded): the signature manager exists, no download
    manager.  Wpad (proxy discovery): the download manager exists, no
    fetcher.  History or Catalog (tag lookup, root catalog): the catalog
    manager exists, no tracer.  Options (owner maps, or a trace file
    outside the fuse module): the catalog manager exists, no tables.  No
    other code is ever left by MountPoint::Create, in particular not the
    initial Unknown. *)
Theorem mount_failure_codes (E : Env) (M : MountPoint.Collaborators)
  fqrn file_system options_mgr mp :
  MountPoint.Create E M fqrn file_system options_mgr = Ret mp ->
  match MountPoint.boot_status_ mp with
  | kFailOk => forall m, constructed m mp = true
  | kFailSignature =>
      MountPoint.signature_mgr_ mp = true /\ MountPoint.download_mgr_ mp = false
  | kFailWpad =>
      MountPoint.download_mgr_ mp = true /\ MountPoint.fetcher_ mp = false
  | kFailHistory | kFailCatalog =>
      MountPoint.catalog_mgr_ mp = true /\ MountPoint.tracer_ mp = false
  | kFailOptions =>
      MountPoint.catalog_mgr_ mp = true /\ MountPoint.tables_ mp = false
  | _ => False
  end.
Proof.
  intros H.
  destruct (MountPoint_Create_cases E M _ _ _ _ H) as (n & Hm & _ & Hcases).
  pose proof (constructed_decide mp _ Hm) as Hd. clear Hm H.
  assert (Hflag : forall m b, bool_decide (m ∈ take n construction_order) = b ->
                              constructed m mp = b)
    by (intros m b <-; apply Hd).
  destruct Hcases as [[-> Hc] | [[[-> | ->] Hc] | [[-> Hc] | [[-> Hc] | [-> Hc]]]]];
    try (destruct Hc as [Hc | [Hc | Hc]]); rewrite Hc;
    try (split;
         [first [exact (Hflag MSignatureMgr true eq_refl)
                | exact (Hflag MDownloadMgr true eq_refl)
                | exact (Hflag MCatalogMgr true eq_refl)]
         | first [exact (Hflag MDownloadMgr false eq_refl)
                 | exact (Hflag MFetcher false eq_refl)
                 | exact (Hflag MTracer false eq_refl)
                 | exact (Hflag MTables false eq_refl)]]).
  intros m. apply Hflag. destruct m; reflexivity.
Qed.

Lemma mount_failure_codes_witness :
  exists mp,
    MountPoint.Create Examples.env (Examples.collaborators "") "repo.example.org"
      Examples.booted_file_system None = Ret mp /\
    MountPoint.boot_status_ mp = kFailWpad /\
    MountPoint.download_mgr_ mp = true /\ MountPoint.fetcher_ mp = false.
Proof.
  assert (H : exists mp,
            MountPoint.Create Examples.env (Examples.collaborators "")
              "repo.example.org" Examples.booted_file_system None = Ret mp /\
            MountPoint.boot_status_ mp = kFailWpad)
    by (eexists; split; vm_compute; reflexivity).
  destruct H as (mp & H & Hs). exists mp. split; [exact H |]. split; [exact Hs |].
  pose proof (mount_failure_codes _ _ _ _ _ _ H) as Hc. rewrite Hs in Hc. exact Hc.
Defined.

(** ** Failure codes of the file system *)

Lemma SetupPosixQuotaMgr_code (E : Env) settings fs fs' :
  SetupPosixQuotaMgr E settings fs = Ret (false, fs') ->
  boot_status_ fs' = kFailQuota.
Proof.
  unfold SetupPosixQuotaMgr. intros H. destruct fs; cbn in H.
  ret_cases H; injection H as <-; reflexivity.
Qed.

Lemma SetupPosixCacheMgr_code (E : Env) instance fs fs' :
  SetupPosixCacheMgr E instance fs = Ret (None, fs') ->
  boot_status_ fs' = kFailOptions \/ boot_status_ fs' = kFailCacheDir \/
  boot_status_ fs' = kFailQuota.
Proof.
  unfold SetupPosixCacheMgr.
  set (settings := DeterminePosixCacheSettings E instance fs). clearbody settings.
  unfold CheckPosixCacheSettings, CreateFile.
  destruct (is_alien settings && is_shared settings);
    [intros [= <-]; left; destruct fs; reflexivity |].
  destruct (is_alien settings && is_managed settings);
    [intros [= <-]; left; destruct fs; reflexivity |].
  destruct (bool_decide (type_ fs = kFsLibrary) && _);
    [intros [= <-]; left; destruct fs; reflexivity |].
  destruct (cache_base_defined settings && cache_dir_defined settings);
    [intros [= <-]; left; destruct fs; reflexivity |].
  cbn -[SetupPosixQuotaMgr].
  destruct (PosixCacheManager_Create E _ _ _); cbn -[SetupPosixQuotaMgr];
    [| intros [= <-]; right; left; destruct fs; reflexivity].
  destruct (CreateFile_creates E _ _ || _); cbn -[SetupPosixQuotaMgr]; [| discriminate].
  destruct (is_managed settings); [| discriminate].
  destruct (SetupPosixQuotaMgr E settings _) as [[ok fs2] | |] eqn:Hq;
    cbn; try discriminate.
  destruct ok; cbn; [discriminate |].
  intros [= <-]. right. right. exact (SetupPosixQuotaMgr_code E _ _ _ Hq).
Qed.

Lemma SetupRamCacheMgr_code (E : Env) instance fs fs' :
  SetupRamCacheMgr E instance fs = Ret (None, fs') -> boot_status_ fs' = kFailOptions.
Proof.
  unfold SetupRamCacheMgr.
  destruct (GetValue fs (MkCacheParm fs "CVMFS_CACHE_MALLOC" instance)) as [v |];
    [destruct (String.eqb v "libc"); [| destruct (String.eqb v "heap")] |];
    cbn; intros H; try discriminate H.
  injection H as <-. destruct fs; reflexivity.
Qed.

Lemma SetupExternalCacheMgr_code (E : Env) instance fs fs' :
  SetupExternalCacheMgr E instance fs = Ret (None, fs') ->
  boot_status_ fs' = kFailCacheDir.
Proof.
  unfold SetupExternalCacheMgr.
  destruct (GetValue fs (MkCacheParm fs "CVMFS_CACHE_LOCATOR" instance));
    [| intros [= <-]; destruct fs; reflexivity].
  destruct (negb (IsValid _)); [intros [= <-]; destruct fs; reflexivity |].
  destruct (negb (ExternalCacheManager_Create E _ _ _));
    [intros [= <-]; destruct fs; reflexivity | discriminate].
Qed.

Lemma SetupCacheMgr_code (E : Env) fuel instance fs fs' :
  SetupCacheMgr E fuel instance fs = Ret (None, fs') ->
  boot_status_ fs' = kFailOptions \/ boot_status_ fs' = kFailCacheDir \/
  boot_status_ fs' = kFailQuota.
Proof.
  revert instance fs fs'. induction fuel as [| fuel IH]; intros instance fs fs' H;
    [discriminate |].
  simpl in H.
  destruct (bool_decide (instance ∈ constructed_instances_ fs));
    [injection H as <-; right; left; destruct fs; reflexivity |].
  match type of H with
  | context [SetupPosixCacheMgr E instance ?s] => generalize dependent s
  end.
  intros fs1 H.
  destruct (String.eqb (instance_type instance fs1) "posix");
    [exact (SetupPosixCacheMgr_code E _ _ _ H) |].
  destruct (String.eqb (instance_type instance fs1) "ram");
    [left; exact (SetupRamCacheMgr_code E _ _ _ H) |].
  destruct (String.eqb (instance_type instance fs1) "tiered").
  { unfold SetupTieredCacheMgr in H.
    destruct (GetValue fs1 _) as [up |];
      [| injection H as <-; left; destruct fs1; reflexivity].
    destruct (SetupCacheMgr E fuel up fs1) as [[[upper |] fs2] | |] eqn:Hup;
      cbn [mbind outcome_bind] in H; try discriminate;
      [| injection H as <-; exact (IH _ _ _ Hup)].
    destruct (GetValue fs2 _) as [lo |];
      [| injection H as <-; left; destruct fs2; reflexivity].
    destruct (SetupCacheMgr E fuel lo fs2) as [[[lower |] fs3] | |] eqn:Hlo;
      cbn [mbind outcome_bind] in H; try discriminate;
      [| injection H as <-; exact (IH _ _ _ Hlo)].
    destruct (negb (TieredCacheManager_Create E upper lower)); [| discriminate].
    injection H as <-. right. left. destruct fs3; reflexivity. }
  destruct (String.eqb (instance_type instance fs1) "external");
    [right; left; exact (SetupExternalCacheMgr_code E _ _ _ H) |].
  injection H as <-. right. left. destruct fs1; reflexivity.
Qed.

Lemma TriageCacheMgr_code (E : Env) fs fs' :
  TriageCacheMgr E fs = Ret (false, fs') ->
  cache_mgr_ fs = None ->
  cache_mgr_ fs' = None /\
  (boot_status_ fs' = kFailOptions \/ boot_status_ fs' = kFailCacheDir \/
   boot_status_ fs' = kFailQuota \/
   boot_status_ fs' = boot_status_ fs /\ boot_error_ fs' = boot_error_ fs /\
   primary_name_too_long fs).
Proof.
  unfold TriageCacheMgr. intros H Hnone.
  assert (Hrun : forall fs1 : FileSystem,
            ('(mgr, s) ← SetupCacheMgr E (S (size (options_mgr_ fs1)))
                          (cache_mgr_instance_ fs1) fs1;
             Ret (bool_decide (is_Some mgr), set_cache_mgr_ mgr s)) = Ret (false, fs') ->
            cache_mgr_ fs' = None /\
            (boot_status_ fs' = kFailOptions \/ boot_status_ fs' = kFailCacheDir \/
             boot_status_ fs' = kFailQuota \/
             boot_status_ fs' = boot_status_ fs /\ boot_error_ fs' = boot_error_ fs /\
             primary_name_too_long fs)).
  { intros fs1 Hrun.
    destruct (SetupCacheMgr E _ _ fs1) as [[mgr fs2] | |] eqn:Hsetup;
      cbn [mbind outcome_bind] in Hrun; try discriminate.
    destruct mgr as [m |].
    - rewrite bool_decide_eq_true_2 in Hrun by eauto. discriminate.
    - injection Hrun as <-. apply SetupCacheMgr_code in Hsetup.
      split; [destruct fs2; reflexivity |].
      assert (Hs : boot_status_ (set_cache_mgr_ None fs2) = boot_status_ fs2)
        by (destruct fs2; reflexivity).
      rewrite Hs. tauto. }
  revert H.
  assert (Hopt : forall k, GetValue (set_cache_mgr_instance_ kDefaultCacheMgrInstance fs) k
                           = GetValue fs k) by (intros; destruct fs; reflexivity).
  rewrite Hopt.
  destruct (GetValue fs "CVMFS_CACHE_PRIMARY") as [primary |] eqn:Hprimary.
  - destruct (String.eqb primary ""); cbn [negb].
    + apply Hrun.
    + unfold CheckInstanceName.
      destruct (_ <? _)%nat eqn:Hlen.
      * intros [= <-]. split; [destruct fs; exact Hnone |].
        right. right. right.
        split; [destruct fs; reflexivity |]. split; [destruct fs; reflexivity |].
        exists primary. split; [exact Hprimary |].
        apply Nat.ltb_lt in Hlen. exact Hlen.
      * destruct (CacheInstanceSanitizer_IsValid primary); cbn [negb].
        -- apply Hrun.
        -- intros [= <-]. destruct fs; cbn in *. auto.
  - apply Hrun.
Qed.

Lemma early_stages_code (E : Env) fs fs' :
  SetupSqlite E (CreateStatistics (SetupLogging fs)) = Ret fs' ->
  boot_status_ fs' = boot_status_ fs /\ boot_error_ fs' = boot_error_ fs /\
  cache_mgr_ fs' = cache_mgr_ fs /\ uuid_cache_ fs' = uuid_cache_ fs /\
  options_mgr_ fs' = options_mgr_ fs.
Proof.
  unfold SetupSqlite, CreateStatistics, SetupLogging, GetValue. intros H.
  destruct fs; cbn in H. ret_cases H; injection H as <-; cbn; auto.
Qed.

Lemma DetermineNfsMode_code (E : Env) fs ok fs' :
  DetermineNfsMode E fs = (ok, fs') ->
  cache_mgr_ fs' = cache_mgr_ fs /\ uuid_cache_ fs' = uuid_cache_ fs /\
  options_mgr_ fs' = options_mgr_ fs /\
  if ok then boot_status_ fs' = boot_status_ fs /\ boot_error_ fs' = boot_error_ fs
  else boot_status_ fs' = kFailOptions.
Proof.
  unfold DetermineNfsMode, GetValue. intros H.
  destruct fs; cbn in H. ret_cases H; injection H as <- <-; cbn; auto.
Qed.

Lemma SetupWorkspace_tail_code (E : Env) fs fs' :
  (let mode := 504 in
   let fs := io (IoMkdirDeep (workspace_ fs) mode) fs in
   if negb (MkdirDeep E (workspace_ fs) mode) then
     Ret (false,
          fail kFailCacheDir
            ("cannot create workspace directory " +:+ workspace_ fs) fs)
   else
     '(ok, fs) ← LockWorkspace E fs;
     if negb ok then Ret (false, fs)
     else
       let '(ok, fs) := SetupCwd E fs in
       if negb ok then Ret (false, fs)
       else
         let '(ok, fs) := SetupCrashGuard E fs in
         if negb ok then Ret (false, fs) else Ret (true, fs)) = Ret (false, fs') ->
  boot_status_ fs' = kFailCacheDir \/ boot_status_ fs' = kFailLockWorkspace.
Proof.
  unfold LockWorkspace, SetupCwd, SetupCrashGuard. intros H.
  destruct fs as [nm ex ty op ww fg st ws wf pl fd pc fp nmode nd ci cs cm uu hn hs bs be tr].
  cbn in H. ret_cases H; injection H as <-; cbn; auto.
Qed.

Lemma SetupWorkspace_code (E : Env) fs fs' :
  SetupWorkspace E fs = Ret (false, fs') ->
  boot_status_ fs' = kFailOptions \/ boot_status_ fs' = kFailCacheDir \/
  boot_status_ fs' = kFailLockWorkspace.
Proof.
  unfold SetupWorkspace.
  rewrite !GetValue_set_workspace_.
  destruct (GetValue fs "CVMFS_CACHE_BASE") as [base |] eqn:Hbase;
    rewrite ?GetValue_set_workspace_;
    (destruct (GetValue fs "CVMFS_SHARED_CACHE") as [shared |] eqn:Hshared;
     [destruct (IsOn E shared) |]);
    rewrite ?GetValue_set_workspace_, ?IsDefined_set_workspace_;
    (destruct (GetValue fs "CVMFS_CACHE_DIR") as [dir |] eqn:Hdir);
    rewrite ?(FileSystem_IsDefined_Some _ _ _ Hbase),
      ?(FileSystem_IsDefined_None _ _ Hbase);
    rewrite ?GetValue_set_workspace_;
    destruct (GetValue fs "CVMFS_WORKSPACE") as [w |] eqn:Hw;
    intros H;
    first
      [ injection H as <-; left; destruct fs; reflexivity
      | right; exact (SetupWorkspace_tail_code E _ _ H) ].
Qed.

Lemma SetupNfsMaps_code (E : Env) fs fs' :
  SetupNfsMaps E fs = Ret (false, fs') -> boot_status_ fs' = kFailNfsMaps.
Proof.
  unfold SetupNfsMaps, CreateFile, IsNfsSource, IsHaNfsSource. intros H.
  destruct fs; cbn in H. ret_cases H; injection H as <-; reflexivity.
Qed.

(** X20. The failure codes of FileSystem::Create.  A bootstrap that
    returns ends in one of eight boot statuses, and the status tells what
    the object holds.  With Ok and with NfsMaps the cache manager and the
    UUID exist.  With Options, CacheDir, Quota and LockWorkspace there is
    neither a cache manager nor a UUID.  The status the constructor sets,
    Unknown, is left only when CVMFS_CACHE_PRIMARY names an instance of
    more than 24 characters; the boot error is then empty.  No other
    status is ever left. *)
Theorem boot_failure_codes (E : Env) g fs_info fs :
  FileSystem_Create E g fs_info = Ret fs ->
  match boot_status_ fs with
  | kFailOk | kFailNfsMaps =>
      is_Some (cache_mgr_ fs) /\ is_Some (uuid_cache_ fs)
  | kFailOptions | kFailCacheDir | kFailQuota | kFailLockWorkspace =>
      cache_mgr_ fs = None /\ uuid_cache_ fs = None
  | kFailUnknown =>
      cache_mgr_ fs = None /\ uuid_cache_ fs = None /\ boot_error_ fs = "" /\
      exists instance,
        info_options_mgr fs_info !! "CVMFS_CACHE_PRIMARY" = Some instance /\
        (24 < String.length instance)%nat
  | _ => False
  end.
Proof.
  unfold FileSystem_Create. intros H.
  destruct (FileSystem_new g fs_info) as [fs0 | |] eqn:Hnew;
    cbn [mbind outcome_bind] in H; try discriminate.
  assert (H0 : boot_status_ fs0 = kFailUnknown /\ boot_error_ fs0 = "" /\
               cache_mgr_ fs0 = None /\ uuid_cache_ fs0 = None /\
               options_mgr_ fs0 = info_options_mgr fs_info).
  { unfold FileSystem_new in Hnew. destruct g; [discriminate |].
    injection Hnew as <-. cbn. auto. }
  destruct H0 as (S0 & B0 & C0 & U0 & O0).
  destruct (SetupSqlite E _) as [fs1 | |] eqn:H1;
    cbn [mbind outcome_bind] in H; try discriminate.
  apply early_stages_code in H1 as (S1 & B1 & C1 & U1 & O1).
  destruct (DetermineNfsMode E fs1) as [ok2 fs2] eqn:H2.
  apply DetermineNfsMode_code in H2 as (C2 & U2 & O2 & S2).
  destruct ok2; cbn [negb] in H;
    [| injection H as <-; rewrite S2; split; congruence].
  destruct S2 as [S2 B2].
  destruct (SetupWorkspace E fs2) as [[ok3 fs3] | |] eqn:H3;
    cbn [mbind outcome_bind] in H; try discriminate.
  pose proof (SetupWorkspace_result E _ _ _ H3) as [F3 _].
  apply workspace_frame_members in F3 as (_ & O3 & _ & _ & C3 & U3).
  destruct ok3; cbn [negb] in H.
  2: { injection H as <-. apply SetupWorkspace_code in H3.
       destruct H3 as [-> | [-> | ->]]; split; congruence. }
  apply SetupWorkspace_post in H3 as [_ [S3 B3]].
  match type of H with
  | context [TriageCacheMgr E ?s] =>
      assert (X4 : boot_status_ s = kFailUnknown /\ boot_error_ s = "" /\
                   cache_mgr_ s = None /\ uuid_cache_ s = None /\
                   options_mgr_ s = info_options_mgr fs_info)
        by (destruct fs3; cbn in *; repeat split; congruence);
      destruct (TriageCacheMgr E s) as [[ok4 fs4] | |] eqn:H4
  end; cbn [mbind outcome_bind] in H; try discriminate.
  destruct X4 as (S3' & B3' & C3' & U3' & O3').
  pose proof (TriageCacheMgr_members E _ _ _ H4)
    as (_ & O4 & _ & _ & _ & _ & _ & _ & _ & _ & _ & U4 & C4).
  destruct ok4; cbn [negb] in H.
  2: { injection H as <-.
       destruct (TriageCacheMgr_code E _ _ H4 C3') as (C4' & Hcode).
       destruct Hcode as [-> | [-> | [-> | (S4 & B4 & instance & Hi & Hlen)]]];
         try (split; congruence).
       rewrite S4, S3'. split; [exact C4' |]. split; [congruence |].
       split; [congruence |]. exists instance. split; [| exact Hlen].
       unfold GetValue in Hi. rewrite O3' in Hi. exact Hi. }
  specialize (C4 eq_refl).
  destruct (SetupUuid E fs4) as [fs5 | |] eqn:H5;
    cbn [mbind outcome_bind] in H; try discriminate.
  pose proof (SetupUuid_members E _ _ H5)
    as (_ & _ & _ & _ & _ & _ & _ & _ & _ & C5 & U5).
  destruct (SetupNfsMaps E fs5) as [[ok6 fs6] | |] eqn:H6;
    cbn [mbind outcome_bind] in H; try discriminate.
  pose proof (SetupNfsMaps_members E _ _ _ H6)
    as (_ & _ & _ & _ & _ & _ & _ & _ & _ & C6 & U6).
  rewrite <- C5, <- C6 in C4. rewrite <- U6 in U5.
  destruct ok6; cbn [negb] in H.
  2: { injection H as <-. rewrite (SetupNfsMaps_code E _ _ H6). split; assumption. }
  destruct (RegisterVfsRdOnly E); cbn [negb] in H; [| discriminate].
  injection H as <-. destruct fs6; cbn in *. split; assumption.
Qed.

Lemma boot_failure_codes_witness :
  exists fs,
    FileSystem_Create Examples.env false
      (Examples.fs_info kFsFuse
         {[ "CVMFS_CACHE_PRIMARY" := "a_cache_instance_name_too_long" ]} false) = Ret fs /\
    boot_status_ fs = kFailUnknown /\
    cache_mgr_ fs = None /\ uuid_cache_ fs = None /\ boot_error_ fs = "".
Proof.
  assert (H : exists fs,
            FileSystem_Create Examples.env false
              (Examples.fs_info kFsFuse
                 {[ "CVMFS_CACHE_PRIMARY" := "a_cache_instance_name_too_long" ]} false)
            = Ret fs /\
            boot_status_ fs = kFailUnknown)
    by (eexists; split; vm_compute; reflexivity).
  destruct H as (fs & H & Hs). exists fs. split; [exact H |]. split; [exact Hs |].
  pose proof (boot_failure_codes _ _ _ _ H) as Hc. rewrite Hs in Hc.
  destruct Hc as (C & U & B & _). auto.
Defined.
